(** * ig-wva: the provisioning ILP driver, its data sources and the dataset
    configuration

    A shallow embedding of [ilp_tools/ilp_solver.py],
    [ilp_tools/data_structures.py], [ilp_tools/mock_generators.py], the
    data preparation of [ilp_tools/run_live_ilp_demo.py], and of
    [_get_power_of_two_bucket], [generate_config] (from the token counts
    on) and [generate_cumulative_config] from
    [request_distribution_service/process_dataset.py].

    Modelling conventions.
    - Python [int] is [Z].
    - Python [float] is idealised: a finite float is an exact rational [Q]
      and [float('inf')] is a separate constructor, see [float].  Rounding,
      NaN and overflow are outside the model, but for the rounding of the
      logarithm in [_get_power_of_two_bucket], see [math_floor_log2].
    - [distribution_data] is iterated with [.items()], so it is the list of
      its items in insertion order.  All other dictionaries are only looked
      up, inserted into and compared, so they are [gmap]s.
    - The OR-Tools solver object is a record that accumulates variables,
      constraints and the objective; variables are handles (their creation
      index).  What [CreateSolver] and [Solve] answer is not part of the
      repository: it is the [Backend] argument.
    - [print] is modelled for the diagnostics only, as a list of [Event]s
      returned next to the result; progress messages are left out.
    - A dict whose order is read is the list of its items ([dict]); a
      [KeyError] or [ValueError] is [None] or a constructor of the result.
    - The module [random] is a state and two functions on it, arguments
      of the generators; the tokenizer, the services and the files are
      outside the model. *)

From Stdlib Require Import ZArith QArith Qround String Ascii List Lia Lqa
  DecimalString.
From Stdlib Require DecimalZ Sorted.
From stdpp Require Import gmap strings list fin_maps.

Local Open Scope string_scope.
Local Open Scope list_scope.
Local Open Scope Z_scope.

(** ** Numbers *)

(** A Python float: finite (idealised as a rational) or [float('inf')]. *)
Inductive float :=
  | Fin (q : Q)
  | Inf.

(** [x != float('inf')] *)
Definition is_finite (x : float) : bool :=
  match x with Fin _ => true | Inf => false end.

(** The float literals of the source, as exact fractions. *)
Abbreviation lit_1e_6 := (1 # 1000000)%Q.
Abbreviation lit_1e_9 := (1 # 1000000000)%Q.
Abbreviation lit_0_5 := (1 # 2)%Q.

(** [x < y] on finite floats. *)
Definition Qlt_bool (x y : Q) : bool := negb (Qle_bool y x).

(** [str(n)] and the [{n}] of an f-string, for an int. *)
Definition str (n : Z) : string := NilZero.string_of_int (Z.to_int n).

(** [range(n)] *)
Definition range (n : Z) : list Z := map Z.of_nat (seq 0 (Z.to_nat n)).

(** ** data_structures.py *)

Module WorkerUnit.
Record t := mk {
  id : string;
  accelerator_type : string;
  accelerator_count : Z;
  model_server_type : string;
  cost : Q;
  max_limit : option Z
}.
End WorkerUnit.

Module Slice.
Record t := mk {
  id : Z;
  request_type_id : string;
  rate_portion : Q
}.
End Slice.

(** ** The part of pywraplp the driver uses *)

Module pywraplp.

Inductive ResultStatus :=
  | OPTIMAL | FEASIBLE | INFEASIBLE | UNBOUNDED
  | ABNORMAL | MODEL_INVALID | NOT_SOLVED.

(** A variable as declared by [IntVar] or [BoolVar]. *)
Record MPVariable := mkVar {
  lb : float;
  ub : float;
  name : string
}.

(** A linear expression: coefficient-handle terms and a constant. *)
Record LinearExpr := mkExpr {
  terms : list (float * nat);
  offset : Q
}.

Inductive Relation := EQ | LE.

(** [solver.Add(lhs rel rhs, name)] *)
Record MPConstraint := mkCon {
  lhs : LinearExpr;
  rel : Relation;
  rhs : LinearExpr;
  cname : string
}.

(** The state of the solver object.  [solver_specific_parameters] is the
    text [SetSolverSpecificParametersAsString] leaves in it, the way a
    seed or a deterministic mode is handed to the backend; a new solver
    has none. *)
Record Solver := mkSolver {
  variables : list MPVariable;
  constraints : list MPConstraint;
  objective : gmap nat Q;
  minimization : bool;
  solver_specific_parameters : string
}.

Definition empty : Solver := mkSolver [] [] ∅ false "".

(** [solver.IntVar(lb, ub, name)]: a fresh handle. *)
Definition IntVar (l u : float) (n : string) (s : Solver) : nat * Solver :=
  (length (variables s),
   mkSolver (variables s ++ [mkVar l u n]) (constraints s)
            (objective s) (minimization s) (solver_specific_parameters s)).

(** [solver.BoolVar(name)] is [IntVar(0, 1, name)]. *)
Definition BoolVar (n : string) (s : Solver) : nat * Solver :=
  IntVar (Fin 0) (Fin 1) n s.

(** [solver.Add(c)] *)
Definition Add (c : MPConstraint) (s : Solver) : Solver :=
  mkSolver (variables s) (constraints s ++ [c]) (objective s) (minimization s)
           (solver_specific_parameters s).

(** [objective.SetCoefficient(v, c)] *)
Definition SetCoefficient (v : nat) (c : Q) (s : Solver) : Solver :=
  mkSolver (variables s) (constraints s) (<[v := c]> (objective s))
           (minimization s) (solver_specific_parameters s).

(** [objective.SetMinimization()] *)
Definition SetMinimization (s : Solver) : Solver :=
  mkSolver (variables s) (constraints s) (objective s) true
           (solver_specific_parameters s).

(** What [solver.Solve()] leaves behind: the status and the value of
    every variable handle. *)
Record Solution := mkSolution {
  status : ResultStatus;
  solution_value : nat -> Q
}.

(** [Solve()] is called without an argument: the backend sees the solver
    object and nothing else. *)
Definition SolveFn := Solver -> Solution.

(** [CreateSolver('SCIP')]: [None] when the backend is missing. *)
Definition Backend := option SolveFn.

(** *** Meaning of a model, used to judge what a backend may answer *)

Definition term_value (val : nat -> Q) (t : float * nat) : option Q :=
  match fst t with
  | Fin c => Some (c * val (snd t))%Q
  | Inf => None
  end.

Fixpoint terms_value (val : nat -> Q) (ts : list (float * nat)) : option Q :=
  match ts with
  | [] => Some 0%Q
  | t :: ts' =>
      match term_value val t, terms_value val ts' with
      | Some a, Some b => Some (a + b)%Q
      | _, _ => None
      end
  end.

Definition expr_value (val : nat -> Q) (e : LinearExpr) : option Q :=
  match terms_value val (terms e) with
  | Some a => Some (a + offset e)%Q
  | None => None
  end.

Definition holds (val : nat -> Q) (c : MPConstraint) : bool :=
  match expr_value val (lhs c), expr_value val (rhs c) with
  | Some a, Some b =>
      match rel c with
      | EQ => Qeq_bool a b
      | LE => Qle_bool a b
      end
  | _, _ => false
  end.

Definition le_float (x : Q) (u : float) : bool :=
  match u with Fin q => Qle_bool x q | Inf => true end.

Definition ge_float (x : Q) (l : float) : bool :=
  match l with Fin q => Qle_bool q x | Inf => false end.

(** The declared bounds of a variable. *)
Definition in_bounds (val : nat -> Q) (i : nat) (v : MPVariable) : bool :=
  ge_float (val i) (lb v) && le_float (val i) (ub v).

Fixpoint all_in_bounds (val : nat -> Q) (i : nat) (vs : list MPVariable) : bool :=
  match vs with
  | [] => true
  | v :: vs' => in_bounds val i v && all_in_bounds val (S i) vs'
  end.

(** [IntVar] and [BoolVar] declare integer variables. *)
Definition is_integral (x : Q) : bool := Qeq_bool x (inject_Z (Qfloor x)).

Definition all_integral (val : nat -> Q) (s : Solver) : bool :=
  forallb (fun i => is_integral (val i)) (seq 0 (length (variables s))).

Definition feasible (val : nat -> Q) (s : Solver) : bool :=
  all_in_bounds val 0 (variables s) && all_integral val s
  && forallb (holds val) (constraints s).

(** The objective at a valuation. *)
Definition objective_value (val : nat -> Q) (s : Solver) : Q :=
  fold_right
    (fun i acc => (default 0%Q (objective s !! i) * val i + acc)%Q)
    0%Q (seq 0 (length (variables s))).

End pywraplp.

(** ** ilp_solver.py *)

Definition ProfileData := gmap (string * string) Q.
Definition DistributionData := list (string * Q).
Definition OptimalCounts := option (gmap string Z).
Definition SliceAssignments := option (gmap Z string).
Definition SliceList := list Slice.t.
Definition SolverResult := (OptimalCounts * SliceAssignments * SliceList)%type.

(** The diagnostics the driver prints. *)
Inductive Event :=
  | NoRequests
  | NoBackend
  | WarnUnassignable (slice_id : Z) (request_type_id : string)
  | ErrNoSlicesAssignable
  | Solving (model : pywraplp.Solver)
  | OptimalFound
  | NotOptimal (status : pywraplp.ResultStatus).

(** *** 1. Create slices *)

(** The variables the slicing loop updates. *)
Record SlicerState := mkSlicer {
  slices : SliceList;
  slice_id_counter : Z;
  slice_factor : Z
}.

(** One iteration of [for req_type_id, total_rate in distribution_data.items()]. *)
Definition slicer_step (st : SlicerState) (item : string * Q) : SlicerState :=
  let '(req_type_id, total_rate) := item in
  if Qle_bool total_rate 0 then st
  else
    let slice_factor := if slice_factor st <=? 0 then 1 else slice_factor st in
    let rate_portion := (total_rate / inject_Z slice_factor)%Q in
    let emit rate_portion current_slice_factor :=
      mkSlicer
        (slices st ++
           map (fun i => Slice.mk (slice_id_counter st + i) req_type_id rate_portion)
               (range current_slice_factor))
        (slice_id_counter st + current_slice_factor)
        slice_factor in
    if Qlt_bool rate_portion lit_1e_6 then
      if Qlt_bool lit_1e_9 total_rate then emit total_rate 1
      else mkSlicer (slices st) (slice_id_counter st) slice_factor
    else emit rate_portion slice_factor.

Definition create_slicer_state (distribution_data : DistributionData)
    (slice_factor : Z) : SlicerState :=
  fold_left slicer_step distribution_data (mkSlicer [] 0 slice_factor).

Definition create_slices (distribution_data : DistributionData)
    (slice_factor : Z) : SliceList :=
  slices (create_slicer_state distribution_data slice_factor).

(** *** 2. Calculate the load matrix *)

(** The body of the two nested loops: the load of slice [s] on worker [w]. *)
Definition load_of (profile_data : ProfileData) (s : Slice.t) (w : WorkerUnit.t)
    : float :=
  let profile_key := (WorkerUnit.id w, Slice.request_type_id s) in
  match profile_data !! profile_key with
  | Some max_tput =>
      if Qlt_bool 0 max_tput then Fin (Slice.rate_portion s / max_tput)%Q else Inf
  | None => Inf
  end.

Definition load_matrix_row (profile_data : ProfileData)
    (worker_units : list WorkerUnit.t)
    (load_matrix : gmap (Z * string) float) (s : Slice.t)
    : gmap (Z * string) float :=
  fold_left
    (fun load_matrix w =>
       <[(Slice.id s, WorkerUnit.id w) := load_of profile_data s w]> load_matrix)
    worker_units load_matrix.

Definition build_load_matrix (profile_data : ProfileData)
    (slices : SliceList) (worker_units : list WorkerUnit.t)
    : gmap (Z * string) float :=
  fold_left (load_matrix_row profile_data worker_units) slices ∅.

(** [d[k]] for a key the driver knows to be present ([load_matrix_present]
    and [B_present] below show that it is, so the default is never read). *)
#[global] Instance float_inhabited : Inhabited float := populate Inf.

(** *** 4. Declare the variables *)

(** [B = {w.id: solver.IntVar(0, infinity, f'B_{w.id}') for w in worker_units}] *)
Definition declare_B (worker_units : list WorkerUnit.t) (solver : pywraplp.Solver)
    : gmap string nat * pywraplp.Solver :=
  fold_left
    (fun '(B, solver) w =>
       let '(v, solver) :=
         pywraplp.IntVar (Fin 0) Inf ("B_" +:+ WorkerUnit.id w) solver in
       (<[WorkerUnit.id w := v]> B, solver))
    worker_units (∅, solver).

(** The variables the loops of section 4 update. *)
Record DeclState := mkDecl {
  A : gmap (Z * string) nat;
  decl_solver : pywraplp.Solver;
  assignable_slices_exist : bool;
  warnings : list Event
}.

(** The inner loop [for w in worker_units] for slice [s]; the Boolean is
    [slice_can_be_assigned]. *)
Definition declare_A_worker (load_matrix : gmap (Z * string) float) (s : Slice.t)
    (st : DeclState * bool) (w : WorkerUnit.t) : DeclState * bool :=
  let '(d, slice_can_be_assigned) := st in
  let key := (Slice.id s, WorkerUnit.id w) in
  if is_finite (default Inf (load_matrix !! key)) then
    let '(v, solver) :=
      pywraplp.BoolVar ("A_" +:+ str (Slice.id s) +:+ "_" +:+ WorkerUnit.id w)
                       (decl_solver d) in
    (mkDecl (<[key := v]> (A d)) solver true (warnings d), true)
  else st.

(** The outer loop body [for s in slices]. *)
Definition declare_A_slice (load_matrix : gmap (Z * string) float)
    (worker_units : list WorkerUnit.t) (d : DeclState) (s : Slice.t) : DeclState :=
  let '(d', slice_can_be_assigned) :=
    fold_left (declare_A_worker load_matrix s) worker_units (d, false) in
  if slice_can_be_assigned then d'
  else mkDecl (A d') (decl_solver d') (assignable_slices_exist d')
              (warnings d' ++ [WarnUnassignable (Slice.id s) (Slice.request_type_id s)]).

Definition declare_A (load_matrix : gmap (Z * string) float)
    (slices : SliceList) (worker_units : list WorkerUnit.t)
    (solver : pywraplp.Solver) : DeclState :=
  let d := fold_left (declare_A_slice load_matrix worker_units) slices
                     (mkDecl ∅ solver false []) in
  if negb (assignable_slices_exist d) && (0 <? Z.of_nat (length slices)) then
    mkDecl (A d) (decl_solver d) (assignable_slices_exist d)
           (warnings d ++ [ErrNoSlicesAssignable])
  else d.

(** *** 5. Define the constraints *)

(** [sum(vars)] for a list of variables. *)
Definition sum_vars (vars : list nat) : pywraplp.LinearExpr :=
  pywraplp.mkExpr (map (fun v => (Fin 1, v)) vars) 0.

Definition var_expr (v : nat) : pywraplp.LinearExpr :=
  pywraplp.mkExpr [(Fin 1, v)] 0.

Definition const_expr (c : Q) : pywraplp.LinearExpr :=
  pywraplp.mkExpr [] c.

(** Constraint 1: slice assignment. *)
Definition add_assignment (A : gmap (Z * string) nat)
    (worker_units : list WorkerUnit.t)
    (solver : pywraplp.Solver) (s : Slice.t) : pywraplp.Solver :=
  let assigned_workers :=
    omap (fun w => A !! (Slice.id s, WorkerUnit.id w)) worker_units in
  match assigned_workers with
  | [] => solver
  | _ => pywraplp.Add
           (pywraplp.mkCon (sum_vars assigned_workers) pywraplp.EQ (const_expr 1)
                           ("Assign_" +:+ str (Slice.id s)))
           solver
  end.

(** Constraint 2: worker capacity. *)
Definition add_capacity (A : gmap (Z * string) nat) (B : gmap string nat)
    (load_matrix : gmap (Z * string) float) (slices : SliceList)
    (solver : pywraplp.Solver) (w : WorkerUnit.t) : pywraplp.Solver :=
  let total_load_on_worker :=
    omap (fun s =>
            let key := (Slice.id s, WorkerUnit.id w) in
            match A !! key with
            | Some v => Some (load_matrix !!! key, v)
            | None => None
            end) slices in
  match total_load_on_worker with
  | [] => solver
  | _ => pywraplp.Add
           (pywraplp.mkCon (pywraplp.mkExpr total_load_on_worker 0) pywraplp.LE
                           (var_expr (B !!! WorkerUnit.id w))
                           ("Cap_" +:+ WorkerUnit.id w))
           solver
  end.

(** Constraint 3: worker maximum limits. *)
Definition add_limit (B : gmap string nat)
    (solver : pywraplp.Solver) (w : WorkerUnit.t) : pywraplp.Solver :=
  match WorkerUnit.max_limit w with
  | Some max_limit =>
      if 0 <=? max_limit then
        pywraplp.Add
          (pywraplp.mkCon (var_expr (B !!! WorkerUnit.id w)) pywraplp.LE
                          (const_expr (inject_Z max_limit))
                          ("Limit_" +:+ WorkerUnit.id w))
          solver
      else solver
  | None => solver
  end.

(** *** 6. Define the objective *)

Definition set_objective (B : gmap string nat) (worker_units : list WorkerUnit.t)
    (solver : pywraplp.Solver) : pywraplp.Solver :=
  pywraplp.SetMinimization
    (fold_left
       (fun solver w =>
          pywraplp.SetCoefficient (B !!! WorkerUnit.id w) (WorkerUnit.cost w) solver)
       worker_units solver).

(** Sections 3 to 6: the model handed to [Solve], with the handle tables
    and the warnings printed on the way. *)
Record Built := mkBuilt {
  built_B : gmap string nat;
  built_A : gmap (Z * string) nat;
  built_load_matrix : gmap (Z * string) float;
  built_model : pywraplp.Solver;
  built_warnings : list Event
}.

Definition build_model (worker_units : list WorkerUnit.t)
    (profile_data : ProfileData) (slices : SliceList) : Built :=
  let load_matrix := build_load_matrix profile_data slices worker_units in
  let '(B, solver) := declare_B worker_units pywraplp.empty in
  let d := declare_A load_matrix slices worker_units solver in
  let solver := decl_solver d in
  let solver := fold_left (add_assignment (A d) worker_units) slices solver in
  let solver :=
    fold_left (add_capacity (A d) B load_matrix slices) worker_units solver in
  let solver := fold_left (add_limit B) worker_units solver in
  let solver := set_objective B worker_units solver in
  mkBuilt B (A d) load_matrix solver (warnings d).

(** *** 8. Process the results *)

(** [math.ceil(x)] *)
Definition ceil (x : Q) : Z := Qceiling x.

(** [for w in worker_units: optimal_counts[w.id] = math.ceil(... - 1e-6)] *)
Definition extract_counts (B : gmap string nat) (value : nat -> Q)
    (worker_units : list WorkerUnit.t) : gmap string Z :=
  fold_left
    (fun optimal_counts w =>
       let count := ceil (value (B !!! WorkerUnit.id w) - lit_1e_6)%Q in
       <[WorkerUnit.id w := count]> optimal_counts)
    worker_units ∅.

(** The test of the inner loop of the assignment extraction. *)
Definition chosen (A : gmap (Z * string) nat) (value : nat -> Q)
    (s : Slice.t) (w : WorkerUnit.t) : bool :=
  match A !! (Slice.id s, WorkerUnit.id w) with
  | Some v => Qlt_bool lit_0_5 (value v)
  | None => false
  end.

(** [for s in slices: for w in worker_units: if ...: ...; break] *)
Definition extract_assignments (A : gmap (Z * string) nat) (value : nat -> Q)
    (slices : SliceList) (worker_units : list WorkerUnit.t) : gmap Z string :=
  fold_left
    (fun slice_assignments s =>
       match find (chosen A value s) worker_units with
       | Some w => <[Slice.id s := WorkerUnit.id w]> slice_assignments
       | None => slice_assignments
       end)
    slices ∅.

(** *** The driver *)

(** What a call returns and what it printed. *)
Record Run := mkRun {
  ret : SolverResult;
  out : list Event
}.

Definition solve_provisioning_ilp (backend : pywraplp.Backend)
    (worker_units : list WorkerUnit.t) (profile_data : ProfileData)
    (distribution_data : DistributionData) (slice_factor : Z) : Run :=
  let slices := create_slices distribution_data slice_factor in
  let num_slices := Z.of_nat (length slices) in
  if num_slices =? 0 then
    mkRun (Some (fold_left (fun d w => <[WorkerUnit.id w := 0]> d) worker_units ∅),
           Some ∅, slices)
          [NoRequests]
  else
    match backend with
    | None => mkRun (None, None, slices) [NoBackend]
    | Some Solve =>
        let b := build_model worker_units profile_data slices in
        let solution := Solve (built_model b) in
        let out := built_warnings b ++ [Solving (built_model b)] in
        match pywraplp.status solution with
        | pywraplp.OPTIMAL =>
            let value := pywraplp.solution_value solution in
            let optimal_counts := extract_counts (built_B b) value worker_units in
            let slice_assignments :=
              extract_assignments (built_A b) value slices worker_units in
            mkRun (Some optimal_counts, Some slice_assignments, slices)
                  (out ++ [OptimalFound])
        | status => mkRun (None, None, slices) (out ++ [NotOptimal status])
        end
    end.

(** *** The slicer as the specification words it *)

(** [(request_type_id, rate_portion)] of a slice. *)
Definition payload (s : Slice.t) : string * Q :=
  (Slice.request_type_id s, Slice.rate_portion s).

(** [emits k (reqId, totalRate) chunk]: the slices one demand entry gives
    for the effective factor [k], one rule per case of the specification. *)
Inductive emits (k : Z) : string * Q -> list (string * Q) -> Prop :=
  | emits_nonpositive req rate :
      (rate <= 0)%Q -> emits k (req, rate) []
  | emits_equal req rate :
      (0 < rate)%Q -> (lit_1e_6 <= rate / inject_Z k)%Q ->
      emits k (req, rate) (replicate (Z.to_nat k) (req, (rate / inject_Z k)%Q))
  | emits_coarse req rate :
      (0 < rate)%Q -> (rate / inject_Z k < lit_1e_6)%Q -> (lit_1e_9 < rate)%Q ->
      emits k (req, rate) [(req, rate)]
  | emits_skip req rate :
      (0 < rate)%Q -> (rate <= lit_1e_9)%Q -> emits k (req, rate) [].

(** ** process_dataset.py *)

Section Bucket.

(** [math.floor(math.log2(n))], a logarithm of the library followed by a
    floor: the argument [floor_log2].  What CPython computes for it is
    [math_floor_log2] below. *)
Variable floor_log2 : Z -> Z.

Definition _get_power_of_two_bucket (n : Z) : string :=
  if n <=? 1 then "0-1"
  else
    let k := floor_log2 n in
    let lower_bound := 2 ^ k in
    let upper_bound := 2 ^ (k + 1) - 1 in
    str lower_bound +:+ "-" +:+ str upper_bound.

End Bucket.

(** [math.floor(math.log2(n))] as CPython computes it for an int
    [1 <= n < 2^53]: [n] is converted to binary64, which holds it exactly,
    and the C library's [log2] is taken to answer the float nearest to the
    real logarithm.  With [k] the integer part of the real logarithm, both [k]
    and [k + 1] are floats, so the float logarithm lies between them and
    its floor is [k + 1] exactly when the logarithm is rounded up to
    [k + 1.0]: when it is at or above the midpoint [k + 1 - 2^(e-53)] of
    [k + 1.0] and the float before it, where [e = floor(log2 k)] is the
    exponent of the floats of [[k, k+1)], whose spacing is [2^(e-52)].
    With [M = 2^(53-e)] the test [log2 n >= k + 1 - 1/M] reads
    [M * log2 n >= M * (k + 1) - 1], that is [2 * n^M >= (2^(k+1))^M], a
    comparison of two integers. *)
Definition log2_rounds_to_next (n : Z) : bool :=
  let k := Z.log2 n in
  let M := 2 ^ (53 - Z.log2 k) in
  (2 ^ (k + 1)) ^ M <=? 2 * n ^ M.

Definition math_floor_log2 (n : Z) : Z :=
  if log2_rounds_to_next n then Z.log2 n + 1 else Z.log2 n.

(** * Predicates and inputs of the proofs *)

(** The loop invariant of the slicing loop for effective factor [k]. *)
Definition slicer_inv (k : Z) (st : SlicerState) : Prop :=
  Z.max (slice_factor st) 1 = k /\
  slice_id_counter st = Z.of_nat (length (slices st)).

(** The declaration of [B[w.id]]. *)
Definition B_var (w : WorkerUnit.t) : pywraplp.MPVariable :=
  pywraplp.mkVar (Fin 0) Inf ("B_" +:+ WorkerUnit.id w).

(** [load_of] reads the worker through its id only. *)
Definition load_at (profile_data : ProfileData) (s : Slice.t) (worker_id : string)
    : float :=
  match profile_data !! (worker_id, Slice.request_type_id s) with
  | Some max_tput =>
      if Qlt_bool 0 max_tput then Fin (Slice.rate_portion s / max_tput)%Q else Inf
  | None => Inf
  end.

(** The test of the declaration loop: the load of the pair is not [inf]. *)
Definition candidate (load_matrix : gmap (Z * string) float)
    (s : Slice.t) (w : WorkerUnit.t) : bool :=
  is_finite (default Inf (load_matrix !! (Slice.id s, WorkerUnit.id w))).

(** Some worker of the list can take the slice. *)
Definition assignable (load_matrix : gmap (Z * string) float)
    (worker_units : list WorkerUnit.t) (s : Slice.t) : bool :=
  existsb (candidate load_matrix s) worker_units.

(** The warning printed for a slice no worker can take. *)
Definition warn (s : Slice.t) : Event :=
  WarnUnassignable (Slice.id s) (Slice.request_type_id s).

(** A variable declared by [BoolVar]. *)
Definition is_binary (v : pywraplp.MPVariable) : Prop :=
  pywraplp.lb v = Fin 0 /\ pywraplp.ub v = Fin 1.

(** What the declaration loops keep true of their state: the solver has
    gained variables only, and every handle in [A] belongs to a pair of
    finite load and names a binary variable declared after [s0]'s. *)
Definition decl_inv (load_matrix : gmap (Z * string) float)
    (s0 : pywraplp.Solver) (d : DeclState) : Prop :=
  (exists extra,
     pywraplp.variables (decl_solver d) = pywraplp.variables s0 ++ extra) /\
  pywraplp.constraints (decl_solver d) = pywraplp.constraints s0 /\
  pywraplp.objective (decl_solver d) = pywraplp.objective s0 /\
  pywraplp.minimization (decl_solver d) = pywraplp.minimization s0 /\
  (forall key h, A d !! key = Some h ->
     is_finite (default Inf (load_matrix !! key)) = true /\
     (length (pywraplp.variables s0) <= h)%nat /\
     exists v, pywraplp.variables (decl_solver d) !! h = Some v /\ is_binary v).

(** No coefficient of the expression is [inf]. *)
Definition finite_expr (e : pywraplp.LinearExpr) : Prop :=
  Forall (fun t => is_finite t.1 = true) (pywraplp.terms e).

Definition finite_constraint (c : pywraplp.MPConstraint) : Prop :=
  finite_expr (pywraplp.lhs c) /\ finite_expr (pywraplp.rhs c).

(** What sections 5 and 6 keep true of the solver: its variables and, up
    to [SetCoefficient], nothing but added constraints with finite
    coefficients. *)
Definition constraints_inv (vars : list pywraplp.MPVariable)
    (s : pywraplp.Solver) : Prop :=
  pywraplp.variables s = vars /\
  Forall finite_constraint (pywraplp.constraints s).

(** The counts of the early return. *)
Definition zero_counts (worker_units : list WorkerUnit.t) : gmap string Z :=
  fold_left (fun d w => <[WorkerUnit.id w := 0]> d) worker_units ∅.

(** The sum of the values of a list of variables. *)
Definition sum_of (val : nat -> Q) (vars : list nat) : Q :=
  fold_right (fun v acc => (1 * val v + acc)%Q) 0%Q vars.

(** The handles of [assigned_workers] for slice [s]. *)
Definition assigned_workers (A : gmap (Z * string) nat)
    (worker_units : list WorkerUnit.t) (s : Slice.t) : list nat :=
  omap (fun w => A !! (Slice.id s, WorkerUnit.id w)) worker_units.

(** The assignment constraint of slice [s]. *)
Definition assign_constraint (A : gmap (Z * string) nat)
    (worker_units : list WorkerUnit.t) (s : Slice.t) : pywraplp.MPConstraint :=
  pywraplp.mkCon (sum_vars (assigned_workers A worker_units s)) pywraplp.EQ
                 (const_expr 1) ("Assign_" +:+ str (Slice.id s)).

Definition worker_A : WorkerUnit.t := WorkerUnit.mk "A" "L4" 1 "TGI" 1 None.

Definition worker_B : WorkerUnit.t := WorkerUnit.mk "B" "A100" 1 "VLLM" 1 None.

(** A worker with a negative cost. *)
Definition worker_rebate : WorkerUnit.t :=
  WorkerUnit.mk "A" "L4" 1 "TGI" (-1) None.

Definition profile_A : ProfileData := {[ ("A", "R1") := 5%Q ]}.

Definition profile_AB : ProfileData :=
  {[ ("A", "R1") := 5%Q; ("B", "R1") := 5%Q ]}.

Definition demand_R1 : DistributionData := [("R1", 10%Q)].

(** The one slice of [demand_R1] for factor 1. *)
Definition slice_R1 : Slice.t := Slice.mk 0 "R1" 10.

(** A backend that answers the model of [worker_A], [profile_A],
    [demand_R1] with its optimum: two instances, the slice on A. *)
Definition backend_exact : pywraplp.SolveFn :=
  fun _ => pywraplp.mkSolution pywraplp.OPTIMAL
             (fun h => match h with 0%nat => 2%Q | 1%nat => 1%Q | _ => 0%Q end).

(** A backend that reports OPTIMAL with the assignment variable at 0.5. *)
Definition backend_fractional : pywraplp.SolveFn :=
  fun _ => pywraplp.mkSolution pywraplp.OPTIMAL
             (fun h => match h with 0%nat => 2%Q | 1%nat => lit_0_5 | _ => 0%Q end).

(** A backend that reports OPTIMAL with every variable at zero. *)
Definition backend_zero : pywraplp.SolveFn :=
  fun _ => pywraplp.mkSolution pywraplp.OPTIMAL (fun _ => 0%Q).

(** Two valuations for the model of [worker_A; worker_B], [profile_AB],
    [demand_R1]: both are optima, one puts the slice on A, the other on
    B; and a backend that answers with the first. *)
Definition value_tie_A (h : nat) : Q :=
  match h with 0%nat => 2%Q | 2%nat => 1%Q | _ => 0%Q end.

Definition value_tie_B (h : nat) : Q :=
  match h with 1%nat => 2%Q | 3%nat => 1%Q | _ => 0%Q end.

Definition backend_tie_A : pywraplp.SolveFn :=
  fun _ => pywraplp.mkSolution pywraplp.OPTIMAL value_tie_A.

(** The model of [worker_A; worker_B], [profile_AB], [demand_R1]. *)
Definition model_tie : pywraplp.Solver :=
  built_model (build_model [worker_A; worker_B] profile_AB (create_slices demand_R1 1)).

Definition demand_S3 : DistributionData := [("R1", 1%Q)].

Definition demand_S6 : DistributionData := [("R1", 0%Q); ("R2", 0%Q)].

(** The sum of a list of rates. *)
Definition Qsum (xs : list Q) : Q := fold_right Qplus 0%Q xs.

(** The demand the slicer keeps: the entries whose rate is above 1e-9. *)
Definition kept_demand (distribution_data : DistributionData) : list Q :=
  map snd (List.filter (fun item => Qlt_bool lit_1e_9 (snd item)) distribution_data).

(** ** Python dictionaries whose order is read *)

(** A dict with string keys as the list of its items in insertion order. *)
Definition dict (V : Type) : Type := list (string * V).

(** [d.get(k)] *)
Fixpoint dict_get {V : Type} (k : string) (d : dict V) : option V :=
  match d with
  | [] => None
  | (k', v') :: d' => if String.eqb k' k then Some v' else dict_get k d'
  end.

(** [d[k] = v]: a present key keeps its place, a new one goes last. *)
Fixpoint dict_set {V : Type} (k : string) (v : V) (d : dict V) : dict V :=
  match d with
  | [] => [(k, v)]
  | (k', v') :: d' =>
      if String.eqb k' k then (k', v) :: d' else (k', v') :: dict_set k v d'
  end.

(** [max(a, b)] of two floats: [b] when it is greater, else [a]. *)
Definition pymax (a b : Q) : Q := if Qlt_bool a b then b else a.

(** [abs(x)] *)
Definition pyabs (x : Q) : Q := if Qlt_bool x 0 then (- x)%Q else x.

(** ** process_dataset.py: the cumulative configuration *)

(** An item of ["request_types"]. *)
Module RequestTypeEntry.
Record t := mk {
  id : string;
  latency_slo_tpot_ms : Q;
  input_size_bucket : string;
  output_size_bucket : string
}.

(** [a == b] on two such dicts. *)
Definition eqb (a b : t) : bool :=
  String.eqb (id a) (id b)
  && Qeq_bool (latency_slo_tpot_ms a) (latency_slo_tpot_ms b)
  && String.eqb (input_size_bucket a) (input_size_bucket b)
  && String.eqb (output_size_bucket a) (output_size_bucket b).
End RequestTypeEntry.

(** An item of ["rate_distribution"]. *)
Module RateEntry.
Record t := mk {
  id : string;
  rate : Q
}.
End RateEntry.

(** What [generate_config] returns when it has samples. *)
Module ConfigData.
Record t := mk {
  request_types : list RequestTypeEntry.t;
  rate_distribution : list RateEntry.t
}.
End ConfigData.

(** [for req_type in config_data["request_types"]: if req_type not in
    cumulative_request_types: cumulative_request_types.append(req_type)] *)
Definition append_new_request_types
    (cumulative_request_types new : list RequestTypeEntry.t)
    : list RequestTypeEntry.t :=
  fold_left
    (fun cumulative req_type =>
       if existsb (RequestTypeEntry.eqb req_type) cumulative then cumulative
       else cumulative ++ [req_type])
    new cumulative_request_types.

(** The first loop of [generate_cumulative_config], over the results of
    [generate_config]; [None] is the empty dict it returns without
    samples. *)
Definition accumulate_configs (configs : list (option ConfigData.t))
    : list RequestTypeEntry.t * list RateEntry.t :=
  fold_left
    (fun '(cumulative_request_types, cumulative_rate_distribution) config_data =>
       match config_data with
       | None => (cumulative_request_types, cumulative_rate_distribution)
       | Some c =>
           (append_new_request_types cumulative_request_types
              (ConfigData.request_types c),
            cumulative_rate_distribution ++ ConfigData.rate_distribution c)
       end)
    configs ([], []).

(** [aggregated_rates[req_id] += rate], or [= rate] for a new id. *)
Definition aggregate_rate (aggregated_rates : dict Q) (item : RateEntry.t)
    : dict Q :=
  let req_id := RateEntry.id item in
  let rate := RateEntry.rate item in
  match dict_get req_id aggregated_rates with
  | Some old => dict_set req_id (old + rate)%Q aggregated_rates
  | None => dict_set req_id rate aggregated_rates
  end.

Definition aggregate_rates (items : list RateEntry.t) : dict Q :=
  fold_left aggregate_rate items [].

(** [generate_cumulative_config], from the results of the
    [generate_config] calls on. *)
Definition generate_cumulative_config (configs : list (option ConfigData.t))
    : ConfigData.t :=
  let '(cumulative_request_types, cumulative_rate_distribution) :=
    accumulate_configs configs in
  let aggregated_rates := aggregate_rates cumulative_rate_distribution in
  let final_rate_distribution :=
    map (fun '(req_id, rate) => RateEntry.mk req_id rate) aggregated_rates in
  ConfigData.mk cumulative_request_types final_rate_distribution.

(** All rate items of the results, in order. *)
Definition all_rate_items (configs : list (option ConfigData.t))
    : list RateEntry.t :=
  flat_map (fun c => match c with
                     | Some c => ConfigData.rate_distribution c
                     | None => []
                     end) configs.

(** All request types of the results, in order. *)
Definition all_request_types (configs : list (option ConfigData.t))
    : list RequestTypeEntry.t :=
  flat_map (fun c => match c with
                     | Some c => ConfigData.request_types c
                     | None => []
                     end) configs.

(** The rates of the items with id [k], added up. *)
Definition rate_of (k : string) (items : list RateEntry.t) : Q :=
  Qsum (map RateEntry.rate
            (List.filter (fun item => String.eqb (RateEntry.id item) k) items)).

(** ** process_dataset.py: [generate_config], from the token counts on *)

(** [s.split(sep)[0]]: the part of [s] before the first [sep]. *)
Fixpoint split_head (sep : Ascii.ascii) (s : string) : string :=
  match s with
  | EmptyString => EmptyString
  | String c s' =>
      if Ascii.eqb c sep then EmptyString else String c (split_head sep s')
  end.

(** [s.replace(old, new)] for two characters. *)
Fixpoint replace_char (old new : Ascii.ascii) (s : string) : string :=
  match s with
  | EmptyString => EmptyString
  | String c s' =>
      String (if Ascii.eqb c old then new else c) (replace_char old new s')
  end.

(** [int(s)] for a string: decimal digits after an optional minus sign;
    [None] is the [ValueError].  The signs, blanks and underscores that
    Python accepts besides are outside the model. *)
Definition int_of_str (s : string) : option Z :=
  option_map Z.of_int (NilZero.int_of_string s).

(** [int(x)] for a float: the fraction is cut off. *)
Definition int_of_float (x : Q) : Z := Z.quot (Qnum x) (Z.pos (Qden x)).

(** A pair of buckets, the key of [bucket_counts]. *)
Definition BucketKey : Type := string * string.

(** One more occurrence of [key] in a [Counter]: a present key keeps its
    place, a new one goes last. *)
Fixpoint counter_add (key : BucketKey) (counts : list (BucketKey * Z))
    : list (BucketKey * Z) :=
  match counts with
  | [] => [(key, 1)]
  | (k, n) :: counts' =>
      if decide (k = key) then (k, n + 1) :: counts'
      else (k, n) :: counter_add key counts'
  end.

(** [Counter(keys)] *)
Definition Counter (keys : list BucketKey) : list (BucketKey * Z) :=
  fold_left (fun counts key => counter_add key counts) keys [].

(** [counts[key]], which is 0 for a key the [Counter] does not hold. *)
Fixpoint counter_get (key : BucketKey) (counts : list (BucketKey * Z)) : Z :=
  match counts with
  | [] => 0
  | (k, n) :: counts' => if decide (k = key) then n else counter_get key counts'
  end.

(** The sort key [(int(x[0].split("-")[0]), int(x[1].split("-")[0]))]. *)
Definition sort_key (x : BucketKey) : option (Z * Z) :=
  match int_of_str (split_head "-"%char x.1) with
  | None => None
  | Some a =>
      match int_of_str (split_head "-"%char x.2) with
      | None => None
      | Some b => Some (a, b)
      end
  end.

(** [a < b] on two tuples of ints. *)
Definition tuple_lt (a b : Z * Z) : bool :=
  (a.1 <? b.1) || ((a.1 =? b.1) && (a.2 <? b.2)).

(** [sorted(keys, key=sort_key)].  The sort is stable, so its result is
    the one of any stable sort; it is written as an insertion after the
    entries that are not greater.  The keys are computed first, and a key
    that cannot be computed raises. *)
Fixpoint insert_by_key (x : (Z * Z) * BucketKey) (l : list ((Z * Z) * BucketKey))
    : list ((Z * Z) * BucketKey) :=
  match l with
  | [] => [x]
  | y :: l' => if tuple_lt x.1 y.1 then x :: y :: l' else y :: insert_by_key x l'
  end.

Definition sorted_by_key (keys : list BucketKey) : option (list BucketKey) :=
  match mapM (fun x => match sort_key x with
                       | Some k => Some (k, x)
                       | None => None
                       end) keys with
  | None => None
  | Some decorated =>
      Some (map snd (fold_left (fun l x => insert_by_key x l) decorated []))
  end.

(** A float an argument may hold: a finite one, [inf], [-inf] or [nan]
    (what [json.loads] makes of [1e999], [-1e999] and [NaN]). *)
Inductive pyfloat :=
  | Finite (q : Q)
  | PosInf
  | NegInf
  | NaN.

(** The value of an attribute of [args]: what [json.loads] can put into a
    dataset request, or a default of [main]. *)
Inductive pyvalue :=
  | PyNone
  | PyBool (b : bool)
  | PyInt (z : Z)
  | PyFloat (x : pyfloat)
  | PyStr (s : string)
  | PyList
  | PyDict.

(** The exceptions of the conversions. *)
Inductive PyError :=
  | TypeError
  | ValueError
  | OverflowError.

(** An int as a float: an int that rounds to [2^1024] or beyond raises
    [OverflowError]. *)
Definition float_of_int (z : Z) : PyError + pyfloat :=
  if Z.abs z <? 2 ^ 1024 - 2 ^ 970 then inr (Finite (inject_Z z))
  else inl OverflowError.

(** The float a value enters arithmetic with: a bool is 0 or 1, an int is
    converted, and [None], a string, a list or a dict is a [TypeError]. *)
Definition number_of_value (v : pyvalue) : PyError + pyfloat :=
  match v with
  | PyBool b => inr (Finite (if b then 1 else 0))
  | PyInt z => float_of_int z
  | PyFloat x => inr x
  | PyNone | PyStr _ | PyList | PyDict => inl TypeError
  end.

(** [int(x)] for a float: [inf] and [nan] have no int. *)
Definition int_of_pyfloat (x : pyfloat) : PyError + Z :=
  match x with
  | Finite q => inr (int_of_float q)
  | PosInf | NegInf => inl OverflowError
  | NaN => inl ValueError
  end.

(** [a * x] for a finite float [a]. *)
Definition float_mul (a : Q) (x : pyfloat) : pyfloat :=
  match x with
  | Finite q => Finite (a * q)
  | PosInf =>
      match (a ?= 0)%Q with Gt => PosInf | Lt => NegInf | Eq => NaN end
  | NegInf =>
      match (a ?= 0)%Q with Gt => NegInf | Lt => PosInf | Eq => NaN end
  | NaN => NaN
  end.

(** [a * v] for a finite float [a] and a value. *)
Definition mul_value (a : Q) (v : pyvalue) : PyError + pyfloat :=
  match number_of_value v with
  | inl e => inl e
  | inr x => inr (float_mul a x)
  end.

(** An item of ["rate_distribution"] as [generate_config] computes it:
    the rate is any float. *)
Module RawRateEntry.
Record t := mk {
  id : string;
  rate : pyfloat
}.
End RawRateEntry.

(** The dict [generate_config] returns when it has samples. *)
Module RawConfigData.
Record t := mk {
  request_types : list RequestTypeEntry.t;
  rate_distribution : list RawRateEntry.t
}.
End RawConfigData.

(** What [generate_config] does: it raises, returns the empty dict or
    returns a configuration. *)
Inductive Outcome :=
  | Raises (e : PyError)
  | ReturnsEmpty
  | Returns (config_data : RawConfigData.t).




(** [req_id] *)
Definition request_id (in_bucket out_bucket : string) (latency_slo : Q) : string :=
  "req_in_" +:+ replace_char "-"%char "_"%char in_bucket +:+
  "_out_" +:+ replace_char "-"%char "_"%char out_bucket +:+
  "_tpot_" +:+ str (int_of_float latency_slo) +:+ "ms".

Section GenerateConfig.

Variable floor_log2 : Z -> Z.

(** [float(s)] for a string: the float the text denotes, [None] for the
    [ValueError] of a text that denotes none.  How float literals are read
    is the library's. *)
Variable float_of_str : string -> option pyfloat.

(** [float(v)] *)
Definition float_of_value (v : pyvalue) : PyError + pyfloat :=
  match v with
  | PyStr s =>
      match float_of_str s with
      | Some x => inr x
      | None => inl ValueError
      end
  | _ => number_of_value v
  end.

(** The key of a sample in [bucket_counts]. *)
Definition bucket_pair (sample : Z * Z) : BucketKey :=
  let '(in_c, out_c) := sample in
  (_get_power_of_two_bucket floor_log2 in_c,
   _get_power_of_two_bucket floor_log2 out_c).

(** The body of the loop over [sorted_keys]; [inl] is an exception on the
    way.  [int(latency_slo)] in the f-string raises for [inf] and [nan],
    and the product with [args.total_request_rate] raises for a value
    that is no number. *)
Definition config_step (bucket_counts : list (BucketKey * Z)) (total_samples : Z)
    (latency_slo : pyfloat) (total_request_rate : pyvalue)
    (st : PyError + (list RequestTypeEntry.t * list RawRateEntry.t))
    (key : BucketKey)
    : PyError + (list RequestTypeEntry.t * list RawRateEntry.t) :=
  match st with
  | inl e => inl e
  | inr (request_types, rate_distribution) =>
      let '(in_bucket, out_bucket) := key in
      match latency_slo with
      | Finite slo =>
          let req_id := request_id in_bucket out_bucket slo in
          let request_types :=
            request_types ++
              [RequestTypeEntry.mk req_id slo in_bucket out_bucket] in
          let count := counter_get (in_bucket, out_bucket) bucket_counts in
          match mul_value (inject_Z count / inject_Z total_samples)%Q
                  total_request_rate with
          | inl e => inl e
          | inr rate =>
              inr (request_types,
                   rate_distribution ++ [RawRateEntry.mk req_id rate])
          end
      | PosInf | NegInf => inl OverflowError
      | NaN => inl ValueError
      end
  end.

(** [generate_config] once the samples are tokenised: from
    [all_token_counts], [args.latency_slo_tpot_ms] and
    [args.total_request_rate]. *)
Definition generate_config (all_token_counts : list (Z * Z))
    (latency_slo_tpot_ms total_request_rate : pyvalue) : Outcome :=
  match all_token_counts with
  | [] => ReturnsEmpty
  | _ =>
      let bucket_counts := Counter (map bucket_pair all_token_counts) in
      match sorted_by_key (map fst bucket_counts) with
      | None => Raises ValueError
      | Some sorted_keys =>
          let total_samples := Z.of_nat (length all_token_counts) in
          match float_of_value latency_slo_tpot_ms with
          | inl e => Raises e
          | inr latency_slo =>
              match fold_left
                      (config_step bucket_counts total_samples latency_slo
                         total_request_rate)
                      sorted_keys (inr ([], [])) with
              | inl e => Raises e
              | inr (request_types, rate_distribution) =>
                  Returns (RawConfigData.mk request_types rate_distribution)
              end
          end
      end
  end.

(** The exception of the conversions of the two arguments, the first on
    the way of [generate_config] when it has samples: [float] of the
    latency, [int] of that float, the product with the rate. *)
Definition argument_error (latency_slo_tpot_ms total_request_rate : pyvalue)
    : option PyError :=
  match float_of_value latency_slo_tpot_ms with
  | inl e => Some e
  | inr latency_slo =>
      match int_of_pyfloat latency_slo with
      | inl e => Some e
      | inr _ =>
          match number_of_value total_request_rate with
          | inl e => Some e
          | inr _ => None
          end
      end
  end.

End GenerateConfig.


(** The lower bound of the bucket of [n]. *)
Definition bucket_lower (floor_log2 : Z -> Z) (n : Z) : Z :=
  if n <=? 1 then 0 else 2 ^ floor_log2 n.

(** [a <= b] on two tuples of ints. *)
Definition tuple_le (a b : Z * Z) : Prop :=
  a.1 < b.1 \/ (a.1 = b.1 /\ a.2 <= b.2).

(** The sum of a list of counts. *)
Definition Zsum (xs : list Z) : Z := fold_right Z.add 0 xs.

(** The buckets of an entry of ["request_types"]. *)
Definition buckets_of (entry : RequestTypeEntry.t) : BucketKey :=
  (RequestTypeEntry.input_size_bucket entry,
   RequestTypeEntry.output_size_bucket entry).

(** The first key sorts before the second or with it. *)
Definition sorts_before (x y : BucketKey) : Prop :=
  exists kx ky, sort_key x = Some kx /\ sort_key y = Some ky /\ tuple_le kx ky.

(** What the loop of [generate_config] appends for a key. *)
Definition request_type_of (latency_slo : Q) (key : BucketKey)
    : RequestTypeEntry.t :=
  RequestTypeEntry.mk (request_id key.1 key.2 latency_slo) latency_slo key.1 key.2.

Definition rate_item_of (bucket_counts : list (BucketKey * Z)) (total_samples : Z)
    (latency_slo : Q) (total_request_rate : pyfloat) (key : BucketKey)
    : RawRateEntry.t :=
  RawRateEntry.mk (request_id key.1 key.2 latency_slo)
    (float_mul (inject_Z (counter_get key bucket_counts) / inject_Z total_samples)
       total_request_rate).




(** A reading of float texts that accepts none, for the instances. *)
Definition no_float_text (s : string) : option pyfloat := None.

(** Four samples: two in one pair of buckets, one with an empty side. *)
Definition token_counts_4 : list (Z * Z) := [(10, 100); (3, 5); (10, 90); (1, 0)].

(** ** process_dataset.py: [main], the check of [--dataset_requests] *)

(** What [json.loads] returns. *)
#[local] Set Warnings "-register-all".
Inductive json :=
  | JNull
  | JBool (b : bool)
  | JNumber (x : Q)
  | JString (s : string)
  | JList (items : list json)
  | JDict (d : list (string * json)).

(** The keys a dataset request must have, in the order of the checks. *)
Definition required_keys : list string :=
  ["dataset_name"; "input_column"; "output_column"].

(** The keys that get a default, with the default, in the order of the
    checks. *)
Definition default_values : list (string * json) :=
  [("tokenizer_name", JString "meta-llama/Llama-3.1-8B-Instruct");
   ("latency_slo_tpot_ms", JNumber 50);
   ("total_request_rate", JNumber 100);
   ("dataset_config", JNull);
   ("input_text_prefix", JNull);
   ("max_samples", JNull)].

(** [if key not in dataset_args: dataset_args[key] = value] *)
Definition set_default (dataset_args : dict json) (entry : string * json)
    : dict json :=
  match dict_get entry.1 dataset_args with
  | Some _ => dataset_args
  | None => dict_set entry.1 entry.2 dataset_args
  end.

(** The first of the required keys that is missing. *)
Definition missing_key (dataset_args : dict json) : option string :=
  List.find (fun key => negb (bool_decide (is_Some (dict_get key dataset_args))))
            required_keys.

(** The body of the loop over the requests; [inl] is the message of the
    [ValueError]. *)
Definition check_request (dataset_args : json) : string + dict json :=
  match dataset_args with
  | JDict d =>
      match missing_key d with
      | Some key => inl (key +:+ " is required for each dataset request.")
      | None => inr (fold_left set_default default_values d)
      end
  | _ => inl "Each dataset request must be a JSON dictionary."
  end.

(** The loop: it stops at the first request that raises. *)
Fixpoint check_requests (items : list json) : string + list (dict json) :=
  match items with
  | [] => inr []
  | item :: items' =>
      match check_request item with
      | inl message => inl message
      | inr d =>
          match check_requests items' with
          | inl message => inl message
          | inr ds => inr (d :: ds)
          end
      end
  end.

(** The [try] block of [main] once the text is parsed: [inl message] is the
    [ValueError] that makes [main] print the message and exit with 1, [inr]
    the requests handed to [generate_cumulative_config]. *)
Definition check_dataset_requests (dataset_requests : json)
    : string + list (dict json) :=
  match dataset_requests with
  | JList items => check_requests items
  | _ => inl "dataset_requests must be a JSON list."
  end.

(** A request that passes the checks. *)
Definition well_formed_request (item : json) : Prop :=
  exists d, item = JDict d /\
            forall key, key ∈ required_keys -> is_Some (dict_get key d).

(** ** run_live_ilp_demo.py *)

(** The keys [prepare_worker_types_for_pps] copies, in the order of its
    dict display. *)
Definition pps_worker_keys : list string :=
  ["id"; "model_name"; "accelerator_type"; "accelerator_count";
   "model_server_type"; "model_server_image"].

(** The dict display of the loop body; [None] is the [KeyError] of a
    [wu_data[key]] on a missing key.  The values are copied, whatever they
    are. *)
Definition pps_worker {V : Type} (wu_data : dict V) : option (dict V) :=
  mapM (fun key => match dict_get key wu_data with
                   | Some v => Some (key, v)
                   | None => None
                   end) pps_worker_keys.

Definition prepare_worker_types_for_pps {V : Type}
    (worker_units_data : list (dict V)) : option (list (dict V)) :=
  mapM pps_worker worker_units_data.

(** An item of ["rateDistribution"]: each field is [None] when [.get]
    finds no such key. *)
Module RateItem.
Record t := mk {
  requestTypeId : option string;
  rate : option Q
}.
End RateItem.

(** The loop that fills [distribution_data_for_ilp]. *)
Definition distribution_from_rds (items : list RateItem.t) : dict Q :=
  fold_left
    (fun distribution_data_for_ilp item =>
       match RateItem.requestTypeId item, RateItem.rate item with
       | Some req_id, Some rate => dict_set req_id rate distribution_data_for_ilp
       | _, _ => distribution_data_for_ilp
       end)
    items [].

(** An entry of ["performanceProfile"]["entries"]. *)
Module ProfileEntry.
Record t := mk {
  workerTypeId : option string;
  requestTypeId : option string;
  maxThroughputRps : option Q;
  status : option string
}.
End ProfileEntry.

(** The truth value of [x] for [x = d.get(key)] a string or [None]. *)
Definition truthy (x : option string) : bool :=
  match x with
  | Some s => negb (String.eqb s "")
  | None => false
  end.

(** [status in ["OK", "OK_USING_HIGHEST_RATE"]] *)
Definition status_ok (status : string) : bool :=
  String.eqb status "OK" || String.eqb status "OK_USING_HIGHEST_RATE".

(** The body of the loop that fills [profile_data_for_ilp]. *)
Definition add_profile_entry (profile_data_for_ilp : ProfileData)
    (entry : ProfileEntry.t) : ProfileData :=
  let worker_id := ProfileEntry.workerTypeId entry in
  let req_id := ProfileEntry.requestTypeId entry in
  let throughput := default 0%Q (ProfileEntry.maxThroughputRps entry) in
  let status := default "STATUS_UNSPECIFIED" (ProfileEntry.status entry) in
  match worker_id, req_id with
  | Some w, Some r =>
      if truthy worker_id && truthy req_id then
        if status_ok status then <[(w, r) := throughput]> profile_data_for_ilp
        else <[(w, r) := 0%Q]> profile_data_for_ilp
      else profile_data_for_ilp
  | _, _ => profile_data_for_ilp
  end.

Definition profile_from_pps (entries : list ProfileEntry.t) : ProfileData :=
  fold_left add_profile_entry entries ∅.

(** The entry names the pair [(w, r)] and is not skipped. *)
Definition entry_for (w r : string) (entry : ProfileEntry.t) : Prop :=
  ProfileEntry.workerTypeId entry = Some w /\
  ProfileEntry.requestTypeId entry = Some r /\ w <> "" /\ r <> "".

(** The throughput the loop stores for an entry it does not skip. *)
Definition stored_throughput (entry : ProfileEntry.t) : Q :=
  if status_ok (default "STATUS_UNSPECIFIED" (ProfileEntry.status entry))
  then default 0%Q (ProfileEntry.maxThroughputRps entry) else 0%Q.

(** The item has both fields. *)
Definition item_for (k : string) (r : Q) (item : RateItem.t) : Prop :=
  RateItem.requestTypeId item = Some k /\ RateItem.rate item = Some r.

Abbreviation lit_1e_2 := (1 # 100)%Q.

(** ** data_structures.py: request types *)

Module RequestType.
Record t := mk {
  id : string;
  input_size_bucket : string;
  output_size_bucket : string;
  slo_ms : Z
}.
End RequestType.

(** ** mock_generators.py *)

(** The configuration dict, with the keys the generators read.  A key
    missing from the dict itself is excluded by the record; a key missing
    from one of its tables is not. *)
Module Config.
Record t := mk {
  base_throughput_scalar : Q;
  min_final_throughput : Q;
  random_variation_range : Q * Q;
  accel_speed_factors : gmap string Q;
  accel_output_size_efficiency : gmap string (gmap string Q);
  accel_input_size_efficiency : gmap string (gmap string Q);
  accel_slo_half_cut_ms : gmap string Q;
  min_slo_penalty_factor : Q;
  model_server_factors : gmap string Q;
  (** [None]: no such key; [Some None]: the key with value [None]. *)
  max_active_request_types : option (option Z);
  distribution_bias_factor : Q;
  distribution_min_rate : Q
}.
End Config.

(** [MOCK_GENERATOR_CONFIG] *)
Definition MOCK_GENERATOR_CONFIG : Config.t :=
  Config.mk
    1 (1 # 100) (1, 1)%Q
    (list_to_map [("H100", 24); ("TPU-V5e", 22); ("A100", 18); ("A10G", 7);
                  ("L4", 2); ("DEFAULT", 1)]%Q)
    (list_to_map
       [("H100", list_to_map [("XS", 6); ("S", 5 # 2); ("M", 1); ("L", 2 # 5);
                              ("XL", 1 # 5)]%Q);
        ("TPU-V5e", list_to_map [("XS", 59 # 10); ("S", 49 # 20); ("M", 1);
                                 ("L", 2 # 5); ("XL", 1 # 5)]%Q);
        ("A100", list_to_map [("XS", 29 # 5); ("S", 12 # 5); ("M", 1);
                              ("L", 41 # 100); ("XL", 21 # 100)]%Q);
        ("A10G", list_to_map [("XS", 11 # 2); ("S", 11 # 5); ("M", 1);
                              ("L", 21 # 50); ("XL", 11 # 50)]%Q);
        ("L4", list_to_map [("XS", 5); ("S", 2); ("M", 1); ("L", 9 # 20);
                            ("XL", 1 # 4)]%Q);
        ("DEFAULT", list_to_map [("XS", 4); ("S", 9 # 5); ("M", 1); ("L", 1 # 2);
                                 ("XL", 3 # 10)]%Q)])
    (list_to_map
       [("H100", list_to_map [("XS", 23 # 20); ("S", 21 # 20); ("M", 1);
                              ("L", 19 # 20); ("XL", 9 # 10)]%Q);
        ("TPU-V5e", list_to_map [("XS", 117 # 100); ("S", 107 # 100); ("M", 1);
                                 ("L", 93 # 100); ("XL", 89 # 100)]%Q);
        ("A100", list_to_map [("XS", 29 # 25); ("S", 53 # 50); ("M", 1);
                              ("L", 47 # 50); ("XL", 89 # 100)]%Q);
        ("A10G", list_to_map [("XS", 59 # 50); ("S", 27 # 25); ("M", 1);
                              ("L", 23 # 25); ("XL", 22 # 25)]%Q);
        ("L4", list_to_map [("XS", 6 # 5); ("S", 11 # 10); ("M", 1);
                            ("L", 9 # 10); ("XL", 17 # 20)]%Q);
        ("DEFAULT", list_to_map [("XS", 5 # 4); ("S", 28 # 25); ("M", 1);
                                 ("L", 22 # 25); ("XL", 4 # 5)]%Q)])
    (list_to_map [("H100", 200); ("A100", 350); ("TPU-V5e", 350); ("A10G", 500);
                  ("L4", 600); ("DEFAULT", 450)]%Q)
    (1 # 20)
    (list_to_map [("DEFAULT", 1%Q)])
    (Some (Some 60))
    3 (1 # 100).

(** [table.get(key, table['DEFAULT'])].  Python evaluates the default
    before the call, so a table without 'DEFAULT' raises [KeyError] (here
    [None]) even when [key] is present. *)
Definition get_or_DEFAULT {V : Type} (table : gmap string V) (key : string)
    : option V :=
  match table !! "DEFAULT" with
  | Some d => Some (default d (table !! key))
  | None => None
  end.

Definition _get_speed_factor (accel_type : string) (config : Config.t)
    : option Q :=
  get_or_DEFAULT (Config.accel_speed_factors config) accel_type.

Definition _get_server_factor (server_type : string) (config : Config.t)
    : option Q :=
  get_or_DEFAULT (Config.model_server_factors config) server_type.

Definition _get_slo_penalty_factor (accel_type : string) (slo_ms : Z)
    (config : Config.t) : option Q :=
  if slo_ms <=? 0 then Some (Config.min_slo_penalty_factor config)
  else
    match get_or_DEFAULT (Config.accel_slo_half_cut_ms config) accel_type with
    | None => None
    | Some slo_half_cut =>
        let denominator := (inject_Z slo_ms + slo_half_cut)%Q in
        let factor :=
          if Qle_bool denominator lit_1e_6 then 0%Q
          else (inject_Z slo_ms / denominator)%Q in
        Some (pymax (Config.min_slo_penalty_factor config) factor)
    end.

Section Generators.

(** [str.upper] and [str.lower]. *)
Variable upper lower : string -> string.

(** The state of the module [random], with [random.random()] and
    [random.sample(population, k)] on request types. *)
Variable RngState : Type.
Variable random_random : RngState -> Q * RngState.
Variable random_sample :
  RngState -> list RequestType.t -> Z -> list RequestType.t * RngState.

(** [random.uniform(a, b)] is [a + (b - a) * random()]. *)
Definition random_uniform (a b : Q) (rng : RngState) : Q * RngState :=
  let '(u, rng) := random_random rng in ((a + (b - a) * u)%Q, rng).

Definition _get_size_efficiency_factor (accel_type : string)
    (input_size_category output_size_category : string) (config : Config.t)
    : option Q :=
  match get_or_DEFAULT (Config.accel_input_size_efficiency config) accel_type with
  | None => None
  | Some input_efficiencies =>
      let input_efficiency :=
        default 1%Q (input_efficiencies !! upper input_size_category) in
      match get_or_DEFAULT (Config.accel_output_size_efficiency config)
                           accel_type with
      | None => None
      | Some output_efficiencies =>
          let output_efficiency :=
            default 1%Q (output_efficiencies !! upper output_size_category) in
          Some (input_efficiency * output_efficiency)%Q
      end
  end.

Definition _apply_random_variation (tput : Q) (config : Config.t)
    (rng : RngState) : Q * RngState :=
  let '(min_rand, max_rand) := Config.random_variation_range config in
  if Qeq_bool min_rand max_rand then ((tput * min_rand)%Q, rng)
  else
    let '(x, rng) := random_uniform min_rand max_rand rng in
    ((tput * x)%Q, rng).

Definition _calculate_single_throughput (worker : WorkerUnit.t)
    (req_type : RequestType.t) (config : Config.t) (rng : RngState)
    : option (Q * RngState) :=
  let base_tput := Config.base_throughput_scalar config in
  match _get_speed_factor (WorkerUnit.accelerator_type worker) config with
  | None => None
  | Some speed_f =>
  match _get_size_efficiency_factor (WorkerUnit.accelerator_type worker)
          (RequestType.input_size_bucket req_type)
          (RequestType.output_size_bucket req_type) config with
  | None => None
  | Some size_f =>
  let count_f := inject_Z (WorkerUnit.accelerator_count worker) in
  match _get_server_factor (WorkerUnit.model_server_type worker) config with
  | None => None
  | Some server_f =>
  match _get_slo_penalty_factor (WorkerUnit.accelerator_type worker)
          (RequestType.slo_ms req_type) config with
  | None => None
  | Some slo_f =>
      let adjusted_tput :=
        (base_tput * speed_f * size_f * count_f * server_f * slo_f)%Q in
      let '(tput_with_variation, rng) :=
        _apply_random_variation adjusted_tput config rng in
      let final_tput :=
        pymax (Config.min_final_throughput config) tput_with_variation in
      Some (final_tput, rng)
  end end end end.

(** The body of the inner loop of [generate_mock_profile]; [None] is a
    [KeyError] raised on the way. *)
Definition mock_profile_step (config : Config.t) (worker : WorkerUnit.t)
    (st : option (ProfileData * RngState)) (req_type : RequestType.t)
    : option (ProfileData * RngState) :=
  match st with
  | None => None
  | Some (profile, rng) =>
      match _calculate_single_throughput worker req_type config rng with
      | None => None
      | Some (final_tput, rng) =>
          Some (<[(WorkerUnit.id worker, RequestType.id req_type) := final_tput]>
                  profile, rng)
      end
  end.

Definition generate_mock_profile (worker_units : list WorkerUnit.t)
    (request_types : list RequestType.t) (config : Config.t) (rng : RngState)
    : option (ProfileData * RngState) :=
  fold_left
    (fun st worker => fold_left (mock_profile_step config worker) request_types st)
    worker_units (Some (∅, rng)).

(** The part of [generate_mock_distribution] that selects the active
    request types; it is reached with a list that is not empty. *)
Definition select_active_request_types (request_types : list RequestType.t)
    (config : Config.t) (rng : RngState) : list RequestType.t * RngState :=
  let num_total_types := Z.of_nat (length request_types) in
  let max_active :=
    match Config.max_active_request_types config with
    | Some v => v
    | None => Some num_total_types
    end in
  let max_active :=
    Z.min num_total_types
      (match max_active with Some k => k | None => num_total_types end) in
  if (max_active <? num_total_types) && (0 <? max_active) then
    random_sample rng request_types max_active
  else if max_active <=? 0 then ([], rng)
  else (request_types, rng).

Definition req_slo_cat (slo_ms : Z) : string :=
  if slo_ms <? 500 then "low"
  else if 1500 <=? slo_ms then "high"
  else "medium".

(** The body of the loop over the active types: the weight of one type.
    A bias that is [None] or the empty string is not applied. *)
Definition mock_weight (size_bias slo_bias : option string) (bias_factor : Q)
    (req_type : RequestType.t) (rng : RngState) : Q * RngState :=
  let '(weight, rng) := random_uniform (1 # 10) 1 rng in
  let weight :=
    match size_bias with
    | Some size_bias =>
        if String.eqb size_bias "" then weight
        else
          let target_size := upper size_bias in
          if String.eqb (upper (RequestType.input_size_bucket req_type))
                        target_size
             || String.eqb (upper (RequestType.output_size_bucket req_type))
                           target_size
          then (weight * bias_factor)%Q else weight
    | None => weight
    end in
  let weight :=
    match slo_bias with
    | Some slo_bias =>
        if String.eqb slo_bias "" then weight
        else if String.eqb (req_slo_cat (RequestType.slo_ms req_type))
                           (lower slo_bias)
        then (weight * bias_factor)%Q else weight
    | None => weight
    end in
  (pymax lit_1e_9 weight, rng).

Definition mock_weights (size_bias slo_bias : option string) (bias_factor : Q)
    (active_request_types : list RequestType.t) (rng : RngState)
    : list Q * RngState :=
  fold_left
    (fun '(weights, rng) req_type =>
       let '(weight, rng) :=
         mock_weight size_bias slo_bias bias_factor req_type rng in
       (weights ++ [weight], rng))
    active_request_types ([], rng).

(** [sum(xs)] *)
Definition pysum (xs : list Q) : Q := fold_left Qplus xs 0%Q.

(** [distribution[req_id] = max(min_rate, rate)] followed by
    [actual_total_rate += distribution[req_id]], which reads the value just
    written. *)
Definition set_rate (min_rate : Q) (st : dict Q * Q) (req_id : string)
    (rate : Q) : dict Q * Q :=
  let '(distribution, actual_total_rate) := st in
  let written := pymax min_rate rate in
  (dict_set req_id written distribution, (actual_total_rate + written)%Q).

(** The rates of the active types, with the sum the code keeps.  The list
    of weights has one entry for each active type, in the same order. *)
Definition mock_rates (active_request_types : list RequestType.t)
    (weights : list Q) (total_rate min_rate : Q) : dict Q * Q :=
  let total_weight := pysum weights in
  if Qle_bool total_weight lit_1e_9 then
    let rate_per_type :=
      match active_request_types with
      | [] => 0%Q
      | _ => (total_rate / inject_Z (Z.of_nat (length active_request_types)))%Q
      end in
    fold_left
      (fun st req_type =>
         set_rate min_rate st (RequestType.id req_type) rate_per_type)
      active_request_types ([], 0%Q)
  else
    fold_left
      (fun st '(req_type, weight) =>
         let rate := (weight / total_weight * total_rate)%Q in
         set_rate min_rate st (RequestType.id req_type) rate)
      (combine active_request_types weights) ([], 0%Q).

(** The renormalisation at the end: the dict is rebuilt key by key in its
    own order when the sum is off the target by more than 1e-2. *)
Definition renormalize (total_rate min_rate : Q) (st : dict Q * Q) : dict Q :=
  let '(distribution, actual_total_rate) := st in
  if Qlt_bool lit_1e_2 (pyabs (actual_total_rate - total_rate))
     && Qlt_bool lit_1e_6 actual_total_rate
  then
    let renorm_factor := (total_rate / actual_total_rate)%Q in
    fold_left
      (fun temp_dist '(req_id, rate) =>
         dict_set req_id (pymax min_rate (rate * renorm_factor)) temp_dist)
      distribution []
  else distribution.

Definition generate_mock_distribution (request_types : list RequestType.t)
    (total_rate : Q) (size_bias slo_bias : option string) (config : Config.t)
    (rng : RngState) : dict Q * RngState :=
  match request_types with
  | [] => ([], rng)
  | _ =>
      let '(active_request_types, rng) :=
        select_active_request_types request_types config rng in
      match active_request_types with
      | [] => ([], rng)
      | _ =>
          let bias_factor := Config.distribution_bias_factor config in
          let '(weights, rng) :=
            mock_weights size_bias slo_bias bias_factor active_request_types
              rng in
          let min_rate := Config.distribution_min_rate config in
          (renormalize total_rate min_rate
             (mock_rates active_request_types weights total_rate min_rate),
           rng)
      end
  end.

End Generators.

(** The 'DEFAULT' entries the profile generator reads. *)
Definition has_defaults (config : Config.t) : Prop :=
  is_Some (Config.accel_speed_factors config !! "DEFAULT") /\
  is_Some (Config.accel_input_size_efficiency config !! "DEFAULT") /\
  is_Some (Config.accel_output_size_efficiency config !! "DEFAULT") /\
  is_Some (Config.model_server_factors config !! "DEFAULT") /\
  is_Some (Config.accel_slo_half_cut_ms config !! "DEFAULT").
(** What the rate loops and the renormalisation keep: distinct keys, the
    ids of the active types as keys, and no rate below [min_rate]. *)
Definition rates_inv (ids : list string) (min_rate : Q) (d : dict Q) : Prop :=
  NoDup (map fst d) /\
  (forall k, k ∈ map fst d <-> k ∈ ids) /\
  Forall (fun p => (min_rate <= p.2)%Q) d.

(** The cap on the active types is absent, [None] or not below the number
    of request types. *)
Definition uncapped (request_types : list RequestType.t) (config : Config.t)
    : Prop :=
  match Config.max_active_request_types config with
  | Some (Some k) => Z.of_nat (length request_types) <= k
  | _ => True
  end.

(** * Further predicates and inputs of the proofs *)

(** The limit constraint of worker [w] for limit [m]. *)
Definition limit_constraint (B : gmap string nat) (w : WorkerUnit.t) (m : Z)
    : pywraplp.MPConstraint :=
  pywraplp.mkCon (var_expr (B !!! WorkerUnit.id w)) pywraplp.LE
                 (const_expr (inject_Z m)) ("Limit_" +:+ WorkerUnit.id w).

(** The rational a finite load stands for (0 for [inf]). *)
Definition load_value (x : float) : Q :=
  match x with Fin q => q | Inf => 0%Q end.

(** [total_load_on_worker] of the capacity loop, for worker [w]. *)
Definition capacity_terms (A : gmap (Z * string) nat)
    (load_matrix : gmap (Z * string) float) (slices : SliceList)
    (w : WorkerUnit.t) : list (float * nat) :=
  omap (fun s =>
          let key := (Slice.id s, WorkerUnit.id w) in
          match A !! key with
          | Some v => Some (load_matrix !!! key, v)
          | None => None
          end) slices.

(** The capacity constraint of worker [w]. *)
Definition capacity_constraint (A : gmap (Z * string) nat) (B : gmap string nat)
    (load_matrix : gmap (Z * string) float) (slices : SliceList)
    (w : WorkerUnit.t) : pywraplp.MPConstraint :=
  pywraplp.mkCon (pywraplp.mkExpr (capacity_terms A load_matrix slices w) 0)
                 pywraplp.LE (var_expr (B !!! WorkerUnit.id w))
                 ("Cap_" +:+ WorkerUnit.id w).

(** The load a plan puts on the workers of the id of [w]: the loads of the
    slices assigned to that id. *)
Definition assigned_load (profile_data : ProfileData)
    (assignments : gmap Z string) (slices : SliceList) (w : WorkerUnit.t) : Q :=
  Qsum (map (fun s =>
               if decide (assignments !! Slice.id s = Some (WorkerUnit.id w))
               then load_value (load_of profile_data s w) else 0%Q)
            slices).

(** The left side of the capacity constraint of [w] at a valuation. *)
Definition capacity_load (profile_data : ProfileData)
    (A : gmap (Z * string) nat) (val : nat -> Q) (slices : SliceList)
    (w : WorkerUnit.t) : Q :=
  Qsum (map (fun s =>
               match A !! (Slice.id s, WorkerUnit.id w) with
               | Some v => (load_value (load_of profile_data s w) * val v)%Q
               | None => 0%Q
               end)
            slices).

(** The cost of a plan: the cost of each worker of the list times its
    count. *)
Definition plan_cost (worker_units : list WorkerUnit.t) (counts : gmap string Z)
    : Q :=
  Qsum (map (fun w => (WorkerUnit.cost w *
                       inject_Z (default 0%Z (counts !! WorkerUnit.id w)))%Q)
            worker_units).

(** What the declaration loops keep true besides [decl_inv]: every variable
    they add is binary, every handle in [A] is the handle of a variable, and
    no two keys of [A] share a handle. *)
Definition decl_fresh (s0 : pywraplp.Solver) (d : DeclState) : Prop :=
  (exists extra,
     pywraplp.variables (decl_solver d) = pywraplp.variables s0 ++ extra /\
     Forall is_binary extra) /\
  (forall key h, A d !! key = Some h ->
     (h < length (pywraplp.variables (decl_solver d)))%nat) /\
  (forall k1 k2 h, A d !! k1 = Some h -> A d !! k2 = Some h -> k1 = k2).

(** A constraint of one of the three kinds the driver adds. *)
Definition model_constraint (A : gmap (Z * string) nat) (B : gmap string nat)
    (load_matrix : gmap (Z * string) float) (worker_units : list WorkerUnit.t)
    (slices : SliceList) (c : pywraplp.MPConstraint) : Prop :=
  (exists s, s ∈ slices /\ assigned_workers A worker_units s <> [] /\
             c = assign_constraint A worker_units s) \/
  (exists w, w ∈ worker_units /\
             c = capacity_constraint A B load_matrix slices w) \/
  (exists w m, w ∈ worker_units /\ WorkerUnit.max_limit w = Some m /\ 0 <= m /\
               c = limit_constraint B w m).

(** A plan that serves the demand: no count is negative or above a limit
    that applies, every slice that some worker can take is assigned to a
    worker that can take it, and the load assigned to a worker is within
    its count. *)
Definition valid_plan (worker_units : list WorkerUnit.t)
    (profile_data : ProfileData) (slices : SliceList)
    (counts : gmap string Z) (assignments : gmap Z string) : Prop :=
  (forall w, w ∈ worker_units ->
     let n := default 0 (counts !! WorkerUnit.id w) in
     0 <= n /\
     (forall m, WorkerUnit.max_limit w = Some m -> 0 <= m -> n <= m) /\
     (assigned_load profile_data assignments slices w <= inject_Z n)%Q) /\
  (forall s, s ∈ slices ->
     (exists w, w ∈ worker_units /\
                is_finite (load_of profile_data s w) = true) ->
     exists w, w ∈ worker_units /\
               assignments !! Slice.id s = Some (WorkerUnit.id w) /\
               is_finite (load_of profile_data s w) = true).

(** The values a plan gives to the variables of the model: the count to
    the [B] variable of a worker, one to the [A] variable of a pair the
    plan assigns, zero to the others. *)
Definition plan_valuation (worker_units : list WorkerUnit.t)
    (A : gmap (Z * string) nat) (counts : gmap string Z)
    (assignments : gmap Z string) (h : nat) : Q :=
  match worker_units !! h with
  | Some w => inject_Z (default 0 (counts !! WorkerUnit.id w))
  | None =>
      match List.find (fun kv : (Z * string) * nat => Nat.eqb kv.2 h)
                      (map_to_list A) with
      | Some (key, _) =>
          if decide (assignments !! key.1 = Some key.2) then 1%Q else 0%Q
      | None => 0%Q
      end
  end.

(** The backend's answer is an optimum of the model: it meets the model
    and no valuation that meets it has a smaller objective. *)
Definition optimum (value : nat -> Q) (model : pywraplp.Solver) : Prop :=
  pywraplp.feasible value model = true /\
  forall val, pywraplp.feasible val model = true ->
    (pywraplp.objective_value value model
     <= pywraplp.objective_value val model)%Q.

(** A plan for [demand_R1]: two instances of [worker_A], which take the
    slice. *)
Definition counts_two_A : gmap string Z := {[ "A" := 2; "B" := 0 ]}.

Definition assignments_to_A : gmap Z string := {[ 0 := "A" ]}.

(** [worker_A] with a limit of two instances. *)
Definition worker_limited : WorkerUnit.t :=
  WorkerUnit.mk "A" "L4" 1 "TGI" 1 (Some 2).

(** A request type for the demand [demand_R1]. *)
Definition request_type_R1 : RequestType.t := RequestType.mk "R1" "M" "M" 1000.

(** A generator of random numbers that always draws one half and samples
    the first [k] members of the population. *)
Definition draw_half (g : unit) : Q * unit := (lit_0_5, g).

Definition sample_first (g : unit) (population : list RequestType.t) (k : Z)
    : list RequestType.t * unit :=
  (take (Z.to_nat k) population, g).

(** * Proofs *)

(** [x] is in [map f l] because some item of [l] is sent to it. *)
Ltac in_map_by_eauto :=
  change (map ?f ?l) with (f <$> l); apply list_elem_of_fmap; eauto.

(** ** Comparisons on rationals *)

Lemma Qle_bool_true (x y : Q) : Qle_bool x y = true <-> (x <= y)%Q.
Proof. apply Qle_bool_iff. Qed.

Lemma Qle_bool_false (x y : Q) : Qle_bool x y = false <-> (y < x)%Q.
Proof.
  split; intros H.
  - apply Qnot_le_lt. intros Hle. apply Qle_bool_iff in Hle. congruence.
  - destruct (Qle_bool x y) eqn:E; [|reflexivity].
    apply Qle_bool_iff in E. lra.
Qed.

Lemma Qlt_bool_true (x y : Q) : Qlt_bool x y = true <-> (x < y)%Q.
Proof.
  unfold Qlt_bool. rewrite negb_true_iff. apply Qle_bool_false.
Qed.

Lemma Qlt_bool_false (x y : Q) : Qlt_bool x y = false <-> (y <= x)%Q.
Proof.
  unfold Qlt_bool. rewrite negb_false_iff. apply Qle_bool_iff.
Qed.

(** Dividing a positive rate by a factor of at least one does not raise it. *)
Lemma Qdiv_factor_le (rate : Q) (k : Z) :
  (0 < rate)%Q -> 1 <= k -> (rate / inject_Z k <= rate)%Q.
Proof.
  intros Hr Hk.
  assert (Hk' : (1 <= inject_Z k)%Q).
  { change 1%Q with (inject_Z 1). rewrite <- Zle_Qle. exact Hk. }
  apply Qle_shift_div_r; [lra|]. nra.
Qed.

(** ** range *)

Lemma range_length (n : Z) : length (range n) = Z.to_nat n.
Proof. unfold range. rewrite length_map, length_seq. reflexivity. Qed.

Lemma range_one : range 1 = [0].
Proof. reflexivity. Qed.

Lemma map_of_nat_seq_shift (a s b : nat) :
  map Z.of_nat (seq (a + s) b) =
  map (fun i => Z.of_nat a + i) (map Z.of_nat (seq s b)).
Proof.
  revert s. induction b as [|b IH]; intros s; simpl; [reflexivity|].
  f_equal; [lia|]. rewrite <- IH. f_equal. f_equal. lia.
Qed.

Lemma range_app (a b : nat) :
  range (Z.of_nat (a + b)) =
  range (Z.of_nat a) ++ map (fun i => Z.of_nat a + i) (range (Z.of_nat b)).
Proof.
  unfold range. rewrite !Nat2Z.id, seq_app, map_app. f_equal.
  rewrite <- map_of_nat_seq_shift. f_equal. f_equal. lia.
Qed.

Lemma range_NoDup (n : Z) : NoDup (range n).
Proof.
  unfold range. apply NoDup_fmap_2; [|apply NoDup_seq].
  intros a b. lia.
Qed.

(** ** The slicer *)

Lemma map_payload_emit (c : Z) (req : string) (portion : Q) (n : Z) :
  map payload (map (fun i => Slice.mk (c + i) req portion) (range n)) =
  replicate (Z.to_nat n) (req, portion).
Proof.
  unfold range. rewrite !map_map. unfold payload. simpl.
  generalize 0%nat. induction (Z.to_nat n) as [|m IH]; intros s; simpl;
    [reflexivity|]. f_equal. apply IH.
Qed.

Lemma map_id_emit (c : Z) (req : string) (portion : Q) (n : Z) :
  map Slice.id (map (fun i => Slice.mk (c + i) req portion) (range n)) =
  map (fun i => c + i) (range n).
Proof. rewrite map_map. reflexivity. Qed.

Lemma slicer_step_spec (k : Z) (st : SlicerState) (item : string * Q) :
  slicer_inv k st ->
  exists chunk,
    emits k item chunk /\
    map payload (slices (slicer_step st item)) =
      map payload (slices st) ++ chunk /\
    map Slice.id (slices (slicer_step st item)) =
      map Slice.id (slices st) ++
      map (fun i => slice_id_counter st + i) (range (Z.of_nat (length chunk))) /\
    slicer_inv k (slicer_step st item).
Proof.
  intros [Hk Hc]. destruct item as [req rate]. unfold slicer_step.
  destruct (Qle_bool rate 0) eqn:E0.
  { exists []. apply Qle_bool_true in E0. simpl. rewrite !app_nil_r.
    repeat split; try assumption. constructor; assumption. }
  apply Qle_bool_false in E0.
  assert (Hsf : (if slice_factor st <=? 0 then 1 else slice_factor st) = k).
  { destruct (Z.leb_spec (slice_factor st) 0); lia. }
  rewrite Hsf. assert (Hk1 : 1 <= k) by lia.
  destruct (Qlt_bool (rate / inject_Z k) lit_1e_6) eqn:E1.
  - destruct (Qlt_bool lit_1e_9 rate) eqn:E2.
    + exists [(req, rate)]. apply Qlt_bool_true in E1, E2.
      cbn [slices slice_id_counter slice_factor].
      rewrite !map_app, map_payload_emit, map_id_emit.
      repeat split; try reflexivity.
      * apply emits_coarse; assumption.
      * unfold slicer_inv; simpl. lia.
      * cbn [slices slice_id_counter].
        rewrite length_app, length_map, range_length. lia.
    + exists []. apply Qlt_bool_false in E2. simpl. rewrite !app_nil_r.
      repeat split; try reflexivity; try assumption.
      * apply emits_skip; assumption.
      * unfold slicer_inv; simpl. lia.
  - exists (replicate (Z.to_nat k) (req, (rate / inject_Z k)%Q)).
    apply Qlt_bool_false in E1. cbn [slices slice_id_counter slice_factor].
    rewrite !map_app, map_payload_emit, map_id_emit, length_replicate, Z2Nat.id by lia.
    repeat split; try reflexivity.
    + apply emits_equal; assumption.
    + unfold slicer_inv; simpl. lia.
    + cbn [slices slice_id_counter].
      rewrite length_app, length_map, range_length. lia.
Qed.

Lemma slicer_fold_spec (k : Z) (distribution_data : DistributionData)
    (st : SlicerState) :
  slicer_inv k st ->
  exists chunks,
    Forall2 (emits k) distribution_data chunks /\
    map payload (slices (fold_left slicer_step distribution_data st)) =
      map payload (slices st) ++ concat chunks /\
    map Slice.id (slices (fold_left slicer_step distribution_data st)) =
      map Slice.id (slices st) ++
      map (fun i => slice_id_counter st + i)
          (range (Z.of_nat (length (concat chunks)))).
Proof.
  revert st. induction distribution_data as [|item rest IH]; intros st Hinv.
  - exists []. simpl. rewrite !app_nil_r. repeat split. constructor.
  - destruct (slicer_step_spec k st item Hinv) as (chunk & Hem & Hp & Hi & Hinv').
    destruct (IH _ Hinv') as (chunks & Hall & Hps & His).
    exists (chunk :: chunks). simpl. split; [constructor; assumption|].
    split.
    + rewrite Hps, Hp, <- app_assoc. reflexivity.
    + rewrite His, Hi, <- app_assoc. f_equal.
      destruct Hinv' as [_ Hc']. destruct Hinv as [_ Hc].
      rewrite Hc'. 
      assert (Hlen : length (slices (slicer_step st item)) =
                     (length (slices st) + length chunk)%nat).
      { rewrite <- (length_map payload), Hp, length_app, length_map. reflexivity. }
      rewrite Hlen, length_app, Hc, range_app, map_app, map_map.
      f_equal. apply map_ext. intros i. lia.
Qed.

(** The specification's cases do not overlap: an entry has one chunk. *)
Lemma emits_functional (k : Z) (item : string * Q) (c1 c2 : list (string * Q)) :
  1 <= k -> emits k item c1 -> emits k item c2 -> c1 = c2.
Proof.
  intros Hk H1 H2.
  destruct H1 as [req rate H|req rate H Hp|req rate H Hp Ht|req rate H Ht];
    inversion H2; subst; try reflexivity; try lra;
    pose proof (Qdiv_factor_le rate k H Hk); lra.
Qed.

Lemma create_slices_ids (distribution_data : DistributionData) (slice_factor : Z) :
  map Slice.id (create_slices distribution_data slice_factor) =
  range (Z.of_nat (length (create_slices distribution_data slice_factor))).
Proof.
  unfold create_slices, create_slicer_state.
  destruct (slicer_fold_spec (Z.max slice_factor 1) distribution_data
              (mkSlicer [] 0 slice_factor)) as (chunks & _ & Hp & Hi).
  { split; reflexivity. }
  rewrite Hi. simpl. rewrite <- (length_map payload), Hp. simpl.
  rewrite <- (map_id (range _)) at 2. apply map_ext. intros i. lia.
Qed.

Lemma create_slices_NoDup (distribution_data : DistributionData) (slice_factor : Z) :
  NoDup (map Slice.id (create_slices distribution_data slice_factor)).
Proof. rewrite create_slices_ids. apply range_NoDup. Qed.

(** A slice of the list is determined by its id. *)
Lemma create_slices_id_inj (distribution_data : DistributionData)
    (slice_factor : Z) (s s' : Slice.t) :
  s ∈ create_slices distribution_data slice_factor ->
  s' ∈ create_slices distribution_data slice_factor ->
  Slice.id s = Slice.id s' -> s = s'.
Proof.
  intros Hs Hs' Hid.
  pose proof (create_slices_NoDup distribution_data slice_factor) as Hnd.
  apply list_elem_of_lookup in Hs as [i Hi], Hs' as [j Hj].
  assert (i = j).
  { eapply NoDup_lookup; [exact Hnd| |].
    - rewrite list_lookup_fmap, Hi. reflexivity.
    - change map with (@fmap list _). rewrite list_lookup_fmap, Hj. simpl. congruence. }
  subst. congruence.
Qed.

(** C3. With [k = max(sliceFactor, 1)], the slice list is the concatenation,
    in demand order, of one chunk per demand entry, where the chunk of
    [(reqId, totalRate)] is: nothing when [totalRate <= 0]; [k] slices of
    portion [totalRate / k] when [totalRate > 0] and [totalRate / k >= 1e-6];
    one slice of portion [totalRate] when [totalRate / k < 1e-6] and
    [totalRate > 1e-9]; nothing when [0 < totalRate <= 1e-9].  The ids of
    the emitted slices are 0, 1, 2, ... in emission order. *)
Theorem slicer_contract (distribution_data : DistributionData) (slice_factor : Z) :
  let k := Z.max slice_factor 1 in
  let slices := create_slices distribution_data slice_factor in
  exists chunks,
    Forall2 (emits k) distribution_data chunks /\
    map payload slices = concat chunks /\
    map Slice.id slices = range (Z.of_nat (length slices)).
Proof.
  intros k sl.
  destruct (slicer_fold_spec k distribution_data (mkSlicer [] 0 slice_factor))
    as (chunks & Hall & Hp & _).
  { split; reflexivity. }
  exists chunks. split; [exact Hall|]. split; [exact Hp|].
  apply create_slices_ids.
Qed.

(** ** Loops as folds *)

(** A loop invariant indexed by the items already processed. *)
Lemma fold_left_inv {S X : Type} (P : list X -> S -> Prop)
    (f : S -> X -> S) (xs : list X) (s0 : S) :
  P [] s0 ->
  (forall pre x post s, xs = pre ++ x :: post -> P pre s -> P (pre ++ [x]) (f s x)) ->
  P xs (fold_left f xs s0).
Proof.
  intros H0 Hstep.
  assert (Hgen : forall todo done s,
             xs = done ++ todo -> P done s ->
             P (done ++ todo) (fold_left f todo s)).
  { induction todo as [|x todo IH]; intros done s Hxs Hs; simpl.
    - rewrite app_nil_r. exact Hs.
    - replace (done ++ x :: todo) with ((done ++ [x]) ++ todo)
        by (rewrite <- app_assoc; reflexivity).
      apply IH.
      + rewrite <- app_assoc. exact Hxs.
      + apply (Hstep done x todo); assumption. }
  apply (Hgen xs [] s0); [reflexivity|exact H0].
Qed.

(** Inserting [g (key x)] under [key x] for every [x] of a list. *)
Lemma fold_insert_key `{Countable K} {X V : Type} (key : X -> K)
    (f : X -> V) (g : K -> V) (xs : list X) (m : gmap K V) (k : K) :
  (forall x, f x = g (key x)) ->
  fold_left (fun d x => <[key x := f x]> d) xs m !! k =
  if decide (k ∈ map key xs) then Some (g k) else m !! k.
Proof.
  intros Hf. revert m. induction xs as [|x xs IH]; intros m.
  - simpl. destruct (decide (k ∈ [])) as [Hin|_]; [|reflexivity]. inversion Hin.
  - cbn [fold_left]. rewrite IH. change (map key (x :: xs)) with (key x :: map key xs).
    destruct (decide (k ∈ map key xs)) as [Hin|Hnin].
    + rewrite decide_True; [reflexivity|]. right. exact Hin.
    + destruct (decide (key x = k)) as [<-|Hne].
      * rewrite lookup_insert_eq, decide_True; [|left]. rewrite Hf. reflexivity.
      * rewrite lookup_insert_ne by exact Hne.
        rewrite decide_False; [reflexivity|].
        intros Hin. apply elem_of_cons in Hin as [?|?]; congruence.
Qed.

(** ** No slices *)

Lemma slicer_step_nonpositive (st : SlicerState) (req : string) (rate : Q) :
  (rate <= 0)%Q -> slicer_step st (req, rate) = st.
Proof.
  intros H. unfold slicer_step. apply Qle_bool_true in H. rewrite H. reflexivity.
Qed.

Lemma slicer_fold_nonpositive (distribution_data : DistributionData)
    (st : SlicerState) :
  Forall (fun item => (snd item <= 0)%Q) distribution_data ->
  fold_left slicer_step distribution_data st = st.
Proof.
  induction 1 as [|[req rate] rest Hle _ IH]; [reflexivity|].
  cbn [fold_left]. rewrite slicer_step_nonpositive by exact Hle. exact IH.
Qed.

Lemma create_slices_nonpositive (distribution_data : DistributionData)
    (slice_factor : Z) :
  Forall (fun item => (snd item <= 0)%Q) distribution_data ->
  create_slices distribution_data slice_factor = [].
Proof.
  intros H. unfold create_slices, create_slicer_state.
  rewrite slicer_fold_nonpositive by exact H. reflexivity.
Qed.

(** ** The variables [B] *)

Lemma declare_B_spec (worker_units : list WorkerUnit.t) (s0 : pywraplp.Solver)
    (B : gmap string nat) (s : pywraplp.Solver) :
  declare_B worker_units s0 = (B, s) ->
  pywraplp.variables s = pywraplp.variables s0 ++ map B_var worker_units /\
  pywraplp.constraints s = pywraplp.constraints s0 /\
  pywraplp.objective s = pywraplp.objective s0 /\
  pywraplp.minimization s = pywraplp.minimization s0 /\
  (forall k h, B !! k = Some h ->
     exists i w, worker_units !! i = Some w /\ WorkerUnit.id w = k /\
                 h = (length (pywraplp.variables s0) + i)%nat) /\
  (forall w, w ∈ worker_units -> is_Some (B !! WorkerUnit.id w)).
Proof.
  unfold declare_B.
  set (P := fun (pre : list WorkerUnit.t) (st : gmap string nat * pywraplp.Solver) =>
    pywraplp.variables st.2 = pywraplp.variables s0 ++ map B_var pre /\
    pywraplp.constraints st.2 = pywraplp.constraints s0 /\
    pywraplp.objective st.2 = pywraplp.objective s0 /\
    pywraplp.minimization st.2 = pywraplp.minimization s0 /\
    (forall k h, st.1 !! k = Some h ->
       exists i w, pre !! i = Some w /\ WorkerUnit.id w = k /\
                   h = (length (pywraplp.variables s0) + i)%nat) /\
    (forall w, w ∈ pre -> is_Some (st.1 !! WorkerUnit.id w))).
  intros Heq.
  match type of Heq with fold_left ?f _ ?a = _ =>
    assert (HP : P worker_units (fold_left f worker_units a)) end.
  { apply fold_left_inv.
    - unfold P; simpl. rewrite app_nil_r. repeat split; try reflexivity.
      + intros k h Hk. rewrite lookup_empty in Hk. discriminate.
      + intros w Hw. inversion Hw.
    - intros pre x post [B' s'] _ (Hv & Hc & Ho & Hm & Hl & Hd). unfold P; simpl in *.
      rewrite Hv, map_app, app_assoc. repeat split; try assumption; try reflexivity.
      + intros k h Hk. destruct (decide (WorkerUnit.id x = k)) as [<-|Hne].
        * rewrite lookup_insert_eq in Hk. injection Hk as <-.
          exists (length pre), x. rewrite length_app, length_map.
          split; [|split; [reflexivity|reflexivity]].
          rewrite lookup_app_r by lia. rewrite Nat.sub_diag. reflexivity.
        * rewrite lookup_insert_ne in Hk by exact Hne.
          destruct (Hl k h Hk) as (i & w & Hi & Hw & Hh).
          exists i, w. split; [|split; assumption].
          apply lookup_app_l_Some. exact Hi.
      + intros w Hw. apply elem_of_app in Hw as [Hw|Hw].
        * destruct (decide (WorkerUnit.id x = WorkerUnit.id w)) as [->|Hne].
          -- rewrite lookup_insert_eq. eauto.
          -- rewrite lookup_insert_ne by exact Hne. apply Hd, Hw.
        * apply list_elem_of_singleton in Hw as ->. rewrite lookup_insert_eq. eauto. }
  rewrite Heq in HP. exact HP.
Qed.

(** ** The load matrix *)

Lemma load_of_at (profile_data : ProfileData) (s : Slice.t) (w : WorkerUnit.t) :
  load_of profile_data s w = load_at profile_data s (WorkerUnit.id w).
Proof. reflexivity. Qed.

Lemma load_matrix_row_lookup (profile_data : ProfileData)
    (worker_units : list WorkerUnit.t) (lm : gmap (Z * string) float)
    (s : Slice.t) (key : Z * string) :
  load_matrix_row profile_data worker_units lm s !! key =
  if decide (key ∈ map (fun w => (Slice.id s, WorkerUnit.id w)) worker_units)
  then Some (load_at profile_data s key.2) else lm !! key.
Proof.
  unfold load_matrix_row.
  apply (fold_insert_key (fun w => (Slice.id s, WorkerUnit.id w))
           (load_of profile_data s) (fun k => load_at profile_data s k.2)).
  intros w. reflexivity.
Qed.

Lemma elem_of_row_keys (s : Slice.t) (worker_units : list WorkerUnit.t)
    (key : Z * string) :
  key ∈ map (fun w => (Slice.id s, WorkerUnit.id w)) worker_units <->
  key.1 = Slice.id s /\ exists w, w ∈ worker_units /\ WorkerUnit.id w = key.2.
Proof.
  change (map ?f ?l) with (f <$> l). rewrite list_elem_of_fmap. split.
  - intros (w & -> & Hw). simpl. eauto.
  - intros (Hk & w & Hw & Hid). exists w. split; [|exact Hw].
    destruct key; simpl in *; congruence.
Qed.

Lemma build_load_matrix_spec (profile_data : ProfileData) (slices : SliceList)
    (worker_units : list WorkerUnit.t) :
  NoDup (map Slice.id slices) ->
  let lm := build_load_matrix profile_data slices worker_units in
  (forall s w, s ∈ slices -> w ∈ worker_units ->
     lm !! (Slice.id s, WorkerUnit.id w) = Some (load_of profile_data s w)) /\
  (forall key v, lm !! key = Some v ->
     exists s w, s ∈ slices /\ w ∈ worker_units /\
                 key = (Slice.id s, WorkerUnit.id w)).
Proof.
  intros Hnd lm. subst lm. unfold build_load_matrix.
  apply (fold_left_inv (fun pre lm =>
    (forall s w, s ∈ pre -> w ∈ worker_units ->
       lm !! (Slice.id s, WorkerUnit.id w) = Some (load_of profile_data s w)) /\
    (forall key v, lm !! key = Some v ->
       exists s w, s ∈ pre /\ w ∈ worker_units /\
                   key = (Slice.id s, WorkerUnit.id w)))).
  - split.
    + intros s w Hs. inversion Hs.
    + intros key v Hk. rewrite lookup_empty in Hk. discriminate.
  - intros pre x post lm Hxs [Hin Hout]. split.
    + intros s w Hs Hw. rewrite load_matrix_row_lookup.
      apply elem_of_app in Hs as [Hs|Hs].
      * rewrite decide_False; [apply Hin; assumption|].
        rewrite elem_of_row_keys. simpl. intros [Hid _].
        rewrite Hxs, map_app in Hnd. apply NoDup_app in Hnd as (_ & Hdis & _).
        apply (Hdis (Slice.id s)).
        -- in_map_by_eauto.
        -- simpl. rewrite Hid. left.
      * apply list_elem_of_singleton in Hs as ->.
        rewrite decide_True; [reflexivity|].
        rewrite elem_of_row_keys. simpl. eauto.
    + intros key v Hk. rewrite load_matrix_row_lookup in Hk.
      destruct (decide _) as [Hrow|Hrow].
      * apply elem_of_row_keys in Hrow as (Hid & w & Hw & Hwid).
        exists x, w. split; [apply elem_of_app; right; left|]. split; [exact Hw|].
        destruct key; simpl in *; congruence.
      * destruct (Hout key v Hk) as (s & w & Hs & Hw & ->).
        exists s, w. split; [apply elem_of_app; left; exact Hs|]. split; [exact Hw|reflexivity].
Qed.

(** ** The variables [A] *)

Lemma declare_A_worker_inv (load_matrix : gmap (Z * string) float)
    (s0 : pywraplp.Solver) (s : Slice.t) (d : DeclState) (flag : bool)
    (w : WorkerUnit.t) :
  decl_inv load_matrix s0 d ->
  decl_inv load_matrix s0 (declare_A_worker load_matrix s (d, flag) w).1.
Proof.
  intros Hinv. unfold declare_A_worker.
  destruct (is_finite _) eqn:Hfin; [|exact Hinv].
  destruct Hinv as ([extra Hv] & Hc & Ho & Hm & HA).
  unfold decl_inv; simpl. rewrite Hv. repeat split; try assumption.
  - exists (extra ++ [pywraplp.mkVar (Fin 0) (Fin 1)
                       ("A_" +:+ str (Slice.id s) +:+ "_" +:+ WorkerUnit.id w)]).
    rewrite app_assoc. reflexivity.
  - destruct (decide ((Slice.id s, WorkerUnit.id w) = key)) as [<-|Hne];
      [exact Hfin|].
    rewrite lookup_insert_ne in H by exact Hne. apply (HA key h H).
  - destruct (decide ((Slice.id s, WorkerUnit.id w) = key)) as [<-|Hne].
    + rewrite lookup_insert_eq in H. injection H as <-.
      rewrite length_app. lia.
    + rewrite lookup_insert_ne in H by exact Hne. apply (HA key h H).
  - destruct (decide ((Slice.id s, WorkerUnit.id w) = key)) as [<-|Hne].
    + rewrite lookup_insert_eq in H. injection H as <-.
      eexists. split; [apply list_lookup_middle; reflexivity|].
      split; reflexivity.
    + rewrite lookup_insert_ne in H by exact Hne.
      destruct (HA key h H) as (_ & _ & v & Hl & Hb). exists v.
      split; [|exact Hb]. rewrite <- Hv. apply lookup_app_l_Some. exact Hl.
Qed.

Lemma declare_A_workers_inv (load_matrix : gmap (Z * string) float)
    (s0 : pywraplp.Solver) (s : Slice.t) (worker_units : list WorkerUnit.t)
    (st : DeclState * bool) :
  decl_inv load_matrix s0 st.1 ->
  decl_inv load_matrix s0
    (fold_left (declare_A_worker load_matrix s) worker_units st).1.
Proof.
  revert st. induction worker_units as [|w ws IH]; intros [d flag] H;
    [exact H|].
  cbn [fold_left]. apply IH. apply declare_A_worker_inv. exact H.
Qed.

Lemma declare_A_slice_inv (load_matrix : gmap (Z * string) float)
    (s0 : pywraplp.Solver) (worker_units : list WorkerUnit.t)
    (d : DeclState) (s : Slice.t) :
  decl_inv load_matrix s0 d ->
  decl_inv load_matrix s0 (declare_A_slice load_matrix worker_units d s).
Proof.
  intros H. unfold declare_A_slice.
  pose proof (declare_A_workers_inv load_matrix s0 s worker_units (d, false) H)
    as H'.
  destruct (fold_left _ _ _) as [d' flag]. destruct flag; exact H'.
Qed.

Lemma declare_A_inv (load_matrix : gmap (Z * string) float)
    (slices : SliceList) (worker_units : list WorkerUnit.t)
    (s0 : pywraplp.Solver) :
  decl_inv load_matrix s0 (declare_A load_matrix slices worker_units s0).
Proof.
  unfold declare_A.
  assert (H : decl_inv load_matrix s0
                (fold_left (declare_A_slice load_matrix worker_units) slices
                           (mkDecl ∅ s0 false []))).
  { assert (H0 : decl_inv load_matrix s0 (mkDecl ∅ s0 false [])).
    { unfold decl_inv; simpl. repeat split; try reflexivity.
      - exists []. rewrite app_nil_r. reflexivity.
      - rewrite lookup_empty in H. discriminate.
      - rewrite lookup_empty in H. discriminate.
      - rewrite lookup_empty in H. discriminate. }
    revert H0. generalize (mkDecl ∅ s0 false []).
    induction slices as [|s rest IH]; intros d Hd; [exact Hd|].
    cbn [fold_left]. apply IH. apply declare_A_slice_inv. exact Hd. }
  destruct (negb _ && _); exact H.
Qed.

(** Which keys [A] holds, and the flags, after the inner loop for slice [s]. *)
Lemma declare_A_workers_keys (load_matrix : gmap (Z * string) float)
    (s : Slice.t) (worker_units : list WorkerUnit.t) (d0 : DeclState) :
  let st := fold_left (declare_A_worker load_matrix s) worker_units (d0, false) in
  (forall key, is_Some (A st.1 !! key) <->
     is_Some (A d0 !! key) \/
     exists w, w ∈ worker_units /\ candidate load_matrix s w = true /\
               key = (Slice.id s, WorkerUnit.id w)) /\
  st.2 = assignable load_matrix worker_units s /\
  assignable_slices_exist st.1 = assignable_slices_exist d0 || st.2 /\
  warnings st.1 = warnings d0.
Proof.
  intros st. subst st. unfold assignable.
  apply (fold_left_inv (fun pre (st : DeclState * bool) =>
    (forall key, is_Some (A st.1 !! key) <->
       is_Some (A d0 !! key) \/
       exists w, w ∈ pre /\ candidate load_matrix s w = true /\
                 key = (Slice.id s, WorkerUnit.id w)) /\
    st.2 = existsb (candidate load_matrix s) pre /\
    assignable_slices_exist st.1 = assignable_slices_exist d0 || st.2 /\
    warnings st.1 = warnings d0)).
  - simpl. rewrite orb_false_r. repeat split; try tauto.
    intros [?|(w & Hw & _)]; [assumption|inversion Hw].
  - intros pre x post [d flag] _ (Hk & Hf & Ha & Hw).
    unfold declare_A_worker. fold (candidate load_matrix s x).
    rewrite existsb_app. simpl in *. rewrite orb_false_r.
    destruct (candidate load_matrix s x) eqn:Hc; simpl.
    + rewrite !orb_true_r. repeat split; try assumption; try reflexivity.
      * intros Hs. destruct (decide ((Slice.id s, WorkerUnit.id x) = key)) as [<-|Hne].
        -- right. exists x. split; [apply elem_of_app; right; left|]. auto.
        -- rewrite lookup_insert_ne in Hs by exact Hne.
           apply Hk in Hs as [?|(w & Hin & ? & ?)]; [left; assumption|].
           right. exists w. split; [apply elem_of_app; left; exact Hin|]. auto.
      * intros Hs. destruct (decide ((Slice.id s, WorkerUnit.id x) = key)) as [<-|Hne].
        -- rewrite lookup_insert_eq. eauto.
        -- rewrite lookup_insert_ne by exact Hne. apply Hk.
           destruct Hs as [?|(w & Hin & Hcw & ->)]; [left; assumption|].
           apply elem_of_app in Hin as [Hin|Hin]; [right; eauto|].
           apply list_elem_of_singleton in Hin as ->. congruence.
    + rewrite orb_false_r. repeat split; try assumption.
      * intros Hs. apply Hk in Hs as [?|(w & Hin & ? & ?)]; [left; assumption|].
        right. exists w. split; [apply elem_of_app; left; exact Hin|]. auto.
      * intros Hs. apply Hk.
        destruct Hs as [?|(w & Hin & Hcw & ->)]; [left; assumption|].
        apply elem_of_app in Hin as [Hin|Hin]; [right; eauto|].
        apply list_elem_of_singleton in Hin as ->. congruence.
Qed.

(** Which keys [A] holds and what was printed, after both loops. *)
Lemma declare_A_keys (load_matrix : gmap (Z * string) float)
    (slices : SliceList) (worker_units : list WorkerUnit.t)
    (s0 : pywraplp.Solver) :
  let d := declare_A load_matrix slices worker_units s0 in
  (forall key, is_Some (A d !! key) <->
     exists s w, s ∈ slices /\ w ∈ worker_units /\
                 candidate load_matrix s w = true /\
                 key = (Slice.id s, WorkerUnit.id w)) /\
  warnings d =
    map warn (List.filter (fun s => negb (assignable load_matrix worker_units s)) slices)
    ++ (if negb (existsb (assignable load_matrix worker_units) slices)
           && (0 <? Z.of_nat (length slices))
        then [ErrNoSlicesAssignable] else []).
Proof.
  intros d. subst d. unfold declare_A.
  set (P := fun pre (d : DeclState) =>
    (forall key, is_Some (A d !! key) <->
       exists s w, s ∈ pre /\ w ∈ worker_units /\
                   candidate load_matrix s w = true /\
                   key = (Slice.id s, WorkerUnit.id w)) /\
    assignable_slices_exist d = existsb (assignable load_matrix worker_units) pre /\
    warnings d =
      map warn (List.filter (fun s => negb (assignable load_matrix worker_units s)) pre)).
  assert (HP : P slices (fold_left (declare_A_slice load_matrix worker_units) slices
                                   (mkDecl ∅ s0 false []))).
  { apply fold_left_inv.
    - unfold P; simpl. repeat split; try reflexivity.
      + intros [v Hv]. rewrite lookup_empty in Hv. discriminate.
      + intros (s & w & Hs & _). inversion Hs.
    - intros pre x post d _ (Hk & Ha & Hw). unfold declare_A_slice.
      destruct (declare_A_workers_keys load_matrix x worker_units d)
        as (Hk' & Hf' & Ha' & Hw').
      destruct (fold_left _ _ (d, false)) as [d' flag]. simpl in *.
      assert (HA : forall key, is_Some (A d' !! key) <->
                exists s w, s ∈ pre ++ [x] /\ w ∈ worker_units /\
                   candidate load_matrix s w = true /\
                   key = (Slice.id s, WorkerUnit.id w)).
      { intros key. rewrite Hk', Hk. split.
        - intros [(s & w & Hs & ?)|(w & ?)].
          + exists s, w. split; [apply elem_of_app; left; exact Hs|assumption].
          + exists x, w. split; [apply elem_of_app; right; left|assumption].
        - intros (s & w & Hs & Hrest).
          apply elem_of_app in Hs as [Hs|Hs]; [left; eauto|].
          apply list_elem_of_singleton in Hs as ->. right; eauto. }
      unfold P. rewrite existsb_app, List.filter_app, map_app. simpl.
      rewrite orb_false_r, <- Hf'.
      destruct flag; simpl.
      + rewrite app_nil_r. repeat split; try apply HA; try assumption.
        * rewrite Ha', Ha. reflexivity.
        * rewrite Hw', Hw. reflexivity.
      + repeat split; try apply HA.
        * rewrite Ha', Ha. reflexivity.
        * rewrite Hw', Hw. reflexivity. }
  destruct HP as (Hk & Ha & Hw). rewrite Ha.
  destruct (negb _ && _); simpl; rewrite ?app_nil_r; split; assumption || (rewrite Hw; reflexivity).
Qed.

(** ** The constraints and the objective *)

Lemma fold_left_preserves {S X : Type} (Q : S -> Prop) (f : S -> X -> S)
    (xs : list X) (s0 : S) :
  (forall s x, Q s -> Q (f s x)) -> Q s0 -> Q (fold_left f xs s0).
Proof.
  intros Hf. revert s0. induction xs as [|x xs IH]; intros s0 H0; [exact H0|].
  cbn [fold_left]. apply IH, Hf, H0.
Qed.

Lemma Add_inv (vars : list pywraplp.MPVariable) (c : pywraplp.MPConstraint)
    (s : pywraplp.Solver) :
  finite_constraint c -> constraints_inv vars s ->
  constraints_inv vars (pywraplp.Add c s).
Proof.
  intros Hc [Hv Hcs]. split; [exact Hv|]. simpl.
  apply Forall_app. split; [exact Hcs|]. constructor; [exact Hc|constructor].
Qed.

Lemma finite_sum_vars (vars : list nat) : finite_expr (sum_vars vars).
Proof.
  unfold finite_expr, sum_vars. simpl. induction vars; constructor; auto.
Qed.

Lemma finite_var_expr (v : nat) : finite_expr (var_expr v).
Proof. repeat constructor. Qed.

Lemma finite_const_expr (c : Q) : finite_expr (const_expr c).
Proof. constructor. Qed.

Lemma add_assignment_inv (vars : list pywraplp.MPVariable)
    (A : gmap (Z * string) nat) (worker_units : list WorkerUnit.t)
    (solver : pywraplp.Solver) (s : Slice.t) :
  constraints_inv vars solver ->
  constraints_inv vars (add_assignment A worker_units solver s).
Proof.
  intros H. unfold add_assignment. destruct (omap _ _) eqn:E; [exact H|].
  apply Add_inv; [|exact H]. split; [apply finite_sum_vars|apply finite_const_expr].
Qed.

Lemma add_capacity_inv (vars : list pywraplp.MPVariable)
    (A : gmap (Z * string) nat) (B : gmap string nat)
    (load_matrix : gmap (Z * string) float) (slices : SliceList)
    (solver : pywraplp.Solver) (w : WorkerUnit.t) :
  (forall key h, A !! key = Some h ->
     is_finite (default Inf (load_matrix !! key)) = true) ->
  constraints_inv vars solver ->
  constraints_inv vars (add_capacity A B load_matrix slices solver w).
Proof.
  intros HA H. unfold add_capacity.
  match goal with |- context [omap ?f slices] =>
    assert (Hfin : Forall (fun t => is_finite t.1 = true) (omap f slices)) end.
  { induction slices as [|s rest IH]; [constructor|].
    cbn [omap list_omap]. destruct (A !! _) eqn:E; [|exact IH].
    constructor; [|exact IH]. simpl. apply (HA _ _ E). }
  destruct (omap _ _) eqn:E; [exact H|].
  apply Add_inv; [|exact H]. split; [exact Hfin|apply finite_var_expr].
Qed.

Lemma add_limit_inv (vars : list pywraplp.MPVariable) (B : gmap string nat)
    (solver : pywraplp.Solver) (w : WorkerUnit.t) :
  constraints_inv vars solver -> constraints_inv vars (add_limit B solver w).
Proof.
  intros H. unfold add_limit. destruct (WorkerUnit.max_limit w); [|exact H].
  destruct (0 <=? z); [|exact H].
  apply Add_inv; [|exact H]. split; [apply finite_var_expr|apply finite_const_expr].
Qed.

Lemma set_objective_inv (vars : list pywraplp.MPVariable) (B : gmap string nat)
    (worker_units : list WorkerUnit.t) (solver : pywraplp.Solver) :
  constraints_inv vars solver ->
  constraints_inv vars (set_objective B worker_units solver).
Proof.
  intros H. unfold set_objective.
  assert (H' : constraints_inv vars
    (fold_left (fun solver w =>
       pywraplp.SetCoefficient (B !!! WorkerUnit.id w) (WorkerUnit.cost w) solver)
       worker_units solver)).
  { apply fold_left_preserves; [|exact H]. intros s x Hs. exact Hs. }
  exact H'.
Qed.

(** The objective after section 6, as a fold over the coefficient table. *)
Lemma set_objective_objective (B : gmap string nat)
    (worker_units : list WorkerUnit.t) (solver : pywraplp.Solver) :
  pywraplp.objective (set_objective B worker_units solver) =
  fold_left (fun m w => <[B !!! WorkerUnit.id w := WorkerUnit.cost w]> m)
            worker_units (pywraplp.objective solver).
Proof.
  unfold set_objective. simpl. revert solver.
  induction worker_units as [|w ws IH]; intros solver; [reflexivity|].
  cbn [fold_left]. rewrite IH. reflexivity.
Qed.

(** ** The model as built *)

Lemma build_model_unfold (worker_units : list WorkerUnit.t)
    (profile_data : ProfileData) (slices : SliceList) :
  exists B s1,
    declare_B worker_units pywraplp.empty = (B, s1) /\
    let lm := build_load_matrix profile_data slices worker_units in
    let d := declare_A lm slices worker_units s1 in
    build_model worker_units profile_data slices =
    mkBuilt B (A d) lm
      (set_objective B worker_units
         (fold_left (add_limit B) worker_units
            (fold_left (add_capacity (A d) B lm slices) worker_units
               (fold_left (add_assignment (A d) worker_units) slices
                  (decl_solver d)))))
      (warnings d).
Proof.
  unfold build_model. destruct (declare_B worker_units pywraplp.empty) as [B s1].
  exists B, s1. split; reflexivity.
Qed.

(** Sections 5 and 6 leave the variables of the declaration loops alone and
    add constraints with finite coefficients only. *)
Lemma build_model_constraints_inv (worker_units : list WorkerUnit.t)
    (profile_data : ProfileData) (slices : SliceList) (B : gmap string nat)
    (s1 : pywraplp.Solver) :
  declare_B worker_units pywraplp.empty = (B, s1) ->
  let lm := build_load_matrix profile_data slices worker_units in
  let d := declare_A lm slices worker_units s1 in
  constraints_inv (pywraplp.variables (decl_solver d))
    (set_objective B worker_units
       (fold_left (add_limit B) worker_units
          (fold_left (add_capacity (A d) B lm slices) worker_units
             (fold_left (add_assignment (A d) worker_units) slices
                (decl_solver d))))).
Proof.
  intros HB lm d.
  destruct (declare_B_spec _ _ _ _ HB) as (_ & Hc1 & _).
  pose proof (declare_A_inv lm slices worker_units s1) as (_ & Hc & _ & _ & HA).
  fold d in Hc, HA.
  apply set_objective_inv.
  apply fold_left_preserves; [intros; apply add_limit_inv; assumption|].
  apply fold_left_preserves.
  { intros s x Hs. apply add_capacity_inv; [|exact Hs].
    intros key h Hk. apply (HA key h Hk). }
  apply fold_left_preserves; [intros; apply add_assignment_inv; assumption|].
  split; [reflexivity|]. rewrite Hc, Hc1. constructor.
Qed.

(** The handle of [B[w.id]] names the variable declared for that id. *)
Lemma build_model_B (worker_units : list WorkerUnit.t)
    (profile_data : ProfileData) (slices : SliceList) (w : WorkerUnit.t) :
  let b := build_model worker_units profile_data slices in
  w ∈ worker_units ->
  exists h,
    built_B b !! WorkerUnit.id w = Some h /\
    pywraplp.variables (built_model b) !! h = Some (B_var w).
Proof.
  intros b Hw. subst b.
  destruct (build_model_unfold worker_units profile_data slices)
    as (B & s1 & HB & Heq).
  pose proof (build_model_constraints_inv _ profile_data slices _ _ HB) as [Hv _].
  cbv zeta in Heq, Hv. rewrite Heq. cbn [built_B built_model]. rewrite Hv.
  destruct (declare_B_spec _ _ _ _ HB) as (Hv1 & _ & _ & _ & Hh & Hd).
  destruct (Hd w Hw) as [h Hl]. exists h. split; [exact Hl|].
  destruct (Hh _ _ Hl) as (i & w' & Hi & Hid & ->). simpl.
  pose proof (declare_A_inv (build_load_matrix profile_data slices worker_units)
                slices worker_units s1) as ([extra He] & _).
  rewrite He, Hv1. simpl. apply lookup_app_l_Some.
  change (map B_var worker_units) with (B_var <$> worker_units).
  rewrite list_lookup_fmap, Hi. simpl. unfold B_var. rewrite Hid. reflexivity.
Qed.

Lemma build_model_load_matrix (worker_units : list WorkerUnit.t)
    (profile_data : ProfileData) (slices : SliceList) :
  built_load_matrix (build_model worker_units profile_data slices) =
  build_load_matrix profile_data slices worker_units.
Proof.
  destruct (build_model_unfold worker_units profile_data slices)
    as (B & s1 & _ & Heq).
  cbv zeta in Heq. rewrite Heq. reflexivity.
Qed.

(** For the slices and workers of the call, [candidate] on the built load
    matrix is finiteness of [load_of]. *)
Lemma candidate_load_of (worker_units : list WorkerUnit.t)
    (profile_data : ProfileData) (slices : SliceList)
    (s : Slice.t) (w : WorkerUnit.t) :
  NoDup (map Slice.id slices) -> s ∈ slices -> w ∈ worker_units ->
  candidate (build_load_matrix profile_data slices worker_units) s w =
  is_finite (load_of profile_data s w).
Proof.
  intros Hnd Hs Hw. unfold candidate.
  destruct (build_load_matrix_spec profile_data slices worker_units Hnd) as [Hl _].
  rewrite (Hl s w Hs Hw). reflexivity.
Qed.

Lemma build_model_A (worker_units : list WorkerUnit.t)
    (profile_data : ProfileData) (slices : SliceList) (key : Z * string) :
  NoDup (map Slice.id slices) ->
  is_Some (built_A (build_model worker_units profile_data slices) !! key) <->
  exists s w, s ∈ slices /\ w ∈ worker_units /\
              is_finite (load_of profile_data s w) = true /\
              key = (Slice.id s, WorkerUnit.id w).
Proof.
  intros Hnd.
  destruct (build_model_unfold worker_units profile_data slices)
    as (B & s1 & _ & Heq).
  cbv zeta in Heq. rewrite Heq. cbn [built_A].
  destruct (declare_A_keys (build_load_matrix profile_data slices worker_units)
              slices worker_units s1) as [Hk _].
  rewrite Hk. split; intros (s & w & Hs & Hw & Hc & ->); exists s, w;
    repeat split; try assumption.
  - rewrite <- (candidate_load_of worker_units profile_data slices); assumption.
  - rewrite (candidate_load_of worker_units profile_data slices); assumption.
Qed.

Lemma build_model_A_var (worker_units : list WorkerUnit.t)
    (profile_data : ProfileData) (slices : SliceList)
    (key : Z * string) (h : nat) :
  let b := build_model worker_units profile_data slices in
  built_A b !! key = Some h ->
  (length worker_units <= h)%nat /\
  exists v, pywraplp.variables (built_model b) !! h = Some v /\ is_binary v.
Proof.
  intros b. subst b.
  destruct (build_model_unfold worker_units profile_data slices)
    as (B & s1 & HB & Heq).
  pose proof (build_model_constraints_inv _ profile_data slices _ _ HB) as [Hv _].
  cbv zeta in Heq, Hv. rewrite Heq. cbn [built_A built_model]. rewrite Hv.
  intros Hk.
  pose proof (declare_A_inv (build_load_matrix profile_data slices worker_units)
                slices worker_units s1) as (_ & _ & _ & _ & HA).
  destruct (HA key h Hk) as (_ & Hge & Hvar).
  destruct (declare_B_spec _ _ _ _ HB) as (Hv1 & _).
  rewrite Hv1, length_app, length_map in Hge. simpl in Hge.
  split; [lia|exact Hvar].
Qed.

Lemma build_model_finite (worker_units : list WorkerUnit.t)
    (profile_data : ProfileData) (slices : SliceList) :
  Forall finite_constraint
    (pywraplp.constraints (built_model (build_model worker_units profile_data slices))).
Proof.
  destruct (build_model_unfold worker_units profile_data slices)
    as (B & s1 & HB & Heq).
  pose proof (build_model_constraints_inv _ profile_data slices _ _ HB) as [_ Hc].
  cbv zeta in Heq, Hc. rewrite Heq. exact Hc.
Qed.

(** C5. For a slice [s] of the call and a worker [w] of the list, the load
    matrix holds [s.rate_portion / P[w.id, s.request_type_id]] when the
    profile has that key with a value above zero, and [inf] when the key is
    missing or its value is at most zero; [A] has a variable for the pair
    exactly when that load is finite, the variable is a binary one, [A] has
    no other keys, and no constraint of the model has an infinite
    coefficient. *)
Theorem load_and_assignment_variables (worker_units : list WorkerUnit.t)
    (profile_data : ProfileData) (distribution_data : DistributionData)
    (slice_factor : Z) :
  let slices := create_slices distribution_data slice_factor in
  let b := build_model worker_units profile_data slices in
  (forall s w, s ∈ slices -> w ∈ worker_units ->
     let key := (Slice.id s, WorkerUnit.id w) in
     let entry := profile_data !! (WorkerUnit.id w, Slice.request_type_id s) in
     (forall max_tput, entry = Some max_tput -> (0 < max_tput)%Q ->
        built_load_matrix b !! key = Some (Fin (Slice.rate_portion s / max_tput)%Q)) /\
     (entry = None \/ (exists max_tput, entry = Some max_tput /\ (max_tput <= 0)%Q) ->
        built_load_matrix b !! key = Some Inf) /\
     (is_Some (built_A b !! key) <->
        exists load, built_load_matrix b !! key = Some (Fin load)) /\
     (forall h, built_A b !! key = Some h ->
        exists v, pywraplp.variables (built_model b) !! h = Some v /\ is_binary v)) /\
  (forall key, is_Some (built_A b !! key) ->
     exists s w, s ∈ slices /\ w ∈ worker_units /\
                 key = (Slice.id s, WorkerUnit.id w)) /\
  Forall finite_constraint (pywraplp.constraints (built_model b)).
Proof.
  intros slices b.
  pose proof (create_slices_NoDup distribution_data slice_factor) as Hnd.
  fold slices in Hnd.
  destruct (build_load_matrix_spec profile_data slices worker_units Hnd) as [Hl _].
  split; [|split].
  - intros s w Hs Hw key entry. subst b key.
    rewrite build_model_load_matrix, (Hl s w Hs Hw).
    unfold load_of. fold entry.
    split; [|split; [|split]].
    + intros t -> Ht. apply Qlt_bool_true in Ht. rewrite Ht. reflexivity.
    + intros [->|(t & -> & Ht)]; [reflexivity|].
      apply Qlt_bool_false in Ht. rewrite Ht. reflexivity.
    + rewrite build_model_A by exact Hnd. split.
      * intros (s' & w' & Hs' & Hw' & Hfin & Hkey). injection Hkey as Hsid Hwid.
        assert (s' = s) as ->.
        { symmetry. eapply create_slices_id_inj; eassumption. }
        rewrite load_of_at, <- Hwid, <- load_of_at in Hfin.
        unfold load_of in Hfin. fold entry in Hfin.
        destruct entry as [t|]; [|discriminate].
        destruct (Qlt_bool 0 t); [eauto|discriminate].
      * intros [load Hload]. exists s, w. repeat split; try assumption.
        injection Hload as Hload. unfold load_of. fold entry.
        rewrite Hload. reflexivity.
    + intros h Hh. apply (build_model_A_var _ _ _ _ _ Hh).
  - intros key Hk. subst b. apply build_model_A in Hk; [|exact Hnd].
    destruct Hk as (s & w & Hs & Hw & _ & ->). eauto.
  - apply build_model_finite.
Qed.

(** ** The driver *)

Lemma solve_no_slices (backend : pywraplp.Backend)
    (worker_units : list WorkerUnit.t) (profile_data : ProfileData)
    (distribution_data : DistributionData) (slice_factor : Z) :
  create_slices distribution_data slice_factor = [] ->
  solve_provisioning_ilp backend worker_units profile_data distribution_data
                         slice_factor =
  mkRun (Some (zero_counts worker_units), Some ∅, []) [NoRequests].
Proof.
  intros H. unfold solve_provisioning_ilp. rewrite H. reflexivity.
Qed.

Lemma solve_with_slices (Solve : pywraplp.SolveFn)
    (worker_units : list WorkerUnit.t) (profile_data : ProfileData)
    (distribution_data : DistributionData) (slice_factor : Z) :
  let slices := create_slices distribution_data slice_factor in
  let b := build_model worker_units profile_data slices in
  let solution := Solve (built_model b) in
  let value := pywraplp.solution_value solution in
  let out := built_warnings b ++ [Solving (built_model b)] in
  slices <> [] ->
  solve_provisioning_ilp (Some Solve) worker_units profile_data
                         distribution_data slice_factor =
  match pywraplp.status solution with
  | pywraplp.OPTIMAL =>
      mkRun (Some (extract_counts (built_B b) value worker_units),
             Some (extract_assignments (built_A b) value slices worker_units),
             slices)
            (out ++ [OptimalFound])
  | status => mkRun (None, None, slices) (out ++ [NotOptimal status])
  end.
Proof.
  intros slices b solution value out Hne. unfold solve_provisioning_ilp.
  fold slices. destruct slices as [|s rest] eqn:E; [congruence|].
  reflexivity.
Qed.

Lemma zero_counts_lookup (worker_units : list WorkerUnit.t) (k : string) :
  zero_counts worker_units !! k =
  if decide (k ∈ map WorkerUnit.id worker_units) then Some 0 else None.
Proof.
  unfold zero_counts.
  rewrite (fold_insert_key WorkerUnit.id (fun _ => 0) (fun _ => 0)) by reflexivity.
  reflexivity.
Qed.

Lemma extract_counts_lookup (B : gmap string nat) (value : nat -> Q)
    (worker_units : list WorkerUnit.t) (k : string) :
  extract_counts B value worker_units !! k =
  if decide (k ∈ map WorkerUnit.id worker_units)
  then Some (ceil (value (B !!! k) - lit_1e_6)%Q) else None.
Proof.
  unfold extract_counts.
  rewrite (fold_insert_key WorkerUnit.id
             (fun w => ceil (value (B !!! WorkerUnit.id w) - lit_1e_6)%Q)
             (fun k => ceil (value (B !!! k) - lit_1e_6)%Q)) by reflexivity.
  reflexivity.
Qed.

(** A table with an entry for every worker id and no other has the worker
    ids as its key set. *)
Lemma dom_by_ids {V : Type} (m : gmap string V) (g : string -> V)
    (worker_units : list WorkerUnit.t) :
  (forall k, m !! k =
     if decide (k ∈ map WorkerUnit.id worker_units) then Some (g k) else None) ->
  dom m = list_to_set (map WorkerUnit.id worker_units).
Proof.
  intros Hm. apply set_eq. intros k.
  rewrite elem_of_dom, elem_of_list_to_set, Hm.
  destruct (decide _) as [Hin|Hnin]; split; intros H; try assumption; eauto.
  - destruct H; discriminate.
  - contradiction.
Qed.

(** C4. When the demand is empty or has no entry with a rate above zero,
    the call returns, for every backend, counts that send each worker id to
    0 and have no other key, an empty assignment table and an empty slice
    list; its only output is the no-requests message, so the solver is not
    invoked. *)
Theorem empty_demand_plan (backend : pywraplp.Backend)
    (worker_units : list WorkerUnit.t) (profile_data : ProfileData)
    (distribution_data : DistributionData) (slice_factor : Z) :
  Forall (fun item => (snd item <= 0)%Q) distribution_data ->
  let r := solve_provisioning_ilp backend worker_units profile_data
             distribution_data slice_factor in
  exists counts,
    ret r = (Some counts, Some ∅, []) /\
    (forall w, w ∈ worker_units -> counts !! WorkerUnit.id w = Some 0) /\
    dom counts = list_to_set (map WorkerUnit.id worker_units) /\
    out r = [NoRequests] /\
    (forall model, Solving model ∉ out r).
Proof.
  intros Hd r. subst r.
  rewrite solve_no_slices by (apply create_slices_nonpositive; exact Hd).
  exists (zero_counts worker_units). cbn [ret out].
  split; [reflexivity|]. split; [|split; [|split; [reflexivity|]]].
  - intros w Hw. rewrite zero_counts_lookup, decide_True; [reflexivity|].
    in_map_by_eauto.
  - apply (dom_by_ids _ (fun _ => 0)). apply zero_counts_lookup.
  - intros model Hin. apply list_elem_of_singleton in Hin. discriminate.
Qed.

(** C7. When the slice list is not empty and the backend exists, the model
    is handed to the solver, and the call returns a (counts, assignments)
    plan exactly when the status is OPTIMAL; for every other status it
    returns (None, None, slices) with the slices already computed. *)
Theorem only_optimal_yields_plan (Solve : pywraplp.SolveFn)
    (worker_units : list WorkerUnit.t) (profile_data : ProfileData)
    (distribution_data : DistributionData) (slice_factor : Z) :
  let slices := create_slices distribution_data slice_factor in
  let model := built_model (build_model worker_units profile_data slices) in
  let r := solve_provisioning_ilp (Some Solve) worker_units profile_data
             distribution_data slice_factor in
  slices <> [] ->
  Solving model ∈ out r /\
  ((exists counts assignments, ret r = (Some counts, Some assignments, slices))
     <-> pywraplp.status (Solve model) = pywraplp.OPTIMAL) /\
  (pywraplp.status (Solve model) <> pywraplp.OPTIMAL ->
     ret r = (None, None, slices)).
Proof.
  intros slices model r Hne. subst r.
  rewrite solve_with_slices by exact Hne. fold slices model.
  destruct (pywraplp.status (Solve model)) eqn:Hst; cbn [ret out];
    (split; [rewrite !elem_of_app; left; right; left|]);
    (split; [split|]); try congruence; eauto;
    intros (c & a & Heq); discriminate.
Qed.

(** ** Counts *)

Lemma all_in_bounds_lookup (val : nat -> Q) (vs : list pywraplp.MPVariable)
    (i j : nat) (v : pywraplp.MPVariable) :
  pywraplp.all_in_bounds val i vs = true -> vs !! j = Some v ->
  pywraplp.in_bounds val (i + j) v = true.
Proof.
  revert i j. induction vs as [|v0 vs IH]; intros i j Hall Hj; [discriminate|].
  simpl in Hall. apply andb_true_iff in Hall as [H0 Hrest].
  destruct j as [|j]; simpl in Hj.
  - injection Hj as <-. rewrite Nat.add_0_r. exact H0.
  - replace (i + S j)%nat with (S i + j)%nat by lia. apply IH; assumption.
Qed.

(** The rounding of a value that is not below zero is not below zero. *)
Lemma ceil_nonneg (x : Q) : (0 <= x)%Q -> 0 <= ceil (x - lit_1e_6)%Q.
Proof.
  intros Hx. unfold ceil.
  pose proof (Qle_ceiling (x - lit_1e_6)%Q) as Hc.
  assert (Hlt : (inject_Z (-1) < inject_Z (Qceiling (x - lit_1e_6)))%Q).
  { eapply Qlt_le_trans; [|exact Hc]. change (inject_Z (-1)) with (-1 # 1)%Q. lra. }
  rewrite <- Zlt_Qlt in Hlt. lia.
Qed.

(** C10. Whenever the call returns counts, their key set is the set of ids
    of the worker units handed in; and if the values the backend reports
    are within the declared bounds of the variables, every count is an
    integer that is not negative. *)
Theorem counts_keys_and_values (backend : pywraplp.Backend)
    (worker_units : list WorkerUnit.t) (profile_data : ProfileData)
    (distribution_data : DistributionData) (slice_factor : Z)
    (counts : gmap string Z) :
  let slices := create_slices distribution_data slice_factor in
  let model := built_model (build_model worker_units profile_data slices) in
  let r := solve_provisioning_ilp backend worker_units profile_data
             distribution_data slice_factor in
  (ret r).1.1 = Some counts ->
  dom counts = list_to_set (map WorkerUnit.id worker_units) /\
  ((forall Solve, backend = Some Solve ->
      pywraplp.all_in_bounds (pywraplp.solution_value (Solve model)) 0
                             (pywraplp.variables model) = true) ->
   forall k n, counts !! k = Some n -> 0 <= n).
Proof.
  intros slices model r. subst r.
  destruct (decide (slices = [])) as [Hnil|Hne].
  - rewrite solve_no_slices by exact Hnil. cbn [ret fst]. intros [= <-].
    split; [apply (dom_by_ids _ (fun _ => 0)), zero_counts_lookup|].
    intros _ k n Hk. rewrite zero_counts_lookup in Hk.
    destruct (decide _); [|discriminate]. injection Hk as <-. lia.
  - destruct backend as [Solve|].
    2:{ unfold solve_provisioning_ilp. fold slices.
        destruct slices; [congruence|]. cbn. discriminate. }
    rewrite solve_with_slices by exact Hne. fold slices model.
    destruct (pywraplp.status (Solve model)) eqn:Hst; cbn [ret fst];
      try discriminate.
    intros [= <-]. split.
    + eapply dom_by_ids. apply extract_counts_lookup.
    + intros Hb k n Hk. rewrite extract_counts_lookup in Hk.
      destruct (decide _) as [Hin|]; [|discriminate]. injection Hk as <-.
      change (map ?f ?l) with (f <$> l) in Hin.
      apply list_elem_of_fmap in Hin as (w & -> & Hw).
      destruct (build_model_B worker_units profile_data slices w Hw)
        as (h & HB & Hv).
      rewrite (lookup_total_correct _ _ _ HB).
      pose proof (all_in_bounds_lookup _ _ 0 h _ (Hb Solve eq_refl) Hv) as Hin.
      apply andb_true_iff in Hin as [Hge _]. simpl in Hge.
      apply Qle_bool_true in Hge. apply ceil_nonneg. exact Hge.
Qed.

(** ** Assignments *)

Lemma chosen_true (A : gmap (Z * string) nat) (value : nat -> Q)
    (s : Slice.t) (w : WorkerUnit.t) :
  chosen A value s w = true <->
  exists h, A !! (Slice.id s, WorkerUnit.id w) = Some h /\ (lit_0_5 < value h)%Q.
Proof.
  unfold chosen. destruct (A !! _) as [h|].
  - rewrite Qlt_bool_true. split; [eauto|]. intros (h' & [= <-] & H). exact H.
  - split; [discriminate|]. intros (h & Hh & _). discriminate.
Qed.

Lemma chosen_false (A : gmap (Z * string) nat) (value : nat -> Q)
    (s : Slice.t) (w : WorkerUnit.t) :
  chosen A value s w = false <->
  forall h, A !! (Slice.id s, WorkerUnit.id w) = Some h -> (value h <= lit_0_5)%Q.
Proof.
  unfold chosen. destruct (A !! _) as [h|].
  - rewrite Qlt_bool_false. split; [intros H h' [= <-]; exact H|eauto].
  - split; [discriminate|reflexivity].
Qed.

(** [find] stops at the first item that passes the test. *)
Lemma find_first {X : Type} (f : X -> bool) (pre post : list X) (x : X) :
  (forall y, y ∈ pre -> f y = false) -> f x = true ->
  find f (pre ++ x :: post) = Some x.
Proof.
  intros Hpre Hx. induction pre as [|y pre IH]; simpl.
  - rewrite Hx. reflexivity.
  - rewrite (Hpre y) by left. apply IH. intros z Hz. apply Hpre. right. exact Hz.
Qed.

Lemma extract_assignments_lookup (A : gmap (Z * string) nat) (value : nat -> Q)
    (slices : SliceList) (worker_units : list WorkerUnit.t) (s : Slice.t) :
  NoDup (map Slice.id slices) -> s ∈ slices ->
  extract_assignments A value slices worker_units !! Slice.id s =
  WorkerUnit.id <$> find (chosen A value s) worker_units.
Proof.
  intros Hnd Hs. unfold extract_assignments.
  revert s Hs.
  apply (fold_left_inv (fun pre (m : gmap Z string) =>
    (forall s, s ∈ pre ->
       m !! Slice.id s = WorkerUnit.id <$> find (chosen A value s) worker_units) /\
    (forall i, i ∉ map Slice.id pre -> m !! i = None))).
  - split; [intros s Hs; inversion Hs|]. intros i _. apply lookup_empty.
  - intros pre x post m Hxs [Hin Hout].
    assert (Hfresh : Slice.id x ∉ map Slice.id pre).
    { rewrite Hxs, map_app in Hnd. apply NoDup_app in Hnd as (_ & Hdis & _).
      intros Hx. apply (Hdis _ Hx). left. }
    split.
    + intros s Hs. apply elem_of_app in Hs as [Hs|Hs].
      * assert (Hne : Slice.id x <> Slice.id s).
        { intros Heq. apply Hfresh. rewrite Heq.
          in_map_by_eauto. }
        destruct (find _ worker_units);
          [rewrite lookup_insert_ne by exact Hne|]; apply Hin, Hs.
      * apply list_elem_of_singleton in Hs as ->.
        destruct (find _ worker_units); simpl;
          [apply lookup_insert_eq|apply Hout, Hfresh].
    + intros i Hi. rewrite map_app in Hi. simpl in Hi.
      assert (Hne : Slice.id x <> i).
      { intros <-. apply Hi, elem_of_app. right. left. }
      assert (Hpre : i ∉ map Slice.id pre).
      { intros H. apply Hi, elem_of_app. left. exact H. }
      destruct (find _ worker_units);
        [rewrite lookup_insert_ne by exact Hne|]; apply Hout, Hpre.
Qed.

(** ** A solution that meets the model assigns each slice once *)

Lemma terms_value_sum_vars (val : nat -> Q) (vars : list nat) :
  pywraplp.terms_value val (pywraplp.terms (sum_vars vars)) = Some (sum_of val vars).
Proof.
  unfold sum_vars. simpl. induction vars as [|v vars IH]; [reflexivity|].
  simpl. rewrite IH. reflexivity.
Qed.

Lemma sum_of_app (val : nat -> Q) (l1 l2 : list nat) :
  (sum_of val (l1 ++ l2) == sum_of val l1 + sum_of val l2)%Q.
Proof.
  induction l1 as [|v l1 IH]; simpl; [lra|]. rewrite IH. lra.
Qed.

Lemma sum_of_nonneg (val : nat -> Q) (l : list nat) :
  (forall v, v ∈ l -> (0 <= val v)%Q) -> (0 <= sum_of val l)%Q.
Proof.
  induction l as [|v l IH]; intros H; simpl; [lra|].
  pose proof (H v ltac:(left)).
  assert (0 <= sum_of val l)%Q by (apply IH; intros u Hu; apply H; right; exact Hu).
  lra.
Qed.

(** Constraints are only ever appended. *)
Lemma add_assignment_keeps (c : pywraplp.MPConstraint)
    (A : gmap (Z * string) nat) (worker_units : list WorkerUnit.t)
    (solver : pywraplp.Solver) (s : Slice.t) :
  c ∈ pywraplp.constraints solver ->
  c ∈ pywraplp.constraints (add_assignment A worker_units solver s).
Proof.
  intros H. unfold add_assignment. destruct (omap _ _); [exact H|].
  simpl. apply elem_of_app. left. exact H.
Qed.

Lemma add_capacity_keeps (c : pywraplp.MPConstraint)
    (A : gmap (Z * string) nat) (B : gmap string nat)
    (load_matrix : gmap (Z * string) float) (slices : SliceList)
    (solver : pywraplp.Solver) (w : WorkerUnit.t) :
  c ∈ pywraplp.constraints solver ->
  c ∈ pywraplp.constraints (add_capacity A B load_matrix slices solver w).
Proof.
  intros H. unfold add_capacity. destruct (omap _ _); [exact H|].
  simpl. apply elem_of_app. left. exact H.
Qed.

Lemma add_limit_keeps (c : pywraplp.MPConstraint) (B : gmap string nat)
    (solver : pywraplp.Solver) (w : WorkerUnit.t) :
  c ∈ pywraplp.constraints solver ->
  c ∈ pywraplp.constraints (add_limit B solver w).
Proof.
  intros H. unfold add_limit. destruct (WorkerUnit.max_limit w); [|exact H].
  destruct (0 <=? z); [|exact H]. simpl. apply elem_of_app. left. exact H.
Qed.

Lemma set_objective_constraints (B : gmap string nat)
    (worker_units : list WorkerUnit.t) (solver : pywraplp.Solver) :
  pywraplp.constraints (set_objective B worker_units solver) =
  pywraplp.constraints solver.
Proof.
  unfold set_objective. simpl. revert solver.
  induction worker_units as [|w ws IH]; intros solver; [reflexivity|].
  cbn [fold_left]. rewrite IH. reflexivity.
Qed.

(** The assignment constraint of every slice with a candidate is in the
    model. *)
Lemma build_model_assign_constraint (worker_units : list WorkerUnit.t)
    (profile_data : ProfileData) (slices : SliceList) (s : Slice.t) :
  let b := build_model worker_units profile_data slices in
  s ∈ slices ->
  assigned_workers (built_A b) worker_units s <> [] ->
  assign_constraint (built_A b) worker_units s
    ∈ pywraplp.constraints (built_model b).
Proof.
  intros b. subst b.
  destruct (build_model_unfold worker_units profile_data slices)
    as (B & s1 & _ & Heq).
  cbv zeta in Heq. rewrite Heq. cbn [built_A built_model].
  set (lm := build_load_matrix profile_data slices worker_units).
  set (d := declare_A lm slices worker_units s1).
  intros Hs Hne. rewrite set_objective_constraints.
  apply (fold_left_preserves
           (fun solver => assign_constraint (A d) worker_units s
                            ∈ pywraplp.constraints solver)).
  { intros solver w. apply add_limit_keeps. }
  apply (fold_left_preserves
           (fun solver => assign_constraint (A d) worker_units s
                            ∈ pywraplp.constraints solver)).
  { intros solver w. apply add_capacity_keeps. }
  revert s Hs Hne.
  apply (fold_left_inv (fun pre solver =>
    forall s, s ∈ pre -> assigned_workers (A d) worker_units s <> [] ->
      assign_constraint (A d) worker_units s ∈ pywraplp.constraints solver)).
  - intros s Hs. inversion Hs.
  - intros pre x post solver _ IH s Hs Hne.
    apply elem_of_app in Hs as [Hs|Hs].
    + apply add_assignment_keeps, IH; assumption.
    + apply list_elem_of_singleton in Hs as ->.
      unfold add_assignment. fold (assigned_workers (A d) worker_units x).
      destruct (assigned_workers (A d) worker_units x) eqn:E; [congruence|].
      simpl. apply elem_of_app. right. unfold assign_constraint. rewrite E. left.
Qed.

(** Within its bounds and integral, a binary variable is 0 or 1. *)
Lemma binary_value (val : nat -> Q) (model : pywraplp.Solver) (h : nat)
    (v : pywraplp.MPVariable) :
  pywraplp.feasible val model = true ->
  pywraplp.variables model !! h = Some v -> is_binary v ->
  (val h == 0 \/ val h == 1)%Q.
Proof.
  unfold pywraplp.feasible. rewrite !andb_true_iff.
  intros [[Hb Hi] _] Hv [Hlb Hub].
  pose proof (all_in_bounds_lookup val _ 0 h v Hb Hv) as Hin.
  unfold pywraplp.in_bounds in Hin. rewrite Hlb, Hub in Hin. simpl in Hin.
  apply andb_true_iff in Hin as [Hge Hle].
  apply Qle_bool_true in Hge, Hle.
  unfold pywraplp.all_integral in Hi. rewrite forallb_forall in Hi.
  assert (Hint : pywraplp.is_integral (val h) = true).
  { apply Hi, in_seq. apply lookup_lt_Some in Hv. lia. }
  unfold pywraplp.is_integral in Hint. apply Qeq_bool_iff in Hint.
  set (z := Qfloor (val h)) in *.
  assert (Hz : 0 <= z <= 1).
  { split; rewrite Zle_Qle, <- Hint; assumption. }
  assert (Hcase : z = 0 \/ z = 1) by lia.
  destruct Hcase as [Hz0|Hz1]; [left|right]; rewrite Hint.
  - rewrite Hz0. reflexivity.
  - rewrite Hz1. reflexivity.
Qed.

(** Under a valuation that meets the model, two workers at different
    places of the list cannot both have their variable for the same slice
    above 0.5. *)
Lemma feasible_assignment_unique (worker_units : list WorkerUnit.t)
    (profile_data : ProfileData) (slices : SliceList) (val : nat -> Q)
    (s : Slice.t) (pre mid post : list WorkerUnit.t) (w w' : WorkerUnit.t)
    (h h' : nat) :
  let b := build_model worker_units profile_data slices in
  pywraplp.feasible val (built_model b) = true ->
  s ∈ slices ->
  worker_units = pre ++ w :: mid ++ w' :: post ->
  built_A b !! (Slice.id s, WorkerUnit.id w) = Some h ->
  built_A b !! (Slice.id s, WorkerUnit.id w') = Some h' ->
  (lit_0_5 < val h)%Q -> (lit_0_5 < val h')%Q -> False.
Proof.
  intros b Hfeas Hs HW Hh Hh' Hv Hv'.
  set (f := fun w0 => built_A b !! (Slice.id s, WorkerUnit.id w0)).
  assert (Hhs : assigned_workers (built_A b) worker_units s =
                omap f pre ++ h :: omap f mid ++ h' :: omap f post).
  { unfold assigned_workers. fold f. rewrite HW.
    rewrite omap_app. cbn [omap list_omap]. unfold f at 2. rewrite Hh.
    rewrite omap_app. cbn [omap list_omap]. unfold f at 3. rewrite Hh'.
    reflexivity. }
  assert (Hne : assigned_workers (built_A b) worker_units s <> []).
  { rewrite Hhs. destruct (omap f pre); discriminate. }
  pose proof (build_model_assign_constraint worker_units profile_data slices s
                Hs Hne) as Hc.
  fold b in Hc.
  assert (Hholds : pywraplp.holds val (assign_constraint (built_A b) worker_units s)
                   = true).
  { unfold pywraplp.feasible in Hfeas. rewrite !andb_true_iff in Hfeas.
    destruct Hfeas as [_ Hall]. rewrite forallb_forall in Hall.
    apply Hall, list_elem_of_In, Hc. }
  unfold pywraplp.holds, pywraplp.expr_value, assign_constraint in Hholds.
  cbn [pywraplp.lhs pywraplp.rhs pywraplp.rel] in Hholds.
  rewrite terms_value_sum_vars in Hholds. simpl in Hholds.
  apply Qeq_bool_iff in Hholds.
  assert (Hbin : forall v, v ∈ assigned_workers (built_A b) worker_units s ->
                   (val v == 0 \/ val v == 1)%Q).
  { intros v Hin. unfold assigned_workers in Hin.
    apply list_elem_of_omap in Hin as (w0 & _ & Hw0).
    destruct (build_model_A_var worker_units profile_data slices _ _ Hw0)
      as (_ & var & Hvar & Hb).
    exact (binary_value val _ v var Hfeas Hvar Hb). }
  assert (Hpos : forall l, (forall v, v ∈ l ->
                   v ∈ assigned_workers (built_A b) worker_units s) ->
                 (0 <= sum_of val l)%Q).
  { intros l Hl. apply sum_of_nonneg. intros v Hin.
    destruct (Hbin v (Hl v Hin)) as [H0|H1]; lra. }
  rewrite Hhs in Hholds, Hbin, Hpos.
  assert (H1 : (val h == 1)%Q).
  { destruct (Hbin h) as [H0|H1]; [|lra|exact H1].
    apply elem_of_app. right. left. }
  assert (H1' : (val h' == 1)%Q).
  { destruct (Hbin h') as [H0|H1']; [|lra|exact H1'].
    apply elem_of_app. right. right. apply elem_of_app. right. left. }
  rewrite sum_of_app in Hholds. simpl in Hholds.
  rewrite sum_of_app in Hholds. simpl in Hholds.
  assert (Hp1 : (0 <= sum_of val (omap f pre))%Q).
  { apply Hpos. intros v Hin. apply elem_of_app. left. exact Hin. }
  assert (Hp2 : (0 <= sum_of val (omap f mid))%Q).
  { apply Hpos. intros v Hin. apply elem_of_app. right. right.
    apply elem_of_app. left. exact Hin. }
  assert (Hp3 : (0 <= sum_of val (omap f post))%Q).
  { apply Hpos. intros v Hin. apply elem_of_app. right. right.
    apply elem_of_app. right. right. exact Hin. }
  lra.
Qed.

(** C6, as the code has it.  On status OPTIMAL the plan is returned, with
    [counts[w.id]] the ceiling of the value of [B[w.id]] less 1e-6;
    [assignments[s.id]], when present, is a worker whose variable
    [A[s,w]] has a value above 0.5, namely the first such worker in list
    order, and no second place of the list has one when the reported values
    meet the bounds, the integrality and the constraints of the model; a
    slice none of whose variables exceeds 0.5 is left out of
    [assignments], the plan being returned all the same. *)
Theorem optimal_plan_extraction (Solve : pywraplp.SolveFn)
    (worker_units : list WorkerUnit.t) (profile_data : ProfileData)
    (distribution_data : DistributionData) (slice_factor : Z) :
  let slices := create_slices distribution_data slice_factor in
  let b := build_model worker_units profile_data slices in
  let value := pywraplp.solution_value (Solve (built_model b)) in
  let r := solve_provisioning_ilp (Some Solve) worker_units profile_data
             distribution_data slice_factor in
  slices <> [] ->
  pywraplp.status (Solve (built_model b)) = pywraplp.OPTIMAL ->
  exists counts assignments,
    ret r = (Some counts, Some assignments, slices) /\
    (forall w, w ∈ worker_units ->
       exists h,
         built_B b !! WorkerUnit.id w = Some h /\
         pywraplp.variables (built_model b) !! h = Some (B_var w) /\
         counts !! WorkerUnit.id w = Some (Qceiling (value h - lit_1e_6)%Q)) /\
    (forall s, s ∈ slices ->
       (forall x, assignments !! Slice.id s = Some x ->
          exists w h, w ∈ worker_units /\ WorkerUnit.id w = x /\
                      built_A b !! (Slice.id s, x) = Some h /\
                      (lit_0_5 < value h)%Q) /\
       (forall pre w post h,
          worker_units = pre ++ w :: post ->
          built_A b !! (Slice.id s, WorkerUnit.id w) = Some h ->
          (lit_0_5 < value h)%Q ->
          (forall w' h', w' ∈ pre ->
             built_A b !! (Slice.id s, WorkerUnit.id w') = Some h' ->
             (value h' <= lit_0_5)%Q) ->
          assignments !! Slice.id s = Some (WorkerUnit.id w)) /\
       ((forall w h, w ∈ worker_units ->
           built_A b !! (Slice.id s, WorkerUnit.id w) = Some h ->
           (value h <= lit_0_5)%Q) ->
        assignments !! Slice.id s = None) /\
       (pywraplp.feasible value (built_model b) = true ->
        forall pre w mid w' post h h',
          worker_units = pre ++ w :: mid ++ w' :: post ->
          built_A b !! (Slice.id s, WorkerUnit.id w) = Some h ->
          built_A b !! (Slice.id s, WorkerUnit.id w') = Some h' ->
          ~ ((lit_0_5 < value h)%Q /\ (lit_0_5 < value h')%Q))).
Proof.
  intros slices b value r Hne Hst. subst r.
  rewrite solve_with_slices by exact Hne. fold slices b. rewrite Hst.
  fold value. cbn [ret]. eexists _, _. split; [reflexivity|].
  pose proof (create_slices_NoDup distribution_data slice_factor) as Hnd.
  fold slices in Hnd. split.
  - intros w Hw.
    destruct (build_model_B worker_units profile_data slices w Hw)
      as (h & HB & Hv).
    exists h. split; [exact HB|]. split; [exact Hv|].
    rewrite extract_counts_lookup, decide_True.
    + rewrite (lookup_total_correct _ _ _ HB). reflexivity.
    + in_map_by_eauto.
  - intros s Hs. rewrite extract_assignments_lookup by assumption.
    split; [|split; [|split]].
    + intros x Hx. destruct (find _ worker_units) as [w|] eqn:Hf; [|discriminate].
      injection Hx as <-. apply find_some in Hf as [Hin Hc].
      apply chosen_true in Hc as (h & Hh & Hv).
      exists w, h. rewrite <- list_elem_of_In in Hin. auto.
    + intros pre w post h -> Hh Hv Hpre. rewrite (find_first _ pre post w).
      * reflexivity.
      * intros w' Hw'. apply chosen_false. intros h'. apply Hpre, Hw'.
      * apply chosen_true. eauto.
    + intros Hall. destruct (find _ worker_units) as [w|] eqn:Hf; [|reflexivity].
      apply find_some in Hf as [Hin Hc].
      apply chosen_true in Hc as (h & Hh & Hv).
      rewrite <- list_elem_of_In in Hin. pose proof (Hall w h Hin Hh). lra.
    + intros Hfeas pre w mid w' post h h' HW Hh Hh' [Hv Hv'].
      exact (feasible_assignment_unique worker_units profile_data slices value
               s pre mid post w w' h h' Hfeas Hs HW Hh Hh' Hv Hv').
Qed.

(** ** Inputs the driver does not reject *)

(** The slicing step reads [slice_factor] through its clamp only. *)
Lemma slicer_step_clamp (st1 st2 : SlicerState) (item : string * Q) :
  slices st1 = slices st2 ->
  slice_id_counter st1 = slice_id_counter st2 ->
  Z.max (slice_factor st1) 1 = Z.max (slice_factor st2) 1 ->
  slices (slicer_step st1 item) = slices (slicer_step st2 item) /\
  slice_id_counter (slicer_step st1 item) = slice_id_counter (slicer_step st2 item) /\
  Z.max (slice_factor (slicer_step st1 item)) 1 =
    Z.max (slice_factor (slicer_step st2 item)) 1.
Proof.
  intros Hs Hc Hk. destruct item as [req rate]. unfold slicer_step.
  destruct (Qle_bool rate 0); [auto|].
  assert (Hclamp : (if slice_factor st1 <=? 0 then 1 else slice_factor st1) =
                   (if slice_factor st2 <=? 0 then 1 else slice_factor st2)).
  { destruct (Z.leb_spec (slice_factor st1) 0), (Z.leb_spec (slice_factor st2) 0); lia. }
  rewrite Hclamp, Hs, Hc.
  destruct (Qlt_bool _ _); [destruct (Qlt_bool _ _)|]; simpl; auto.
Qed.

Lemma create_slices_clamp (distribution_data : DistributionData) (factor : Z) :
  factor < 1 ->
  create_slices distribution_data factor = create_slices distribution_data 1.
Proof.
  intros Hsf. unfold create_slices, create_slicer_state.
  assert (H : forall st1 st2,
    slices st1 = slices st2 ->
    slice_id_counter st1 = slice_id_counter st2 ->
    Z.max (slice_factor st1) 1 = Z.max (slice_factor st2) 1 ->
    slices (fold_left slicer_step distribution_data st1) =
    slices (fold_left slicer_step distribution_data st2)).
  { induction distribution_data as [|item rest IH]; intros st1 st2 Hs Hc Hk;
      [exact Hs|].
    cbn [fold_left].
    destruct (slicer_step_clamp st1 st2 item Hs Hc Hk) as (Hs' & Hc' & Hk').
    apply IH; assumption. }
  apply H; simpl; try reflexivity. lia.
Qed.

Lemma create_slices_skip (before after : DistributionData) (req : string)
    (rate : Q) (slice_factor : Z) :
  (rate <= 0)%Q ->
  create_slices (before ++ (req, rate) :: after) slice_factor =
  create_slices (before ++ after) slice_factor.
Proof.
  intros Hr. unfold create_slices, create_slicer_state.
  rewrite !fold_left_app. cbn [fold_left].
  rewrite slicer_step_nonpositive by exact Hr. reflexivity.
Qed.

(** The driver reads the demand and the slice factor through the slice
    list only. *)
Lemma solve_by_slices (backend : pywraplp.Backend)
    (worker_units : list WorkerUnit.t) (profile_data : ProfileData)
    (d1 d2 : DistributionData) (f1 f2 : Z) :
  create_slices d1 f1 = create_slices d2 f2 ->
  solve_provisioning_ilp backend worker_units profile_data d1 f1 =
  solve_provisioning_ilp backend worker_units profile_data d2 f2.
Proof. intros H. unfold solve_provisioning_ilp. rewrite H. reflexivity. Qed.

(** Inserting under [key x] for every [x] of a list, values at will. *)
Lemma fold_insert_Some `{Countable K} {X V : Type} (key : X -> K) (f : X -> V)
    (xs : list X) (m : gmap K V) (k : K) (v : V) :
  fold_left (fun d x => <[key x := f x]> d) xs m !! k = Some v ->
  (exists x, x ∈ xs /\ key x = k /\ f x = v) \/ m !! k = Some v.
Proof.
  revert m. induction xs as [|x xs IH]; intros m Hk; [right; exact Hk|].
  cbn [fold_left] in Hk. apply IH in Hk as [(y & Hy & Hky & Hfy)|Hk].
  - left. exists y. split; [right; exact Hy|auto].
  - destruct (decide (key x = k)) as [Heq|Hne].
    + rewrite <- Heq, lookup_insert_eq in Hk. injection Hk as <-.
      left. exists x. split; [left|auto].
    + rewrite lookup_insert_ne in Hk by exact Hne. right. exact Hk.
Qed.

Lemma fold_insert_is_Some `{Countable K} {X V : Type} (key : X -> K) (f : X -> V)
    (xs : list X) (m : gmap K V) (k : K) :
  is_Some (m !! k) \/ k ∈ map key xs ->
  is_Some (fold_left (fun d x => <[key x := f x]> d) xs m !! k).
Proof.
  revert m. induction xs as [|x xs IH]; intros m Hk.
  - destruct Hk as [Hk|Hk]; [exact Hk|inversion Hk].
  - cbn [fold_left]. apply IH. destruct Hk as [Hk|Hk].
    + left. destruct (decide (key x = k)) as [<-|Hne].
      * rewrite lookup_insert_eq. eauto.
      * rewrite lookup_insert_ne by exact Hne. exact Hk.
    + apply elem_of_cons in Hk as [->|Hk]; [|right; exact Hk].
      left. rewrite lookup_insert_eq. eauto.
Qed.

(** The objective of the built model: the coefficient of [B[w.id]] is the
    cost of a worker with that id. *)
Lemma build_model_objective (worker_units : list WorkerUnit.t)
    (profile_data : ProfileData) (slices : SliceList) (w : WorkerUnit.t) :
  let b := build_model worker_units profile_data slices in
  w ∈ worker_units ->
  exists h w',
    built_B b !! WorkerUnit.id w = Some h /\
    w' ∈ worker_units /\ WorkerUnit.id w' = WorkerUnit.id w /\
    pywraplp.objective (built_model b) !! h = Some (WorkerUnit.cost w').
Proof.
  intros b Hw. subst b.
  destruct (build_model_unfold worker_units profile_data slices)
    as (B & s1 & HB & Heq).
  cbv zeta in Heq. rewrite Heq. cbn [built_B built_model].
  destruct (declare_B_spec _ _ _ _ HB) as (_ & _ & _ & _ & Hh & Hd).
  destruct (Hd w Hw) as [h Hl]. exists h.
  rewrite set_objective_objective.
  match goal with |- context [fold_left ?f worker_units ?m0] =>
    destruct (fold_insert_is_Some
                (fun w => B !!! WorkerUnit.id w) WorkerUnit.cost worker_units m0 h)
      as [c Hc] end.
  { right. change (map ?f ?l) with (f <$> l). apply list_elem_of_fmap.
    exists w. split; [|exact Hw]. rewrite (lookup_total_correct _ _ _ Hl). reflexivity. }
  pose proof Hc as Hc'. apply fold_insert_Some in Hc' as [(w' & Hw' & Hk & Hcost)|Hm0].
  - exists w'. split; [exact Hl|]. split; [exact Hw'|]. split; [|rewrite Hc, Hcost; reflexivity].
    destruct (Hd w' Hw') as [h' Hl'].
    rewrite (lookup_total_correct _ _ _ Hl') in Hk. subst h'.
    destruct (Hh _ _ Hl) as (i & x & Hi & Hx & Hhi).
    destruct (Hh _ _ Hl') as (i' & x' & Hi' & Hx' & Hhi').
    assert (i = i') by lia. subst i'. congruence.
  - exfalso. revert Hm0.
    assert (Hobj : forall s, pywraplp.objective s = ∅ ->
              pywraplp.objective s !! h = Some c -> False).
    { intros s -> Hs. rewrite lookup_empty in Hs. discriminate. }
    apply Hobj.
    apply (fold_left_preserves (fun s => pywraplp.objective s = ∅)).
    { intros s x Hs. unfold add_limit. destruct (WorkerUnit.max_limit x); [|exact Hs].
      destruct (0 <=? z); exact Hs. }
    apply (fold_left_preserves (fun s => pywraplp.objective s = ∅)).
    { intros s x Hs. unfold add_capacity. destruct (omap _ _); exact Hs. }
    apply (fold_left_preserves (fun s => pywraplp.objective s = ∅)).
    { intros s x Hs. unfold add_assignment. destruct (omap _ _); exact Hs. }
    pose proof (declare_A_inv (build_load_matrix profile_data slices worker_units)
                  slices worker_units s1) as (_ & _ & Ho & _).
    rewrite Ho. destruct (declare_B_spec _ _ _ _ HB) as (_ & _ & Ho1 & _).
    rewrite Ho1. reflexivity.
Qed.

(** ** C2 *)

(** C2 fails as stated: a call with slice factor 0, a call with a negative
    rate in the demand and a call with a negative worker cost each build
    the model, hand it to the solver and return the plan the answer
    gives. *)
Lemma invalid_input_not_rejected :
  let r0 := solve_provisioning_ilp (Some backend_exact) [worker_A] profile_A
              demand_R1 0 in
  let r1 := solve_provisioning_ilp (Some backend_exact) [worker_A] profile_A
              (("R2", (-3)%Q) :: demand_R1) 1 in
  let r2 := solve_provisioning_ilp (Some backend_exact) [worker_rebate] profile_A
              demand_R1 1 in
  (ret r0 = (Some {[ "A" := 2 ]}, Some {[ 0 := "A" ]}, [slice_R1]) /\
   out r0 = [Solving (built_model (build_model [worker_A] profile_A [slice_R1]));
             OptimalFound]) /\
  (ret r1 = (Some {[ "A" := 2 ]}, Some {[ 0 := "A" ]}, [slice_R1]) /\
   out r1 = [Solving (built_model (build_model [worker_A] profile_A [slice_R1]));
             OptimalFound]) /\
  (ret r2 = (Some {[ "A" := 2 ]}, Some {[ 0 := "A" ]}, [slice_R1]) /\
   out r2 = [Solving (built_model (build_model [worker_rebate] profile_A [slice_R1]));
             OptimalFound]).
Proof. repeat split; reflexivity. Qed.

(** C2, as the code has it.  Nothing is rejected: a slice factor below 1
    gives the run of slice factor 1; a demand entry with a rate of zero or
    less gives the run without that entry; and the cost of a worker,
    whatever its sign, is the objective coefficient of the variable of its
    id. *)
Theorem invalid_input_handling (backend : pywraplp.Backend)
    (worker_units : list WorkerUnit.t) (profile_data : ProfileData) :
  (forall distribution_data factor,
     factor < 1 ->
     solve_provisioning_ilp backend worker_units profile_data distribution_data factor =
     solve_provisioning_ilp backend worker_units profile_data distribution_data 1) /\
  (forall before after req rate factor,
     (rate <= 0)%Q ->
     solve_provisioning_ilp backend worker_units profile_data
       (before ++ (req, rate) :: after) factor =
     solve_provisioning_ilp backend worker_units profile_data
       (before ++ after) factor) /\
  (forall slices w,
     w ∈ worker_units ->
     let b := build_model worker_units profile_data slices in
     exists h w',
       built_B b !! WorkerUnit.id w = Some h /\
       w' ∈ worker_units /\ WorkerUnit.id w' = WorkerUnit.id w /\
       pywraplp.objective (built_model b) !! h = Some (WorkerUnit.cost w')).
Proof.
  split; [|split].
  - intros d f Hf. apply solve_by_slices, create_slices_clamp, Hf.
  - intros before after req rate f Hr. apply solve_by_slices, create_slices_skip, Hr.
  - intros slices w Hw. apply build_model_objective, Hw.
Qed.

Lemma invalid_input_handling_witness :
  (0 < 1 /\ (-3 <= 0)%Q /\ worker_rebate ∈ [worker_rebate]) /\
  solve_provisioning_ilp (Some backend_exact) [worker_rebate] profile_A demand_R1 0 =
  solve_provisioning_ilp (Some backend_exact) [worker_rebate] profile_A demand_R1 1 /\
  solve_provisioning_ilp (Some backend_exact) [worker_rebate] profile_A
    ([] ++ ("R2", (-3)%Q) :: demand_R1) 1 =
  solve_provisioning_ilp (Some backend_exact) [worker_rebate] profile_A
    ([] ++ demand_R1) 1 /\
  exists h w',
    built_B (build_model [worker_rebate] profile_A [slice_R1]) !! "A" = Some h /\
    w' ∈ [worker_rebate] /\ WorkerUnit.id w' = "A" /\
    pywraplp.objective (built_model (build_model [worker_rebate] profile_A [slice_R1]))
      !! h = Some (WorkerUnit.cost w').
Proof.
  pose proof (invalid_input_handling (Some backend_exact) [worker_rebate] profile_A)
    as (H1 & H2 & H3).
  split; [split; [lia|split; [discriminate|left]]|].
  split; [apply H1; lia|].
  split; [apply H2; discriminate|].
  apply (H3 [slice_R1] worker_rebate). left.
Defined.

(** ** C6 *)

(** C6 fails as stated: with status OPTIMAL and the only assignment
    variable of the slice at 0.5, the call does not fail; it returns the
    counts and an assignment table without the slice. *)
Lemma fractional_solution_returns_plan :
  let slices := create_slices demand_R1 1 in
  let b := build_model [worker_A] profile_A slices in
  let value := pywraplp.solution_value (backend_fractional (built_model b)) in
  let r := solve_provisioning_ilp (Some backend_fractional) [worker_A] profile_A
             demand_R1 1 in
  pywraplp.status (backend_fractional (built_model b)) = pywraplp.OPTIMAL /\
  slices = [slice_R1] /\
  built_A b !! (0, "A") = Some 1%nat /\
  (value 1%nat <= lit_0_5)%Q /\
  ret r = (Some {[ "A" := 2 ]}, Some ∅, [slice_R1]) /\
  ret r <> (None, None, [slice_R1]).
Proof. repeat split; try reflexivity; discriminate. Qed.

Lemma optimal_plan_extraction_witness :
  let slices := create_slices demand_R1 1 in
  let b := build_model [worker_A] profile_A slices in
  let value := pywraplp.solution_value (backend_exact (built_model b)) in
  let r := solve_provisioning_ilp (Some backend_exact) [worker_A] profile_A
             demand_R1 1 in
  (slices <> [] /\
   pywraplp.status (backend_exact (built_model b)) = pywraplp.OPTIMAL /\
   slice_R1 ∈ slices /\ worker_A ∈ [worker_A] /\
   built_A b !! (0, "A") = Some 1%nat /\ (lit_0_5 < value 1%nat)%Q /\
   pywraplp.feasible value (built_model b) = true) /\
  exists counts assignments,
    ret r = (Some counts, Some assignments, slices) /\
    (exists h, built_B b !! "A" = Some h /\
               counts !! "A" = Some (Qceiling (value h - lit_1e_6)%Q)) /\
    assignments !! 0 = Some "A".
Proof.
  intros slices b value r.
  assert (Hne : slices <> []) by discriminate.
  assert (Hst : pywraplp.status (backend_exact (built_model b)) = pywraplp.OPTIMAL)
    by reflexivity.
  assert (Hs : slice_R1 ∈ slices) by left.
  assert (Hw : worker_A ∈ [worker_A]) by left.
  assert (HA : built_A b !! (0, "A") = Some 1%nat) by reflexivity.
  assert (Hv : (lit_0_5 < value 1%nat)%Q) by reflexivity.
  assert (Hf : pywraplp.feasible value (built_model b) = true) by reflexivity.
  split; [repeat split; assumption|].
  destruct (optimal_plan_extraction backend_exact [worker_A] profile_A demand_R1 1
              Hne Hst) as (counts & assignments & Hret & Hcounts & Hassign).
  exists counts, assignments. split; [exact Hret|]. split.
  - destruct (Hcounts worker_A Hw) as (h & HB & _ & Hc). exists h. split; assumption.
  - destruct (Hassign slice_R1 Hs) as (_ & Hfirst & _).
    apply (Hfirst [] worker_A [] 1%nat eq_refl HA Hv).
    intros w' h' Hin. inversion Hin.
Defined.

(** ** C8 *)

Lemma find_ext_in {X : Type} (f g : X -> bool) (xs : list X) :
  (forall x, x ∈ xs -> f x = g x) -> find f xs = find g xs.
Proof.
  induction xs as [|x xs IH]; intros H; [reflexivity|]. simpl.
  rewrite (H x) by left. destruct (g x); [reflexivity|].
  apply IH. intros y Hy. apply H. right. exact Hy.
Qed.

(** The extracted plan reads the backend's values at the handles of the
    model only. *)
Lemma extract_counts_ext (B : gmap string nat) (v1 v2 : nat -> Q)
    (worker_units : list WorkerUnit.t) :
  (forall w, w ∈ worker_units ->
     v1 (B !!! WorkerUnit.id w) = v2 (B !!! WorkerUnit.id w)) ->
  extract_counts B v1 worker_units = extract_counts B v2 worker_units.
Proof.
  intros H. apply map_eq. intros k. rewrite !extract_counts_lookup.
  destruct (decide _) as [Hin|]; [|reflexivity].
  change (map ?f ?l) with (f <$> l) in Hin.
  apply list_elem_of_fmap in Hin as (w & -> & Hw). rewrite (H w Hw). reflexivity.
Qed.

Lemma extract_assignments_ext (A : gmap (Z * string) nat) (v1 v2 : nat -> Q)
    (slices : SliceList) (worker_units : list WorkerUnit.t) :
  (forall key h, A !! key = Some h -> v1 h = v2 h) ->
  extract_assignments A v1 slices worker_units =
  extract_assignments A v2 slices worker_units.
Proof.
  intros H. unfold extract_assignments. generalize (∅ : gmap Z string).
  induction slices as [|s rest IH]; intros m; [reflexivity|].
  cbn [fold_left]. rewrite IH.
  rewrite (find_ext_in (chosen A v1 s) (chosen A v2 s)); [reflexivity|].
  intros w _. unfold chosen. destruct (A !! _) as [h|] eqn:E; [|reflexivity].
  rewrite (H _ _ E). reflexivity.
Qed.

(** The calls the driver makes on the solver object leave its parameters
    as they are. *)
Lemma declare_B_parameters (worker_units : list WorkerUnit.t)
    (solver : pywraplp.Solver) :
  pywraplp.solver_specific_parameters (declare_B worker_units solver).2 =
  pywraplp.solver_specific_parameters solver.
Proof.
  unfold declare_B. generalize (∅ : gmap string nat). revert solver.
  induction worker_units as [|w ws IH]; intros solver B; [reflexivity|].
  cbn [fold_left pywraplp.IntVar]. rewrite IH. reflexivity.
Qed.

Lemma declare_A_parameters (load_matrix : gmap (Z * string) float)
    (slices : SliceList) (worker_units : list WorkerUnit.t)
    (solver : pywraplp.Solver) :
  pywraplp.solver_specific_parameters
    (decl_solver (declare_A load_matrix slices worker_units solver)) =
  pywraplp.solver_specific_parameters solver.
Proof.
  unfold declare_A.
  match goal with |- context [fold_left ?f slices ?d0] =>
    assert (H : pywraplp.solver_specific_parameters
                  (decl_solver (fold_left f slices d0)) =
                pywraplp.solver_specific_parameters solver) end.
  { apply (fold_left_preserves
             (fun d => pywraplp.solver_specific_parameters (decl_solver d) =
                       pywraplp.solver_specific_parameters solver));
      [|reflexivity].
    intros d s Hd. unfold declare_A_slice.
    match goal with |- context [fold_left ?g worker_units ?st0] =>
      assert (Hw : pywraplp.solver_specific_parameters
                     (decl_solver (fold_left g worker_units st0).1) =
                   pywraplp.solver_specific_parameters solver) end.
    { apply (fold_left_preserves
               (fun st : DeclState * bool =>
                  pywraplp.solver_specific_parameters (decl_solver st.1) =
                  pywraplp.solver_specific_parameters solver));
        [|exact Hd].
      intros [d' flag] w Hd'. unfold declare_A_worker.
      destruct (is_finite _); [|exact Hd']. exact Hd'. }
    destruct (fold_left _ worker_units _) as [d' flag].
    destruct flag; exact Hw. }
  destruct (_ && _); exact H.
Qed.

Lemma add_assignment_parameters (A : gmap (Z * string) nat)
    (worker_units : list WorkerUnit.t) (solver : pywraplp.Solver) (s : Slice.t) :
  pywraplp.solver_specific_parameters (add_assignment A worker_units solver s) =
  pywraplp.solver_specific_parameters solver.
Proof. unfold add_assignment. destruct (omap _ _); reflexivity. Qed.

Lemma add_capacity_parameters (A : gmap (Z * string) nat) (B : gmap string nat)
    (load_matrix : gmap (Z * string) float) (slices : SliceList)
    (solver : pywraplp.Solver) (w : WorkerUnit.t) :
  pywraplp.solver_specific_parameters
    (add_capacity A B load_matrix slices solver w) =
  pywraplp.solver_specific_parameters solver.
Proof. unfold add_capacity. destruct (omap _ _); reflexivity. Qed.

Lemma add_limit_parameters (B : gmap string nat) (solver : pywraplp.Solver)
    (w : WorkerUnit.t) :
  pywraplp.solver_specific_parameters (add_limit B solver w) =
  pywraplp.solver_specific_parameters solver.
Proof.
  unfold add_limit. destruct (WorkerUnit.max_limit w) as [l|]; [|reflexivity].
  destruct (0 <=? l); reflexivity.
Qed.

Lemma set_objective_parameters (B : gmap string nat)
    (worker_units : list WorkerUnit.t) (solver : pywraplp.Solver) :
  pywraplp.solver_specific_parameters (set_objective B worker_units solver) =
  pywraplp.solver_specific_parameters solver.
Proof.
  unfold set_objective. cbn [pywraplp.SetMinimization
    pywraplp.solver_specific_parameters].
  apply (fold_left_preserves
           (fun s => pywraplp.solver_specific_parameters s =
                     pywraplp.solver_specific_parameters solver));
    [|reflexivity].
  intros s w Hs. exact Hs.
Qed.

(** The solver object handed to [Solve] has the parameters of a new
    solver: none. *)
Lemma build_model_parameters (worker_units : list WorkerUnit.t)
    (profile_data : ProfileData) (slices : SliceList) :
  pywraplp.solver_specific_parameters
    (built_model (build_model worker_units profile_data slices)) = "".
Proof.
  destruct (build_model_unfold worker_units profile_data slices)
    as (B & s1 & HB & Heq).
  cbv zeta in Heq. rewrite Heq. cbn [built_model].
  rewrite set_objective_parameters.
  rewrite (fold_left_preserves
             (fun s => pywraplp.solver_specific_parameters s = "")
             (add_limit B) worker_units); [reflexivity| |].
  { intros s w Hs. rewrite add_limit_parameters. exact Hs. }
  apply fold_left_preserves.
  { intros s w Hs. rewrite add_capacity_parameters. exact Hs. }
  apply fold_left_preserves.
  { intros s w Hs. rewrite add_assignment_parameters. exact Hs. }
  rewrite declare_A_parameters.
  pose proof (declare_B_parameters worker_units pywraplp.empty) as HP.
  rewrite HB in HP. exact HP.
Qed.

(** C8, as the code has it.  The driver hands the backend no seed and no
    parameter: the solver object [Solve()] is called on carries the empty
    parameter text of a new solver, whatever the input.  What the code
    fixes is this: the slices do not depend on the backend, and two runs
    on the same input in which the backend reports the same status and
    the same values for the variables of the model return the same
    result and print the same diagnostics. *)
Theorem no_seed_reaches_backend (Solve1 Solve2 : pywraplp.SolveFn)
    (worker_units : list WorkerUnit.t) (profile_data : ProfileData)
    (distribution_data : DistributionData) (slice_factor : Z) :
  let slices := create_slices distribution_data slice_factor in
  let model := built_model (build_model worker_units profile_data slices) in
  let r1 := solve_provisioning_ilp (Some Solve1) worker_units profile_data
              distribution_data slice_factor in
  let r2 := solve_provisioning_ilp (Some Solve2) worker_units profile_data
              distribution_data slice_factor in
  pywraplp.solver_specific_parameters model = "" /\
  (slices <> [] -> Solving model ∈ out r1 /\ Solving model ∈ out r2) /\
  (ret r1).2 = slices /\ (ret r2).2 = slices /\
  (pywraplp.status (Solve1 model) = pywraplp.status (Solve2 model) ->
   (forall h, (h < length (pywraplp.variables model))%nat ->
      pywraplp.solution_value (Solve1 model) h =
      pywraplp.solution_value (Solve2 model) h) ->
   r1 = r2).
Proof.
  intros slices model r1 r2. subst r1 r2.
  split; [apply build_model_parameters|].
  destruct (decide (slices = [])) as [Hnil|Hne].
  { rewrite !solve_no_slices by exact Hnil. fold slices. rewrite Hnil.
    split; [intros H; contradiction|]. auto. }
  rewrite !solve_with_slices by exact Hne. fold slices model.
  split.
  { intros _. split.
    - destruct (pywraplp.status (Solve1 model)); cbn [out];
        rewrite !elem_of_app, list_elem_of_singleton; auto.
    - destruct (pywraplp.status (Solve2 model)); cbn [out];
        rewrite !elem_of_app, list_elem_of_singleton; auto. }
  split; [destruct (pywraplp.status (Solve1 model)); reflexivity|].
  split; [destruct (pywraplp.status (Solve2 model)); reflexivity|].
  intros Hst Hval. rewrite <- Hst.
  destruct (pywraplp.status (Solve1 model)); try reflexivity.
  rewrite (extract_counts_ext _ _ (pywraplp.solution_value (Solve2 model))).
  - rewrite (extract_assignments_ext _ _ (pywraplp.solution_value (Solve2 model)));
      [reflexivity|].
    intros key h Hk. apply Hval.
    destruct (build_model_A_var worker_units profile_data slices key h Hk)
      as (_ & v & Hv & _).
    apply lookup_lt_Some in Hv. exact Hv.
  - intros w Hw.
    destruct (build_model_B worker_units profile_data slices w Hw) as (h & HB & Hv).
    rewrite (lookup_total_correct _ _ _ HB). apply Hval.
    apply lookup_lt_Some in Hv. exact Hv.
Qed.

Lemma no_seed_reaches_backend_witness :
  let slices := create_slices demand_R1 1 in
  let model := built_model (build_model [worker_A] profile_A slices) in
  let r1 := solve_provisioning_ilp (Some backend_exact) [worker_A] profile_A
              demand_R1 1 in
  let r2 := solve_provisioning_ilp
              (Some (fun m => backend_exact pywraplp.empty)) [worker_A] profile_A
              demand_R1 1 in
  (slices <> [] /\
   pywraplp.status (backend_exact model) =
   pywraplp.status (backend_exact pywraplp.empty) /\
   (forall h, (h < length (pywraplp.variables model))%nat ->
      pywraplp.solution_value (backend_exact model) h =
      pywraplp.solution_value (backend_exact pywraplp.empty) h)) /\
  pywraplp.solver_specific_parameters model = "" /\
  Solving model ∈ out r1 /\ Solving model ∈ out r2 /\
  (ret r1).2 = slices /\ (ret r2).2 = slices /\ r1 = r2.
Proof.
  intros slices model r1 r2.
  assert (Hne : slices <> []) by discriminate.
  assert (Hst : pywraplp.status (backend_exact model) =
                pywraplp.status (backend_exact pywraplp.empty)) by reflexivity.
  assert (Hval : forall h, (h < length (pywraplp.variables model))%nat ->
     pywraplp.solution_value (backend_exact model) h =
     pywraplp.solution_value (backend_exact pywraplp.empty) h)
    by (intros h _; reflexivity).
  destruct (no_seed_reaches_backend backend_exact
              (fun m => backend_exact pywraplp.empty)
              [worker_A] profile_A demand_R1 1) as (H0 & Hs & H1 & H2 & H3).
  destruct (Hs Hne) as [Hs1 Hs2].
  split; [split; [exact Hne|split; [exact Hst|exact Hval]]|].
  split; [exact H0|]. split; [exact Hs1|]. split; [exact Hs2|].
  split; [exact H1|]. split; [exact H2|]. apply H3; [exact Hst|exact Hval].
Defined.

Lemma model_tie_value :
  model_tie =
  pywraplp.mkSolver
    [pywraplp.mkVar (Fin 0) Inf "B_A"; pywraplp.mkVar (Fin 0) Inf "B_B";
     pywraplp.mkVar (Fin 0) (Fin 1) "A_0_A"; pywraplp.mkVar (Fin 0) (Fin 1) "A_0_B"]
    [pywraplp.mkCon (pywraplp.mkExpr [(Fin 1, 2%nat); (Fin 1, 3%nat)] 0) pywraplp.EQ
                    (pywraplp.mkExpr [] 1) "Assign_0";
     pywraplp.mkCon (pywraplp.mkExpr [(Fin (10 # 5), 2%nat)] 0) pywraplp.LE
                    (pywraplp.mkExpr [(Fin 1, 0%nat)] 0) "Cap_A";
     pywraplp.mkCon (pywraplp.mkExpr [(Fin (10 # 5), 3%nat)] 0) pywraplp.LE
                    (pywraplp.mkExpr [(Fin 1, 1%nat)] 0) "Cap_B"]
    {[ 0%nat := 1%Q; 1%nat := 1%Q ]} true "".
Proof. reflexivity. Qed.

(** No valuation that meets the constraints of [model_tie] costs less
    than 2. *)
Lemma model_tie_optimum (val : nat -> Q) :
  pywraplp.feasible val model_tie = true ->
  (2 <= pywraplp.objective_value val model_tie)%Q.
Proof.
  rewrite model_tie_value. unfold pywraplp.feasible, pywraplp.objective_value.
  cbn [pywraplp.variables pywraplp.constraints pywraplp.objective length seq fold_right].
  rewrite !andb_true_iff. intros [_ Hc].
  cbn [forallb] in Hc. rewrite !andb_true_iff in Hc.
  destruct Hc as (H1 & H2 & H3 & _).
  unfold pywraplp.holds, pywraplp.expr_value in H1, H2, H3.
  cbn in H1, H2, H3.
  apply Qeq_bool_iff in H1. apply Qle_bool_true in H2, H3.
  replace (({[0%nat := 1%Q; 1%nat := 1%Q]} : gmap nat Q) !! 0%nat) with (Some 1%Q)
    by reflexivity.
  replace (({[0%nat := 1%Q; 1%nat := 1%Q]} : gmap nat Q) !! 1%nat) with (Some 1%Q)
    by reflexivity.
  replace (({[0%nat := 1%Q; 1%nat := 1%Q]} : gmap nat Q) !! 2%nat) with (@None Q)
    by reflexivity.
  replace (({[0%nat := 1%Q; 1%nat := 1%Q]} : gmap nat Q) !! 3%nat) with (@None Q)
    by reflexivity.
  cbn [default from_option id]. lra.
Qed.

(** C8 fails as stated: no seed and no deterministic mode goes to the
    backend.  On this input every run calls [Solve()] on the same solver
    object, whose parameter text is the empty one of a new solver.  The
    model has a tie that nothing in the call settles: two valuations are
    both optima (cost 2, the least a feasible valuation can have), and the
    driver reads different counts and assignments from them. *)
Lemma no_seed_on_tie_input :
  let workers := [worker_A; worker_B] in
  let slices := create_slices demand_R1 1 in
  let b := build_model workers profile_AB slices in
  (forall Solve : pywraplp.SolveFn,
     Solving model_tie ∈
       out (solve_provisioning_ilp (Some Solve) workers profile_AB demand_R1 1)) /\
  built_model b = model_tie /\
  pywraplp.solver_specific_parameters model_tie = "" /\
  (pywraplp.feasible value_tie_A model_tie = true /\
   pywraplp.feasible value_tie_B model_tie = true /\
   (pywraplp.objective_value value_tie_A model_tie == 2)%Q /\
   (pywraplp.objective_value value_tie_B model_tie == 2)%Q /\
   (forall val, pywraplp.feasible val model_tie = true ->
      (2 <= pywraplp.objective_value val model_tie)%Q)) /\
  extract_counts (built_B b) value_tie_A workers = {[ "A" := 2; "B" := 0 ]} /\
  extract_counts (built_B b) value_tie_B workers = {[ "A" := 0; "B" := 2 ]} /\
  extract_assignments (built_A b) value_tie_A slices workers = {[ 0 := "A" ]} /\
  extract_assignments (built_A b) value_tie_B slices workers = {[ 0 := "B" ]} /\
  ({[ 0 := "A" ]} : gmap Z string) <> {[ 0 := "B" ]}.
Proof.
  intros workers slices b.
  split.
  { intros Solve.
    rewrite (solve_with_slices Solve workers profile_AB demand_R1 1)
      by discriminate.
    fold slices b. change (built_model b) with model_tie.
    destruct (pywraplp.status (Solve model_tie)); cbn [out];
      rewrite !elem_of_app, list_elem_of_singleton; auto. }
  split; [reflexivity|]. split; [reflexivity|].
  split.
  { split; [reflexivity|]. split; [reflexivity|]. split; [reflexivity|].
    split; [reflexivity|]. apply model_tie_optimum. }
  split; [reflexivity|]. split; [reflexivity|].
  split; [reflexivity|]. split; [reflexivity|].
  intros H.
  assert (Hm : ({[ 0 := "A" ]} : gmap Z string) !! 0 =
               ({[ 0 := "B" ]} : gmap Z string) !! 0) by congruence.
  vm_compute in Hm. discriminate.
Qed.

(** ** C1 *)

(** A slice no worker can take is reported by a warning that names its
    request type. *)
Lemma unassignable_slice_warned (worker_units : list WorkerUnit.t)
    (profile_data : ProfileData) (distribution_data : DistributionData)
    (slice_factor : Z) (s : Slice.t) :
  let slices := create_slices distribution_data slice_factor in
  s ∈ slices ->
  (forall w, w ∈ worker_units -> load_of profile_data s w = Inf) ->
  WarnUnassignable (Slice.id s) (Slice.request_type_id s)
    ∈ built_warnings (build_model worker_units profile_data slices).
Proof.
  intros slices Hs Hinf.
  pose proof (create_slices_NoDup distribution_data slice_factor) as Hnd.
  fold slices in Hnd.
  destruct (build_model_unfold worker_units profile_data slices)
    as (B & s1 & _ & Heq).
  cbv zeta in Heq. rewrite Heq. cbn [built_warnings].
  destruct (declare_A_keys (build_load_matrix profile_data slices worker_units)
              slices worker_units s1) as [_ Hw].
  rewrite Hw. apply elem_of_app. left.
  change (map ?f ?l) with (f <$> l). apply list_elem_of_fmap.
  exists s. split; [reflexivity|].
  apply list_elem_of_In, filter_In. split; [apply list_elem_of_In, Hs|].
  apply negb_true_iff. unfold assignable.
  destruct (existsb _ worker_units) eqn:E; [|reflexivity].
  apply existsb_exists in E as (w & Hw' & Hc). apply list_elem_of_In in Hw'.
  rewrite (candidate_load_of worker_units profile_data slices) in Hc by assumption.
  rewrite (Hinf w Hw') in Hc. discriminate.
Qed.

(** C1 against the code, at demand {R1: 1} with an empty profile and the
    default slice factor.  Both slices are reported as unassignable and no
    variable [A] exists, yet the model, which has no constraint at all, is
    handed to the solver; the all-zero valuation meets it at the least
    cost, and with that answer the call returns a plan: zero instances and
    no assignment. *)
Theorem unassignable_demand_returns_plan :
  let slices := create_slices demand_S3 2 in
  let b := build_model [worker_A] ∅ slices in
  let r := solve_provisioning_ilp (Some backend_zero) [worker_A] ∅ demand_S3 2 in
  slices = [Slice.mk 0 "R1" (1 # 2); Slice.mk 1 "R1" (1 # 2)] /\
  built_A b = ∅ /\
  pywraplp.constraints (built_model b) = [] /\
  out r = [WarnUnassignable 0 "R1"; WarnUnassignable 1 "R1"; ErrNoSlicesAssignable;
           Solving (built_model b); OptimalFound] /\
  ret r = (Some {[ "A" := 0 ]}, Some ∅, slices) /\
  pywraplp.feasible (fun _ => 0%Q) (built_model b) = true /\
  (forall val, pywraplp.feasible val (built_model b) = true ->
     (pywraplp.objective_value (fun _ => 0%Q) (built_model b)
      <= pywraplp.objective_value val (built_model b))%Q).
Proof.
  intros slices b r. repeat split; try reflexivity.
  intros val. subst b slices.
  assert (Hm : built_model (build_model [worker_A] ∅ (create_slices demand_S3 2)) =
               pywraplp.mkSolver [pywraplp.mkVar (Fin 0) Inf "B_A"] []
                                 {[ 0%nat := 1%Q ]} true "") by reflexivity.
  rewrite Hm. unfold pywraplp.feasible, pywraplp.objective_value.
  cbn [pywraplp.variables pywraplp.constraints pywraplp.objective length seq fold_right].
  rewrite !andb_true_iff. intros [[Hb _] _]. cbn in Hb.
  apply andb_true_iff in Hb as [Hb _]. unfold pywraplp.in_bounds in Hb.
  apply andb_true_iff in Hb as [Hb _]. cbn in Hb.
  apply Qle_bool_true in Hb.
  replace (({[0%nat := 1%Q]} : gmap nat Q) !! 0%nat) with (Some 1%Q) by reflexivity.
  cbn [default from_option id]. lra.
Qed.

(** ** C9 *)

(** Bernoulli's inequality below the base, cleared of fractions. *)
Lemma bernoulli_sub (N d M : Z) :
  0 <= d <= N -> 0 <= M ->
  N ^ M * (N - M * d) <= N * (N - d) ^ M.
Proof.
  intros Hd HM. revert M HM. apply natlike_ind.
  - rewrite !Z.pow_0_r. lia.
  - intros M HM IH. rewrite !Z.pow_succ_r by lia.
    assert (HP : 0 <= N ^ M) by (apply Z.pow_nonneg; lia).
    set (P := N ^ M) in *. set (R := (N - d) ^ M) in *.
    assert (H1 : (N - d) * (P * (N - M * d)) <= (N - d) * (N * R))
      by (apply Z.mul_le_mono_nonneg_l; lia).
    assert (H2 : 0 <= P * (M * (d * d)))
      by (apply Z.mul_nonneg_nonneg; [lia|]; apply Z.mul_nonneg_nonneg; nia).
    nia.
Qed.

(** Bernoulli's inequality above the base, cleared of fractions. *)
Lemma bernoulli_add (N d M : Z) :
  0 <= N -> 0 <= d -> 0 <= M ->
  N ^ M * (N + M * d) <= N * (N + d) ^ M.
Proof.
  intros HN Hd HM. revert M HM. apply natlike_ind.
  - rewrite !Z.pow_0_r. lia.
  - intros M HM IH. rewrite !Z.pow_succ_r by lia.
    assert (HP : 0 <= N ^ M) by (apply Z.pow_nonneg; lia).
    set (P := N ^ M) in *. set (S := (N + d) ^ M) in *.
    assert (H1 : (N + d) * (P * (N + M * d)) <= (N + d) * (N * S))
      by (apply Z.mul_le_mono_nonneg_l; lia).
    assert (H2 : 0 <= P * (M * (d * d)))
      by (apply Z.mul_nonneg_nonneg; [lia|]; apply Z.mul_nonneg_nonneg; nia).
    nia.
Qed.

(** [(1 - d/N)^M >= 1/2] when [M * d <= N / 2]. *)
Lemma power_ratio_above_half (N d M : Z) :
  0 < N -> 0 <= d <= N -> 0 <= M -> 2 * (M * d) <= N ->
  N ^ M <= 2 * (N - d) ^ M.
Proof.
  intros HN Hd HM Hle.
  pose proof (bernoulli_sub N d M Hd HM) as HB.
  assert (HP : 0 <= N ^ M) by (apply Z.pow_nonneg; lia).
  set (P := N ^ M) in *. set (R := (N - d) ^ M) in *.
  assert (H1 : P * N <= P * (2 * (N - M * d)))
    by (apply Z.mul_le_mono_nonneg_l; lia).
  assert (H2 : N * P <= N * (2 * R)) by lia.
  apply Z.mul_le_mono_pos_l in H2; lia.
Qed.

(** [(1 - d/N)^M < 1/2] when [M * d >= N]. *)
Lemma power_ratio_below_half (N d M : Z) :
  0 < d <= N -> 0 < M -> N <= M * d ->
  2 * (N - d) ^ M < N ^ M.
Proof.
  intros Hd HM Hle.
  pose proof (bernoulli_add N d M ltac:(lia) ltac:(lia) ltac:(lia)) as HB.
  assert (HRS : (N - d) ^ M * (N + d) ^ M < N ^ M * N ^ M).
  { rewrite <- !Z.pow_mul_l. apply Z.pow_lt_mono_l; [lia|]. nia. }
  assert (HP : 0 < N ^ M) by (apply Z.pow_pos_nonneg; lia).
  assert (HR : 0 <= (N - d) ^ M) by (apply Z.pow_nonneg; lia).
  set (P := N ^ M) in *. set (R := (N - d) ^ M) in *.
  set (S := (N + d) ^ M) in *.
  destruct (Z.lt_ge_cases (2 * R) P) as [|Hge]; [assumption|exfalso].
  assert (H1 : P * (2 * N) <= P * (N + M * d))
    by (apply Z.mul_le_mono_nonneg_l; lia).
  assert (H2 : P * (2 * N) <= N * S) by lia.
  assert (H3 : R * (P * (2 * N)) <= R * (N * S))
    by (apply Z.mul_le_mono_nonneg_l; lia).
  assert (H4 : N * (R * S) < N * (P * P))
    by (apply Z.mul_lt_mono_pos_l; lia).
  assert (H5 : (N * P) * P <= (N * P) * (2 * R))
    by (apply Z.mul_le_mono_nonneg_l; nia).
  nia.
Qed.

(** Below [2^49 - 1] the float logarithm is never rounded up to the next
    integer: the floor is the exact one. *)
Lemma math_floor_log2_exact (n : Z) :
  1 < n < 2 ^ 49 - 1 -> math_floor_log2 n = Z.log2 n.
Proof.
  intros Hn. unfold math_floor_log2, log2_rounds_to_next.
  pose proof (Z.log2_spec n ltac:(lia)) as [Hlo Hhi].
  replace (Z.succ (Z.log2 n)) with (Z.log2 n + 1) in Hhi by lia.
  assert (Hk1 : 1 <= Z.log2 n)
    by (apply (Z.log2_le_pow2 n 1); [lia|change (2 ^ 1) with 2; lia]).
  assert (Hk2 : Z.log2 n < 49) by (apply Z.log2_lt_pow2; lia).
  assert (He0 : 0 <= Z.log2 (Z.log2 n)) by apply Z.log2_nonneg.
  assert (He : Z.log2 (Z.log2 n) < 6)
    by (apply Z.log2_lt_pow2; [lia|change (2 ^ 6) with 64; lia]).
  set (k := Z.log2 n) in *. set (e := Z.log2 k) in *.
  assert (HM : 2 ^ 48 <= 2 ^ (53 - e)) by (apply Z.pow_le_mono_r; lia).
  set (M := 2 ^ (53 - e)) in *. set (N := 2 ^ (k + 1)) in *.
  assert (Hd : N <= M * (N - n)).
  { destruct (Z.eq_dec k 48) as [->|Hne].
    - subst N. change (2 ^ (48 + 1)) with (2 * 2 ^ 48) in *.
      change (2 ^ 49) with (2 * 2 ^ 48) in Hn. nia.
    - assert (HN : N <= 2 ^ 48) by (apply Z.pow_le_mono_r; lia). nia. }
  assert (Hlt : 2 * (N - (N - n)) ^ M < N ^ M)
    by (apply power_ratio_below_half; lia).
  replace (N - (N - n)) with n in Hlt by lia.
  destruct (Z.leb_spec (N ^ M) (2 * n ^ M)) as [Hup|_]; [lia|reflexivity].
Qed.

(** At [2^49 - 1] the real logarithm is closer to [49.0] than to the
    float before it, and the floor is [49]. *)
Lemma math_floor_log2_rounded :
  math_floor_log2 562949953421311 = 49.
Proof.
  unfold math_floor_log2, log2_rounds_to_next.
  change (Z.log2 562949953421311) with 48.
  change (Z.log2 48) with 5.
  change (48 + 1) with 49. change (53 - 5) with 48.
  assert (H : (2 ^ 49) ^ (2 ^ 48) <= 2 * (2 ^ 49 - 1) ^ (2 ^ 48)).
  { apply power_ratio_above_half.
    - reflexivity.
    - split; discriminate.
    - discriminate.
    - discriminate. }
  change (2 ^ 49 - 1) with 562949953421311 in H.
  apply Z.leb_le in H. rewrite H. reflexivity.
Qed.

(** The bucket for a floored logarithm that is the exact one at [n]. *)
Lemma bucket_of_exact_log (floor_log2 : Z -> Z) (n : Z) :
  1 < n -> floor_log2 n = Z.log2 n ->
  let lo := 2 ^ Z.log2 n in
  let hi := 2 ^ (Z.log2 n + 1) - 1 in
  _get_power_of_two_bucket floor_log2 n = str lo +:+ "-" +:+ str hi /\
  lo <= n <= hi.
Proof.
  intros H1 Hexact lo hi. unfold _get_power_of_two_bucket.
  destruct (Z.leb_spec n 1); [lia|].
  rewrite Hexact. split; [reflexivity|].
  pose proof (Z.log2_spec n ltac:(lia)) as [Hlo Hhi].
  subst lo hi. replace (Z.succ (Z.log2 n)) with (Z.log2 n + 1) in Hhi by lia. lia.
Qed.

(** C9, as the code has it.  For n >= 0 the bucket is "0-1" when n <= 1;
    and for 1 < n < 2^49 - 1 it is "lo-hi" with lo = 2^floor(log2 n) and
    hi = 2^(floor(log2 n) + 1) - 1, a range that holds n: below 2^49 - 1
    the float logarithm is never rounded up to the next integer. *)
Theorem power_of_two_bucket (n : Z) :
  0 <= n ->
  (n <= 1 -> _get_power_of_two_bucket math_floor_log2 n = "0-1") /\
  (1 < n < 2 ^ 49 - 1 ->
   let lo := 2 ^ Z.log2 n in
   let hi := 2 ^ (Z.log2 n + 1) - 1 in
   math_floor_log2 n = Z.log2 n /\
   _get_power_of_two_bucket math_floor_log2 n = str lo +:+ "-" +:+ str hi /\
   lo <= n <= hi).
Proof.
  intros Hn. split.
  - intros H1. unfold _get_power_of_two_bucket.
    destruct (Z.leb_spec n 1); [reflexivity|lia].
  - intros H1 lo hi. split; [apply math_floor_log2_exact, H1|].
    apply bucket_of_exact_log; [lia|apply math_floor_log2_exact, H1].
Qed.

Lemma power_of_two_bucket_witness :
  (0 <= 1000 /\ 1 < 1000 < 2 ^ 49 - 1 /\ 1 <= 1) /\
  math_floor_log2 1000 = 9 /\
  _get_power_of_two_bucket math_floor_log2 1000 = "512-1023" /\
  512 <= 1000 <= 1023 /\
  _get_power_of_two_bucket math_floor_log2 1 = "0-1".
Proof.
  assert (H1000 : 1 < 1000 < 2 ^ 49 - 1) by (split; reflexivity).
  split; [split; [discriminate|split; [exact H1000|discriminate]]|].
  destruct (power_of_two_bucket 1000 ltac:(discriminate)) as [_ H].
  destruct (H H1000) as (Hk & Hb & Hr).
  destruct (power_of_two_bucket 1 ltac:(discriminate)) as [H1 _].
  split; [exact Hk|]. split; [exact Hb|]. split; [exact Hr|].
  apply H1. discriminate.
Defined.

(** C9 fails as stated at n = 2^49 - 1, an int that is a float exactly.
    Its logarithm is less than half a float spacing below 49, so the float
    logarithm is 49.0 and the floor is 49 where floor(log2 n) is 48: the
    bucket is "2^49-(2^50 - 1)", not "2^48-(2^49 - 1)", and n is not in
    it. *)
Lemma bucket_of_2_49_minus_1 :
  let n := 562949953421311 in
  n = 2 ^ 49 - 1 /\
  Z.log2 n = 48 /\
  math_floor_log2 n = 49 /\
  _get_power_of_two_bucket math_floor_log2 n
  = "562949953421312-1125899906842623" /\
  str (2 ^ Z.log2 n) +:+ "-" +:+ str (2 ^ (Z.log2 n + 1) - 1)
  = "281474976710656-562949953421311" /\
  _get_power_of_two_bucket math_floor_log2 n
  <> str (2 ^ Z.log2 n) +:+ "-" +:+ str (2 ^ (Z.log2 n + 1) - 1) /\
  ~ 562949953421312 <= n.
Proof.
  intros n. subst n.
  assert (Hb : _get_power_of_two_bucket math_floor_log2 562949953421311
               = "562949953421312-1125899906842623").
  { unfold _get_power_of_two_bucket.
    change (562949953421311 <=? 1) with false. cbv iota zeta.
    rewrite math_floor_log2_rounded. reflexivity. }
  split; [reflexivity|]. split; [reflexivity|].
  split; [exact math_floor_log2_rounded|]. split; [exact Hb|].
  split; [reflexivity|]. split; [|intros H; apply H; reflexivity].
  rewrite Hb. discriminate.
Qed.

(** ** Instances *)

Example slicer_example :
  create_slices [("R1", 10%Q); ("R2", 0%Q); ("R3", (1 # 10000000)%Q);
                 ("R4", (1 # 1000000000)%Q)] 3 =
  [Slice.mk 0 "R1" (10 # 3); Slice.mk 1 "R1" (10 # 3); Slice.mk 2 "R1" (10 # 3);
   Slice.mk 3 "R3" (1 # 10000000)].
Proof. reflexivity. Qed.

Lemma empty_demand_plan_witness :
  Forall (fun item : string * Q => (snd item <= 0)%Q) demand_S6 /\
  exists counts,
    ret (solve_provisioning_ilp None [worker_A; worker_B] profile_AB demand_S6 2) =
      (Some counts, Some ∅, []) /\
    (forall w, w ∈ [worker_A; worker_B] -> counts !! WorkerUnit.id w = Some 0) /\
    dom counts = list_to_set (map WorkerUnit.id [worker_A; worker_B]) /\
    out (solve_provisioning_ilp None [worker_A; worker_B] profile_AB demand_S6 2) =
      [NoRequests] /\
    (forall model,
       Solving model ∉
       out (solve_provisioning_ilp None [worker_A; worker_B] profile_AB demand_S6 2)).
Proof.
  assert (H : Forall (fun item : string * Q => (snd item <= 0)%Q) demand_S6)
    by (repeat constructor; discriminate).
  split; [exact H|].
  apply (empty_demand_plan None [worker_A; worker_B] profile_AB demand_S6 2 H).
Defined.

Lemma load_and_assignment_variables_witness :
  let slices := create_slices demand_R1 1 in
  let b := build_model [worker_A; worker_B] profile_A slices in
  (slice_R1 ∈ slices /\ worker_A ∈ [worker_A; worker_B] /\
   worker_B ∈ [worker_A; worker_B] /\
   profile_A !! ("A", "R1") = Some 5%Q /\ (0 < 5)%Q /\
   profile_A !! ("B", "R1") = None) /\
  built_load_matrix b !! (0, "A") = Some (Fin (10 / 5)%Q) /\
  built_load_matrix b !! (0, "B") = Some Inf /\
  is_Some (built_A b !! (0, "A")) /\
  ~ is_Some (built_A b !! (0, "B")).
Proof.
  intros slices b.
  destruct (load_and_assignment_variables [worker_A; worker_B] profile_A demand_R1 1)
    as (Hpair & _ & _).
  assert (Hs : slice_R1 ∈ slices) by left.
  assert (HA : worker_A ∈ [worker_A; worker_B]) by left.
  assert (HB : worker_B ∈ [worker_A; worker_B]) by (right; left).
  destruct (Hpair slice_R1 worker_A Hs HA) as (Hfin & _ & Hvar & _).
  destruct (Hpair slice_R1 worker_B Hs HB) as (_ & Hinf & Hvar' & _).
  assert (H5 : (0 < 5)%Q) by reflexivity.
  split; [repeat split; assumption || reflexivity|].
  split; [exact (Hfin 5%Q eq_refl H5)|].
  split; [apply Hinf; left; reflexivity|].
  split.
  - apply Hvar. exists (10 / 5)%Q. exact (Hfin 5%Q eq_refl H5).
  - intros Hsome. apply Hvar' in Hsome as [load Hload].
    pose proof (Hinf (or_introl eq_refl)) as Hi. cbv zeta in Hload, Hi.
    rewrite Hi in Hload. discriminate.
Defined.

Lemma only_optimal_yields_plan_witness :
  let slices := create_slices demand_R1 1 in
  let model := built_model (build_model [worker_A] profile_A slices) in
  let r := solve_provisioning_ilp (Some backend_exact) [worker_A] profile_A
             demand_R1 1 in
  slices <> [] /\
  Solving model ∈ out r /\
  ((exists counts assignments, ret r = (Some counts, Some assignments, slices))
     <-> pywraplp.status (backend_exact model) = pywraplp.OPTIMAL) /\
  (pywraplp.status (backend_exact model) <> pywraplp.OPTIMAL ->
     ret r = (None, None, slices)).
Proof.
  split; [discriminate|].
  apply (only_optimal_yields_plan backend_exact [worker_A] profile_A demand_R1 1).
  discriminate.
Defined.

Lemma counts_keys_and_values_witness :
  let slices := create_slices demand_R1 1 in
  let model := built_model (build_model [worker_A] profile_A slices) in
  let r := solve_provisioning_ilp (Some backend_exact) [worker_A] profile_A
             demand_R1 1 in
  (ret r).1.1 = Some {[ "A" := 2 ]} /\
  (forall Solve, Some backend_exact = Some Solve ->
     pywraplp.all_in_bounds (pywraplp.solution_value (Solve model)) 0
                            (pywraplp.variables model) = true) /\
  dom ({[ "A" := 2 ]} : gmap string Z) = list_to_set (map WorkerUnit.id [worker_A]) /\
  (forall k n, ({[ "A" := 2 ]} : gmap string Z) !! k = Some n -> 0 <= n).
Proof.
  intros slices model r.
  assert (Hret : (ret r).1.1 = Some {[ "A" := 2 ]}) by reflexivity.
  assert (Hb : forall Solve, Some backend_exact = Some Solve ->
     pywraplp.all_in_bounds (pywraplp.solution_value (Solve model)) 0
                            (pywraplp.variables model) = true).
  { intros Solve [= <-]. reflexivity. }
  destruct (counts_keys_and_values (Some backend_exact) [worker_A] profile_A
              demand_R1 1 {[ "A" := 2 ]} Hret) as [Hdom Hval].
  split; [exact Hret|]. split; [exact Hb|]. split; [exact Hdom|]. exact (Hval Hb).
Defined.

(** ** The slicer keeps the demand *)

Lemma Qsum_app (xs ys : list Q) : (Qsum (xs ++ ys) == Qsum xs + Qsum ys)%Q.
Proof.
  unfold Qsum. induction xs as [|x xs IH]; cbn [app fold_right]; [ring|].
  rewrite IH. ring.
Qed.

Lemma Qsum_replicate (n : nat) (x : Q) :
  (Qsum (replicate n x) == inject_Z (Z.of_nat n) * x)%Q.
Proof.
  induction n as [|n IH]; [unfold Qsum; simpl; ring|].
  cbn [replicate]. unfold Qsum in *. cbn [fold_right]. rewrite IH.
  rewrite Nat2Z.inj_succ. unfold Z.succ. rewrite inject_Z_plus. ring.
Qed.

(** The chunk of one entry: its rates add up to the rate of the entry when
    that is above 1e-9, and it is empty otherwise; every rate in it is
    above 1e-9 and carries the request id of the entry. *)
Lemma emits_chunk (k : Z) (item : string * Q) (chunk : list (string * Q)) :
  1 <= k -> emits k item chunk ->
  (Qsum (map snd chunk) ==
   if Qlt_bool lit_1e_9 (snd item) then snd item else 0)%Q /\
  Forall (fun p => p.1 = item.1 /\ (lit_1e_9 < p.2)%Q) chunk /\
  (length chunk <= Z.to_nat k)%nat.
Proof.
  intros Hk Hem.
  assert (Hk' : (1 <= inject_Z k)%Q).
  { change 1%Q with (inject_Z 1). rewrite <- Zle_Qle. exact Hk. }
  destruct Hem as [req rate H|req rate H Hp|req rate H Hp Ht|req rate H Ht];
    cbn [fst snd].
  - assert (E : Qlt_bool lit_1e_9 rate = false) by (apply Qlt_bool_false; lra).
    rewrite E. simpl. split; [reflexivity|]. split; [constructor|lia].
  - pose proof (Qdiv_factor_le rate k H Hk) as Hle.
    assert (E : Qlt_bool lit_1e_9 rate = true) by (apply Qlt_bool_true; lra).
    rewrite E. split; [|split].
    + change (map snd (replicate ?n ?p)) with (snd <$> replicate n p).
      rewrite fmap_replicate. cbn [snd]. rewrite Qsum_replicate, Z2Nat.id by lia.
      field. lra.
    + apply Forall_replicate. simpl. split; [reflexivity|lra].
    + rewrite length_replicate. lia.
  - assert (E : Qlt_bool lit_1e_9 rate = true) by (apply Qlt_bool_true; lra).
    rewrite E. simpl. split; [lra|]. split; [|lia].
    constructor; [|constructor]. simpl. split; [reflexivity|lra].
  - assert (E : Qlt_bool lit_1e_9 rate = false) by (apply Qlt_bool_false; lra).
    rewrite E. simpl. split; [reflexivity|]. split; [constructor|lia].
Qed.

(** X1. The slicer neither loses nor invents demand: the rates of the
    slices add up to the rates of the demand entries above 1e-9 (smaller
    entries are dropped whole). *)
Theorem slicer_keeps_demand (distribution_data : DistributionData)
    (slice_factor : Z) :
  (Qsum (map Slice.rate_portion (create_slices distribution_data slice_factor))
   == Qsum (kept_demand distribution_data))%Q.
Proof.
  unfold create_slices, create_slicer_state.
  destruct (slicer_fold_spec (Z.max slice_factor 1) distribution_data
              (mkSlicer [] 0 slice_factor)) as (chunks & Hall & Hp & _).
  { split; reflexivity. }
  simpl in Hp.
  assert (Hrates : map Slice.rate_portion
                     (slices (fold_left slicer_step distribution_data
                                (mkSlicer [] 0 slice_factor))) =
                   map snd (concat chunks)).
  { rewrite <- Hp, map_map. reflexivity. }
  rewrite Hrates. clear Hp Hrates.
  assert (Hk : 1 <= Z.max slice_factor 1) by lia.
  unfold kept_demand.
  induction Hall as [|item chunk rest chunks' Hem _ IH]; [reflexivity|].
  cbn [concat List.filter]. rewrite map_app, Qsum_app, IH.
  destruct (emits_chunk _ _ _ Hk Hem) as (Hsum & _ & _). rewrite Hsum.
  destruct (Qlt_bool lit_1e_9 (snd item)); simpl; lra.
Qed.

(** X2. Every slice carries the request id of a demand entry and a rate
    above 1e-9, and a demand of n entries gives at most max(sliceFactor, 1)
    times n slices. *)
Theorem slices_well_formed (distribution_data : DistributionData)
    (slice_factor : Z) :
  let slices := create_slices distribution_data slice_factor in
  Forall (fun s => Slice.request_type_id s ∈ map fst distribution_data /\
                   (lit_1e_9 < Slice.rate_portion s)%Q) slices /\
  (length slices <= Z.to_nat (Z.max slice_factor 1) * length distribution_data)%nat.
Proof.
  intros sl. subst sl. unfold create_slices, create_slicer_state.
  destruct (slicer_fold_spec (Z.max slice_factor 1) distribution_data
              (mkSlicer [] 0 slice_factor)) as (chunks & Hall & Hp & _).
  { split; reflexivity. }
  simpl in Hp.
  set (sl := slices (fold_left slicer_step distribution_data
                       (mkSlicer [] 0 slice_factor))) in *.
  assert (Hk : 1 <= Z.max slice_factor 1) by lia.
  assert (Hc : Forall (fun p : string * Q => p.1 ∈ map fst distribution_data /\
                                  (lit_1e_9 < p.2)%Q) (concat chunks) /\
               (length (concat chunks) <=
                Z.to_nat (Z.max slice_factor 1) * length distribution_data)%nat).
  { clear Hp. induction Hall as [|item chunk rest chunks' Hem _ IH].
    - split; [constructor|simpl; lia].
    - destruct (emits_chunk _ _ _ Hk Hem) as (_ & Hf & Hl).
      destruct IH as [IHf IHl]. cbn [concat map length]. split.
      + apply Forall_app. split.
        * eapply Forall_impl; [exact Hf|]. intros p [Hid Hr]. split; [|exact Hr].
          rewrite Hid. left.
        * eapply Forall_impl; [exact IHf|]. intros p [Hid Hr]. split; [|exact Hr].
          right. exact Hid.
      + rewrite length_app. lia. }
  destruct Hc as [Hf Hl]. rewrite <- Hp in Hf, Hl. rewrite length_map in Hl.
  split; [|exact Hl].
  apply Forall_fmap in Hf. eapply Forall_impl; [exact Hf|].
  intros s H. exact H.
Qed.


(** ** More on the driver *)

(** X3. Without a backend and with at least one slice, the call returns
    (None, None, slices) after the no-backend message; no model is handed
    to a solver, and the slices are the ones a run with a backend
    returns. *)
Theorem missing_backend_fails (Solve : pywraplp.SolveFn)
    (worker_units : list WorkerUnit.t) (profile_data : ProfileData)
    (distribution_data : DistributionData) (slice_factor : Z) :
  let slices := create_slices distribution_data slice_factor in
  let r := solve_provisioning_ilp None worker_units profile_data
             distribution_data slice_factor in
  slices <> [] ->
  ret r = (None, None, slices) /\
  out r = [NoBackend] /\
  (ret r).2 = (ret (solve_provisioning_ilp (Some Solve) worker_units profile_data
                      distribution_data slice_factor)).2.
Proof.
  intros slices r Hne. subst r.
  rewrite solve_with_slices by exact Hne. fold slices.
  unfold solve_provisioning_ilp. fold slices.
  destruct slices as [|s rest] eqn:E; [congruence|]. cbn [ret out snd].
  repeat split.
  destruct (pywraplp.status _); reflexivity.
Qed.

Lemma missing_backend_fails_witness :
  let slices := create_slices demand_R1 1 in
  let r := solve_provisioning_ilp None [worker_A] profile_A demand_R1 1 in
  slices <> [] /\
  ret r = (None, None, slices) /\
  out r = [NoBackend] /\
  (ret r).2 = (ret (solve_provisioning_ilp (Some backend_exact) [worker_A]
                      profile_A demand_R1 1)).2.
Proof.
  split; [discriminate|].
  apply (missing_backend_fails backend_exact [worker_A] profile_A demand_R1 1).
  discriminate.
Defined.

(** Every entry of the extracted assignments comes from a slice of the list
    and a worker of the list that passes the test. *)
Lemma extract_assignments_Some (A : gmap (Z * string) nat) (value : nat -> Q)
    (slices : SliceList) (worker_units : list WorkerUnit.t) (i : Z) (x : string) :
  extract_assignments A value slices worker_units !! i = Some x ->
  exists s w, s ∈ slices /\ Slice.id s = i /\ w ∈ worker_units /\
              WorkerUnit.id w = x /\ chosen A value s w = true.
Proof.
  unfold extract_assignments. revert i x.
  apply (fold_left_inv (fun pre (m : gmap Z string) =>
    forall i x, m !! i = Some x ->
      exists s w, s ∈ pre /\ Slice.id s = i /\ w ∈ worker_units /\
                  WorkerUnit.id w = x /\ chosen A value s w = true)).
  - intros i x H. rewrite lookup_empty in H. discriminate.
  - intros pre s post m _ IH i x H.
    assert (Hold : m !! i = Some x ->
              exists s0 w, s0 ∈ pre ++ [s] /\ Slice.id s0 = i /\ w ∈ worker_units /\
                           WorkerUnit.id w = x /\ chosen A value s0 w = true).
    { intros Hm. destruct (IH i x Hm) as (s0 & w & Hs0 & Hrest).
      exists s0, w. split; [apply elem_of_app; left; exact Hs0|exact Hrest]. }
    destruct (find (chosen A value s) worker_units) as [w|] eqn:Hf; [|auto].
    destruct (decide (Slice.id s = i)) as [<-|Hne].
    + rewrite lookup_insert_eq in H. injection H as <-.
      apply find_some in Hf as [Hin Hc]. apply list_elem_of_In in Hin.
      exists s, w. split; [apply elem_of_app; right; left|auto].
    + rewrite lookup_insert_ne in H by exact Hne. auto.
Qed.

(** The variable of a pair exists only when the profile supports the pair. *)
Lemma built_A_supported (worker_units : list WorkerUnit.t)
    (profile_data : ProfileData) (distribution_data : DistributionData)
    (slice_factor : Z) (s : Slice.t) (x : string) (h : nat) :
  let slices := create_slices distribution_data slice_factor in
  s ∈ slices ->
  built_A (build_model worker_units profile_data slices) !! (Slice.id s, x) = Some h ->
  exists max_tput,
    profile_data !! (x, Slice.request_type_id s) = Some max_tput /\
    (0 < max_tput)%Q.
Proof.
  intros slices Hs Hh.
  pose proof (create_slices_NoDup distribution_data slice_factor) as Hnd.
  assert (Hsome : is_Some (built_A (build_model worker_units profile_data slices)
                             !! (Slice.id s, x))) by eauto.
  apply build_model_A in Hsome as (s' & w' & Hs' & Hw' & Hfin & Hkey);
    [|exact Hnd].
  injection Hkey as Hsid Hwid.
  assert (s' = s) as ->.
  { symmetry. eapply create_slices_id_inj; eassumption. }
  unfold load_of in Hfin. rewrite <- Hwid in Hfin.
  destruct (profile_data !! _) as [t|]; [|discriminate].
  destruct (Qlt_bool 0 t) eqn:Ht; [|discriminate].
  exists t. split; [reflexivity|]. apply Qlt_bool_true. exact Ht.
Qed.

(** Where an entry of a returned assignment table comes from. *)
Lemma returned_assignment_origin (backend : pywraplp.Backend)
    (worker_units : list WorkerUnit.t) (profile_data : ProfileData)
    (distribution_data : DistributionData) (slice_factor : Z)
    (assignments : gmap Z string) (i : Z) (x : string) :
  let slices := create_slices distribution_data slice_factor in
  let r := solve_provisioning_ilp backend worker_units profile_data
             distribution_data slice_factor in
  (ret r).1.2 = Some assignments ->
  assignments !! i = Some x ->
  exists s w h,
    s ∈ slices /\ Slice.id s = i /\ w ∈ worker_units /\ WorkerUnit.id w = x /\
    built_A (build_model worker_units profile_data slices) !! (i, x) = Some h.
Proof.
  intros slices r. subst r.
  destruct (decide (slices = [])) as [Hnil|Hne].
  { rewrite solve_no_slices by exact Hnil. cbn. intros [= <-] H.
    rewrite lookup_empty in H. discriminate. }
  destruct backend as [Solve|].
  2:{ unfold solve_provisioning_ilp. fold slices.
      destruct slices; [congruence|]. cbn. discriminate. }
  rewrite solve_with_slices by exact Hne. fold slices.
  destruct (pywraplp.status _); cbn [ret fst snd]; try discriminate.
  intros [= <-] Hi.
  apply extract_assignments_Some in Hi as (s & w & Hs & Hid & Hw & Hx & Hc).
  apply chosen_true in Hc as (h & Hh & _). rewrite Hx, Hid in Hh.
  exists s, w, h. auto 10.
Qed.

(** X4. Whatever the backend answers, a returned assignment maps the id of
    a slice of the call to the id of a worker of the list for which the
    profile has a throughput above zero for the request type of the
    slice. *)
Theorem assignments_are_supported (backend : pywraplp.Backend)
    (worker_units : list WorkerUnit.t) (profile_data : ProfileData)
    (distribution_data : DistributionData) (slice_factor : Z)
    (assignments : gmap Z string) (i : Z) (x : string) :
  let slices := create_slices distribution_data slice_factor in
  let r := solve_provisioning_ilp backend worker_units profile_data
             distribution_data slice_factor in
  (ret r).1.2 = Some assignments ->
  assignments !! i = Some x ->
  exists s w max_tput,
    s ∈ slices /\ Slice.id s = i /\ w ∈ worker_units /\ WorkerUnit.id w = x /\
    profile_data !! (x, Slice.request_type_id s) = Some max_tput /\
    (0 < max_tput)%Q.
Proof.
  intros slices r Hret Hi.
  destruct (returned_assignment_origin backend worker_units profile_data
              distribution_data slice_factor assignments i x Hret Hi)
    as (s & w & h & Hs & Hid & Hw & Hx & Hh).
  rewrite <- Hid in Hh.
  destruct (built_A_supported worker_units profile_data distribution_data
              slice_factor s x h Hs Hh) as (t & Ht & Hpos).
  exists s, w, t. auto 10.
Qed.

Lemma assignments_are_supported_witness :
  let r := solve_provisioning_ilp (Some backend_exact) [worker_A] profile_A
             demand_R1 1 in
  ((ret r).1.2 = Some {[ 0 := "A" ]} /\
   ({[ 0 := "A" ]} : gmap Z string) !! 0 = Some "A") /\
  exists s w max_tput,
    s ∈ create_slices demand_R1 1 /\ Slice.id s = 0 /\
    w ∈ [worker_A] /\ WorkerUnit.id w = "A" /\
    profile_A !! ("A", Slice.request_type_id s) = Some max_tput /\
    (0 < max_tput)%Q.
Proof.
  intros r.
  assert (H1 : (ret r).1.2 = Some {[ 0 := "A" ]}) by reflexivity.
  assert (H2 : ({[ 0 := "A" ]} : gmap Z string) !! 0 = Some "A") by reflexivity.
  split; [split; assumption|].
  exact (assignments_are_supported (Some backend_exact) [worker_A] profile_A
           demand_R1 1 {[ 0 := "A" ]} 0 "A" H1 H2).
Defined.

(** X5. A slice for which no worker of the list has a finite load is
    reported, when a backend exists, by a warning that names its id and
    request type, and it is in no returned assignment table. *)
Theorem unassignable_slice_reported_and_left_out (Solve : pywraplp.SolveFn)
    (worker_units : list WorkerUnit.t) (profile_data : ProfileData)
    (distribution_data : DistributionData) (slice_factor : Z) (s : Slice.t) :
  let slices := create_slices distribution_data slice_factor in
  let r := solve_provisioning_ilp (Some Solve) worker_units profile_data
             distribution_data slice_factor in
  s ∈ slices ->
  (forall w, w ∈ worker_units -> load_of profile_data s w = Inf) ->
  WarnUnassignable (Slice.id s) (Slice.request_type_id s) ∈ out r /\
  (forall assignments, (ret r).1.2 = Some assignments ->
     assignments !! Slice.id s = None).
Proof.
  intros slices r Hs Hinf. split.
  - subst r. assert (Hne : slices <> []) by (intros E; rewrite E in Hs; inversion Hs).
    rewrite solve_with_slices by exact Hne. fold slices.
    pose proof (unassignable_slice_warned worker_units profile_data
                  distribution_data slice_factor s Hs Hinf) as Hw.
    fold slices in Hw.
    destruct (pywraplp.status _); cbn [out]; rewrite !elem_of_app; auto.
  - intros assignments Hret.
    destruct (assignments !! Slice.id s) as [x|] eqn:E; [|reflexivity].
    exfalso.
    destruct (returned_assignment_origin (Some Solve) worker_units profile_data
                distribution_data slice_factor assignments _ x Hret E)
      as (s' & w & h & Hs' & Hid & Hw & Hx & Hh).
    destruct (built_A_supported worker_units profile_data distribution_data
                slice_factor s x h Hs Hh) as (t & Ht & Hpos).
    pose proof (Hinf w Hw) as Hl. unfold load_of in Hl. rewrite Hx, Ht in Hl.
    apply Qlt_bool_true in Hpos. rewrite Hpos in Hl. discriminate.
Qed.

Lemma unassignable_slice_reported_and_left_out_witness :
  let slices := create_slices demand_R1 1 in
  let r := solve_provisioning_ilp (Some backend_zero) [worker_A] ∅ demand_R1 1 in
  (slice_R1 ∈ slices /\
   forall w, w ∈ [worker_A] -> load_of ∅ slice_R1 w = Inf) /\
  WarnUnassignable 0 "R1" ∈ out r /\
  (forall assignments, (ret r).1.2 = Some assignments -> assignments !! 0 = None).
Proof.
  intros slices r.
  assert (Hs : slice_R1 ∈ slices) by left.
  assert (Hinf : forall w, w ∈ [worker_A] -> load_of ∅ slice_R1 w = Inf)
    by (intros w _; reflexivity).
  split; [split; assumption|].
  exact (unassignable_slice_reported_and_left_out backend_zero [worker_A] ∅
           demand_R1 1 slice_R1 Hs Hinf).
Defined.


(** ** What a solution that meets the model gives *)

Lemma feasible_holds (val : nat -> Q) (model : pywraplp.Solver)
    (c : pywraplp.MPConstraint) :
  pywraplp.feasible val model = true -> c ∈ pywraplp.constraints model ->
  pywraplp.holds val c = true.
Proof.
  unfold pywraplp.feasible. rewrite !andb_true_iff. intros [_ Hall] Hc.
  rewrite forallb_forall in Hall. apply Hall, list_elem_of_In, Hc.
Qed.

(** Binary values that add up to one have a one among them. *)
Lemma sum_of_one_exists (val : nat -> Q) (l : list nat) :
  (forall v, v ∈ l -> (val v == 0 \/ val v == 1)%Q) ->
  (sum_of val l == 1)%Q -> exists v, v ∈ l /\ (val v == 1)%Q.
Proof.
  induction l as [|v l IH]; intros Hbin Hsum; simpl in Hsum.
  - exfalso. lra.
  - destruct (Hbin v ltac:(left)) as [H0|H1].
    + destruct IH as (u & Hu & Hone).
      * intros u Hu. apply Hbin. right. exact Hu.
      * rewrite H0 in Hsum. lra.
      * exists u. split; [right; exact Hu|exact Hone].
    + exists v. split; [left|exact H1].
Qed.

(** The handles of a slice are binary-valued under a feasible valuation. *)
Lemma assigned_workers_binary (worker_units : list WorkerUnit.t)
    (profile_data : ProfileData) (slices : SliceList) (val : nat -> Q)
    (s : Slice.t) (v : nat) :
  let b := build_model worker_units profile_data slices in
  pywraplp.feasible val (built_model b) = true ->
  v ∈ assigned_workers (built_A b) worker_units s ->
  (val v == 0 \/ val v == 1)%Q.
Proof.
  intros b Hfeas Hin. unfold assigned_workers in Hin.
  apply list_elem_of_omap in Hin as (w0 & _ & Hw0).
  destruct (build_model_A_var worker_units profile_data slices _ _ Hw0)
    as (_ & var & Hvar & Hb).
  exact (binary_value val _ v var Hfeas Hvar Hb).
Qed.

Lemma feasible_assignment_sum (worker_units : list WorkerUnit.t)
    (profile_data : ProfileData) (slices : SliceList) (val : nat -> Q)
    (s : Slice.t) :
  let b := build_model worker_units profile_data slices in
  pywraplp.feasible val (built_model b) = true ->
  s ∈ slices ->
  assigned_workers (built_A b) worker_units s <> [] ->
  (sum_of val (assigned_workers (built_A b) worker_units s) == 1)%Q.
Proof.
  intros b Hfeas Hs Hne.
  pose proof (build_model_assign_constraint worker_units profile_data slices s
                Hs Hne) as Hc. fold b in Hc.
  pose proof (feasible_holds _ _ _ Hfeas Hc) as Hholds.
  unfold pywraplp.holds, pywraplp.expr_value, assign_constraint in Hholds.
  cbn [pywraplp.lhs pywraplp.rhs pywraplp.rel] in Hholds.
  rewrite terms_value_sum_vars in Hholds. simpl in Hholds.
  apply Qeq_bool_iff in Hholds. lra.
Qed.

(** X6. When the status is OPTIMAL and the reported values meet the model
    (bounds, integrality, constraints), every slice that some worker of the
    list can serve, i.e. for which the profile has a throughput above zero,
    is in the returned assignment table. *)
Theorem servable_slice_is_assigned (Solve : pywraplp.SolveFn)
    (worker_units : list WorkerUnit.t) (profile_data : ProfileData)
    (distribution_data : DistributionData) (slice_factor : Z)
    (s : Slice.t) (w : WorkerUnit.t) (max_tput : Q) :
  let slices := create_slices distribution_data slice_factor in
  let model := built_model (build_model worker_units profile_data slices) in
  let r := solve_provisioning_ilp (Some Solve) worker_units profile_data
             distribution_data slice_factor in
  pywraplp.status (Solve model) = pywraplp.OPTIMAL ->
  pywraplp.feasible (pywraplp.solution_value (Solve model)) model = true ->
  s ∈ slices -> w ∈ worker_units ->
  profile_data !! (WorkerUnit.id w, Slice.request_type_id s) = Some max_tput ->
  (0 < max_tput)%Q ->
  exists assignments x,
    (ret r).1.2 = Some assignments /\ assignments !! Slice.id s = Some x.
Proof.
  intros slices model r Hst Hfeas Hs Hw Hp Hpos. subst r.
  assert (Hne : slices <> []) by (intros E; rewrite E in Hs; inversion Hs).
  rewrite solve_with_slices by exact Hne. fold slices model. rewrite Hst.
  cbn [ret fst snd].
  pose proof (create_slices_NoDup distribution_data slice_factor) as Hnd.
  fold slices in Hnd.
  set (b := build_model worker_units profile_data slices) in *.
  set (val := pywraplp.solution_value (Solve model)) in *.
  assert (HA : is_Some (built_A b !! (Slice.id s, WorkerUnit.id w))).
  { apply build_model_A; [exact Hnd|]. exists s, w. repeat split; try assumption.
    unfold load_of. rewrite Hp. apply Qlt_bool_true in Hpos. rewrite Hpos.
    reflexivity. }
  destruct HA as [h Hh].
  assert (Hcand : assigned_workers (built_A b) worker_units s <> []).
  { intros E. assert (Hin : h ∈ assigned_workers (built_A b) worker_units s).
    { unfold assigned_workers. apply list_elem_of_omap. eauto. }
    rewrite E in Hin. inversion Hin. }
  pose proof (feasible_assignment_sum worker_units profile_data slices val s
                Hfeas Hs Hcand) as Hsum.
  destruct (sum_of_one_exists val _
              (fun v => assigned_workers_binary worker_units profile_data slices
                          val s v Hfeas) Hsum) as (v & Hv & Hone).
  unfold assigned_workers in Hv.
  apply list_elem_of_omap in Hv as (w0 & Hw0 & Hf0).
  exists (extract_assignments (built_A b) val slices worker_units).
  rewrite (extract_assignments_lookup _ _ _ _ _ Hnd Hs).
  destruct (find (chosen (built_A b) val s) worker_units) as [w1|] eqn:Hfind.
  - exists (WorkerUnit.id w1). split; reflexivity.
  - exfalso. pose proof (find_none _ _ Hfind w0) as Hnone.
    rewrite <- list_elem_of_In in Hnone. specialize (Hnone Hw0).
    pose proof (proj1 (chosen_false _ _ _ _) Hnone v Hf0). lra.
Qed.

Lemma servable_slice_is_assigned_witness :
  let slices := create_slices demand_R1 1 in
  let model := built_model (build_model [worker_A] profile_A slices) in
  let r := solve_provisioning_ilp (Some backend_exact) [worker_A] profile_A
             demand_R1 1 in
  (pywraplp.status (backend_exact model) = pywraplp.OPTIMAL /\
   pywraplp.feasible (pywraplp.solution_value (backend_exact model)) model = true /\
   slice_R1 ∈ slices /\ worker_A ∈ [worker_A] /\
   profile_A !! ("A", "R1") = Some 5%Q /\ (0 < 5)%Q) /\
  exists assignments x,
    (ret r).1.2 = Some assignments /\ assignments !! 0 = Some x.
Proof.
  intros slices model r.
  assert (Hst : pywraplp.status (backend_exact model) = pywraplp.OPTIMAL)
    by reflexivity.
  assert (Hf : pywraplp.feasible (pywraplp.solution_value (backend_exact model))
                 model = true) by reflexivity.
  assert (Hs : slice_R1 ∈ slices) by left.
  assert (Hw : worker_A ∈ [worker_A]) by left.
  assert (Hp : profile_A !! ("A", "R1") = Some 5%Q) by reflexivity.
  assert (H5 : (0 < 5)%Q) by reflexivity.
  split; [repeat split; assumption|].
  exact (servable_slice_is_assigned backend_exact [worker_A] profile_A demand_R1 1
           slice_R1 worker_A 5 Hst Hf Hs Hw Hp H5).
Defined.

(** ** Limits *)

(** The limit of a worker whose [max_limit] is set and not negative is a
    constraint of the model. *)
Lemma build_model_limit_constraint (worker_units : list WorkerUnit.t)
    (profile_data : ProfileData) (slices : SliceList) (w : WorkerUnit.t) (m : Z) :
  let b := build_model worker_units profile_data slices in
  w ∈ worker_units -> WorkerUnit.max_limit w = Some m -> 0 <= m ->
  limit_constraint (built_B b) w m ∈ pywraplp.constraints (built_model b).
Proof.
  intros b. subst b.
  destruct (build_model_unfold worker_units profile_data slices)
    as (B & s1 & _ & Heq).
  cbv zeta in Heq. rewrite Heq. cbn [built_B built_model].
  rewrite set_objective_constraints. revert w m.
  apply (fold_left_inv (fun pre solver =>
    forall w m, w ∈ pre -> WorkerUnit.max_limit w = Some m -> 0 <= m ->
      limit_constraint B w m ∈ pywraplp.constraints solver)).
  - intros w m Hw. inversion Hw.
  - intros pre x post solver _ IH w m Hw Hm Hpos.
    apply elem_of_app in Hw as [Hw|Hw].
    + apply add_limit_keeps, (IH w m Hw Hm Hpos).
    + apply list_elem_of_singleton in Hw as ->. unfold add_limit. rewrite Hm.
      destruct (Z.leb_spec 0 m); [|lia]. simpl. apply elem_of_app. right. left.
Qed.

(** X7. When the status is OPTIMAL and the reported values meet the model,
    the count of every worker whose [max_limit] is set and not negative is
    at most that limit. *)
Theorem counts_respect_limits (Solve : pywraplp.SolveFn)
    (worker_units : list WorkerUnit.t) (profile_data : ProfileData)
    (distribution_data : DistributionData) (slice_factor : Z)
    (w : WorkerUnit.t) (m : Z) :
  let slices := create_slices distribution_data slice_factor in
  let model := built_model (build_model worker_units profile_data slices) in
  let r := solve_provisioning_ilp (Some Solve) worker_units profile_data
             distribution_data slice_factor in
  slices <> [] ->
  pywraplp.status (Solve model) = pywraplp.OPTIMAL ->
  pywraplp.feasible (pywraplp.solution_value (Solve model)) model = true ->
  w ∈ worker_units -> WorkerUnit.max_limit w = Some m -> 0 <= m ->
  exists counts c,
    (ret r).1.1 = Some counts /\ counts !! WorkerUnit.id w = Some c /\ c <= m.
Proof.
  intros slices model r Hne Hst Hfeas Hw Hm Hpos. subst r.
  rewrite solve_with_slices by exact Hne. fold slices model. rewrite Hst.
  cbn [ret fst]. eexists _, _. split; [reflexivity|].
  rewrite extract_counts_lookup, decide_True by in_map_by_eauto.
  split; [reflexivity|].
  pose proof (build_model_limit_constraint worker_units profile_data slices w m
                Hw Hm Hpos) as Hc.
  pose proof (feasible_holds _ _ _ Hfeas Hc) as Hholds.
  unfold pywraplp.holds, pywraplp.expr_value, limit_constraint in Hholds.
  simpl in Hholds. apply Qle_bool_true in Hholds.
  unfold ceil. rewrite <- (Qceiling_Z m). apply Qceiling_resp_le. lra.
Qed.

Lemma counts_respect_limits_witness :
  let slices := create_slices demand_R1 1 in
  let model := built_model (build_model [worker_limited] profile_A slices) in
  let r := solve_provisioning_ilp (Some backend_exact) [worker_limited] profile_A
             demand_R1 1 in
  (slices <> [] /\
   pywraplp.status (backend_exact model) = pywraplp.OPTIMAL /\
   pywraplp.feasible (pywraplp.solution_value (backend_exact model)) model = true /\
   worker_limited ∈ [worker_limited] /\
   WorkerUnit.max_limit worker_limited = Some 2 /\ 0 <= 2) /\
  exists counts c,
    (ret r).1.1 = Some counts /\ counts !! "A" = Some c /\ c <= 2.
Proof.
  intros slices model r.
  assert (Hne : slices <> []) by discriminate.
  assert (Hst : pywraplp.status (backend_exact model) = pywraplp.OPTIMAL)
    by reflexivity.
  assert (Hf : pywraplp.feasible (pywraplp.solution_value (backend_exact model))
                 model = true) by reflexivity.
  assert (Hw : worker_limited ∈ [worker_limited]) by left.
  assert (Hm : WorkerUnit.max_limit worker_limited = Some 2) by reflexivity.
  assert (H2 : 0 <= 2) by lia.
  split; [repeat split; assumption|].
  exact (counts_respect_limits backend_exact [worker_limited] profile_A demand_R1 1
           worker_limited 2 Hne Hst Hf Hw Hm H2).
Defined.

(** ** Rounding *)

(** The ceiling is [n] exactly on the half-open unit interval below [n]. *)
Lemma Qceiling_eq_iff (x : Q) (n : Z) :
  Qceiling x = n <-> (inject_Z (n - 1) < x /\ x <= inject_Z n)%Q.
Proof.
  split.
  - intros <-. split; [apply Qceiling_lt|apply Qle_ceiling].
  - intros [Hlo Hhi].
    pose proof (Qle_ceiling x) as Hc. pose proof (Qceiling_lt x) as Hl.
    assert (H1 : (inject_Z (n - 1) < inject_Z (Qceiling x))%Q) by lra.
    assert (H2 : (inject_Z (Qceiling x - 1) < inject_Z n)%Q) by lra.
    rewrite <- Zlt_Qlt in H1, H2. lia.
Qed.

(** X8. On status OPTIMAL the count of a worker is the integer n exactly
    when the reported value of its variable lies in the interval
    (n - 1 + 1e-6, n + 1e-6]: noise of up to 1e-6 above an integer is
    rounded down to it, anything more is rounded up. *)
Theorem count_rounding (Solve : pywraplp.SolveFn)
    (worker_units : list WorkerUnit.t) (profile_data : ProfileData)
    (distribution_data : DistributionData) (slice_factor : Z)
    (w : WorkerUnit.t) (n : Z) :
  let slices := create_slices distribution_data slice_factor in
  let b := build_model worker_units profile_data slices in
  let value := pywraplp.solution_value (Solve (built_model b)) in
  let r := solve_provisioning_ilp (Some Solve) worker_units profile_data
             distribution_data slice_factor in
  slices <> [] ->
  pywraplp.status (Solve (built_model b)) = pywraplp.OPTIMAL ->
  w ∈ worker_units ->
  exists counts h,
    (ret r).1.1 = Some counts /\
    built_B b !! WorkerUnit.id w = Some h /\
    (counts !! WorkerUnit.id w = Some n <->
     (inject_Z n - 1 + lit_1e_6 < value h /\ value h <= inject_Z n + lit_1e_6)%Q).
Proof.
  intros slices b value r Hne Hst Hw. subst r.
  rewrite solve_with_slices by exact Hne. fold slices b. rewrite Hst.
  fold value. cbn [ret fst].
  destruct (build_model_B worker_units profile_data slices w Hw) as (h & HB & _).
  fold b in HB. eexists _, h. split; [reflexivity|]. split; [exact HB|].
  rewrite extract_counts_lookup, decide_True by in_map_by_eauto.
  rewrite (lookup_total_correct _ _ _ HB). unfold ceil.
  split.
  - intros [= Hc]. apply Qceiling_eq_iff in Hc.
    unfold Z.sub in Hc. rewrite inject_Z_plus, inject_Z_opp in Hc.
    change (inject_Z 1) with 1%Q in Hc. destruct Hc. split; lra.
  - intros [Hlo Hhi]. f_equal. apply Qceiling_eq_iff.
    unfold Z.sub. rewrite inject_Z_plus, inject_Z_opp.
    change (inject_Z 1) with 1%Q. split; lra.
Qed.

Lemma count_rounding_witness :
  let slices := create_slices demand_R1 1 in
  let b := build_model [worker_A] profile_A slices in
  let value := pywraplp.solution_value (backend_exact (built_model b)) in
  let r := solve_provisioning_ilp (Some backend_exact) [worker_A] profile_A
             demand_R1 1 in
  (slices <> [] /\
   pywraplp.status (backend_exact (built_model b)) = pywraplp.OPTIMAL /\
   worker_A ∈ [worker_A]) /\
  exists counts h,
    (ret r).1.1 = Some counts /\
    built_B b !! "A" = Some h /\
    (counts !! "A" = Some 2 <->
     (inject_Z 2 - 1 + lit_1e_6 < value h /\ value h <= inject_Z 2 + lit_1e_6)%Q).
Proof.
  intros slices b value r.
  assert (Hne : slices <> []) by discriminate.
  assert (Hst : pywraplp.status (backend_exact (built_model b)) = pywraplp.OPTIMAL)
    by reflexivity.
  assert (Hw : worker_A ∈ [worker_A]) by left.
  split; [repeat split; assumption|].
  exact (count_rounding backend_exact [worker_A] profile_A demand_R1 1
           worker_A 2 Hne Hst Hw).
Defined.


(** ** Capacity *)

Lemma build_model_capacity_constraint (worker_units : list WorkerUnit.t)
    (profile_data : ProfileData) (slices : SliceList) (w : WorkerUnit.t) :
  let b := build_model worker_units profile_data slices in
  w ∈ worker_units ->
  capacity_terms (built_A b) (built_load_matrix b) slices w <> [] ->
  capacity_constraint (built_A b) (built_B b) (built_load_matrix b) slices w
    ∈ pywraplp.constraints (built_model b).
Proof.
  intros b. subst b.
  destruct (build_model_unfold worker_units profile_data slices)
    as (B & s1 & _ & Heq).
  cbv zeta in Heq. rewrite Heq. cbn [built_A built_B built_load_matrix built_model].
  set (lm := build_load_matrix profile_data slices worker_units).
  set (d := declare_A lm slices worker_units s1).
  intros Hw Hne. rewrite set_objective_constraints.
  apply (fold_left_preserves
           (fun solver => capacity_constraint (A d) B lm slices w
                            ∈ pywraplp.constraints solver)).
  { intros solver x. apply add_limit_keeps. }
  revert w Hw Hne.
  apply (fold_left_inv (fun pre solver =>
    forall w, w ∈ pre -> capacity_terms (A d) lm slices w <> [] ->
      capacity_constraint (A d) B lm slices w ∈ pywraplp.constraints solver)).
  - intros w Hw. inversion Hw.
  - intros pre x post solver _ IH w Hw Hne.
    apply elem_of_app in Hw as [Hw|Hw].
    + apply add_capacity_keeps, IH; assumption.
    + apply list_elem_of_singleton in Hw as ->.
      unfold add_capacity. fold (capacity_terms (A d) lm slices x).
      destruct (capacity_terms (A d) lm slices x) eqn:E; [congruence|].
      simpl. apply elem_of_app. right. unfold capacity_constraint. rewrite E. left.
Qed.

(** Every slice has a rate above 1e-9. *)
Lemma create_slices_rate (distribution_data : DistributionData)
    (slice_factor : Z) (s : Slice.t) :
  s ∈ create_slices distribution_data slice_factor ->
  (lit_1e_9 < Slice.rate_portion s)%Q.
Proof.
  unfold create_slices, create_slicer_state.
  destruct (slicer_fold_spec (Z.max slice_factor 1) distribution_data
              (mkSlicer [] 0 slice_factor)) as (chunks & Hall & Hp & _).
  { split; reflexivity. }
  simpl in Hp. intros Hs.
  assert (Hin : payload s ∈ concat chunks).
  { rewrite <- Hp. change (map ?f ?l) with (f <$> l). apply list_elem_of_fmap. eauto. }
  assert (Hk : 1 <= Z.max slice_factor 1) by lia.
  clear Hp Hs. induction Hall as [|item chunk rest chunks' Hem _ IH];
    [inversion Hin|].
  cbn [concat] in Hin. apply elem_of_app in Hin as [Hin|Hin]; [|exact (IH Hin)].
  destruct (emits_chunk _ _ _ Hk Hem) as (_ & Hf & _).
  rewrite Forall_forall in Hf. apply (Hf _ Hin).
Qed.

(** The load of a slice of the call is never negative. *)
Lemma load_value_nonneg (profile_data : ProfileData)
    (distribution_data : DistributionData) (slice_factor : Z)
    (s : Slice.t) (w : WorkerUnit.t) :
  s ∈ create_slices distribution_data slice_factor ->
  (0 <= load_value (load_of profile_data s w))%Q.
Proof.
  intros Hs. apply create_slices_rate in Hs. unfold load_of.
  destruct (profile_data !! _) as [t|]; [|simpl; lra].
  destruct (Qlt_bool 0 t) eqn:Ht; [|simpl; lra].
  apply Qlt_bool_true in Ht. simpl. apply Qle_shift_div_l; [exact Ht|]. lra.
Qed.

(** An integer variable has an integer value under a feasible valuation. *)
Lemma integral_value (val : nat -> Q) (model : pywraplp.Solver) (h : nat)
    (v : pywraplp.MPVariable) :
  pywraplp.feasible val model = true ->
  pywraplp.variables model !! h = Some v ->
  (val h == inject_Z (Qfloor (val h)))%Q.
Proof.
  unfold pywraplp.feasible. rewrite !andb_true_iff. intros [[_ Hi] _] Hv.
  unfold pywraplp.all_integral in Hi. rewrite forallb_forall in Hi.
  apply Qeq_bool_iff. apply Hi, in_seq. apply lookup_lt_Some in Hv. lia.
Qed.

(** The terms of the capacity constraint evaluate to [capacity_load]. *)
Lemma capacity_terms_value (worker_units : list WorkerUnit.t)
    (profile_data : ProfileData) (distribution_data : DistributionData)
    (slice_factor : Z) (val : nat -> Q) (w : WorkerUnit.t) :
  let slices := create_slices distribution_data slice_factor in
  let b := build_model worker_units profile_data slices in
  w ∈ worker_units ->
  exists a,
    pywraplp.terms_value val
      (capacity_terms (built_A b) (built_load_matrix b) slices w) = Some a /\
    (a == capacity_load profile_data (built_A b) val slices w)%Q.
Proof.
  intros slices b Hw.
  pose proof (create_slices_NoDup distribution_data slice_factor) as Hnd.
  fold slices in Hnd.
  destruct (build_load_matrix_spec profile_data slices worker_units Hnd) as [Hl _].
  assert (Hfin : forall s v, s ∈ slices ->
            built_A b !! (Slice.id s, WorkerUnit.id w) = Some v ->
            exists q, load_of profile_data s w = Fin q /\
                      built_load_matrix b !!! (Slice.id s, WorkerUnit.id w) = Fin q).
  { intros s v Hs Hv. subst b.
    rewrite build_model_load_matrix.
    rewrite (lookup_total_correct _ _ _ (Hl s w Hs Hw)).
    destruct (built_A_supported worker_units profile_data distribution_data
                slice_factor s _ v Hs Hv) as (t & Ht & Hpos).
    unfold load_of. rewrite Ht. apply Qlt_bool_true in Hpos. rewrite Hpos. eauto. }
  unfold capacity_terms, capacity_load.
  assert (Hgen : forall l, (forall s, s ∈ l -> s ∈ slices) ->
    exists a,
      pywraplp.terms_value val
        (omap (fun s => match built_A b !! (Slice.id s, WorkerUnit.id w) with
                        | Some v => Some (built_load_matrix b !!!
                                            (Slice.id s, WorkerUnit.id w), v)
                        | None => None
                        end) l) = Some a /\
      (a == Qsum (map (fun s =>
                 match built_A b !! (Slice.id s, WorkerUnit.id w) with
                 | Some v => (load_value (load_of profile_data s w) * val v)%Q
                 | None => 0%Q
                 end) l))%Q).
  { induction l as [|s l IH]; intros Hsub.
    - exists 0%Q. split; reflexivity.
    - destruct IH as (a & Ha & Heq); [intros x Hx; apply Hsub; right; exact Hx|].
      cbn [omap list_omap map]. unfold Qsum in *. cbn [fold_right].
      destruct (built_A b !! (Slice.id s, WorkerUnit.id w)) as [v|] eqn:Ev.
      + destruct (Hfin s v (Hsub s ltac:(left)) Ev) as (q & Hq & Hlm).
        rewrite Hlm, Hq. cbn [pywraplp.terms_value]. unfold pywraplp.term_value.
        cbn [fst snd]. cbn [omap] in Ha. rewrite Ha.
        eexists. split; [reflexivity|]. simpl. rewrite Heq. reflexivity.
      + cbn [omap] in Ha. exists a. split; [exact Ha|]. rewrite Heq. ring. }
  apply Hgen. auto.
Qed.

Lemma Qsum_map_le {X : Type} (f g : X -> Q) (l : list X) :
  (forall x, x ∈ l -> (f x <= g x)%Q) -> (Qsum (map f l) <= Qsum (map g l))%Q.
Proof.
  induction l as [|x l IH]; intros H; unfold Qsum in *; cbn [map fold_right];
    [lra|].
  pose proof (H x ltac:(left)).
  assert (fold_right Qplus 0 (map f l) <= fold_right Qplus 0 (map g l))%Q
    by (apply IH; intros y Hy; apply H; right; exact Hy).
  lra.
Qed.

(** The value of [B[w.id]] bounds the left side of the capacity constraint
    under a feasible valuation. *)
Lemma feasible_capacity (worker_units : list WorkerUnit.t)
    (profile_data : ProfileData) (distribution_data : DistributionData)
    (slice_factor : Z) (val : nat -> Q) (w : WorkerUnit.t) (h : nat) :
  let slices := create_slices distribution_data slice_factor in
  let b := build_model worker_units profile_data slices in
  pywraplp.feasible val (built_model b) = true ->
  w ∈ worker_units ->
  built_B b !! WorkerUnit.id w = Some h ->
  pywraplp.variables (built_model b) !! h = Some (B_var w) ->
  (capacity_load profile_data (built_A b) val slices w <= val h)%Q.
Proof.
  intros slices b Hfeas Hw HB Hvar.
  destruct (capacity_terms_value worker_units profile_data distribution_data
              slice_factor val w Hw) as (a & Ha & Heq).
  fold slices b in Ha, Heq. rewrite <- Heq.
  destruct (capacity_terms (built_A b) (built_load_matrix b) slices w) eqn:E.
  - simpl in Ha. injection Ha as <-.
    pose proof Hfeas as Hf. unfold pywraplp.feasible in Hf.
    rewrite !andb_true_iff in Hf. destruct Hf as [[Hb _] _].
    pose proof (all_in_bounds_lookup val _ 0 h _ Hb Hvar) as Hin.
    unfold pywraplp.in_bounds, B_var in Hin. simpl in Hin.
    apply andb_true_iff in Hin as [Hge _]. apply Qle_bool_true in Hge. exact Hge.
  - assert (Hne : capacity_terms (built_A b) (built_load_matrix b) slices w <> [])
      by (rewrite E; discriminate).
    pose proof (build_model_capacity_constraint worker_units profile_data slices w
                  Hw Hne) as Hc. fold b in Hc.
    pose proof (feasible_holds _ _ _ Hfeas Hc) as Hholds.
    unfold pywraplp.holds, pywraplp.expr_value, capacity_constraint in Hholds.
    cbn [pywraplp.lhs pywraplp.rhs pywraplp.rel pywraplp.terms pywraplp.offset]
      in Hholds.
    rewrite E, Ha in Hholds. rewrite (lookup_total_correct _ _ _ HB) in Hholds.
    simpl in Hholds. apply Qle_bool_true in Hholds. lra.
Qed.

(** X9. When the status is OPTIMAL and the reported values meet the model,
    no worker is over-committed: for every worker of the list, the loads
    [rate_portion / max_tput] of the slices assigned to its id add up to at
    most its count. *)
Theorem capacity_respected (Solve : pywraplp.SolveFn)
    (worker_units : list WorkerUnit.t) (profile_data : ProfileData)
    (distribution_data : DistributionData) (slice_factor : Z)
    (w : WorkerUnit.t) :
  let slices := create_slices distribution_data slice_factor in
  let model := built_model (build_model worker_units profile_data slices) in
  let r := solve_provisioning_ilp (Some Solve) worker_units profile_data
             distribution_data slice_factor in
  slices <> [] ->
  pywraplp.status (Solve model) = pywraplp.OPTIMAL ->
  pywraplp.feasible (pywraplp.solution_value (Solve model)) model = true ->
  w ∈ worker_units ->
  exists counts assignments c,
    ret r = (Some counts, Some assignments, slices) /\
    counts !! WorkerUnit.id w = Some c /\
    (assigned_load profile_data assignments slices w <= inject_Z c)%Q.
Proof.
  intros slices model r Hne Hst Hfeas Hw. subst r.
  rewrite solve_with_slices by exact Hne. fold slices model. rewrite Hst.
  cbn [ret]. subst model.
  set (b := build_model worker_units profile_data slices) in *.
  set (val := pywraplp.solution_value (Solve (built_model b))) in *.
  destruct (build_model_B worker_units profile_data slices w Hw) as (h & HB & Hvar).
  fold b in HB, Hvar.
  eexists _, _, _. split; [reflexivity|].
  rewrite extract_counts_lookup, decide_True by in_map_by_eauto.
  split; [reflexivity|].
  rewrite (lookup_total_correct _ _ _ HB).
  pose proof (create_slices_NoDup distribution_data slice_factor) as Hnd.
  fold slices in Hnd.
  (* the count is the value of the variable *)
  pose proof (integral_value val _ h _ Hfeas Hvar) as Hint.
  assert (Hc : ceil (val h - lit_1e_6)%Q = Qfloor (val h)).
  { unfold ceil. apply Qceiling_eq_iff.
    unfold Z.sub. rewrite inject_Z_plus, inject_Z_opp.
    change (inject_Z 1) with 1%Q. split; lra. }
  rewrite Hc, <- Hint.
  (* the assigned load is below the left side of the capacity constraint *)
  eapply Qle_trans;
    [|exact (feasible_capacity worker_units profile_data distribution_data
               slice_factor val w h Hfeas Hw HB Hvar)].
  unfold assigned_load, capacity_load. fold slices b.
  apply Qsum_map_le. intros s Hs.
  pose proof (load_value_nonneg profile_data distribution_data slice_factor s w Hs)
    as Hload.
  assert (Hbin : forall v, built_A b !! (Slice.id s, WorkerUnit.id w) = Some v ->
                   (val v == 0 \/ val v == 1)%Q).
  { intros v Hv.
    destruct (build_model_A_var worker_units profile_data slices _ _ Hv)
      as (_ & var & Hvar' & Hb).
    exact (binary_value val _ v var Hfeas Hvar' Hb). }
  destruct (decide _) as [Hassigned|_].
  - rewrite (extract_assignments_lookup _ _ _ _ _ Hnd Hs) in Hassigned.
    destruct (find _ worker_units) as [w1|] eqn:Hfind; [|discriminate].
    injection Hassigned as Hid. apply find_some in Hfind as [_ Hch].
    apply chosen_true in Hch as (v & Hv & Hhalf). rewrite Hid in Hv.
    rewrite Hv. destruct (Hbin v Hv) as [H0|H1]; [lra|]. rewrite H1. lra.
  - destruct (built_A b !! _) as [v|] eqn:Ev; [|lra].
    destruct (Hbin v eq_refl) as [H0|H1]; [rewrite H0|rewrite H1]; lra.
Qed.

Lemma capacity_respected_witness :
  let slices := create_slices demand_R1 1 in
  let model := built_model (build_model [worker_A] profile_A slices) in
  let r := solve_provisioning_ilp (Some backend_exact) [worker_A] profile_A
             demand_R1 1 in
  (slices <> [] /\
   pywraplp.status (backend_exact model) = pywraplp.OPTIMAL /\
   pywraplp.feasible (pywraplp.solution_value (backend_exact model)) model = true /\
   worker_A ∈ [worker_A]) /\
  exists counts assignments c,
    ret r = (Some counts, Some assignments, slices) /\
    counts !! "A" = Some c /\
    (assigned_load profile_A assignments slices worker_A <= inject_Z c)%Q.
Proof.
  intros slices model r.
  assert (Hne : slices <> []) by discriminate.
  assert (Hst : pywraplp.status (backend_exact model) = pywraplp.OPTIMAL)
    by reflexivity.
  assert (Hf : pywraplp.feasible (pywraplp.solution_value (backend_exact model))
                 model = true) by reflexivity.
  assert (Hw : worker_A ∈ [worker_A]) by left.
  split; [repeat split; assumption|].
  exact (capacity_respected backend_exact [worker_A] profile_A demand_R1 1
           worker_A Hne Hst Hf Hw).
Defined.


(** ** The objective and the cost of the plan *)

Lemma objective_value_Qsum (val : nat -> Q) (s : pywraplp.Solver) :
  pywraplp.objective_value val s =
  Qsum (map (fun i => (default 0%Q (pywraplp.objective s !! i) * val i)%Q)
            (seq 0 (length (pywraplp.variables s)))).
Proof.
  unfold pywraplp.objective_value, Qsum.
  induction (seq 0 (length (pywraplp.variables s))) as [|i l IH]; [reflexivity|].
  cbn [fold_right map]. rewrite IH. reflexivity.
Qed.

Lemma Qsum_seq_map {X : Type} (F : nat -> Q) (G : X -> Q) (l : list X) (a : nat) :
  (forall j x, l !! j = Some x -> (F (a + j)%nat == G x)%Q) ->
  (Qsum (map F (seq a (length l))) == Qsum (map G l))%Q.
Proof.
  revert a. induction l as [|x l IH]; intros a H; [reflexivity|].
  cbn [length seq map]. unfold Qsum in *. cbn [fold_right].
  rewrite (IH (S a)).
  - rewrite <- (H 0%nat x eq_refl). rewrite Nat.add_0_r. reflexivity.
  - intros j y Hj. rewrite <- (H (S j) y Hj).
    replace (S a + j)%nat with (a + S j)%nat by lia. reflexivity.
Qed.

Lemma Qsum_zero (F : nat -> Q) (l : list nat) :
  (forall i, i ∈ l -> (F i == 0)%Q) -> (Qsum (map F l) == 0)%Q.
Proof.
  induction l as [|i l IH]; intros H; [reflexivity|].
  cbn [map]. unfold Qsum in *. cbn [fold_right].
  rewrite IH by (intros j Hj; apply H; right; exact Hj).
  rewrite (H i) by left. reflexivity.
Qed.

Lemma add_assignment_objective (A : gmap (Z * string) nat)
    (worker_units : list WorkerUnit.t) (solver : pywraplp.Solver) (s : Slice.t) :
  pywraplp.objective (add_assignment A worker_units solver s)
  = pywraplp.objective solver.
Proof. unfold add_assignment. destruct (omap _ _); reflexivity. Qed.

Lemma add_capacity_objective (A : gmap (Z * string) nat) (B : gmap string nat)
    (load_matrix : gmap (Z * string) float) (slices : SliceList)
    (solver : pywraplp.Solver) (w : WorkerUnit.t) :
  pywraplp.objective (add_capacity A B load_matrix slices solver w)
  = pywraplp.objective solver.
Proof. unfold add_capacity. destruct (omap _ _); reflexivity. Qed.

Lemma add_limit_objective (B : gmap string nat) (solver : pywraplp.Solver)
    (w : WorkerUnit.t) :
  pywraplp.objective (add_limit B solver w) = pywraplp.objective solver.
Proof.
  unfold add_limit. destruct (WorkerUnit.max_limit w) as [m|]; [|reflexivity].
  destruct (0 <=? m); reflexivity.
Qed.

(** With distinct worker ids, the variables of the model start with one
    [B] variable for each worker, in the order of the list; the handle of
    the i-th worker is i and its objective coefficient is the cost of that
    worker; no other variable has a coefficient. *)
Lemma build_model_costs (worker_units : list WorkerUnit.t)
    (profile_data : ProfileData) (slices : SliceList) :
  let b := build_model worker_units profile_data slices in
  NoDup (map WorkerUnit.id worker_units) ->
  (exists extra,
     pywraplp.variables (built_model b) = map B_var worker_units ++ extra) /\
  (forall i w, worker_units !! i = Some w ->
     built_B b !! WorkerUnit.id w = Some i /\
     pywraplp.objective (built_model b) !! i = Some (WorkerUnit.cost w)) /\
  (forall i, (length worker_units <= i)%nat ->
     pywraplp.objective (built_model b) !! i = None).
Proof.
  intros b Hnd. subst b.
  destruct (build_model_unfold worker_units profile_data slices)
    as (B & s1 & HB & Heq).
  pose proof (build_model_constraints_inv _ profile_data slices _ _ HB) as [Hv _].
  cbv zeta in Heq, Hv. rewrite Heq. cbn [built_B built_model].
  destruct (declare_B_spec _ _ _ _ HB) as (Hv1 & _ & Ho1 & _ & Hh & Hd).
  pose proof (declare_A_inv (build_load_matrix profile_data slices worker_units)
                slices worker_units s1) as ([extra He] & _ & Ho & _).
  assert (Hhandle : forall i w, worker_units !! i = Some w ->
                      B !! WorkerUnit.id w = Some i).
  { intros i w Hi.
    destruct (Hd w (list_elem_of_lookup_2 _ _ _ Hi)) as [h Hl].
    destruct (Hh _ _ Hl) as (j & w' & Hj & Hid & ->). simpl.
    assert (j = i); [|subst; exact Hl].
    eapply (NoDup_lookup (map WorkerUnit.id worker_units)); [exact Hnd| |].
    - change (map ?f ?l) with (f <$> l). rewrite list_lookup_fmap, Hj.
      simpl. rewrite Hid. reflexivity.
    - change (map ?f ?l) with (f <$> l). rewrite list_lookup_fmap, Hi.
      reflexivity. }
  assert (Hobj : pywraplp.objective
                   (set_objective B worker_units
                      (fold_left (add_limit B) worker_units
                         (fold_left
                            (add_capacity
                               (A (declare_A
                                     (build_load_matrix profile_data slices
                                        worker_units) slices worker_units s1))
                               B (build_load_matrix profile_data slices
                                    worker_units) slices)
                            worker_units
                            (fold_left
                               (add_assignment
                                  (A (declare_A
                                        (build_load_matrix profile_data slices
                                           worker_units) slices worker_units s1))
                                  worker_units)
                               slices
                               (decl_solver
                                  (declare_A
                                     (build_load_matrix profile_data slices
                                        worker_units) slices worker_units s1))))))
                 = fold_left
                     (fun m w => <[B !!! WorkerUnit.id w := WorkerUnit.cost w]> m)
                     worker_units ∅).
  { rewrite set_objective_objective. f_equal.
    transitivity (pywraplp.objective
                    (decl_solver
                       (declare_A (build_load_matrix profile_data slices worker_units)
                          slices worker_units s1))).
    - apply (fold_left_preserves (fun s => pywraplp.objective s = _)).
      + intros s w Hs. rewrite add_limit_objective. exact Hs.
      + apply (fold_left_preserves (fun s => pywraplp.objective s = _)).
        * intros s w Hs. rewrite add_capacity_objective. exact Hs.
        * apply (fold_left_preserves (fun s => pywraplp.objective s = _)).
          -- intros s x Hs. rewrite add_assignment_objective. exact Hs.
          -- reflexivity.
    - rewrite Ho, Ho1. reflexivity. }
  rewrite Hobj. split; [|split].
  - exists extra. rewrite Hv, He, Hv1. reflexivity.
  - intros i w Hi. split; [apply Hhandle, Hi|].
    destruct (fold_insert_is_Some (fun w => B !!! WorkerUnit.id w)
                WorkerUnit.cost worker_units ∅ i) as [c Hc].
    { right. change (map ?f ?l) with (f <$> l). apply list_elem_of_fmap.
      exists w. split; [|eapply list_elem_of_lookup_2, Hi].
      rewrite (lookup_total_correct _ _ _ (Hhandle i w Hi)). reflexivity. }
    rewrite Hc. f_equal.
    apply fold_insert_Some in Hc as [(w' & Hw' & Hk & <-)|Hc];
      [|rewrite lookup_empty in Hc; discriminate].
    apply list_elem_of_lookup in Hw' as [j Hj].
    rewrite (lookup_total_correct _ _ _ (Hhandle j w' Hj)) in Hk. subst j.
    congruence.
  - intros i Hi.
    destruct (fold_left _ worker_units ∅ !! i) as [c|] eqn:Hc; [|reflexivity].
    exfalso. apply fold_insert_Some in Hc as [(w' & Hw' & Hk & _)|Hc];
      [|rewrite lookup_empty in Hc; discriminate].
    apply list_elem_of_lookup in Hw' as [j Hj].
    rewrite (lookup_total_correct _ _ _ (Hhandle j w' Hj)) in Hk. subst j.
    apply lookup_lt_Some in Hj. lia.
Qed.

(** The rounding gives back a value that is an integer. *)
Lemma ceil_integral (x : Q) :
  (x == inject_Z (Qfloor x))%Q -> (inject_Z (ceil (x - lit_1e_6)) == x)%Q.
Proof.
  intros Hx. unfold ceil.
  assert (Hc : Qceiling (x - lit_1e_6) = Qfloor x).
  { apply Qceiling_eq_iff. unfold Z.sub. rewrite inject_Z_plus, inject_Z_opp.
    change (inject_Z 1) with 1%Q. split; lra. }
  rewrite Hc. symmetry. exact Hx.
Qed.

(** The objective at a valuation, worker by worker. *)
Lemma objective_value_by_worker (worker_units : list WorkerUnit.t)
    (profile_data : ProfileData) (slices : SliceList) (val : nat -> Q)
    (G : WorkerUnit.t -> Q) :
  let model := built_model (build_model worker_units profile_data slices) in
  NoDup (map WorkerUnit.id worker_units) ->
  (forall i w, worker_units !! i = Some w -> (val i == G w)%Q) ->
  (pywraplp.objective_value val model
   == Qsum (map (fun w => (WorkerUnit.cost w * G w)%Q) worker_units))%Q.
Proof.
  intros model Hnd HG.
  destruct (build_model_costs worker_units profile_data slices Hnd)
    as ([extra Hvars] & Hcost & Hnone).
  fold model in Hvars, Hcost, Hnone.
  rewrite objective_value_Qsum, Hvars, length_app, seq_app, map_app, Qsum_app.
  rewrite length_map. cbn [Nat.add].
  rewrite (Qsum_zero _ (seq (length worker_units) (length extra))).
  2:{ intros i Hi. apply list_elem_of_In, in_seq in Hi.
      rewrite Hnone by lia. cbn [default from_option id]. ring. }
  rewrite Qplus_0_r.
  apply Qsum_seq_map. intros j w Hj. cbn [Nat.add].
  destruct (Hcost j w Hj) as [_ Hc]. rewrite Hc. cbn [default from_option id].
  rewrite (HG j w Hj). reflexivity.
Qed.

(** The objective at a valuation that meets the model is the cost of the
    counts read from it. *)
Lemma extracted_counts_cost (worker_units : list WorkerUnit.t)
    (profile_data : ProfileData) (slices : SliceList) (value : nat -> Q) :
  let b := build_model worker_units profile_data slices in
  NoDup (map WorkerUnit.id worker_units) ->
  pywraplp.feasible value (built_model b) = true ->
  (pywraplp.objective_value value (built_model b)
   == plan_cost worker_units (extract_counts (built_B b) value worker_units))%Q.
Proof.
  intros b Hnd Hf. unfold plan_cost.
  apply (objective_value_by_worker worker_units profile_data slices value
           (fun w => inject_Z (default 0%Z
                       (extract_counts (built_B b) value worker_units
                          !! WorkerUnit.id w))) Hnd).
  intros j w Hj.
  destruct (build_model_costs worker_units profile_data slices Hnd)
    as ([extra Hvars] & Hcost & _).
  fold b in Hvars, Hcost. destruct (Hcost j w Hj) as [HB _].
  rewrite extract_counts_lookup, decide_True
    by (change (map ?f ?l) with (f <$> l); apply list_elem_of_fmap;
        exists w; split; [reflexivity|eapply list_elem_of_lookup_2, Hj]).
  cbn [default from_option id]. rewrite (lookup_total_correct _ _ _ HB).
  rewrite ceil_integral; [reflexivity|].
  apply (integral_value value (built_model b) j (B_var w) Hf).
  rewrite Hvars. apply lookup_app_l_Some.
  change (map ?f ?l) with (f <$> l). rewrite list_lookup_fmap, Hj. reflexivity.
Qed.

(** X23. When the worker ids are distinct, the status is OPTIMAL and the
    reported values meet the model, the value of the objective at the
    solution, which the driver prints as the minimum total cost, is the
    cost of the returned plan: the sum over the workers of cost times
    count. *)
Theorem reported_cost_is_plan_cost (Solve : pywraplp.SolveFn)
    (worker_units : list WorkerUnit.t) (profile_data : ProfileData)
    (distribution_data : DistributionData) (slice_factor : Z) :
  let slices := create_slices distribution_data slice_factor in
  let model := built_model (build_model worker_units profile_data slices) in
  let value := pywraplp.solution_value (Solve model) in
  let r := solve_provisioning_ilp (Some Solve) worker_units profile_data
             distribution_data slice_factor in
  NoDup (map WorkerUnit.id worker_units) ->
  slices <> [] ->
  pywraplp.status (Solve model) = pywraplp.OPTIMAL ->
  pywraplp.feasible value model = true ->
  exists counts,
    (ret r).1.1 = Some counts /\
    (pywraplp.objective_value value model == plan_cost worker_units counts)%Q.
Proof.
  intros slices model value r Hnd Hne Hst Hf. subst r.
  rewrite solve_with_slices by exact Hne. fold slices. fold model. rewrite Hst.
  fold value. cbn [ret fst]. eexists. split; [reflexivity|].
  apply extracted_counts_cost; assumption.
Qed.

Lemma reported_cost_is_plan_cost_witness :
  let slices := create_slices demand_R1 1 in
  let model := built_model (build_model [worker_A] profile_A slices) in
  let value := pywraplp.solution_value (backend_exact model) in
  let r := solve_provisioning_ilp (Some backend_exact) [worker_A] profile_A
             demand_R1 1 in
  (NoDup (map WorkerUnit.id [worker_A]) /\
   slices <> [] /\
   pywraplp.status (backend_exact model) = pywraplp.OPTIMAL /\
   pywraplp.feasible value model = true) /\
  exists counts,
    (ret r).1.1 = Some counts /\
    (pywraplp.objective_value value model == plan_cost [worker_A] counts)%Q.
Proof.
  intros slices model value r.
  assert (Hnd : NoDup (map WorkerUnit.id [worker_A])).
  { constructor; [intros H; inversion H|constructor]. }
  assert (Hne : slices <> []) by discriminate.
  assert (Hst : pywraplp.status (backend_exact model) = pywraplp.OPTIMAL)
    by reflexivity.
  assert (Hf : pywraplp.feasible value model = true) by reflexivity.
  split; [exact (conj Hnd (conj Hne (conj Hst Hf)))|].
  exact (reported_cost_is_plan_cost backend_exact [worker_A] profile_A demand_R1 1
           Hnd Hne Hst Hf).
Defined.


(** ** The handles of the assignment variables *)

Lemma declare_A_worker_fresh (load_matrix : gmap (Z * string) float)
    (s0 : pywraplp.Solver) (s : Slice.t) (d : DeclState) (flag : bool)
    (w : WorkerUnit.t) :
  decl_fresh s0 d ->
  decl_fresh s0 (declare_A_worker load_matrix s (d, flag) w).1.
Proof.
  intros Hinv. unfold declare_A_worker.
  destruct (is_finite _); [|exact Hinv].
  destruct Hinv as ((extra & Hv & Hbin) & Hlt & Hinj).
  unfold decl_fresh. cbn [fst A decl_solver pywraplp.BoolVar pywraplp.IntVar
                          pywraplp.variables].
  split; [|split].
  - exists (extra ++ [pywraplp.mkVar (Fin 0) (Fin 1)
                       ("A_" +:+ str (Slice.id s) +:+ "_" +:+ WorkerUnit.id w)]).
    rewrite Hv, app_assoc. split; [reflexivity|].
    apply Forall_app. split; [exact Hbin|]. constructor; [|constructor].
    split; reflexivity.
  - intros key h Hk. rewrite length_app. cbn [length].
    destruct (decide ((Slice.id s, WorkerUnit.id w) = key)) as [<-|Hne].
    + rewrite lookup_insert_eq in Hk. injection Hk as <-. lia.
    + rewrite lookup_insert_ne in Hk by exact Hne. apply Hlt in Hk. lia.
  - intros k1 k2 h H1 H2.
    destruct (decide ((Slice.id s, WorkerUnit.id w) = k1)) as [E1|N1],
             (decide ((Slice.id s, WorkerUnit.id w) = k2)) as [E2|N2].
    + congruence.
    + exfalso. rewrite <- E1, lookup_insert_eq in H1. injection H1 as <-.
      rewrite lookup_insert_ne in H2 by exact N2. apply Hlt in H2. lia.
    + exfalso. rewrite <- E2, lookup_insert_eq in H2. injection H2 as <-.
      rewrite lookup_insert_ne in H1 by exact N1. apply Hlt in H1. lia.
    + rewrite lookup_insert_ne in H1 by exact N1.
      rewrite lookup_insert_ne in H2 by exact N2. exact (Hinj _ _ _ H1 H2).
Qed.

Lemma declare_A_slice_fresh (load_matrix : gmap (Z * string) float)
    (s0 : pywraplp.Solver) (worker_units : list WorkerUnit.t)
    (d : DeclState) (s : Slice.t) :
  decl_fresh s0 d ->
  decl_fresh s0 (declare_A_slice load_matrix worker_units d s).
Proof.
  intros H. unfold declare_A_slice.
  assert (H' : forall st, decl_fresh s0 st.1 ->
            decl_fresh s0
              (fold_left (declare_A_worker load_matrix s) worker_units st).1).
  { induction worker_units as [|w ws IH]; intros [d0 flag] H0; [exact H0|].
    cbn [fold_left]. apply IH, declare_A_worker_fresh, H0. }
  specialize (H' (d, false) H).
  destruct (fold_left _ _ _) as [d' flag]. destruct flag; exact H'.
Qed.

Lemma declare_A_fresh (load_matrix : gmap (Z * string) float)
    (slices : SliceList) (worker_units : list WorkerUnit.t)
    (s0 : pywraplp.Solver) :
  decl_fresh s0 (declare_A load_matrix slices worker_units s0).
Proof.
  unfold declare_A.
  assert (H : decl_fresh s0
                (fold_left (declare_A_slice load_matrix worker_units) slices
                           (mkDecl ∅ s0 false []))).
  { apply (fold_left_preserves (decl_fresh s0)).
    - intros d s Hd. apply declare_A_slice_fresh, Hd.
    - unfold decl_fresh. cbn [A decl_solver]. split; [|split].
      + exists []. rewrite app_nil_r. split; [reflexivity|constructor].
      + intros key h Hk. rewrite lookup_empty in Hk. discriminate.
      + intros k1 k2 h Hk. rewrite lookup_empty in Hk. discriminate. }
  destruct (negb _ && _); exact H.
Qed.

(** The variables of the model: the [B] variables of the workers, then
    binary variables only; the keys of [A] have handles of their own. *)
Lemma build_model_handles (worker_units : list WorkerUnit.t)
    (profile_data : ProfileData) (slices : SliceList) :
  let b := build_model worker_units profile_data slices in
  (exists extra,
     pywraplp.variables (built_model b) = map B_var worker_units ++ extra /\
     Forall is_binary extra) /\
  (forall k1 k2 h, built_A b !! k1 = Some h -> built_A b !! k2 = Some h ->
     k1 = k2).
Proof.
  intros b. subst b.
  destruct (build_model_unfold worker_units profile_data slices)
    as (B & s1 & HB & Heq).
  pose proof (build_model_constraints_inv _ profile_data slices _ _ HB) as [Hv _].
  cbv zeta in Heq, Hv. rewrite Heq. cbn [built_A built_model]. rewrite Hv.
  destruct (declare_B_spec _ _ _ _ HB) as (Hv1 & _).
  destruct (declare_A_fresh (build_load_matrix profile_data slices worker_units)
              slices worker_units s1) as ((extra & He & Hbin) & _ & Hinj).
  split; [|exact Hinj]. exists extra. rewrite He, Hv1. split; [reflexivity|exact Hbin].
Qed.

(** ** The constraints of the model *)

Lemma build_model_constraints_only (worker_units : list WorkerUnit.t)
    (profile_data : ProfileData) (slices : SliceList) (c : pywraplp.MPConstraint) :
  let b := build_model worker_units profile_data slices in
  c ∈ pywraplp.constraints (built_model b) ->
  model_constraint (built_A b) (built_B b) (built_load_matrix b) worker_units
    slices c.
Proof.
  intros b. subst b.
  destruct (build_model_unfold worker_units profile_data slices)
    as (B & s1 & HB & Heq).
  cbv zeta in Heq. rewrite Heq.
  cbn [built_A built_B built_load_matrix built_model].
  set (lm := build_load_matrix profile_data slices worker_units).
  set (d := declare_A lm slices worker_units s1).
  rewrite set_objective_constraints.
  set (P := model_constraint (A d) B lm worker_units slices).
  assert (H0 : Forall P (pywraplp.constraints (decl_solver d))).
  { pose proof (declare_A_inv lm slices worker_units s1) as (_ & Hc & _).
    fold d in Hc. rewrite Hc.
    destruct (declare_B_spec _ _ _ _ HB) as (_ & Hc1 & _). rewrite Hc1.
    constructor. }
  assert (H1 : Forall P (pywraplp.constraints
                 (fold_left (add_assignment (A d) worker_units) slices
                    (decl_solver d)))).
  { apply (fold_left_inv (fun _ solver => Forall P (pywraplp.constraints solver)));
      [exact H0|].
    intros pre s post solver Hxs IH. unfold add_assignment.
    destruct (omap _ worker_units) eqn:E; [exact IH|]. rewrite <- E.
    cbn [pywraplp.Add pywraplp.constraints]. apply Forall_app. split; [exact IH|].
    constructor; [|constructor]. left. exists s.
    split; [rewrite Hxs; apply elem_of_app; right; left|].
    split; [unfold assigned_workers; rewrite E; discriminate|reflexivity]. }
  assert (H2 : Forall P (pywraplp.constraints
                 (fold_left (add_capacity (A d) B lm slices) worker_units
                    (fold_left (add_assignment (A d) worker_units) slices
                       (decl_solver d))))).
  { apply (fold_left_inv (fun _ solver => Forall P (pywraplp.constraints solver)));
      [exact H1|].
    intros pre w post solver Hxs IH. unfold add_capacity.
    destruct (omap _ slices) eqn:E; [exact IH|]. rewrite <- E.
    cbn [pywraplp.Add pywraplp.constraints]. apply Forall_app. split; [exact IH|].
    constructor; [|constructor]. right. left. exists w.
    split; [rewrite Hxs; apply elem_of_app; right; left|reflexivity]. }
  assert (H3 : Forall P (pywraplp.constraints
                 (fold_left (add_limit B) worker_units
                    (fold_left (add_capacity (A d) B lm slices) worker_units
                       (fold_left (add_assignment (A d) worker_units) slices
                          (decl_solver d)))))).
  { apply (fold_left_inv (fun _ solver => Forall P (pywraplp.constraints solver)));
      [exact H2|].
    intros pre w post solver Hxs IH. unfold add_limit.
    destruct (WorkerUnit.max_limit w) as [m|] eqn:Em; [|exact IH].
    destruct (Z.leb_spec 0 m); [|exact IH].
    cbn [pywraplp.Add pywraplp.constraints]. apply Forall_app. split; [exact IH|].
    constructor; [|constructor]. right. right. exists w, m.
    split; [rewrite Hxs; apply elem_of_app; right; left|].
    split; [exact Em|]. split; [assumption|reflexivity]. }
  intros Hc. rewrite Forall_forall in H3. exact (H3 c Hc).
Qed.

(** ** The valuation of a plan *)

Lemma plan_valuation_A (worker_units : list WorkerUnit.t)
    (A : gmap (Z * string) nat) (counts : gmap string Z)
    (assignments : gmap Z string) (key : Z * string) (h : nat) :
  (forall k1 k2 h, A !! k1 = Some h -> A !! k2 = Some h -> k1 = k2) ->
  A !! key = Some h -> (length worker_units <= h)%nat ->
  plan_valuation worker_units A counts assignments h =
  if decide (assignments !! key.1 = Some key.2) then 1%Q else 0%Q.
Proof.
  intros Hinj Hk Hge. unfold plan_valuation.
  rewrite (lookup_ge_None_2 worker_units h Hge).
  destruct (find _ (map_to_list A)) as [[key' h']|] eqn:E.
  - apply find_some in E as [Hin Heq]. cbn [snd] in Heq.
    apply Nat.eqb_eq in Heq. subst h'.
    apply list_elem_of_In, elem_of_map_to_list in Hin.
    rewrite (Hinj _ _ _ Hin Hk). reflexivity.
  - exfalso.
    assert (Hin : In (key, h) (map_to_list A))
      by (apply list_elem_of_In, elem_of_map_to_list, Hk).
    pose proof (find_none _ _ E _ Hin) as Hn. cbn [snd] in Hn.
    rewrite Nat.eqb_refl in Hn. discriminate.
Qed.

Lemma plan_valuation_binary (worker_units : list WorkerUnit.t)
    (A : gmap (Z * string) nat) (counts : gmap string Z)
    (assignments : gmap Z string) (h : nat) :
  (length worker_units <= h)%nat ->
  plan_valuation worker_units A counts assignments h = 0%Q \/
  plan_valuation worker_units A counts assignments h = 1%Q.
Proof.
  intros Hge. unfold plan_valuation.
  rewrite (lookup_ge_None_2 worker_units h Hge).
  destruct (find _ _) as [[key h']|]; [|left; reflexivity].
  destruct (decide _); [right|left]; reflexivity.
Qed.

Lemma plan_valuation_integral (worker_units : list WorkerUnit.t)
    (A : gmap (Z * string) nat) (counts : gmap string Z)
    (assignments : gmap Z string) (h : nat) :
  pywraplp.is_integral (plan_valuation worker_units A counts assignments h) = true.
Proof.
  unfold pywraplp.is_integral.
  destruct (worker_units !! h) as [w|] eqn:E.
  - unfold plan_valuation. rewrite E. apply Qeq_bool_iff.
    rewrite Qfloor_Z. reflexivity.
  - destruct (plan_valuation_binary worker_units A counts assignments h) as [-> | ->];
      [apply lookup_ge_None_1, E|reflexivity..].
Qed.

Lemma all_in_bounds_intro (val : nat -> Q) (vs : list pywraplp.MPVariable)
    (i : nat) :
  (forall j v, vs !! j = Some v -> pywraplp.in_bounds val (i + j) v = true) ->
  pywraplp.all_in_bounds val i vs = true.
Proof.
  revert i. induction vs as [|v vs IH]; intros i H; [reflexivity|].
  cbn [pywraplp.all_in_bounds]. apply andb_true_iff. split.
  - rewrite <- (Nat.add_0_r i). apply (H 0%nat v). reflexivity.
  - apply IH. intros j u Hj. replace (S i + j)%nat with (i + S j)%nat by lia.
    apply (H (S j) u). exact Hj.
Qed.

Lemma Qsum_map_ext {X : Type} (f g : X -> Q) (l : list X) :
  (forall x, x ∈ l -> (f x == g x)%Q) -> (Qsum (map f l) == Qsum (map g l))%Q.
Proof.
  induction l as [|x l IH]; intros H; [reflexivity|].
  unfold Qsum in *. cbn [map fold_right].
  rewrite (H x) by left. rewrite IH by (intros y Hy; apply H; right; exact Hy).
  reflexivity.
Qed.

(** Among workers of distinct ids, the variables of the pairs of a slice
    add up to one when the plan names one of them, and to zero when it
    names none. *)
Lemma sum_of_assigned (val : nat -> Q) (f : WorkerUnit.t -> option nat)
    (worker_units : list WorkerUnit.t) (x : option string) :
  NoDup (map WorkerUnit.id worker_units) ->
  (forall w h, w ∈ worker_units -> f w = Some h ->
     val h = if decide (x = Some (WorkerUnit.id w)) then 1%Q else 0%Q) ->
  ((forall w, w ∈ worker_units -> is_Some (f w) -> x <> Some (WorkerUnit.id w)) ->
   (sum_of val (omap f worker_units) == 0)%Q) /\
  (forall w0, w0 ∈ worker_units -> is_Some (f w0) -> x = Some (WorkerUnit.id w0) ->
   (sum_of val (omap f worker_units) == 1)%Q).
Proof.
  induction worker_units as [|w ws IH]; intros Hnd Hval.
  - split; [reflexivity|]. intros w0 Hw0. inversion Hw0.
  - cbn [map] in Hnd. apply NoDup_cons in Hnd as [Hfresh Hnd].
    destruct IH as [IH0 IH1]; [exact Hnd| |].
    { intros u h Hu. apply Hval. right. exact Hu. }
    cbn [omap list_omap]. destruct (f w) as [h|] eqn:Ef.
    + cbn [sum_of fold_right]. fold (sum_of val (omap f ws)).
      rewrite (Hval w h ltac:(left) Ef). split.
      * intros Hnone. rewrite decide_False by (apply Hnone; [left|eauto]).
        rewrite IH0; [ring|]. intros u Hu. apply Hnone. right. exact Hu.
      * intros w0 Hw0 Hsome Hx. destruct (decide (x = Some (WorkerUnit.id w)))
          as [Hxw|Hxw].
        -- rewrite IH0; [ring|]. intros u Hu _ Hxu. apply Hfresh.
           change (map ?g ?l) with (g <$> l). apply list_elem_of_fmap.
           exists u. split; [congruence|exact Hu].
        -- apply elem_of_cons in Hw0 as [->|Hw0]; [contradiction|].
           rewrite (IH1 w0 Hw0 Hsome Hx). ring.
    + split.
      * intros Hnone. apply IH0. intros u Hu. apply Hnone. right. exact Hu.
      * intros w0 Hw0 Hsome Hx. apply elem_of_cons in Hw0 as [->|Hw0].
        -- rewrite Ef in Hsome. destruct Hsome as [? ?]. discriminate.
        -- exact (IH1 w0 Hw0 Hsome Hx).
Qed.

(** ** A plan that serves the demand meets the model *)

Lemma plan_valuation_feasible (worker_units : list WorkerUnit.t)
    (profile_data : ProfileData) (distribution_data : DistributionData)
    (slice_factor : Z) (counts : gmap string Z) (assignments : gmap Z string) :
  let slices := create_slices distribution_data slice_factor in
  let b := build_model worker_units profile_data slices in
  NoDup (map WorkerUnit.id worker_units) ->
  valid_plan worker_units profile_data slices counts assignments ->
  pywraplp.feasible
    (plan_valuation worker_units (built_A b) counts assignments)
    (built_model b) = true.
Proof.
  intros slices b Hnd [Hcounts Hassign].
  set (val := plan_valuation worker_units (built_A b) counts assignments).
  pose proof (create_slices_NoDup distribution_data slice_factor) as Hsl.
  fold slices in Hsl.
  destruct (build_model_handles worker_units profile_data slices)
    as ((extra & Hvars & Hbin) & Hinj).
  fold b in Hvars, Hinj.
  destruct (build_model_costs worker_units profile_data slices Hnd)
    as (_ & Hcost & _).
  fold b in Hcost.
  assert (HvalB : forall w, w ∈ worker_units ->
            val (built_B b !!! WorkerUnit.id w)
            = inject_Z (default 0 (counts !! WorkerUnit.id w))).
  { intros w Hw. apply list_elem_of_lookup in Hw as [i Hi].
    destruct (Hcost i w Hi) as [HB _].
    rewrite (lookup_total_correct _ _ _ HB).
    unfold val, plan_valuation. rewrite Hi. reflexivity. }
  assert (HvalA : forall key h, built_A b !! key = Some h ->
            val h = if decide (assignments !! key.1 = Some key.2)
                    then 1%Q else 0%Q).
  { intros key h Hk. apply plan_valuation_A; [exact Hinj|exact Hk|].
    apply (build_model_A_var worker_units profile_data slices key h Hk). }
  assert (Hkey : forall s w, s ∈ slices -> w ∈ worker_units ->
            is_Some (built_A b !! (Slice.id s, WorkerUnit.id w)) <->
            is_finite (load_of profile_data s w) = true).
  { intros s w Hs Hw. subst b. rewrite (build_model_A _ _ _ _ Hsl). split.
    - intros (s' & w' & Hs' & Hw' & Hfin & [= Hids Hidw]).
      assert (s' = s) as ->.
      { symmetry. apply (create_slices_id_inj distribution_data slice_factor);
          assumption. }
      rewrite load_of_at, Hidw, <- load_of_at. exact Hfin.
    - intros Hfin. exists s, w. auto. }
  unfold pywraplp.feasible. rewrite !andb_true_iff. split; [split|].
  - rewrite Hvars. apply all_in_bounds_intro. intros j v Hj. cbn [Nat.add].
    apply lookup_app_Some in Hj as [Hj|[Hge Hj]].
    + change (map ?f ?l) with (f <$> l) in Hj. rewrite list_lookup_fmap in Hj.
      destruct (worker_units !! j) as [w|] eqn:Ew; [|discriminate].
      injection Hj as <-. unfold pywraplp.in_bounds, B_var.
      cbn [pywraplp.lb pywraplp.ub pywraplp.ge_float pywraplp.le_float].
      rewrite andb_true_r. apply Qle_bool_iff.
      unfold val, plan_valuation. rewrite Ew.
      destruct (Hcounts w (list_elem_of_lookup_2 _ _ _ Ew)) as (Hn & _).
      cbv zeta in Hn. change 0%Q with (inject_Z 0). rewrite <- Zle_Qle. exact Hn.
    + rewrite length_map in Hge.
      rewrite Forall_forall in Hbin.
      destruct (Hbin v (list_elem_of_lookup_2 _ _ _ Hj)) as [Hlb Hub].
      unfold pywraplp.in_bounds. rewrite Hlb, Hub.
      cbn [pywraplp.ge_float pywraplp.le_float].
      destruct (plan_valuation_binary worker_units (built_A b) counts assignments
                  j Hge) as [H|H]; fold val in H; rewrite H; reflexivity.
  - unfold pywraplp.all_integral. apply forallb_forall. intros i _.
    apply plan_valuation_integral.
  - apply forallb_forall. intros c Hc. apply list_elem_of_In in Hc.
    apply (build_model_constraints_only worker_units profile_data slices) in Hc.
    fold b in Hc.
    destruct Hc as [(s & Hs & Hne & ->)|[(w & Hw & ->)|(w & m & Hw & Hm & Hpos & ->)]].
    + unfold pywraplp.holds, assign_constraint.
      cbn [pywraplp.lhs pywraplp.rhs pywraplp.rel]. unfold pywraplp.expr_value.
      rewrite terms_value_sum_vars.
      cbn [const_expr pywraplp.terms pywraplp.terms_value pywraplp.offset sum_vars].
      apply Qeq_bool_iff.
      assert (Hcand : exists w, w ∈ worker_units /\
                        is_finite (load_of profile_data s w) = true).
      { unfold assigned_workers in Hne.
        destruct (omap _ worker_units) as [|h l] eqn:E; [contradiction|].
        assert (Hin : h ∈ omap (fun w => built_A b !! (Slice.id s, WorkerUnit.id w))
                          worker_units) by (rewrite E; left).
        apply list_elem_of_omap in Hin as (w & Hw & Hk).
        exists w. split; [exact Hw|]. apply (Hkey s w Hs Hw). eauto. }
      destruct (Hassign s Hs Hcand) as (w0 & Hw0 & Ha0 & Hfin0).
      destruct (sum_of_assigned val
                  (fun w => built_A b !! (Slice.id s, WorkerUnit.id w))
                  worker_units (assignments !! Slice.id s) Hnd) as [_ Hone].
      { intros w h Hw Hk. apply (HvalA _ _ Hk). }
      unfold assigned_workers.
      rewrite (Hone w0 Hw0 (proj2 (Hkey s w0 Hs Hw0) Hfin0) Ha0). ring.
    + destruct (capacity_terms_value worker_units profile_data distribution_data
                  slice_factor val w Hw) as (a & Ha & Heq).
      fold slices b in Ha, Heq.
      unfold pywraplp.holds, capacity_constraint.
      cbn [pywraplp.lhs pywraplp.rhs pywraplp.rel]. unfold pywraplp.expr_value.
      cbn [pywraplp.terms pywraplp.offset]. rewrite Ha.
      cbn [var_expr pywraplp.terms pywraplp.terms_value pywraplp.term_value
           pywraplp.offset fst snd].
      apply Qle_bool_iff. rewrite (HvalB w Hw), Heq.
      destruct (Hcounts w Hw) as (_ & _ & Hload). cbv zeta in Hload.
      assert (Hsame : (capacity_load profile_data (built_A b) val slices w
                       == assigned_load profile_data assignments slices w)%Q).
      { unfold capacity_load, assigned_load. apply Qsum_map_ext. intros s Hs.
        destruct (built_A b !! (Slice.id s, WorkerUnit.id w)) as [v|] eqn:Ek.
        - rewrite (HvalA _ _ Ek). cbn [fst snd]. destruct (decide _); ring.
        - destruct (decide _); [|reflexivity].
          destruct (load_of profile_data s w) eqn:El; [|reflexivity].
          exfalso. assert (Hsome : is_Some (built_A b !! (Slice.id s, WorkerUnit.id w))).
          { apply (Hkey s w Hs Hw). rewrite El. reflexivity. }
          rewrite Ek in Hsome. destruct Hsome as [? ?]. discriminate. }
      rewrite Hsame. lra.
    + unfold pywraplp.holds, limit_constraint.
      cbn [pywraplp.lhs pywraplp.rhs pywraplp.rel]. unfold pywraplp.expr_value.
      cbn [var_expr const_expr pywraplp.terms pywraplp.terms_value
           pywraplp.term_value pywraplp.offset fst snd].
      apply Qle_bool_iff. rewrite (HvalB w Hw).
      destruct (Hcounts w Hw) as (_ & Hlim & _). cbv zeta in Hlim.
      specialize (Hlim m Hm Hpos). rewrite Zle_Qle in Hlim. lra.
Qed.

(** ** The plan read from values that meet the model serves the demand *)

Lemma extracted_plan_valid (worker_units : list WorkerUnit.t)
    (profile_data : ProfileData) (distribution_data : DistributionData)
    (slice_factor : Z) (val : nat -> Q) :
  let slices := create_slices distribution_data slice_factor in
  let b := build_model worker_units profile_data slices in
  pywraplp.feasible val (built_model b) = true ->
  valid_plan worker_units profile_data slices
    (extract_counts (built_B b) val worker_units)
    (extract_assignments (built_A b) val slices worker_units).
Proof.
  intros slices b Hfeas.
  pose proof (create_slices_NoDup distribution_data slice_factor) as Hnd.
  fold slices in Hnd.
  assert (Hbin : forall key v, built_A b !! key = Some v ->
                   (val v == 0 \/ val v == 1)%Q).
  { intros key v Hv.
    destruct (build_model_A_var worker_units profile_data slices _ _ Hv)
      as (_ & var & Hvar' & Hb).
    exact (binary_value val _ v var Hfeas Hvar' Hb). }
  split.
  - intros w Hw.
    destruct (build_model_B worker_units profile_data slices w Hw)
      as (h & HB & Hvar).
    fold b in HB, Hvar.
    rewrite extract_counts_lookup, decide_True by in_map_by_eauto.
    cbn [default from_option id]. rewrite (lookup_total_correct _ _ _ HB).
    pose proof (integral_value val _ h _ Hfeas Hvar) as Hint.
    assert (Hc : ceil (val h - lit_1e_6)%Q = Qfloor (val h)).
    { unfold ceil. apply Qceiling_eq_iff.
      unfold Z.sub. rewrite inject_Z_plus, inject_Z_opp.
      change (inject_Z 1) with 1%Q. split; lra. }
    split; [|split].
    + apply ceil_nonneg.
      assert (Hb : pywraplp.all_in_bounds val 0
                     (pywraplp.variables (built_model b)) = true).
      { unfold pywraplp.feasible in Hfeas. rewrite !andb_true_iff in Hfeas.
        apply Hfeas. }
      pose proof (all_in_bounds_lookup val _ 0 h _ Hb Hvar) as Hin.
      unfold pywraplp.in_bounds, B_var in Hin.
      cbn [pywraplp.lb pywraplp.ub pywraplp.ge_float pywraplp.le_float Nat.add]
        in Hin.
      rewrite andb_true_r in Hin. apply Qle_bool_iff in Hin. exact Hin.
    + intros m Hm Hpos.
      pose proof (build_model_limit_constraint worker_units profile_data slices
                    w m Hw Hm Hpos) as Hcon.
      pose proof (feasible_holds _ _ _ Hfeas Hcon) as Hholds.
      fold b in Hholds.
      unfold pywraplp.holds, pywraplp.expr_value, limit_constraint in Hholds.
      cbn [var_expr const_expr pywraplp.lhs pywraplp.rhs pywraplp.rel
           pywraplp.terms pywraplp.terms_value pywraplp.term_value
           pywraplp.offset fst snd] in Hholds.
      rewrite (lookup_total_correct _ _ _ HB) in Hholds.
      apply Qle_bool_iff in Hholds.
      unfold ceil. rewrite <- (Qceiling_Z m). apply Qceiling_resp_le. lra.
    + rewrite Hc, <- Hint.
      eapply Qle_trans;
        [|exact (feasible_capacity worker_units profile_data distribution_data
                   slice_factor val w h Hfeas Hw HB Hvar)].
      unfold assigned_load, capacity_load. fold slices b.
      apply Qsum_map_le. intros s Hs.
      pose proof (load_value_nonneg profile_data distribution_data slice_factor
                    s w Hs) as Hload.
      destruct (decide _) as [Hassigned|_].
      * rewrite (extract_assignments_lookup _ _ _ _ _ Hnd Hs) in Hassigned.
        destruct (find _ worker_units) as [w1|] eqn:Hfind; [|discriminate].
        injection Hassigned as Hid. apply find_some in Hfind as [_ Hch].
        apply chosen_true in Hch as (v & Hv & Hhalf). rewrite Hid in Hv.
        rewrite Hv. destruct (Hbin _ v Hv) as [H0|H1]; [lra|]. rewrite H1. lra.
      * destruct (built_A b !! _) as [v|] eqn:Ev; [|lra].
        destruct (Hbin _ v Ev) as [H0|H1]; [rewrite H0|rewrite H1]; lra.
  - intros s Hs (w & Hw & Hfin).
    assert (HA : is_Some (built_A b !! (Slice.id s, WorkerUnit.id w))).
    { apply build_model_A; [exact Hnd|]. exists s, w. auto. }
    destruct HA as [h Hh].
    assert (Hcand : assigned_workers (built_A b) worker_units s <> []).
    { intros E. assert (Hin : h ∈ assigned_workers (built_A b) worker_units s).
      { unfold assigned_workers. apply list_elem_of_omap. eauto. }
      rewrite E in Hin. inversion Hin. }
    pose proof (feasible_assignment_sum worker_units profile_data slices val s
                  Hfeas Hs Hcand) as Hsum.
    destruct (sum_of_one_exists val _
                (fun v => assigned_workers_binary worker_units profile_data slices
                            val s v Hfeas) Hsum) as (v & Hv & Hone).
    unfold assigned_workers in Hv.
    apply list_elem_of_omap in Hv as (w0 & Hw0 & Hf0).
    rewrite (extract_assignments_lookup _ _ _ _ _ Hnd Hs).
    destruct (find (chosen (built_A b) val s) worker_units) as [w1|] eqn:Hfind.
    + apply find_some in Hfind as [Hw1 Hch]. apply list_elem_of_In in Hw1.
      exists w1. split; [exact Hw1|]. split; [reflexivity|].
      apply chosen_true in Hch as (v1 & Hv1 & _).
      assert (Hsome : is_Some (built_A b !! (Slice.id s, WorkerUnit.id w1)))
        by eauto.
      apply (build_model_A _ _ _ _ Hnd) in Hsome
        as (s' & w' & Hs' & Hw' & Hfin' & [= Hids Hidw]).
      assert (s' = s) as ->.
      { symmetry. apply (create_slices_id_inj distribution_data slice_factor);
          assumption. }
      rewrite load_of_at, Hidw, <- load_of_at. exact Hfin'.
    + exfalso. pose proof (find_none _ _ Hfind w0) as Hnone.
      rewrite <- list_elem_of_In in Hnone. specialize (Hnone Hw0).
      pose proof (proj1 (chosen_false _ _ _ _) Hnone v Hf0). lra.
Qed.

(** X26. The model is the provisioning problem, and its optimum is the
    cheapest plan.  When the worker ids are distinct, the status is OPTIMAL
    and the reported values are an optimum of the model, the call returns
    a plan that serves the demand, and its counts cost no more than the
    counts of any plan that serves the demand.  A plan serves the demand
    when no count is negative or above a limit that applies, every slice
    that some worker can take is assigned to a worker that can take it,
    and the load assigned to each worker is within its count. *)
Theorem optimal_plan_is_cheapest (Solve : pywraplp.SolveFn)
    (worker_units : list WorkerUnit.t) (profile_data : ProfileData)
    (distribution_data : DistributionData) (slice_factor : Z) :
  let slices := create_slices distribution_data slice_factor in
  let model := built_model (build_model worker_units profile_data slices) in
  let value := pywraplp.solution_value (Solve model) in
  let r := solve_provisioning_ilp (Some Solve) worker_units profile_data
             distribution_data slice_factor in
  NoDup (map WorkerUnit.id worker_units) ->
  slices <> [] ->
  pywraplp.status (Solve model) = pywraplp.OPTIMAL ->
  optimum value model ->
  exists counts assignments,
    ret r = (Some counts, Some assignments, slices) /\
    valid_plan worker_units profile_data slices counts assignments /\
    forall counts' assignments',
      valid_plan worker_units profile_data slices counts' assignments' ->
      (plan_cost worker_units counts <= plan_cost worker_units counts')%Q.
Proof.
  intros slices model value r Hnd Hne Hst [Hf Hopt]. subst r.
  rewrite solve_with_slices by exact Hne. fold slices. fold model. rewrite Hst.
  fold value. cbn [ret]. eexists _, _. split; [reflexivity|]. split.
  { exact (extracted_plan_valid worker_units profile_data distribution_data
             slice_factor value Hf). }
  intros counts' assignments' Hvalid.
  rewrite <- (extracted_counts_cost worker_units profile_data slices value Hnd Hf).
  pose proof (plan_valuation_feasible worker_units profile_data distribution_data
                slice_factor counts' assignments' Hnd Hvalid) as Hf'.
  fold slices in Hf'. fold model in Hf'.
  eapply Qle_trans; [apply (Hopt _ Hf')|].
  unfold plan_cost.
  pose proof (objective_value_by_worker worker_units profile_data slices
                (plan_valuation worker_units
                   (built_A (build_model worker_units profile_data slices))
                   counts' assignments')
                (fun w => inject_Z (default 0 (counts' !! WorkerUnit.id w))) Hnd)
    as Hobj.
  cbv zeta in Hobj. fold model in Hobj. rewrite Hobj; [apply Qle_refl|].
  intros i w Hi. unfold plan_valuation. rewrite Hi. reflexivity.
Qed.

(** Two instances of [worker_A] that take the slice of [demand_R1] serve
    the demand. *)
Lemma valid_plan_example :
  valid_plan [worker_A; worker_B] profile_AB (create_slices demand_R1 1)
    counts_two_A assignments_to_A.
Proof.
  split.
  - intros w Hw. apply elem_of_cons in Hw as [->|Hw];
      [|apply list_elem_of_singleton in Hw as ->].
    + split; [vm_compute; discriminate|]. split; [intros m [=]|].
      vm_compute. discriminate.
    + split; [vm_compute; discriminate|]. split; [intros m [=]|].
      vm_compute. discriminate.
  - intros s Hs _. apply list_elem_of_singleton in Hs as ->.
    exists worker_A. split; [left|]. split; reflexivity.
Qed.

Lemma optimal_plan_is_cheapest_witness :
  let slices := create_slices demand_R1 1 in
  let model := built_model (build_model [worker_A; worker_B] profile_AB slices) in
  let value := pywraplp.solution_value (backend_tie_A model) in
  let r := solve_provisioning_ilp (Some backend_tie_A) [worker_A; worker_B]
             profile_AB demand_R1 1 in
  (NoDup (map WorkerUnit.id [worker_A; worker_B]) /\
   slices <> [] /\
   pywraplp.status (backend_tie_A model) = pywraplp.OPTIMAL /\
   optimum value model /\
   valid_plan [worker_A; worker_B] profile_AB slices
     counts_two_A assignments_to_A) /\
  exists counts assignments,
    ret r = (Some counts, Some assignments, slices) /\
    valid_plan [worker_A; worker_B] profile_AB slices counts assignments /\
    (plan_cost [worker_A; worker_B] counts
     <= plan_cost [worker_A; worker_B] counts_two_A)%Q.
Proof.
  intros slices model value r.
  assert (Hnd : NoDup (map WorkerUnit.id [worker_A; worker_B])).
  { apply NoDup_cons. split; [|apply NoDup_singleton].
    intros H. apply list_elem_of_singleton in H. discriminate. }
  assert (Hne : slices <> []) by discriminate.
  assert (Hst : pywraplp.status (backend_tie_A model) = pywraplp.OPTIMAL)
    by reflexivity.
  assert (Hopt : optimum value model).
  { split; [reflexivity|]. intros val Hval.
    eapply Qle_trans; [|apply (model_tie_optimum val Hval)].
    vm_compute. discriminate. }
  split; [exact (conj Hnd (conj Hne (conj Hst (conj Hopt valid_plan_example))))|].
  destruct (optimal_plan_is_cheapest backend_tie_A [worker_A; worker_B] profile_AB
              demand_R1 1 Hnd Hne Hst Hopt)
    as (counts & assignments & Hret & Hvalid & Hmin).
  exists counts, assignments. split; [exact Hret|]. split; [exact Hvalid|].
  exact (Hmin _ _ valid_plan_example).
Defined.


(** ** Ordered dictionaries *)

Lemma dict_get_set_eq {V : Type} (k : string) (v : V) (d : dict V) :
  dict_get k (dict_set k v d) = Some v.
Proof.
  induction d as [|[k' v'] d IH]; simpl.
  - rewrite String.eqb_refl. reflexivity.
  - destruct (String.eqb k' k) eqn:E; simpl; rewrite E; [reflexivity|exact IH].
Qed.

Lemma dict_get_set_ne {V : Type} (k k0 : string) (v : V) (d : dict V) :
  k <> k0 -> dict_get k0 (dict_set k v d) = dict_get k0 d.
Proof.
  intros Hne. induction d as [|[k' v'] d IH]; simpl.
  - destruct (String.eqb_spec k k0); [contradiction|reflexivity].
  - destruct (String.eqb_spec k' k) as [->|Hk]; simpl.
    + destruct (String.eqb_spec k k0); [contradiction|reflexivity].
    + rewrite IH. reflexivity.
Qed.

Lemma dict_get_None {V : Type} (k : string) (d : dict V) :
  dict_get k d = None <-> k ∉ map fst d.
Proof.
  induction d as [|[k' v'] d IH]; simpl.
  - split; [intros _ H; inversion H|reflexivity].
  - destruct (String.eqb_spec k' k) as [->|Hk].
    + split; [discriminate|]. intros H. exfalso. apply H. left.
    + rewrite IH. split.
      * intros H Hin. apply elem_of_cons in Hin as [?|?]; [congruence|contradiction].
      * intros H Hin. apply H. right. exact Hin.
Qed.

Lemma dict_get_Some_in {V : Type} (k : string) (v : V) (d : dict V) :
  dict_get k d = Some v -> (k, v) ∈ d.
Proof.
  induction d as [|[k' v'] d IH]; simpl; [discriminate|].
  destruct (String.eqb_spec k' k) as [->|Hk].
  - intros [= ->]. left.
  - intros H. right. exact (IH H).
Qed.

(** The keys after [d[k] = v]: unchanged when [k] is present, [k] added at
    the end otherwise. *)
Lemma dict_set_keys {V : Type} (k : string) (v : V) (d : dict V) :
  map fst (dict_set k v d) =
  if decide (k ∈ map fst d) then map fst d else map fst d ++ [k].
Proof.
  induction d as [|[k' v'] d IH].
  - cbn [dict_set map fst].
    destruct (decide (k ∈ [])) as [H|_]; [inversion H|reflexivity].
  - cbn [dict_set]. destruct (String.eqb_spec k' k) as [->|Hk]; cbn [map fst].
    + destruct (decide (k ∈ k :: map fst d)) as [_|H]; [reflexivity|].
      exfalso. apply H. left.
    + rewrite IH. destruct (decide (k ∈ map fst d)) as [Hin|Hnin].
      * destruct (decide (k ∈ k' :: map fst d)) as [_|H]; [reflexivity|].
        exfalso. apply H. right. exact Hin.
      * destruct (decide (k ∈ k' :: map fst d)) as [H|_]; [|reflexivity].
        exfalso. apply elem_of_cons in H as [?|?]; [congruence|contradiction].
Qed.

Lemma dict_set_NoDup {V : Type} (k : string) (v : V) (d : dict V) :
  NoDup (map fst d) -> NoDup (map fst (dict_set k v d)).
Proof.
  intros H. rewrite dict_set_keys. destruct (decide _) as [Hin|Hnin]; [exact H|].
  apply NoDup_app. split; [exact H|]. split; [|apply NoDup_singleton].
  intros x Hx Hk. apply list_elem_of_singleton in Hk as ->. contradiction.
Qed.

(** With distinct keys, the items are the lookups. *)
Lemma dict_in_get {V : Type} (k : string) (v : V) (d : dict V) :
  NoDup (map fst d) -> (k, v) ∈ d -> dict_get k d = Some v.
Proof.
  induction d as [|[k' v'] d IH]; simpl; intros Hnd Hin; [inversion Hin|].
  apply NoDup_cons in Hnd as [Hfresh Hnd].
  apply elem_of_cons in Hin as [[= -> ->]|Hin].
  - rewrite String.eqb_refl. reflexivity.
  - destruct (String.eqb_spec k' k) as [->|Hk]; [|exact (IH Hnd Hin)].
    exfalso. apply Hfresh. change (map ?f ?l) with (f <$> l).
    apply list_elem_of_fmap. exists (k, v). split; [reflexivity|exact Hin].
Qed.

Lemma pymax_ge_l (a b : Q) : (a <= pymax a b)%Q.
Proof.
  unfold pymax. destruct (Qlt_bool a b) eqn:E; [|lra].
  apply Qlt_bool_true in E. lra.
Qed.

Lemma pymax_ge_r (a b : Q) : (b <= pymax a b)%Q.
Proof.
  unfold pymax. destruct (Qlt_bool a b) eqn:E; [lra|].
  apply Qlt_bool_false in E. exact E.
Qed.

Lemma pymax_cases (a b : Q) : pymax a b = a \/ pymax a b = b.
Proof. unfold pymax. destruct (Qlt_bool a b); auto. Qed.


(** ** The cumulative configuration *)

Lemma accumulate_configs_spec (configs : list (option ConfigData.t)) :
  accumulate_configs configs =
  (append_new_request_types [] (all_request_types configs),
   all_rate_items configs).
Proof.
  unfold accumulate_configs, all_request_types, all_rate_items.
  assert (H : forall rts rates,
    fold_left
      (fun '(cumulative_request_types, cumulative_rate_distribution) config_data =>
         match config_data with
         | None => (cumulative_request_types, cumulative_rate_distribution)
         | Some c =>
             (append_new_request_types cumulative_request_types
                (ConfigData.request_types c),
              cumulative_rate_distribution ++ ConfigData.rate_distribution c)
         end) configs (rts, rates) =
    (append_new_request_types rts
       (flat_map (fun c => match c with
                           | Some c => ConfigData.request_types c
                           | None => []
                           end) configs),
     rates ++ flat_map (fun c => match c with
                                 | Some c => ConfigData.rate_distribution c
                                 | None => []
                                 end) configs)).
  { induction configs as [|[c|] rest IH]; intros rts rates; cbn [fold_left flat_map].
    - rewrite app_nil_r. reflexivity.
    - rewrite IH. unfold append_new_request_types.
      rewrite fold_left_app, app_assoc. reflexivity.
    - rewrite IH. reflexivity. }
  rewrite H. reflexivity.
Qed.

(** *** Rates *)

Lemma rate_of_app (k : string) (xs ys : list RateEntry.t) :
  (rate_of k (xs ++ ys) == rate_of k xs + rate_of k ys)%Q.
Proof. unfold rate_of. rewrite List.filter_app, map_app. apply Qsum_app. Qed.

Lemma rate_of_absent (k : string) (items : list RateEntry.t) :
  k ∉ map RateEntry.id items -> rate_of k items = 0%Q.
Proof.
  intros H. unfold rate_of.
  induction items as [|x items IH]; [reflexivity|]. cbn [List.filter].
  destruct (String.eqb_spec (RateEntry.id x) k) as [E|_].
  - exfalso. apply H. rewrite <- E. left.
  - apply IH. intros Hin. apply H. right. exact Hin.
Qed.

Lemma rate_of_one (k : string) (x : RateEntry.t) :
  (rate_of k [x] == if String.eqb (RateEntry.id x) k then RateEntry.rate x else 0)%Q.
Proof.
  unfold rate_of. cbn [List.filter].
  destruct (String.eqb (RateEntry.id x) k); unfold Qsum; simpl; ring.
Qed.

(** The invariant of the aggregation loop. *)
Lemma aggregate_rates_spec (items : list RateEntry.t) :
  let d := aggregate_rates items in
  NoDup (map fst d) /\
  (forall k, k ∈ map fst d <-> k ∈ map RateEntry.id items) /\
  (forall k v, dict_get k d = Some v -> (v == rate_of k items)%Q).
Proof.
  unfold aggregate_rates.
  apply (fold_left_inv (fun pre (d : dict Q) =>
    NoDup (map fst d) /\
    (forall k, k ∈ map fst d <-> k ∈ map RateEntry.id pre) /\
    (forall k v, dict_get k d = Some v -> (v == rate_of k pre)%Q))).
  - split; [constructor|]. split; [reflexivity|]. discriminate.
  - intros pre x post d _ (Hnd & Hkeys & Hval). unfold aggregate_rate.
    set (new := match dict_get (RateEntry.id x) d with
                | Some old => (old + RateEntry.rate x)%Q
                | None => RateEntry.rate x
                end).
    assert (Heq : match dict_get (RateEntry.id x) d with
                  | Some old => dict_set (RateEntry.id x) (old + RateEntry.rate x)%Q d
                  | None => dict_set (RateEntry.id x) (RateEntry.rate x) d
                  end = dict_set (RateEntry.id x) new d).
    { subst new. destruct (dict_get _ d); reflexivity. }
    rewrite Heq. clear Heq. split; [apply dict_set_NoDup, Hnd|]. split.
    + intros k. rewrite dict_set_keys, map_app. cbn [map].
      rewrite elem_of_app, list_elem_of_singleton, <- Hkeys.
      destruct (decide _) as [Hin|Hnin].
      * split; [auto|]. intros [H | H]; [exact H|subst k; exact Hin].
      * rewrite elem_of_app, list_elem_of_singleton. reflexivity.
    + intros k v Hk. rewrite rate_of_app, rate_of_one.
      destruct (String.eqb_spec (RateEntry.id x) k) as [<-|Hne].
      * rewrite dict_get_set_eq in Hk. injection Hk as <-. subst new.
        destruct (dict_get (RateEntry.id x) d) as [old|] eqn:Eold.
        -- rewrite (Hval _ _ Eold). ring.
        -- apply dict_get_None in Eold. rewrite Hkeys in Eold.
           rewrite (rate_of_absent _ _ Eold). ring.
      * rewrite dict_get_set_ne in Hk by exact Hne.
        rewrite (Hval _ _ Hk). ring.
Qed.

(** Writing a sum into a present key, or a rate into a new one, adds the
    rate to the total. *)
Lemma aggregate_rate_total (d : dict Q) (x : RateEntry.t) :
  (Qsum (map snd (aggregate_rate d x)) == Qsum (map snd d) + RateEntry.rate x)%Q.
Proof.
  unfold aggregate_rate. induction d as [|[k v] d IH].
  - unfold Qsum. simpl. ring.
  - cbn [dict_get]. destruct (String.eqb_spec k (RateEntry.id x)) as [E|Hne].
    + cbn [dict_set]. rewrite E, String.eqb_refl. unfold Qsum. simpl. ring.
    + destruct (dict_get (RateEntry.id x) d) as [old|] eqn:Eold;
        cbn [dict_set]; destruct (String.eqb_spec k (RateEntry.id x));
        try contradiction; unfold Qsum in *; cbn [map snd fold_right];
        rewrite IH; ring.
Qed.

Lemma aggregate_rates_total (items : list RateEntry.t) :
  (Qsum (map snd (aggregate_rates items)) == Qsum (map RateEntry.rate items))%Q.
Proof.
  unfold aggregate_rates.
  apply (fold_left_inv (fun pre (d : dict Q) =>
    (Qsum (map snd d) == Qsum (map RateEntry.rate pre))%Q)).
  - reflexivity.
  - intros pre x post d _ IH. rewrite aggregate_rate_total, IH, map_app, Qsum_app.
    unfold Qsum. simpl. ring.
Qed.

Lemma final_rates_ids (d : dict Q) :
  map RateEntry.id (map (fun '(req_id, rate) => RateEntry.mk req_id rate) d)
  = map fst d.
Proof. rewrite map_map. apply map_ext. intros [k v]. reflexivity. Qed.

Lemma final_rates_rates (d : dict Q) :
  map RateEntry.rate (map (fun '(req_id, rate) => RateEntry.mk req_id rate) d)
  = map snd d.
Proof. rewrite map_map. apply map_ext. intros [k v]. reflexivity. Qed.

(** X10. In the cumulative configuration every request id has one rate
    entry, the ids are those of the rate entries of the datasets, the rate
    of an id is the sum of the rates the datasets give it, and the total
    rate is the total over all datasets. *)
Theorem cumulative_rates_aggregate (configs : list (option ConfigData.t)) :
  let final := ConfigData.rate_distribution (generate_cumulative_config configs) in
  let items := all_rate_items configs in
  NoDup (map RateEntry.id final) /\
  (forall k, k ∈ map RateEntry.id final <-> k ∈ map RateEntry.id items) /\
  (forall e, e ∈ final -> (RateEntry.rate e == rate_of (RateEntry.id e) items)%Q) /\
  (Qsum (map RateEntry.rate final) == Qsum (map RateEntry.rate items))%Q.
Proof.
  intros final items. subst final. unfold generate_cumulative_config.
  rewrite accumulate_configs_spec. cbn [ConfigData.rate_distribution].
  fold items.
  destruct (aggregate_rates_spec items) as (Hnd & Hkeys & Hval).
  rewrite final_rates_ids, final_rates_rates.
  split; [exact Hnd|]. split; [exact Hkeys|]. split; [|apply aggregate_rates_total].
  intros e He. change (map ?f ?l) with (f <$> l) in He.
  apply list_elem_of_fmap in He as ([k v] & -> & Hin). cbn.
  apply Hval, dict_in_get; assumption.
Qed.

(** *** Request types *)

Lemma RequestTypeEntry_eqb_refl (a : RequestTypeEntry.t) :
  RequestTypeEntry.eqb a a = true.
Proof.
  unfold RequestTypeEntry.eqb. rewrite !andb_true_iff.
  repeat split; try apply String.eqb_refl. apply Qeq_bool_iff. reflexivity.
Qed.

Lemma RequestTypeEntry_eqb_sym (a b : RequestTypeEntry.t) :
  RequestTypeEntry.eqb a b = RequestTypeEntry.eqb b a.
Proof.
  unfold RequestTypeEntry.eqb.
  rewrite (String.eqb_sym (RequestTypeEntry.id a)),
          (String.eqb_sym (RequestTypeEntry.input_size_bucket a)),
          (String.eqb_sym (RequestTypeEntry.output_size_bucket a)).
  f_equal. f_equal. f_equal.
  destruct (Qeq_bool (RequestTypeEntry.latency_slo_tpot_ms a) _) eqn:E1,
           (Qeq_bool (RequestTypeEntry.latency_slo_tpot_ms b) _) eqn:E2;
    try reflexivity.
  - apply Qeq_bool_iff in E1. symmetry in E1. apply Qeq_bool_iff in E1. congruence.
  - apply Qeq_bool_iff in E2. symmetry in E2. apply Qeq_bool_iff in E2. congruence.
Qed.

Lemma RequestTypeEntry_eqb_trans (a b c : RequestTypeEntry.t) :
  RequestTypeEntry.eqb a b = true -> RequestTypeEntry.eqb b c = true ->
  RequestTypeEntry.eqb a c = true.
Proof.
  unfold RequestTypeEntry.eqb. rewrite !andb_true_iff.
  intros [[[H1 H2] H3] H4] [[[G1 G2] G3] G4].
  apply String.eqb_eq in H1, H3, H4, G1, G3, G4.
  apply Qeq_bool_iff in H2, G2.
  repeat split.
  - apply String.eqb_eq. congruence.
  - apply Qeq_bool_iff. rewrite H2. exact G2.
  - apply String.eqb_eq. congruence.
  - apply String.eqb_eq. congruence.
Qed.

(** The invariant of the loop that appends the request types not yet in
    the list. *)
Lemma append_new_request_types_spec (new : list RequestTypeEntry.t) :
  let result := append_new_request_types [] new in
  (forall i j a b, result !! i = Some a -> result !! j = Some b ->
     RequestTypeEntry.eqb a b = true -> i = j) /\
  (forall a, a ∈ result -> a ∈ new) /\
  (forall a, a ∈ new ->
     exists b, b ∈ result /\ RequestTypeEntry.eqb a b = true).
Proof.
  unfold append_new_request_types.
  apply (fold_left_inv (fun pre (result : list RequestTypeEntry.t) =>
    (forall i j a b, result !! i = Some a -> result !! j = Some b ->
       RequestTypeEntry.eqb a b = true -> i = j) /\
    (forall a, a ∈ result -> a ∈ pre) /\
    (forall a, a ∈ pre ->
       exists b, b ∈ result /\ RequestTypeEntry.eqb a b = true))).
  - split; [intros i j a b H; discriminate|].
    split; intros a H; inversion H.
  - intros pre x post result _ (Huniq & Hsub & Hcov).
    destruct (existsb (RequestTypeEntry.eqb x) result) eqn:E.
    + split; [exact Huniq|]. split.
      * intros a Ha. apply elem_of_app. left. exact (Hsub a Ha).
      * intros a Ha. apply elem_of_app in Ha as [Ha|Ha]; [exact (Hcov a Ha)|].
        apply list_elem_of_singleton in Ha as ->.
        apply existsb_exists in E as (b & Hb & Heq).
        exists b. split; [apply list_elem_of_In, Hb|exact Heq].
    + assert (Hfresh : forall b, b ∈ result -> RequestTypeEntry.eqb x b = false).
      { intros b Hb. destruct (RequestTypeEntry.eqb x b) eqn:Exb; [|reflexivity].
        assert (existsb (RequestTypeEntry.eqb x) result = true).
        { apply existsb_exists. exists b. split; [apply list_elem_of_In, Hb|exact Exb]. }
        congruence. }
      split; [|split].
      * intros i j a b Hi Hj Hab.
        apply lookup_app_Some in Hi as [Hi|[Hig Hi]];
          apply lookup_app_Some in Hj as [Hj|[Hjg Hj]].
        -- exact (Huniq i j a b Hi Hj Hab).
        -- exfalso. apply list_lookup_singleton_Some in Hj as [_ <-].
           rewrite RequestTypeEntry_eqb_sym, (Hfresh a) in Hab; [discriminate|].
           apply list_elem_of_lookup. eauto.
        -- exfalso. apply list_lookup_singleton_Some in Hi as [_ <-].
           rewrite (Hfresh b) in Hab; [discriminate|].
           apply list_elem_of_lookup. eauto.
        -- apply list_lookup_singleton_Some in Hi as [Hi _].
           apply list_lookup_singleton_Some in Hj as [Hj _]. lia.
      * intros a Ha. apply elem_of_app in Ha as [Ha|Ha].
        -- apply elem_of_app. left. exact (Hsub a Ha).
        -- apply elem_of_app. right. exact Ha.
      * intros a Ha. apply elem_of_app in Ha as [Ha|Ha].
        -- destruct (Hcov a Ha) as (b & Hb & Heq).
           exists b. split; [apply elem_of_app; left; exact Hb|exact Heq].
        -- apply list_elem_of_singleton in Ha as ->.
           exists x. split; [apply elem_of_app; right; left|].
           apply RequestTypeEntry_eqb_refl.
Qed.

(** X11. The request types of the cumulative configuration are those of
    the datasets without repetition: no two places of the list hold equal
    entries, every entry comes from a dataset, and every request type of a
    dataset has an equal entry in the list. *)
Theorem cumulative_request_types_unique (configs : list (option ConfigData.t)) :
  let result := ConfigData.request_types (generate_cumulative_config configs) in
  (forall i j a b, result !! i = Some a -> result !! j = Some b ->
     RequestTypeEntry.eqb a b = true -> i = j) /\
  (forall a, a ∈ result -> a ∈ all_request_types configs) /\
  (forall a, a ∈ all_request_types configs ->
     exists b, b ∈ result /\ RequestTypeEntry.eqb a b = true).
Proof.
  intros result. subst result. unfold generate_cumulative_config.
  rewrite accumulate_configs_spec. cbn [ConfigData.request_types].
  apply append_new_request_types_spec.
Qed.


(** ** Bucket strings and their sort keys *)

Lemma split_head_append (sep : Ascii.ascii) (s t : string) :
  split_head sep s = s -> split_head sep (s +:+ String sep t) = s.
Proof.
  induction s as [|c s IH]; simpl.
  - intros _. rewrite Ascii.eqb_refl. reflexivity.
  - destruct (Ascii.eqb c sep); [discriminate|].
    intros [= H]. rewrite IH by exact H. reflexivity.
Qed.

Lemma split_head_uint (d : Decimal.uint) :
  split_head "-" (NilEmpty.string_of_uint d) = NilEmpty.string_of_uint d.
Proof. induction d; simpl; rewrite ?IHd; reflexivity. Qed.

Lemma to_int_nonneg (n : Z) :
  0 <= n -> exists d, Z.to_int n = Decimal.Pos d /\ d <> Decimal.Nil.
Proof.
  intros Hn. destruct n as [|p|p]; [| |lia].
  - exists (Decimal.D0 Decimal.Nil). split; [reflexivity|discriminate].
  - exists (Pos.to_uint p). split; [reflexivity|].
    intros H. pose proof (DecimalPos.Unsigned.of_to p) as Hp.
    rewrite H in Hp. discriminate.
Qed.

(** The text of an int that is not negative has no minus sign, and [int]
    reads the int back from it. *)
Lemma str_nonneg (n : Z) :
  0 <= n -> split_head "-" (str n) = str n /\ int_of_str (str n) = Some n.
Proof.
  intros Hn. destruct (to_int_nonneg n Hn) as (d & Hd & Hnil). split.
  - unfold str. rewrite Hd. cbn [NilZero.string_of_int].
    destruct d; try apply split_head_uint. reflexivity.
  - unfold int_of_str, str.
    rewrite NilZero.isi; [|rewrite Hd; congruence|rewrite Hd; discriminate].
    cbn [option_map]. rewrite DecimalZ.of_to. reflexivity.
Qed.

Lemma bucket_lower_nonneg (floor_log2 : Z -> Z) (n : Z) :
  0 <= bucket_lower floor_log2 n.
Proof.
  unfold bucket_lower. destruct (n <=? 1); [lia|]. apply Z.pow_nonneg. lia.
Qed.

Lemma bucket_head (floor_log2 : Z -> Z) (n : Z) :
  int_of_str (split_head "-" (_get_power_of_two_bucket floor_log2 n))
  = Some (bucket_lower floor_log2 n).
Proof.
  unfold _get_power_of_two_bucket, bucket_lower.
  destruct (n <=? 1); [reflexivity|].
  assert (Hlo : 0 <= 2 ^ floor_log2 n) by (apply Z.pow_nonneg; lia).
  destruct (str_nonneg _ Hlo) as [Hsplit Hint].
  change ("-" +:+ ?t) with (String "-" t).
  rewrite split_head_append by exact Hsplit. exact Hint.
Qed.

Lemma sort_key_bucket_pair (floor_log2 : Z -> Z) (sample : Z * Z) :
  sort_key (bucket_pair floor_log2 sample)
  = Some (bucket_lower floor_log2 sample.1, bucket_lower floor_log2 sample.2).
Proof.
  destruct sample as [a b]. unfold sort_key, bucket_pair. cbn [fst snd].
  rewrite !bucket_head. reflexivity.
Qed.

(** ** Counters *)

Lemma counter_add_keys (key : BucketKey) (c : list (BucketKey * Z)) :
  map fst (counter_add key c) =
  if decide (key ∈ map fst c) then map fst c else map fst c ++ [key].
Proof.
  induction c as [|[k n] c IH].
  - cbn [counter_add map fst].
    destruct (decide (key ∈ [])) as [H|_]; [inversion H|reflexivity].
  - cbn [counter_add map fst]. destruct (decide (k = key)) as [->|Hne].
    + destruct (decide (key ∈ key :: map fst c)) as [_|H]; [reflexivity|].
      exfalso. apply H. left.
    + cbn [map fst]. rewrite IH.
      destruct (decide (key ∈ map fst c)) as [Hin|Hnin];
        destruct (decide (key ∈ k :: map fst c)) as [Hin'|Hnin'];
        try reflexivity.
      * exfalso. apply Hnin'. right. exact Hin.
      * exfalso. apply elem_of_cons in Hin' as [->|Hin']; contradiction.
Qed.

Lemma counter_add_total (key : BucketKey) (c : list (BucketKey * Z)) :
  Zsum (map snd (counter_add key c)) = Zsum (map snd c) + 1.
Proof.
  induction c as [|[k n] c IH]; [reflexivity|].
  cbn [counter_add]. destruct (decide (k = key)); unfold Zsum in *;
    cbn [map snd fold_right]; [lia|]. rewrite IH. lia.
Qed.

Lemma counter_get_add (key k : BucketKey) (c : list (BucketKey * Z)) :
  counter_get k (counter_add key c) =
  counter_get k c + (if decide (key = k) then 1 else 0).
Proof.
  induction c as [|[k' n] c IH].
  - cbn [counter_add counter_get]. destruct (decide (key = k)); reflexivity.
  - cbn [counter_add counter_get]. destruct (decide (k' = key)) as [->|Hne].
    + cbn [counter_get]. destruct (decide (key = k)); lia.
    + cbn [counter_get]. destruct (decide (k' = k)) as [->|Hk].
      * destruct (decide (key = k)) as [->|_]; [contradiction|lia].
      * exact IH.
Qed.


(** [Counter(keys)]: each key once, with the number of its occurrences. *)
Lemma Counter_spec (keys : list BucketKey) :
  NoDup (map fst (Counter keys)) /\
  (forall k, k ∈ map fst (Counter keys) <-> k ∈ keys) /\
  (forall k, counter_get k (Counter keys) =
             Z.of_nat (length (List.filter (fun x => bool_decide (x = k)) keys))) /\
  Zsum (map snd (Counter keys)) = Z.of_nat (length keys).
Proof.
  unfold Counter.
  apply (fold_left_inv (fun pre c =>
    NoDup (map fst c) /\
    (forall k, k ∈ map fst c <-> k ∈ pre) /\
    (forall k, counter_get k c =
               Z.of_nat (length (List.filter (fun x => bool_decide (x = k)) pre))) /\
    Zsum (map snd c) = Z.of_nat (length pre))).
  - split; [constructor|]. split; [tauto|]. split; reflexivity.
  - intros pre x post c _ (Hnd & Hkeys & Hget & Htot). split; [|split; [|split]].
    + rewrite counter_add_keys. destruct (decide _) as [Hin|Hnin]; [exact Hnd|].
      apply NoDup_app. split; [exact Hnd|]. split; [|apply NoDup_singleton].
      intros y Hy Hx. apply list_elem_of_singleton in Hx as ->. contradiction.
    + intros k. rewrite counter_add_keys, elem_of_app, list_elem_of_singleton.
      destruct (decide _) as [Hin|Hnin].
      * rewrite Hkeys. split; [auto|]. intros [H| ->]; [exact H|].
        apply Hkeys, Hin.
      * rewrite elem_of_app, list_elem_of_singleton, Hkeys. tauto.
    + intros k. rewrite counter_get_add, Hget, List.filter_app, length_app.
      cbn [List.filter]. destruct (decide (x = k)) as [->|Hne].
      * rewrite bool_decide_eq_true_2 by reflexivity. simpl. lia.
      * rewrite bool_decide_eq_false_2 by exact Hne. simpl. lia.
    + rewrite counter_add_total, Htot, length_app. simpl. lia.
Qed.

(** ** The sort *)

Lemma tuple_lt_true (a b : Z * Z) : tuple_lt a b = true -> tuple_le a b.
Proof.
  unfold tuple_lt, tuple_le. intros H.
  apply orb_true_iff in H as [H|H]; [left; lia|].
  apply andb_true_iff in H as [H1 H2]. right. lia.
Qed.

Lemma tuple_lt_false (a b : Z * Z) : tuple_lt a b = false -> tuple_le b a.
Proof.
  unfold tuple_lt, tuple_le. intros H.
  apply orb_false_iff in H as [H1 H2]. apply andb_false_iff in H2.
  destruct (Z.lt_trichotomy a.1 b.1) as [Hlt|[Heq|Hgt]]; [lia| |left; lia].
  right. split; [lia|]. destruct H2 as [H2|H2]; lia.
Qed.

Lemma tuple_le_trans (a b c : Z * Z) : tuple_le a b -> tuple_le b c -> tuple_le a c.
Proof. unfold tuple_le. intros [H1|[H1 H1']] [H2|[H2 H2']]; [left|left|left|right]; lia. Qed.

Lemma insert_by_key_perm (x : (Z * Z) * BucketKey) (l : list ((Z * Z) * BucketKey)) :
  insert_by_key x l ≡ₚ x :: l.
Proof.
  induction l as [|y l IH]; [reflexivity|]. cbn [insert_by_key].
  destruct (tuple_lt x.1 y.1); [reflexivity|].
  rewrite IH. apply Permutation_swap.
Qed.

Lemma insert_by_key_sorted (x : (Z * Z) * BucketKey)
    (l : list ((Z * Z) * BucketKey)) :
  Sorted.StronglySorted (fun a b => tuple_le a.1 b.1) l ->
  Sorted.StronglySorted (fun a b => tuple_le a.1 b.1) (insert_by_key x l).
Proof.
  induction l as [|y l IH]; intros Hs; cbn [insert_by_key].
  - constructor; constructor.
  - apply Sorted.StronglySorted_inv in Hs as [Hs Hy].
    destruct (tuple_lt x.1 y.1) eqn:E.
    + apply tuple_lt_true in E. constructor.
      * constructor; assumption.
      * constructor; [exact E|]. eapply List.Forall_impl; [|exact Hy].
        intros z Hz. eapply tuple_le_trans; eassumption.
    + apply tuple_lt_false in E. constructor; [apply IH, Hs|].
      rewrite insert_by_key_perm. constructor; assumption.
Qed.

Lemma insertion_sort_spec (decorated acc : list ((Z * Z) * BucketKey)) :
  Sorted.StronglySorted (fun a b => tuple_le a.1 b.1) acc ->
  let sorted := fold_left (fun l x => insert_by_key x l) decorated acc in
  sorted ≡ₚ acc ++ decorated /\
  Sorted.StronglySorted (fun a b => tuple_le a.1 b.1) sorted.
Proof.
  revert acc. induction decorated as [|x d IH]; intros acc Hacc; cbn [fold_left].
  - rewrite app_nil_r. split; [reflexivity|exact Hacc].
  - destruct (IH (insert_by_key x acc) (insert_by_key_sorted x acc Hacc))
      as [Hp Hs].
    split; [|exact Hs]. rewrite Hp, insert_by_key_perm. cbn [app].
    apply Permutation_middle.
Qed.

(** [sorted] raises exactly when a key cannot be computed; its result is
    a rearrangement that is in the order of the keys. *)
Lemma sorted_by_key_spec (keys : list BucketKey) :
  match sorted_by_key keys with
  | None => exists x, x ∈ keys /\ sort_key x = None
  | Some sorted =>
      sorted ≡ₚ keys /\ Sorted.StronglySorted sorts_before sorted
  end.
Proof.
  unfold sorted_by_key.
  destruct (mapM _ keys) as [decorated|] eqn:Em.
  - apply mapM_Some in Em.
    assert (Hdec : map snd decorated = keys /\
                   Forall (fun p => sort_key p.2 = Some p.1) decorated).
    { induction Em as [|x y xs ys Hxy _ IH]; [split; constructor|].
      destruct IH as [IH1 IH2]. destruct (sort_key x) as [k|] eqn:Ek;
        [|discriminate].
      injection Hxy as <-. cbn [map snd]. rewrite IH1.
      split; [reflexivity|]. constructor; [exact Ek|exact IH2]. }
    destruct Hdec as [Hkeys Hall].
    destruct (insertion_sort_spec decorated [] (Sorted.SSorted_nil _))
      as [Hp Hs].
    cbn [app] in Hp. split.
    + rewrite <- Hkeys. change (map snd ?l) with (snd <$> l).
      apply fmap_Permutation, Hp.
    + assert (Hall' : Forall (fun p => sort_key p.2 = Some p.1)
                        (fold_left (fun l x => insert_by_key x l) decorated []))
        by (rewrite Hp; exact Hall).
      revert Hs Hall'.
      generalize (fold_left (fun l x => insert_by_key x l) decorated []).
      intros l Hs. induction Hs as [|a l Hs IH Ha]; intros Hl;
        cbn [map]; [constructor|].
      apply Forall_cons in Hl as [Hka Hl]. constructor; [apply IH, Hl|].
      apply Forall_fmap. rewrite Forall_forall in Hl.
      apply Forall_forall. intros b Hb.
      rewrite List.Forall_forall in Ha.
      exists a.1, b.1. split; [exact Hka|]. split; [apply Hl, Hb|].
      apply Ha, list_elem_of_In, Hb.
  - apply mapM_None in Em. apply Exists_exists in Em as (x & Hx & Hnone).
    exists x. split; [exact Hx|]. destruct (sort_key x); [discriminate|reflexivity].
Qed.

(** ** The configuration of one dataset *)

Lemma config_fold_error (bucket_counts : list (BucketKey * Z)) (total_samples : Z)
    (latency_slo : pyfloat) (total_request_rate : pyvalue)
    (keys : list BucketKey) (e : PyError) :
  fold_left (config_step bucket_counts total_samples latency_slo total_request_rate)
    keys (inl e) = inl e.
Proof. induction keys as [|k keys IH]; [reflexivity|exact IH]. Qed.

Lemma config_fold (bucket_counts : list (BucketKey * Z)) (total_samples : Z)
    (latency_slo : Q) (total_request_rate : pyvalue) (x : pyfloat)
    (keys : list BucketKey)
    (request_types : list RequestTypeEntry.t)
    (rate_distribution : list RawRateEntry.t) :
  number_of_value total_request_rate = inr x ->
  fold_left
    (config_step bucket_counts total_samples (Finite latency_slo) total_request_rate)
    keys (inr (request_types, rate_distribution)) =
  inr (request_types ++ map (request_type_of latency_slo) keys,
       rate_distribution ++
       map (rate_item_of bucket_counts total_samples latency_slo x) keys).
Proof.
  intros Hx. revert request_types rate_distribution.
  induction keys as [|[i o] keys IH]; intros rts rds; cbn [fold_left map].
  - rewrite !app_nil_r. reflexivity.
  - cbn [config_step]. unfold mul_value. rewrite Hx.
    rewrite IH, <- !app_assoc. reflexivity.
Qed.

(** With a key to work on, the loop raises what the conversions raise. *)
Lemma config_fold_raises (bucket_counts : list (BucketKey * Z)) (total_samples : Z)
    (latency_slo : pyfloat) (total_request_rate : pyvalue)
    (keys : list BucketKey) (e : PyError) :
  keys <> [] ->
  match int_of_pyfloat latency_slo with
  | inl e' => e' = e
  | inr _ => number_of_value total_request_rate = inl e
  end ->
  fold_left (config_step bucket_counts total_samples latency_slo total_request_rate)
    keys (inr ([], [])) = inl e.
Proof.
  intros Hne He. destruct keys as [|[i o] keys]; [contradiction|].
  cbn [fold_left config_step].
  destruct latency_slo as [slo| | |]; cbn [int_of_pyfloat] in He;
    try (subst e; apply config_fold_error).
  unfold mul_value. rewrite He. apply config_fold_error.
Qed.






Lemma generate_config_nonempty (floor_log2 : Z -> Z)
    (float_of_str : string -> option pyfloat)
    (all_token_counts : list (Z * Z))
    (latency_slo_tpot_ms total_request_rate : pyvalue) :
  all_token_counts <> [] ->
  generate_config floor_log2 float_of_str all_token_counts latency_slo_tpot_ms
    total_request_rate =
  let bucket_counts := Counter (map (bucket_pair floor_log2) all_token_counts) in
  match sorted_by_key (map fst bucket_counts) with
  | None => Raises ValueError
  | Some sorted_keys =>
      match float_of_value float_of_str latency_slo_tpot_ms with
      | inl e => Raises e
      | inr latency_slo =>
          match fold_left
                  (config_step bucket_counts (Z.of_nat (length all_token_counts))
                     latency_slo total_request_rate)
                  sorted_keys (inr ([], [])) with
          | inl e => Raises e
          | inr (request_types, rate_distribution) =>
              Returns (RawConfigData.mk request_types rate_distribution)
          end
      end
  end.
Proof. intros Hne. destruct all_token_counts; [contradiction|reflexivity]. Qed.

(** With samples, the sort does not raise, and [generate_config] raises
    what the conversions of its two arguments raise; when they pass it
    returns the entries of the bucket pairs of the samples, each pair
    once, in the order of the sort. *)
Lemma generate_config_unfold (floor_log2 : Z -> Z)
    (float_of_str : string -> option pyfloat)
    (all_token_counts : list (Z * Z))
    (latency_slo_tpot_ms total_request_rate : pyvalue) :
  all_token_counts <> [] ->
  let bucket_counts := Counter (map (bucket_pair floor_log2) all_token_counts) in
  let total_samples := Z.of_nat (length all_token_counts) in
  let outcome :=
    generate_config floor_log2 float_of_str all_token_counts latency_slo_tpot_ms
      total_request_rate in
  exists sorted_keys,
    sorted_keys ≡ₚ map fst bucket_counts /\
    Sorted.StronglySorted sorts_before sorted_keys /\
    sorted_keys <> [] /\
    match argument_error float_of_str latency_slo_tpot_ms total_request_rate with
    | Some e => outcome = Raises e
    | None =>
        exists slo x,
          float_of_value float_of_str latency_slo_tpot_ms = inr (Finite slo) /\
          number_of_value total_request_rate = inr x /\
          outcome =
          Returns (RawConfigData.mk
                     (map (request_type_of slo) sorted_keys)
                     (map (rate_item_of bucket_counts total_samples slo x)
                          sorted_keys))
    end.
Proof.
  intros Hne bucket_counts total_samples outcome. subst outcome.
  rewrite generate_config_nonempty by exact Hne. cbv zeta.
  fold bucket_counts. fold total_samples.
  pose proof (sorted_by_key_spec (map fst bucket_counts)) as Hsort.
  destruct (Counter_spec (map (bucket_pair floor_log2) all_token_counts))
    as (_ & Hkeys & _).
  destruct (sorted_by_key (map fst bucket_counts)) as [sorted|].
  - destruct Hsort as [Hp Hs]. exists sorted. split; [exact Hp|].
    split; [exact Hs|].
    assert (Hsorted : sorted <> []).
    { destruct all_token_counts as [|s0 rest]; [contradiction|].
      intros ->. apply Permutation_nil in Hp.
      assert (Hin : bucket_pair floor_log2 s0 ∈ map fst bucket_counts)
        by (apply Hkeys; cbn [map]; left).
      rewrite Hp in Hin. inversion Hin. }
    split; [exact Hsorted|].
    unfold argument_error.
    destruct (float_of_value float_of_str latency_slo_tpot_ms)
      as [e|latency_slo]; [reflexivity|].
    destruct (int_of_pyfloat latency_slo) as [e|tpot] eqn:Eint.
    + rewrite (config_fold_raises _ _ _ _ _ e Hsorted);
        [reflexivity|rewrite Eint; reflexivity].
    + destruct (number_of_value total_request_rate) as [e|x] eqn:Enum.
      * rewrite (config_fold_raises _ _ _ _ _ e Hsorted);
          [reflexivity|rewrite Eint; exact Enum].
      * destruct latency_slo as [slo| | |]; try discriminate Eint.
        exists slo, x. split; [reflexivity|]. split; [reflexivity|].
        rewrite (config_fold _ _ _ _ x) by exact Enum. reflexivity.
  - exfalso. destruct Hsort as (x & Hx & Hnone).
    apply Hkeys in Hx. change (map ?f ?l) with (f <$> l) in Hx.
    apply list_elem_of_fmap in Hx as (sample & -> & _).
    rewrite sort_key_bucket_pair in Hnone. discriminate.
Qed.





(** X21. The request types [generate_config] returns are in the order of
    the numbers their buckets start with, the input bucket first and the
    output bucket second, not in the order of the texts: the number read
    back from the bucket of a count is 0 for a count of at most 1 and the
    power of two of the bucket otherwise. *)
Theorem generate_config_sorted (floor_log2 : Z -> Z)
    (float_of_str : string -> option pyfloat)
    (all_token_counts : list (Z * Z))
    (latency_slo_tpot_ms total_request_rate : pyvalue)
    (c : RawConfigData.t) :
  generate_config floor_log2 float_of_str all_token_counts latency_slo_tpot_ms
    total_request_rate
  = Returns c ->
  Sorted.StronglySorted sorts_before
    (map buckets_of (RawConfigData.request_types c)) /\
  (forall sample,
     sort_key (bucket_pair floor_log2 sample) =
     Some (bucket_lower floor_log2 sample.1, bucket_lower floor_log2 sample.2)) /\
  (forall i j a b,
     (i < j)%nat ->
     RawConfigData.request_types c !! i = Some a ->
     RawConfigData.request_types c !! j = Some b ->
     exists sa sb,
       sa ∈ all_token_counts /\ sb ∈ all_token_counts /\
       buckets_of a = bucket_pair floor_log2 sa /\
       buckets_of b = bucket_pair floor_log2 sb /\
       tuple_le (bucket_lower floor_log2 sa.1, bucket_lower floor_log2 sa.2)
                (bucket_lower floor_log2 sb.1, bucket_lower floor_log2 sb.2)).
Proof.
  intros Hc.
  assert (Hne : all_token_counts <> []).
  { intros ->. discriminate. }
  destruct (generate_config_unfold floor_log2 float_of_str all_token_counts
              latency_slo_tpot_ms total_request_rate Hne)
    as (sorted & Hp & Hs & _ & Hgen).
  cbv zeta in Hgen. rewrite Hc in Hgen.
  destruct (argument_error float_of_str latency_slo_tpot_ms total_request_rate);
    [discriminate|].
  destruct Hgen as (latency_slo & x & _ & _ & Hgen). injection Hgen as ->.
  cbn [RawConfigData.request_types].
  assert (Hb : map buckets_of (map (request_type_of latency_slo) sorted) = sorted).
  { rewrite map_map. rewrite <- (map_id sorted) at 2. apply map_ext.
    intros [i o]. reflexivity. }
  split; [rewrite Hb; exact Hs|]. split; [apply sort_key_bucket_pair|].
  destruct (Counter_spec (map (bucket_pair floor_log2) all_token_counts))
    as (_ & Hkeys & _).
  assert (Hsample : forall key, key ∈ sorted ->
            exists s, s ∈ all_token_counts /\ key = bucket_pair floor_log2 s).
  { intros key Hin. rewrite Hp in Hin. apply Hkeys in Hin.
    change (map ?f ?l) with (f <$> l) in Hin.
    apply list_elem_of_fmap in Hin as (s & -> & Hs'). eauto. }
  intros i j a b Hij Ha Hb'.
  change (map ?f ?l) with (f <$> l) in Ha, Hb'.
  rewrite list_lookup_fmap in Ha, Hb'.
  destruct (sorted !! i) as [ka|] eqn:Eka; [|discriminate].
  destruct (sorted !! j) as [kb|] eqn:Ekb; [|discriminate].
  injection Ha as <-. injection Hb' as <-.
  destruct (Hsample ka) as (sa & Hsa & Eqa); [eapply list_elem_of_lookup_2, Eka|].
  destruct (Hsample kb) as (sb & Hsb & Eqb); [eapply list_elem_of_lookup_2, Ekb|].
  exists sa, sb. split; [exact Hsa|]. split; [exact Hsb|].
  assert (Ha : buckets_of (request_type_of latency_slo ka) = ka)
    by (destruct ka; reflexivity).
  assert (Hb' : buckets_of (request_type_of latency_slo kb) = kb)
    by (destruct kb; reflexivity).
  rewrite Ha, Hb'. split; [exact Eqa|]. split; [exact Eqb|].
  assert (Hord : sorts_before ka kb).
  { clear -Hs Hij Eka Ekb. revert i j Hij Eka Ekb.
    induction Hs as [|x l Hs IH Hx]; intros i j Hij Eka Ekb; [discriminate|].
    destruct i as [|i], j as [|j]; try lia; cbn in Eka, Ekb.
    - injection Eka as ->. rewrite List.Forall_forall in Hx.
      apply Hx, list_elem_of_In. eapply list_elem_of_lookup_2, Ekb.
    - apply (IH i j); [lia|assumption..]. }
  destruct Hord as (kx & ky & Hkx & Hky & Hle).
  rewrite Eqa, sort_key_bucket_pair in Hkx. rewrite Eqb, sort_key_bucket_pair in Hky.
  injection Hkx as <-. injection Hky as <-. exact Hle.
Qed.

Lemma generate_config_sorted_witness :
  let outcome :=
    generate_config Z.log2 no_float_text token_counts_4
      (PyFloat (Finite 50)) (PyFloat (Finite 100)) in
  let c := match outcome with
           | Returns c => c
           | _ => RawConfigData.mk [] []
           end in
  outcome = Returns c /\
  map buckets_of (RawConfigData.request_types c)
    = [("0-1", "0-1"); ("2-3", "4-7"); ("8-15", "64-127")] /\
  Sorted.StronglySorted sorts_before
    (map buckets_of (RawConfigData.request_types c)).
Proof.
  intros outcome c.
  assert (Hc : outcome = Returns c) by (vm_compute; reflexivity).
  split; [exact Hc|]. split; [vm_compute; reflexivity|].
  exact (proj1 (generate_config_sorted Z.log2 no_float_text token_counts_4
                  (PyFloat (Finite 50)) (PyFloat (Finite 100)) c Hc)).
Defined.

(** The raise paths on the values [main] lets through, and the return
    without samples. *)
Example generate_config_raises :
  let run := generate_config Z.log2 no_float_text in
  run token_counts_4 PyNone (PyFloat (Finite 100)) = Raises TypeError /\
  run token_counts_4 (PyStr "fast") (PyFloat (Finite 100)) = Raises ValueError /\
  run token_counts_4 (PyFloat PosInf) (PyFloat (Finite 100)) = Raises OverflowError /\
  run token_counts_4 (PyFloat NaN) (PyFloat (Finite 100)) = Raises ValueError /\
  run token_counts_4 (PyInt (10 ^ 400)) (PyFloat (Finite 100)) = Raises OverflowError /\
  run token_counts_4 (PyFloat (Finite 50)) (PyStr "100") = Raises TypeError /\
  run token_counts_4 (PyFloat (Finite 50)) PyNone = Raises TypeError /\
  run token_counts_4 (PyFloat (Finite 50)) PyList = Raises TypeError /\
  run token_counts_4 (PyFloat PosInf) PyNone = Raises OverflowError /\
  run [] PyNone (PyStr "100") = ReturnsEmpty.
Proof. vm_compute. repeat split. Qed.

(** ** The cumulative configuration of several datasets *)




(** ** The check of the dataset requests *)

Lemma missing_key_None (d : dict json) :
  missing_key d = None <->
  forall key, key ∈ required_keys -> is_Some (dict_get key d).
Proof.
  unfold missing_key. split.
  - intros H key Hkey.
    apply list_elem_of_In in Hkey.
    pose proof (find_none _ _ H key Hkey) as Hn. cbn beta in Hn.
    apply negb_false_iff, bool_decide_eq_true in Hn. exact Hn.
  - intros H. destruct (find _ _) as [key|] eqn:E; [|reflexivity].
    apply find_some in E as [Hin Hn]. apply negb_true_iff in Hn.
    apply bool_decide_eq_false in Hn. exfalso. apply Hn, H, list_elem_of_In, Hin.
Qed.

Lemma set_default_get (d : dict json) (entry : string * json) (key : string) :
  dict_get key (set_default d entry) =
  match dict_get key d with
  | Some v => Some v
  | None => if String.eqb entry.1 key then Some entry.2 else None
  end.
Proof.
  unfold set_default. destruct (String.eqb_spec entry.1 key) as [<-|Hne].
  - destruct (dict_get entry.1 d) as [v|] eqn:E; [rewrite E; reflexivity|].
    rewrite dict_get_set_eq. reflexivity.
  - destruct (dict_get entry.1 d) as [v|] eqn:E.
    + destruct (dict_get key d); reflexivity.
    + rewrite dict_get_set_ne by exact Hne. destruct (dict_get key d); reflexivity.
Qed.

(** After the defaults: a key the request had keeps its value, a missing
    one has its default, and no other key is added. *)
Lemma set_defaults_get (defaults : list (string * json)) (d : dict json)
    (key : string) :
  dict_get key (fold_left set_default defaults d) =
  match dict_get key d with
  | Some v => Some v
  | None => dict_get key defaults
  end.
Proof.
  revert d. induction defaults as [|[k v] defaults IH]; intros d; cbn [fold_left].
  - destruct (dict_get key d); reflexivity.
  - rewrite IH, set_default_get. cbn [fst snd dict_get].
    destruct (dict_get key d) as [x|]; [reflexivity|].
    destruct (String.eqb k key); reflexivity.
Qed.

Lemma check_request_spec (item : json) :
  match check_request item with
  | inr d' =>
      exists d, item = JDict d /\
        (forall key, key ∈ required_keys -> is_Some (dict_get key d)) /\
        forall key, dict_get key d' =
                    match dict_get key d with
                    | Some v => Some v
                    | None => dict_get key default_values
                    end
  | inl _ => ~ well_formed_request item
  end.
Proof.
  unfold check_request. destruct item as [| | | | |d];
    try (intros (d' & Hd & _); discriminate).
  destruct (missing_key d) as [key|] eqn:E.
  - intros (d' & [= <-] & Hreq). apply missing_key_None in Hreq. congruence.
  - exists d. split; [reflexivity|]. split; [apply missing_key_None, E|].
    intros key. apply set_defaults_get.
Qed.

(** X25. The check of [--dataset_requests] in [main] accepts exactly a JSON
    list whose items are all dictionaries with the keys dataset_name,
    input_column and output_column.  It then hands on one dictionary for
    each item, in order, in which every key of the item keeps its value and
    the six optional keys that are missing have their defaults
    (tokenizer_name "meta-llama/Llama-3.1-8B-Instruct", latency_slo_tpot_ms
    50, total_request_rate 100, the other three None); no other key is
    added. *)
Theorem dataset_requests_check (dataset_requests : json) :
  match check_dataset_requests dataset_requests with
  | inr checked =>
      exists items,
        dataset_requests = JList items /\
        Forall2
          (fun item d' =>
             exists d, item = JDict d /\
               (forall key, key ∈ required_keys -> is_Some (dict_get key d)) /\
               forall key, dict_get key d' =
                           match dict_get key d with
                           | Some v => Some v
                           | None => dict_get key default_values
                           end)
          items checked
  | inl _ =>
      forall items, dataset_requests = JList items ->
                    Exists (fun item => ~ well_formed_request item) items
  end.
Proof.
  unfold check_dataset_requests.
  destruct dataset_requests as [| | | |items|]; try (intros ? [=]).
  assert (H : match check_requests items with
              | inr checked =>
                  Forall2
                    (fun item d' =>
                       exists d, item = JDict d /\
                         (forall key, key ∈ required_keys ->
                            is_Some (dict_get key d)) /\
                         forall key, dict_get key d' =
                                     match dict_get key d with
                                     | Some v => Some v
                                     | None => dict_get key default_values
                                     end)
                    items checked
              | inl _ => Exists (fun item => ~ well_formed_request item) items
              end).
  { induction items as [|item items IH]; cbn [check_requests]; [constructor|].
    pose proof (check_request_spec item) as Hitem.
    destruct (check_request item) as [msg|d'].
    - apply Exists_cons_hd, Hitem.
    - destruct (check_requests items) as [msg|ds].
      + apply Exists_cons_tl, IH.
      + constructor; assumption. }
  destruct (check_requests items) as [msg|checked].
  - intros items' [= <-]. exact H.
  - exists items. split; [reflexivity|exact H].
Qed.


(** ** Live data *)

Lemma pps_worker_Some {V : Type} (wu_data pps : dict V) :
  pps_worker wu_data = Some pps ->
  map fst pps = pps_worker_keys /\
  (forall key, key ∈ pps_worker_keys -> dict_get key pps = dict_get key wu_data) /\
  (forall key, key ∉ pps_worker_keys -> dict_get key pps = None).
Proof.
  unfold pps_worker, pps_worker_keys. intros H.
  cbn [mapM] in H. unfold mbind, option_bind, mret, option_ret in H.
  repeat match type of H with
  | context [dict_get ?k wu_data] =>
      let E := fresh "E" in
      destruct (dict_get k wu_data) eqn:E; [|discriminate]
  end.
  injection H as <-.
  split; [reflexivity|]. split.
  - intros key Hkey.
    repeat (apply elem_of_cons in Hkey as [->|Hkey]; [cbn; congruence|]).
    inversion Hkey.
  - intros key Hkey. apply dict_get_None. exact Hkey.
Qed.

Lemma pps_worker_None {V : Type} (wu_data : dict V) :
  pps_worker wu_data = None <->
  exists key, key ∈ pps_worker_keys /\ dict_get key wu_data = None.
Proof.
  unfold pps_worker, pps_worker_keys. split.
  - intros H. cbn [mapM] in H. unfold mbind, option_bind, mret, option_ret in H.
    repeat match type of H with
    | context [dict_get ?k wu_data] =>
        let E := fresh "E" in
        destruct (dict_get k wu_data) eqn:E;
          [|exists k; split; [set_solver|exact E]]
    end.
    discriminate.
  - intros (key & Hkey & Hnone).
    cbn [mapM]. unfold mbind, option_bind, mret, option_ret.
    repeat (apply elem_of_cons in Hkey as [->|Hkey];
            [rewrite Hnone;
             repeat match goal with
             | |- context [dict_get ?k wu_data] =>
                 destruct (dict_get k wu_data); try reflexivity
             end; reflexivity|]).
    inversion Hkey.
Qed.

(** X12. [prepare_worker_types_for_pps] either fails, which happens
    exactly when some worker dict lacks one of the six keys it reads, or
    returns one dict per worker, in order, that has those six keys in a
    fixed order with the values of the worker dict and no other key (so
    neither "cost" nor "max_limit"). *)
Theorem pps_workers_keep_six_keys {V : Type} (worker_units_data : list (dict V)) :
  (prepare_worker_types_for_pps worker_units_data = None <->
   exists wu_data key, wu_data ∈ worker_units_data /\ key ∈ pps_worker_keys /\
                       dict_get key wu_data = None) /\
  (forall pps_workers,
     prepare_worker_types_for_pps worker_units_data = Some pps_workers ->
     length pps_workers = length worker_units_data /\
     forall i wu_data pps_worker,
       worker_units_data !! i = Some wu_data ->
       pps_workers !! i = Some pps_worker ->
       map fst pps_worker = pps_worker_keys /\
       (forall key, key ∈ pps_worker_keys ->
          dict_get key pps_worker = dict_get key wu_data) /\
       (forall key, key ∉ pps_worker_keys -> dict_get key pps_worker = None)).
Proof.
  unfold prepare_worker_types_for_pps. split.
  - rewrite mapM_None, Exists_exists. split.
    + intros (wu & Hwu & Hnone). apply pps_worker_None in Hnone as (key & Hk & Hg).
      exists wu, key. auto.
    + intros (wu & key & Hwu & Hk & Hg). exists wu. split; [exact Hwu|].
      apply pps_worker_None. eauto.
  - intros out Hout. apply mapM_Some in Hout.
    split; [symmetry; exact (Forall2_length _ _ _ Hout)|].
    intros i wu pps Hi Ho.
    apply pps_worker_Some. exact (Forall2_lookup_lr _ _ _ _ _ _ Hout Hi Ho).
Qed.

(** *** The demand read from the distribution service *)

(** X13. The demand built from the ["rateDistribution"] items has one
    entry per request id; its ids are those of the items that have both an
    id and a rate (the others are skipped); and when an id occurs several
    times, the rate of its last such item is the one kept. *)
Theorem live_demand_last_item_wins (items : list RateItem.t) :
  let d := distribution_from_rds items in
  NoDup (map fst d) /\
  (forall k, k ∈ map fst d <-> exists r item, item ∈ items /\ item_for k r item) /\
  (forall pre item post k r,
     items = pre ++ item :: post -> item_for k r item ->
     (forall item' r', item' ∈ post -> ~ item_for k r' item') ->
     dict_get k d = Some r).
Proof.
  unfold distribution_from_rds.
  apply (fold_left_inv (fun done (d : dict Q) =>
    NoDup (map fst d) /\
    (forall k, k ∈ map fst d <-> exists r item, item ∈ done /\ item_for k r item) /\
    (forall pre item post k r,
       done = pre ++ item :: post -> item_for k r item ->
       (forall item' r', item' ∈ post -> ~ item_for k r' item') ->
       dict_get k d = Some r))).
  - split; [constructor|]. split.
    + intros k. split; [intros H; inversion H|].
      intros (r & item & H & _). inversion H.
    + intros pre item post k r H. destruct pre; discriminate.
  - intros done x rest d _ (Hnd & Hkeys & Hlast).
    assert (Hstep : forall pre item post (k : string) (r : Q),
              done ++ [x] = pre ++ item :: post ->
              (post = [] /\ item = x /\ pre = done) \/
              (exists post', post = post' ++ [x] /\ done = pre ++ item :: post')).
    { intros pre item post k r Heq.
      destruct post as [|p post _] using rev_ind.
      - left. apply app_inj_tail in Heq as [-> ->]. auto.
      - right. rewrite app_comm_cons, app_assoc in Heq.
        apply app_inj_tail in Heq as [-> <-]. exists post. split; reflexivity. }
    destruct (RateItem.requestTypeId x) as [kx|] eqn:Ek;
      [destruct (RateItem.rate x) as [rx|] eqn:Er|].
    + split; [apply dict_set_NoDup, Hnd|]. split.
      * intros k. rewrite dict_set_keys.
        assert (Hx : item_for kx rx x) by (split; assumption).
        destruct (decide (kx ∈ map fst d)) as [Hin|Hnin].
        -- rewrite Hkeys. split.
           ++ intros (r & item & Hi & Hf). exists r, item.
              split; [apply elem_of_app; left; exact Hi|exact Hf].
           ++ intros (r & item & Hi & Hf).
              apply elem_of_app in Hi as [Hi|Hi]; [eauto|].
              apply list_elem_of_singleton in Hi as ->.
              destruct Hf as [Hf _]. rewrite Ek in Hf. injection Hf as <-.
              apply Hkeys. exact Hin.
        -- rewrite elem_of_app, list_elem_of_singleton, Hkeys. split.
           ++ intros [(r & item & Hi & Hf)| ->].
              ** exists r, item. split; [apply elem_of_app; left; exact Hi|exact Hf].
              ** exists rx, x. split; [apply elem_of_app; right; left|exact Hx].
           ++ intros (r & item & Hi & Hf).
              apply elem_of_app in Hi as [Hi|Hi]; [left; eauto|].
              apply list_elem_of_singleton in Hi as ->.
              destruct Hf as [Hf _]. rewrite Ek in Hf. injection Hf as <-. right.
              reflexivity.
      * intros pre item post k r Heq Hf Hno.
        destruct (Hstep pre item post k r Heq) as [(-> & -> & ->)|(post' & -> & ->)].
        -- destruct Hf as [Hf1 Hf2]. rewrite Ek in Hf1. rewrite Er in Hf2.
           injection Hf1 as <-. injection Hf2 as <-. apply dict_get_set_eq.
        -- assert (Hne : kx <> k).
           { intros <-. apply (Hno x rx).
             - apply elem_of_app. right. left.
             - split; assumption. }
           rewrite dict_get_set_ne by exact Hne.
           apply (Hlast pre item post' k r eq_refl Hf).
           intros item' r' Hi. apply Hno. apply elem_of_app. left. exact Hi.
    + split; [exact Hnd|]. split.
      * intros k. rewrite Hkeys. split.
        -- intros (r & item & Hi & Hf). exists r, item.
           split; [apply elem_of_app; left; exact Hi|exact Hf].
        -- intros (r & item & Hi & Hf).
           apply elem_of_app in Hi as [Hi|Hi]; [eauto|].
           apply list_elem_of_singleton in Hi as ->.
           destruct Hf as [_ Hf]. rewrite Er in Hf. discriminate.
      * intros pre item post k r Heq Hf Hno.
        destruct (Hstep pre item post k r Heq) as [(-> & -> & ->)|(post' & -> & ->)].
        -- destruct Hf as [_ Hf]. rewrite Er in Hf. discriminate.
        -- apply (Hlast pre item post' k r eq_refl Hf).
           intros item' r' Hi. apply Hno. apply elem_of_app. left. exact Hi.
    + split; [exact Hnd|]. split.
      * intros k. rewrite Hkeys. split.
        -- intros (r & item & Hi & Hf). exists r, item.
           split; [apply elem_of_app; left; exact Hi|exact Hf].
        -- intros (r & item & Hi & Hf).
           apply elem_of_app in Hi as [Hi|Hi]; [eauto|].
           apply list_elem_of_singleton in Hi as ->.
           destruct Hf as [Hf _]. rewrite Ek in Hf. discriminate.
      * intros pre item post k r Heq Hf Hno.
        destruct (Hstep pre item post k r Heq) as [(-> & -> & ->)|(post' & -> & ->)].
        -- destruct Hf as [Hf _]. rewrite Ek in Hf. discriminate.
        -- apply (Hlast pre item post' k r eq_refl Hf).
           intros item' r' Hi. apply Hno. apply elem_of_app. left. exact Hi.
Qed.

(** *** The profile read from the profiler service *)

Lemma add_profile_entry_for (p : ProfileData) (entry : ProfileEntry.t)
    (w r : string) :
  entry_for w r entry ->
  add_profile_entry p entry = <[(w, r) := stored_throughput entry]> p.
Proof.
  intros (Hw & Hr & Hwne & Hrne). unfold add_profile_entry, stored_throughput.
  rewrite Hw, Hr. unfold truthy.
  destruct (String.eqb_spec w ""); [contradiction|].
  destruct (String.eqb_spec r ""); [contradiction|]. simpl.
  destruct (status_ok _); reflexivity.
Qed.

Lemma add_profile_entry_other (p : ProfileData) (entry : ProfileEntry.t)
    (w r : string) :
  ~ entry_for w r entry -> add_profile_entry p entry !! (w, r) = p !! (w, r).
Proof.
  intros Hno. unfold add_profile_entry.
  destruct (ProfileEntry.workerTypeId entry) as [w'|] eqn:Ew; [|reflexivity].
  destruct (ProfileEntry.requestTypeId entry) as [r'|] eqn:Er; [|reflexivity].
  unfold truthy.
  destruct (String.eqb_spec w' ""); [reflexivity|].
  destruct (String.eqb_spec r' ""); [reflexivity|]. simpl.
  assert (Hne : (w', r') <> (w, r)).
  { intros [= -> ->]. apply Hno. repeat split; assumption. }
  destruct (status_ok _); apply lookup_insert_ne; exact Hne.
Qed.

(** What the profile holds for a pair: the stored throughput of the last
    entry that names it, nothing when no entry does. *)
Lemma profile_from_pps_lookup (entries : list ProfileEntry.t) (w r : string) :
  (forall pre entry post,
     entries = pre ++ entry :: post -> entry_for w r entry ->
     (forall entry', entry' ∈ post -> ~ entry_for w r entry') ->
     profile_from_pps entries !! (w, r) = Some (stored_throughput entry)) /\
  ((forall entry, entry ∈ entries -> ~ entry_for w r entry) ->
   profile_from_pps entries !! (w, r) = None).
Proof.
  unfold profile_from_pps.
  assert (Hskip : forall post p,
            (forall entry', entry' ∈ post -> ~ entry_for w r entry') ->
            fold_left add_profile_entry post p !! (w, r) = p !! (w, r)).
  { induction post as [|e post IH]; intros p Hno; [reflexivity|].
    cbn [fold_left]. rewrite IH.
    - apply add_profile_entry_other, Hno. left.
    - intros e' He'. apply Hno. right. exact He'. }
  split.
  - intros pre entry post -> Hfor Hno.
    rewrite fold_left_app. cbn [fold_left]. rewrite (Hskip _ _ Hno).
    rewrite (add_profile_entry_for _ _ w r Hfor). apply lookup_insert_eq.
  - intros Hno. rewrite (Hskip _ _ Hno). apply lookup_empty.
Qed.

(** X14. With the profile built from the profiler entries, the load of a
    slice on a worker is finite only if the last entry that names the pair
    has status OK or OK_USING_HIGHEST_RATE and a throughput above zero,
    and is then the rate of the slice over that throughput; any other
    status, a missing throughput, or no entry for the pair gives [inf],
    which forbids the assignment. *)
Theorem live_profile_load (entries : list ProfileEntry.t)
    (s : Slice.t) (w : WorkerUnit.t) :
  let profile := profile_from_pps entries in
  let names_pair := entry_for (WorkerUnit.id w) (Slice.request_type_id s) in
  (forall pre entry post,
     entries = pre ++ entry :: post -> names_pair entry ->
     (forall entry', entry' ∈ post -> ~ names_pair entry') ->
     let status := default "STATUS_UNSPECIFIED" (ProfileEntry.status entry) in
     (status_ok status = false -> load_of profile s w = Inf) /\
     (ProfileEntry.maxThroughputRps entry = None -> load_of profile s w = Inf) /\
     (forall tput, status_ok status = true ->
        ProfileEntry.maxThroughputRps entry = Some tput ->
        load_of profile s w =
        if Qlt_bool 0 tput then Fin (Slice.rate_portion s / tput)%Q else Inf)) /\
  ((forall entry, entry ∈ entries -> ~ names_pair entry) ->
   load_of profile s w = Inf).
Proof.
  intros profile names_pair. subst profile names_pair.
  destruct (profile_from_pps_lookup entries (WorkerUnit.id w)
              (Slice.request_type_id s)) as [Hlast Hnone].
  split.
  - intros pre entry post Heq Hfor Hno status.
    pose proof (Hlast pre entry post Heq Hfor Hno) as Hl.
    unfold load_of. rewrite Hl. unfold stored_throughput. fold status.
    split; [|split].
    + intros ->. reflexivity.
    + intros ->. destruct (status_ok status); reflexivity.
    + intros tput -> ->. reflexivity.
  - intros Hno. unfold load_of. rewrite (Hnone Hno). reflexivity.
Qed.


(** ** The mock generators *)

Lemma get_or_DEFAULT_Some {V : Type} (table : gmap string V) (key : string) :
  is_Some (table !! "DEFAULT") -> is_Some (get_or_DEFAULT table key).
Proof. intros [d Hd]. unfold get_or_DEFAULT. rewrite Hd. eauto. Qed.

Lemma get_or_DEFAULT_None {V : Type} (table : gmap string V) (key : string) :
  get_or_DEFAULT table key = None <-> table !! "DEFAULT" = None.
Proof.
  unfold get_or_DEFAULT. destruct (table !! "DEFAULT"); split; congruence.
Qed.

Lemma pymax_mono_r (m a b : Q) : (a <= b)%Q -> (pymax m a <= pymax m b)%Q.
Proof.
  intros H. unfold pymax.
  destruct (Qlt_bool m a) eqn:Ea, (Qlt_bool m b) eqn:Eb;
    try apply Qlt_bool_true in Ea; try apply Qlt_bool_true in Eb;
    try apply Qlt_bool_false in Ea; try apply Qlt_bool_false in Eb; lra.
Qed.

(** The hyperbolic factor for a positive SLO and a half-cut that is not
    negative. *)
Lemma slo_factor_value (slo_ms : Z) (half : Q) :
  0 < slo_ms -> (0 <= half)%Q ->
  (if Qle_bool (inject_Z slo_ms + half) lit_1e_6 then 0%Q
   else (inject_Z slo_ms / (inject_Z slo_ms + half))%Q)
  = (inject_Z slo_ms / (inject_Z slo_ms + half))%Q /\
  (1 <= inject_Z slo_ms)%Q.
Proof.
  intros Hs Hh.
  assert (H1 : (1 <= inject_Z slo_ms)%Q).
  { change 1%Q with (inject_Z 1). rewrite <- Zle_Qle. lia. }
  split; [|exact H1].
  destruct (Qle_bool _ _) eqn:E; [|reflexivity].
  apply Qle_bool_true in E. lra.
Qed.

(** X15. The SLO penalty factor fails only for a positive SLO and a
    half-cut table without 'DEFAULT'.  It is never below the configured
    floor; and when the half-cut is not negative it is at most 1 (for a
    floor of at most 1) and does not fall when the SLO grows. *)
Theorem slo_penalty_factor_bounds (accel_type : string) (config : Config.t)
    (slo_ms : Z) :
  let floor := Config.min_slo_penalty_factor config in
  let half_cuts := Config.accel_slo_half_cut_ms config in
  (_get_slo_penalty_factor accel_type slo_ms config = None <->
   0 < slo_ms /\ half_cuts !! "DEFAULT" = None) /\
  (forall f, _get_slo_penalty_factor accel_type slo_ms config = Some f ->
     (floor <= f)%Q) /\
  (forall half, get_or_DEFAULT half_cuts accel_type = Some half -> (0 <= half)%Q ->
     forall f, _get_slo_penalty_factor accel_type slo_ms config = Some f ->
       ((floor <= 1)%Q -> (f <= 1)%Q) /\
       (forall slo_ms' f', slo_ms <= slo_ms' ->
          _get_slo_penalty_factor accel_type slo_ms' config = Some f' ->
          (f <= f')%Q)).
Proof.
  intros floor half_cuts. unfold _get_slo_penalty_factor. fold half_cuts floor.
  split; [|split].
  - destruct (Z.leb_spec slo_ms 0) as [Hle|Hgt].
    + split; [discriminate|]. intros [H _]. lia.
    + destruct (get_or_DEFAULT half_cuts accel_type) eqn:E.
      * split; [discriminate|]. intros [_ H].
        apply get_or_DEFAULT_None with (key := accel_type) in H. congruence.
      * apply get_or_DEFAULT_None in E. split; auto.
  - intros f. destruct (slo_ms <=? 0); [intros [= <-]; lra|].
    destruct (get_or_DEFAULT half_cuts accel_type); [|discriminate].
    intros [= <-]. apply pymax_ge_l.
  - intros half Hhalf Hpos f Hf. rewrite Hhalf in Hf. split.
    + intros Hfloor. destruct (Z.leb_spec slo_ms 0) as [Hle|Hgt].
      * injection Hf as <-. exact Hfloor.
      * injection Hf as <-.
        destruct (slo_factor_value slo_ms half Hgt Hpos) as [-> H1].
        destruct (pymax_cases floor (inject_Z slo_ms / (inject_Z slo_ms + half)))
          as [->| ->]; [exact Hfloor|].
        apply Qle_shift_div_r; lra.
    + intros slo' f' Hle Hf'. rewrite Hhalf in Hf'.
      destruct (Z.leb_spec slo_ms 0) as [Hneg|Hgt].
      * injection Hf as <-. destruct (slo' <=? 0); injection Hf' as <-;
          [lra|apply pymax_ge_l].
      * destruct (Z.leb_spec slo' 0) as [?|Hgt']; [lia|].
        injection Hf as <-. injection Hf' as <-.
        destruct (slo_factor_value slo_ms half Hgt Hpos) as [-> H1].
        destruct (slo_factor_value slo' half Hgt' Hpos) as [-> H1'].
        apply pymax_mono_r.
        assert (Hle' : (inject_Z slo_ms <= inject_Z slo')%Q)
          by (rewrite <- Zle_Qle; exact Hle).
        apply Qle_shift_div_l; [lra|].
        unfold Qdiv. rewrite <- Qmult_assoc, (Qmult_comm (/ _)), Qmult_assoc.
        apply Qle_shift_div_r; [lra|]. nra.
Qed.

Lemma profile_insert_eq (p : ProfileData) (key : string * string) (v : Q) :
  <[key := v]> p !! key = Some v.
Proof. apply lookup_insert_eq. Qed.

Lemma profile_insert_ne (p : ProfileData) (key key' : string * string) (v : Q) :
  key <> key' -> <[key := v]> p !! key' = p !! key'.
Proof. apply lookup_insert_ne. Qed.

Section GeneratorProofs.

Variable upper : string -> string.
Variable RngState : Type.
Variable random_random : RngState -> Q * RngState.

Lemma _calculate_single_throughput_floor (worker : WorkerUnit.t)
    (req_type : RequestType.t) (config : Config.t) (rng rng' : RngState)
    (t : Q) :
  _calculate_single_throughput upper RngState random_random
    worker req_type config rng = Some (t, rng') ->
  (Config.min_final_throughput config <= t)%Q.
Proof.
  unfold _calculate_single_throughput.
  destruct (_get_speed_factor _ _); [|discriminate].
  destruct (_get_size_efficiency_factor _ _ _ _ _); [|discriminate].
  destruct (_get_server_factor _ _); [|discriminate].
  destruct (_get_slo_penalty_factor _ _ _); [|discriminate].
  destruct (_apply_random_variation _ _ _ _ _) as [v r].
  intros [= <- _]. apply pymax_ge_l.
Qed.

Lemma _calculate_single_throughput_Some (worker : WorkerUnit.t)
    (req_type : RequestType.t) (config : Config.t) (rng : RngState) :
  has_defaults config ->
  is_Some (_calculate_single_throughput upper RngState random_random
             worker req_type config rng).
Proof.
  intros (Hs & Hi & Ho & Hm & Hh). unfold _calculate_single_throughput.
  unfold _get_speed_factor, _get_server_factor, _get_size_efficiency_factor.
  destruct (get_or_DEFAULT_Some _ (WorkerUnit.accelerator_type worker) Hs)
    as [? ->].
  destruct (get_or_DEFAULT_Some _ (WorkerUnit.accelerator_type worker) Hi)
    as [? ->].
  destruct (get_or_DEFAULT_Some _ (WorkerUnit.accelerator_type worker) Ho)
    as [? ->].
  destruct (get_or_DEFAULT_Some _ (WorkerUnit.model_server_type worker) Hm)
    as [? ->].
  unfold _get_slo_penalty_factor.
  destruct (get_or_DEFAULT_Some _ (WorkerUnit.accelerator_type worker) Hh)
    as [? ->].
  destruct (_ <=? 0); destruct (_apply_random_variation _ _ _ _ _); eauto.
Qed.

(** One pass of the inner loop that ends without an exception started
    from a state without one; it wrote the pairs of the worker, each with
    a value at or above the floor, and kept every other key. *)
Lemma mock_profile_inner (config : Config.t) (worker : WorkerUnit.t)
    (request_types : list RequestType.t)
    (st : option (ProfileData * RngState)) (p' : ProfileData) (rng' : RngState) :
  fold_left (mock_profile_step upper RngState random_random config worker)
    request_types st = Some (p', rng') ->
  exists p rng,
    st = Some (p, rng) /\
    (forall r, r ∈ request_types ->
       is_Some (p' !! (WorkerUnit.id worker, RequestType.id r))) /\
    (forall key, is_Some (p !! key) -> is_Some (p' !! key)) /\
    (forall key t, p' !! key = Some t ->
       p !! key = Some t \/
       ((Config.min_final_throughput config <= t)%Q /\
        exists r, r ∈ request_types /\
                  key = (WorkerUnit.id worker, RequestType.id r))).
Proof.
  revert st. induction request_types as [|r rs IH]; intros st Hfold.
  - simpl in Hfold. subst st. exists p', rng'. split; [reflexivity|].
    split; [intros r Hr; inversion Hr|]. split; [tauto|]. intros; left; assumption.
  - cbn [fold_left] in Hfold.
    destruct (IH _ Hfold) as (p1 & rng1 & Hstep & Hall & Hmono & Honly).
    unfold mock_profile_step in Hstep.
    destruct st as [[p rng]|]; [|discriminate].
    destruct (_calculate_single_throughput _ _ _ _ _ _ _) as [[t0 rng0]|] eqn:Ec;
      [|discriminate].
    injection Hstep as <- <-.
    apply _calculate_single_throughput_floor in Ec.
    exists p, rng. split; [reflexivity|]. split; [|split].
    + intros r' Hr'. apply elem_of_cons in Hr' as [->|Hr']; [|apply Hall, Hr'].
      apply Hmono. rewrite profile_insert_eq. eauto.
    + intros key Hk. apply Hmono.
      destruct (decide ((WorkerUnit.id worker, RequestType.id r) = key)) as [<-|Hne].
      * rewrite profile_insert_eq. eauto.
      * rewrite profile_insert_ne by exact Hne. exact Hk.
    + intros key t Hk. destruct (Honly key t Hk) as [H1|(Hle & r' & Hr' & ->)].
      * destruct (decide ((WorkerUnit.id worker, RequestType.id r) = key))
          as [<-|Hne].
        -- rewrite profile_insert_eq in H1. injection H1 as <-.
           right. split; [exact Ec|]. exists r. split; [left|reflexivity].
        -- rewrite profile_insert_ne in H1 by exact Hne. left. exact H1.
      * right. split; [exact Hle|]. exists r'. split; [right; exact Hr'|reflexivity].
Qed.

Lemma mock_profile_outer (config : Config.t) (worker_units : list WorkerUnit.t)
    (request_types : list RequestType.t)
    (st : option (ProfileData * RngState)) (p' : ProfileData) (rng' : RngState) :
  fold_left
    (fun st worker =>
       fold_left (mock_profile_step upper RngState random_random config worker)
         request_types st)
    worker_units st = Some (p', rng') ->
  exists p rng,
    st = Some (p, rng) /\
    (forall w r, w ∈ worker_units -> r ∈ request_types ->
       is_Some (p' !! (WorkerUnit.id w, RequestType.id r))) /\
    (forall key, is_Some (p !! key) -> is_Some (p' !! key)) /\
    (forall key t, p' !! key = Some t ->
       p !! key = Some t \/
       ((Config.min_final_throughput config <= t)%Q /\
        exists w r, w ∈ worker_units /\ r ∈ request_types /\
                    key = (WorkerUnit.id w, RequestType.id r))).
Proof.
  revert st. induction worker_units as [|w ws IH]; intros st Hfold.
  - simpl in Hfold. subst st. exists p', rng'. split; [reflexivity|].
    split; [intros w r Hw; inversion Hw|]. split; [tauto|]. intros; left; assumption.
  - cbn [fold_left] in Hfold.
    destruct (IH _ Hfold) as (p1 & rng1 & Hin & Hall & Hmono & Honly).
    destruct (mock_profile_inner _ _ _ _ _ _ Hin)
      as (p & rng & -> & Hall1 & Hmono1 & Honly1).
    exists p, rng. split; [reflexivity|]. split; [|split].
    + intros w' r Hw' Hr. apply elem_of_cons in Hw' as [->|Hw'].
      * apply Hmono, Hall1, Hr.
      * apply Hall; assumption.
    + intros key Hk. apply Hmono, Hmono1, Hk.
    + intros key t Hk.
      destruct (Honly key t Hk) as [H1|(Hle & w' & r & Hw' & Hr & ->)].
      * destruct (Honly1 key t H1) as [H0|(Hle & r & Hr & ->)]; [left; exact H0|].
        right. split; [exact Hle|]. exists w, r. split; [left|]. split; auto.
      * right. split; [exact Hle|]. exists w', r. split; [right; exact Hw'|].
        split; auto.
Qed.

(** X16. A mock profile that is generated has an entry for every pair of a
    listed worker and a listed request type and for nothing else, and no
    entry is below [min_final_throughput]; with the five 'DEFAULT' entries
    in the configuration, the generation does not raise. *)
Theorem mock_profile_complete (worker_units : list WorkerUnit.t)
    (request_types : list RequestType.t) (config : Config.t) (rng : RngState) :
  (has_defaults config ->
   is_Some (generate_mock_profile upper RngState random_random
              worker_units request_types config rng)) /\
  (forall profile rng',
     generate_mock_profile upper RngState random_random
       worker_units request_types config rng = Some (profile, rng') ->
     (forall w r, w ∈ worker_units -> r ∈ request_types ->
        is_Some (profile !! (WorkerUnit.id w, RequestType.id r))) /\
     (forall key t, profile !! key = Some t ->
        (Config.min_final_throughput config <= t)%Q /\
        exists w r, w ∈ worker_units /\ r ∈ request_types /\
                    key = (WorkerUnit.id w, RequestType.id r))).
Proof.
  split.
  - intros Hd. unfold generate_mock_profile.
    apply (fold_left_preserves (fun st => is_Some st)); [|eauto].
    intros st w Hst.
    apply (fold_left_preserves (fun st => is_Some st)); [|exact Hst].
    intros [[p g]|] r [x Hx]; [|discriminate]. unfold mock_profile_step.
    destruct (_calculate_single_throughput_Some w r config g Hd) as [[t g'] ->].
    eauto.
  - intros profile rng' Hgen. unfold generate_mock_profile in Hgen.
    destruct (mock_profile_outer _ _ _ _ _ _ Hgen)
      as (p & g & [= <- <-] & Hall & _ & Honly).
    split; [exact Hall|]. intros key t Hk.
    destruct (Honly key t Hk) as [H0|H1]; [|exact H1].
    exfalso. revert H0. apply lookup_empty_Some.
Qed.

(** X17. With a positive [min_final_throughput], a generated mock profile
    gives the solver a finite load for every slice of a listed request type
    on every listed worker: the rate of the slice divided by a throughput
    that is at least the floor. *)
Theorem mock_profile_loads_finite (worker_units : list WorkerUnit.t)
    (request_types : list RequestType.t) (config : Config.t) (rng rng' : RngState)
    (profile : ProfileData) (s : Slice.t) (w : WorkerUnit.t) (r : RequestType.t) :
  (0 < Config.min_final_throughput config)%Q ->
  generate_mock_profile upper RngState random_random
    worker_units request_types config rng = Some (profile, rng') ->
  w ∈ worker_units -> r ∈ request_types ->
  Slice.request_type_id s = RequestType.id r ->
  exists t, (Config.min_final_throughput config <= t)%Q /\
            load_of profile s w = Fin (Slice.rate_portion s / t)%Q.
Proof.
  intros Hpos Hgen Hw Hr Hs. unfold generate_mock_profile in Hgen.
  destruct (mock_profile_outer _ _ _ _ _ _ Hgen)
    as (p & g & [= <- <-] & Hall & _ & Honly).
  destruct (Hall w r Hw Hr) as [t Ht].
  destruct (Honly _ _ Ht) as [H0|[Hle _]].
  { exfalso. revert H0. apply lookup_empty_Some. }
  exists t. split; [exact Hle|]. unfold load_of. rewrite Hs, Ht.
  assert (E : Qlt_bool 0 t = true) by (apply Qlt_bool_true; lra).
  rewrite E. reflexivity.
Qed.

End GeneratorProofs.

Lemma mock_profile_loads_finite_witness :
  let generated :=
    generate_mock_profile (fun s => s) unit draw_half
      [worker_A] [request_type_R1] MOCK_GENERATOR_CONFIG tt in
  let profile := (default (∅, tt) generated).1 in
  ((0 < Config.min_final_throughput MOCK_GENERATOR_CONFIG)%Q /\
   generated = Some (profile, tt) /\
   worker_A ∈ [worker_A] /\ request_type_R1 ∈ [request_type_R1] /\
   Slice.request_type_id slice_R1 = RequestType.id request_type_R1) /\
  exists t, (Config.min_final_throughput MOCK_GENERATOR_CONFIG <= t)%Q /\
            load_of profile slice_R1 worker_A = Fin (10 / t)%Q.
Proof.
  intros generated profile.
  assert (Hpos : (0 < Config.min_final_throughput MOCK_GENERATOR_CONFIG)%Q)
    by reflexivity.
  assert (Hgen : generated = Some (profile, tt)) by (vm_compute; reflexivity).
  assert (Hw : worker_A ∈ [worker_A]) by left.
  assert (Hr : request_type_R1 ∈ [request_type_R1]) by left.
  assert (Hid : Slice.request_type_id slice_R1 = RequestType.id request_type_R1)
    by reflexivity.
  split; [exact (conj Hpos (conj Hgen (conj Hw (conj Hr Hid))))|].
  exact (mock_profile_loads_finite (fun s => s) unit draw_half
           [worker_A] [request_type_R1] MOCK_GENERATOR_CONFIG tt tt profile
           slice_R1 worker_A request_type_R1 Hpos Hgen Hw Hr Hid).
Defined.

(** ** The mock distribution *)

Lemma dict_set_elem_of_keys {V : Type} (k k' : string) (v : V) (d : dict V) :
  k' ∈ map fst (dict_set k v d) <-> k' = k \/ k' ∈ map fst d.
Proof.
  rewrite dict_set_keys. destruct (decide (k ∈ map fst d)) as [Hin|Hnin].
  - split; [auto|]. intros [->|H]; assumption.
  - rewrite elem_of_app, list_elem_of_singleton. tauto.
Qed.

Lemma dict_set_Forall {V : Type} (P : V -> Prop) (k : string) (v : V)
    (d : dict V) :
  Forall (fun p => P p.2) d -> P v -> Forall (fun p => P p.2) (dict_set k v d).
Proof.
  intros Hd Hv. induction d as [|[k' v'] d IH]; cbn [dict_set].
  - constructor; [exact Hv|constructor].
  - apply Forall_cons in Hd as [Hv' Hd].
    destruct (String.eqb k' k); constructor; auto.
Qed.

(** A loop of assignments [d[key x] = val x]. *)
Lemma dict_set_fold {X V : Type} (P : V -> Prop) (key : X -> string)
    (val : X -> V) (xs : list X) (d0 : dict V) :
  let d := fold_left (fun d x => dict_set (key x) (val x) d) xs d0 in
  (NoDup (map fst d0) -> NoDup (map fst d)) /\
  (forall k, k ∈ map fst d <-> k ∈ map fst d0 \/ k ∈ map key xs) /\
  (Forall (fun p => P p.2) d0 -> (forall x, x ∈ xs -> P (val x)) ->
   Forall (fun p => P p.2) d).
Proof.
  revert d0. induction xs as [|x xs IH]; intros d0; cbn [fold_left map].
  - split; [auto|]. split; [|auto].
    intros k. split; [auto|]. intros [H|H]; [exact H|inversion H].
  - destruct (IH (dict_set (key x) (val x) d0)) as (Hnd & Hkeys & Hall).
    split; [|split].
    + intros H. apply Hnd, dict_set_NoDup, H.
    + intros k. rewrite Hkeys, dict_set_elem_of_keys, elem_of_cons. tauto.
    + intros H0 Hxs. apply Hall.
      * apply dict_set_Forall; [exact H0|]. apply Hxs. left.
      * intros y Hy. apply Hxs. right. exact Hy.
Qed.

Lemma set_rate_fold {X : Type} (min_rate : Q) (key : X -> string)
    (rate : X -> Q) (xs : list X) (st : dict Q * Q) :
  (fold_left (fun st x => set_rate min_rate st (key x) (rate x)) xs st).1 =
  fold_left (fun d x => dict_set (key x) (pymax min_rate (rate x)) d) xs st.1.
Proof.
  revert st. induction xs as [|x xs IH]; intros [d a]; [reflexivity|].
  cbn [fold_left]. rewrite IH. reflexivity.
Qed.

Lemma fold_left_ext_eq {S X : Type} (f g : S -> X -> S) (xs : list X) (s : S) :
  (forall s x, f s x = g s x) -> fold_left f xs s = fold_left g xs s.
Proof.
  intros H. revert s. induction xs as [|x xs IH]; intros s; [reflexivity|].
  cbn [fold_left]. rewrite H. apply IH.
Qed.

Lemma mock_rates_inv (active_request_types : list RequestType.t)
    (weights : list Q) (total_rate min_rate : Q) :
  length weights = length active_request_types ->
  rates_inv (map RequestType.id active_request_types) min_rate
    (mock_rates active_request_types weights total_rate min_rate).1.
Proof.
  intros Hlen. unfold mock_rates.
  destruct (Qle_bool (pysum weights) lit_1e_9).
  - rewrite (set_rate_fold min_rate RequestType.id (fun _ => _)).
    destruct (dict_set_fold (fun v => (min_rate <= v)%Q) RequestType.id
                (fun _ : RequestType.t => pymax min_rate
                   match active_request_types with
                   | [] => 0%Q
                   | _ => (total_rate /
                           inject_Z (Z.of_nat (length active_request_types)))%Q
                   end)
                active_request_types []) as (Hnd & Hkeys & Hall).
    split; [apply Hnd; constructor|]. split.
    + intros k. rewrite Hkeys. split; [intros [H|H]; [inversion H|exact H]|auto].
    + apply Hall; [constructor|]. intros. apply pymax_ge_l.
  - rewrite (fold_left_ext_eq _
               (fun st p => set_rate min_rate st (RequestType.id p.1)
                              (p.2 / pysum weights * total_rate)%Q))
      by (intros s [r w]; reflexivity).
    rewrite (set_rate_fold min_rate (fun p => RequestType.id p.1)
               (fun p => (p.2 / pysum weights * total_rate)%Q)).
    destruct (dict_set_fold (fun v => (min_rate <= v)%Q)
                (fun p : RequestType.t * Q => RequestType.id p.1)
                (fun p => pymax min_rate (p.2 / pysum weights * total_rate)%Q)
                (combine active_request_types weights) [])
      as (Hnd & Hkeys & Hall).
    assert (Hids : map (fun p : RequestType.t * Q => RequestType.id p.1)
                     (combine active_request_types weights) =
                   map RequestType.id active_request_types).
    { rewrite <- (map_map fst RequestType.id).
      change (map fst (combine ?a ?b)) with (fst <$> zip a b).
      rewrite fst_zip by lia. reflexivity. }
    split; [apply Hnd; constructor|]. split.
    + intros k. rewrite Hkeys, Hids.
      split; [intros [H|H]; [inversion H|exact H]|auto].
    + apply Hall; [constructor|]. intros. apply pymax_ge_l.
Qed.

Lemma renormalize_inv (ids : list string) (total_rate min_rate : Q)
    (st : dict Q * Q) :
  rates_inv ids min_rate st.1 ->
  rates_inv ids min_rate (renormalize total_rate min_rate st).
Proof.
  destruct st as [d a]. intros Hinv. unfold renormalize.
  destruct (_ && _); [|exact Hinv].
  destruct Hinv as (_ & Hkeys & _).
  rewrite (fold_left_ext_eq _
             (fun temp p => dict_set p.1
                (pymax min_rate (p.2 * (total_rate / a))%Q) temp))
    by (intros s [k v]; reflexivity).
  destruct (dict_set_fold (fun v => (min_rate <= v)%Q) fst
              (fun p : string * Q => pymax min_rate (p.2 * (total_rate / a))%Q)
              d []) as (Hnd & Hk & Hall).
  split; [apply Hnd; constructor|]. split.
  - intros k. rewrite Hk, <- Hkeys. cbn [fst].
    split; [intros [H|H]; [inversion H|exact H]|auto].
  - apply Hall; [constructor|]. intros. apply pymax_ge_l.
Qed.

(** ** The generators feed the solver *)

(** The request ids of the slices are those of the chunks, and every entry
    above 1e-9 has a chunk that is not empty. *)
Lemma create_slices_request_ids (distribution_data : DistributionData)
    (factor : Z) (k : string) :
  (k ∈ map Slice.request_type_id (create_slices distribution_data factor) ->
   k ∈ map fst distribution_data) /\
  (forall rate, (k, rate) ∈ distribution_data -> (lit_1e_9 < rate)%Q ->
   k ∈ map Slice.request_type_id (create_slices distribution_data factor)).
Proof.
  unfold create_slices, create_slicer_state.
  destruct (slicer_fold_spec (Z.max factor 1) distribution_data
              (mkSlicer [] 0 factor)) as (chunks & Hall & Hp & _).
  { split; reflexivity. }
  simpl in Hp.
  assert (Hids : map Slice.request_type_id
                   (slices (fold_left slicer_step distribution_data
                              (mkSlicer [] 0 factor))) =
                 map fst (concat chunks)).
  { rewrite <- Hp, map_map. reflexivity. }
  rewrite Hids. clear Hp Hids.
  assert (Hk : 1 <= Z.max factor 1) by lia.
  induction Hall as [|item chunk rest chunks' Hem _ IH].
  - split; [intros H; inversion H|]. intros rate H. inversion H.
  - destruct IH as [IH1 IH2]. cbn [concat map]. rewrite map_app. split.
    + intros Hin. apply elem_of_app in Hin as [Hin|Hin].
      * destruct (emits_chunk _ _ _ Hk Hem) as (_ & Hf & _).
        change (map fst chunk) with (fst <$> chunk) in Hin.
        apply list_elem_of_fmap in Hin as (p & -> & Hp).
        rewrite Forall_forall in Hf. destruct (Hf p Hp) as [-> _]. left.
      * right. apply IH1, Hin.
    + intros rate Hin Hr. apply elem_of_app.
      apply elem_of_cons in Hin as [<-|Hin]; [left|right; eapply IH2; eassumption].
      inversion Hem as [req r H|req r H Hp Heq|req r H Hp Ht Heq|req r H Ht Heq];
        subst; try lra.
      * destruct (Z.to_nat (Z.max factor 1)) as [|n] eqn:En; [lia|].
        cbn [replicate map fst]. left.
      * left.
Qed.

Section DistributionProofs.

Variable upper lower : string -> string.
Variable RngState : Type.
Variable random_random : RngState -> Q * RngState.
Variable random_sample :
  RngState -> list RequestType.t -> Z -> list RequestType.t * RngState.

Lemma mock_weights_length (size_bias slo_bias : option string) (bias_factor : Q)
    (active_request_types : list RequestType.t) (rng : RngState) :
  length (mock_weights upper lower RngState random_random
            size_bias slo_bias bias_factor active_request_types rng).1 =
  length active_request_types.
Proof.
  unfold mock_weights.
  assert (H : forall st,
    length (fold_left
              (fun '(weights, rng) req_type =>
                 let '(weight, rng) :=
                   mock_weight upper lower RngState random_random
                     size_bias slo_bias bias_factor req_type rng in
                 (weights ++ [weight], rng))
              active_request_types st).1 =
    (length st.1 + length active_request_types)%nat).
  { induction active_request_types as [|r rs IH]; intros [ws g];
      cbn [fold_left length fst]; [lia|].
    destruct (mock_weight _ _ _ _ _ _ _ _ _) as [w g'].
    rewrite IH. cbn [fst]. rewrite length_app. simpl. lia. }
  rewrite H. reflexivity.
Qed.

Lemma select_active_empty (request_types : list RequestType.t)
    (config : Config.t) (rng : RngState) :
  request_types = [] \/
  (exists k, Config.max_active_request_types config = Some (Some k) /\ k <= 0) ->
  select_active_request_types RngState random_sample request_types config rng
  = ([], rng).
Proof.
  intros Hempty. unfold select_active_request_types.
  set (n := Z.of_nat (length request_types)).
  assert (Hn : 0 <= n) by (subst n; lia).
  set (m := Z.min n _).
  assert (Hm : m <= 0).
  { subst m. destruct Hempty as [->|(k & -> & Hk)]; [|lia].
    subst n. cbn [length Z.of_nat]. lia. }
  destruct (Z.ltb_spec 0 m); [lia|]. rewrite andb_false_r.
  destruct (Z.leb_spec m 0); [reflexivity|lia].
Qed.

Lemma generate_mock_distribution_inv (request_types : list RequestType.t)
    (total_rate : Q) (size_bias slo_bias : option string) (config : Config.t)
    (rng : RngState) :
  rates_inv
    (map RequestType.id
       (select_active_request_types RngState random_sample
          request_types config rng).1)
    (Config.distribution_min_rate config)
    (generate_mock_distribution upper lower RngState random_random random_sample
       request_types total_rate size_bias slo_bias config rng).1.
Proof.
  assert (Hnil : forall m, rates_inv [] m []).
  { intros m. split; [constructor|]. split; [tauto|constructor]. }
  destruct request_types as [|r0 rs].
  { rewrite select_active_empty by (left; reflexivity). apply Hnil. }
  unfold generate_mock_distribution.
  destruct (select_active_request_types _ _ _ _ _) as [active g].
  destruct active as [|a0 active'] eqn:Ea; [apply Hnil|].
  rewrite <- Ea. clear Ea. cbn [fst].
  pose proof (mock_weights_length size_bias slo_bias
                (Config.distribution_bias_factor config) active g) as Hlen.
  destruct (mock_weights _ _ _ _ _ _ _ _ _) as [weights g'].
  cbn [fst] in *. apply renormalize_inv, mock_rates_inv, Hlen.
Qed.

Lemma select_active_uncapped (request_types : list RequestType.t)
    (config : Config.t) (rng : RngState) :
  uncapped request_types config ->
  select_active_request_types RngState random_sample request_types config rng
  = (request_types, rng).
Proof.
  unfold uncapped, select_active_request_types. intros H.
  set (n := Z.of_nat (length request_types)) in *.
  assert (Hmin : Z.min n
            match
              match Config.max_active_request_types config with
              | Some v => v
              | None => Some n
              end
            with Some k => k | None => n end = n).
  { destruct (Config.max_active_request_types config) as [[k|]|]; lia. }
  rewrite Hmin. rewrite Z.ltb_irrefl. cbn [andb].
  destruct (Z.leb_spec n 0) as [Hle|_]; [|reflexivity].
  destruct request_types; [reflexivity|]. subst n. simpl in Hle. lia.
Qed.

(** X18. The mock distribution has one rate for each active request type
    and for nothing else, and no rate is below [distribution_min_rate]
    (also after the renormalisation).  With a cap that is absent, [None]
    or at least the number of request types every request type is active;
    with no request types or a cap of zero or less the distribution is
    empty. *)
Theorem mock_distribution_rates (request_types : list RequestType.t)
    (total_rate : Q) (size_bias slo_bias : option string) (config : Config.t)
    (rng : RngState) :
  let active :=
    (select_active_request_types RngState random_sample
       request_types config rng).1 in
  let distribution :=
    (generate_mock_distribution upper lower RngState random_random random_sample
       request_types total_rate size_bias slo_bias config rng).1 in
  NoDup (map fst distribution) /\
  (forall k, k ∈ map fst distribution <-> k ∈ map RequestType.id active) /\
  (forall k rate, dict_get k distribution = Some rate ->
     (Config.distribution_min_rate config <= rate)%Q) /\
  (uncapped request_types config -> active = request_types) /\
  (request_types = [] \/
   (exists k, Config.max_active_request_types config = Some (Some k) /\ k <= 0) ->
   distribution = []).
Proof.
  intros active distribution.
  destruct (generate_mock_distribution_inv request_types total_rate size_bias
              slo_bias config rng) as (Hnd & Hkeys & Hall).
  fold active in Hkeys. fold distribution in Hnd, Hkeys, Hall.
  split; [exact Hnd|]. split; [exact Hkeys|]. split; [|split].
  - intros k rate Hget. apply dict_get_Some_in in Hget.
    rewrite Forall_forall in Hall. exact (Hall _ Hget).
  - intros Hu. subst active. rewrite select_active_uncapped by exact Hu.
    reflexivity.
  - intros Hempty.
    assert (Hact : active = []).
    { subst active. rewrite select_active_empty by exact Hempty. reflexivity. }
    destruct distribution as [|[k v] d]; [reflexivity|].
    exfalso. rewrite Hact in Hkeys.
    assert (Hin : k ∈ map RequestType.id []) by (apply Hkeys; left).
    inversion Hin.
Qed.

Lemma select_active_subset (request_types : list RequestType.t)
    (config : Config.t) (rng : RngState) (r : RequestType.t) :
  (forall g l k x, x ∈ (random_sample g l k).1 -> x ∈ l) ->
  r ∈ (select_active_request_types RngState random_sample
         request_types config rng).1 ->
  r ∈ request_types.
Proof.
  intros Hsample. unfold select_active_request_types.
  destruct (_ && _); [apply Hsample|].
  destruct (_ <=? 0); cbn [fst]; [intros H; inversion H|auto].
Qed.

(** X19. Mock inputs fit the solver: when [random.sample] returns members
    of its population and [min_final_throughput] is positive, every slice
    cut from a mock distribution has a finite load on every worker of a
    mock profile generated for the same request types; and with
    [distribution_min_rate] above 1e-9 every request type of the
    distribution gets a slice. *)
Theorem mock_inputs_assignable (worker_units : list WorkerUnit.t)
    (request_types : list RequestType.t) (config : Config.t)
    (total_rate : Q) (size_bias slo_bias : option string)
    (rng_p rng_p' rng_d : RngState) (profile : ProfileData) (factor : Z) :
  (forall g l k x, x ∈ (random_sample g l k).1 -> x ∈ l) ->
  (0 < Config.min_final_throughput config)%Q ->
  generate_mock_profile upper RngState random_random
    worker_units request_types config rng_p = Some (profile, rng_p') ->
  let distribution :=
    (generate_mock_distribution upper lower RngState random_random random_sample
       request_types total_rate size_bias slo_bias config rng_d).1 in
  let slices := create_slices distribution factor in
  (forall s w, s ∈ slices -> w ∈ worker_units ->
     is_finite (load_of profile s w) = true) /\
  ((lit_1e_9 < Config.distribution_min_rate config)%Q ->
   forall k, k ∈ map fst distribution ->
     exists s, s ∈ slices /\ Slice.request_type_id s = k).
Proof.
  intros Hsample Hpos Hgen distribution slices.
  destruct (generate_mock_distribution_inv request_types total_rate size_bias
              slo_bias config rng_d) as (Hnd & Hkeys & Hall).
  fold distribution in Hnd, Hkeys, Hall.
  split.
  - intros s w Hs Hw.
    assert (Hid : Slice.request_type_id s ∈ map fst distribution).
    { apply (create_slices_request_ids distribution factor).
      change (map ?f ?l) with (f <$> l). apply list_elem_of_fmap. eauto. }
    apply Hkeys in Hid.
    change (map ?f ?l) with (f <$> l) in Hid.
    apply list_elem_of_fmap in Hid as (r & Hr & Hin).
    apply (select_active_subset _ _ _ _ Hsample) in Hin.
    unfold generate_mock_profile in Hgen.
    destruct (mock_profile_outer _ _ _ _ _ _ _ _ _ Hgen)
      as (p & g & Hst & Hcover & _ & Honly).
    injection Hst as <- <-.
    destruct (Hcover w r Hw Hin) as [t Ht].
    destruct (Honly _ _ Ht) as [H0|[Hle _]].
    { exfalso. revert H0. apply lookup_empty_Some. }
    unfold load_of. rewrite Hr, Ht.
    assert (E : Qlt_bool 0 t = true) by (apply Qlt_bool_true; lra).
    rewrite E. reflexivity.
  - intros Hmin k Hk.
    change (map ?f ?l) with (f <$> l) in Hk.
    apply list_elem_of_fmap in Hk as ([k' rate] & -> & Hin). cbn [fst].
    rewrite Forall_forall in Hall. pose proof (Hall _ Hin) as Hrate.
    cbn [snd] in Hrate.
    assert (Hs : k' ∈ map Slice.request_type_id slices).
    { apply (proj2 (create_slices_request_ids distribution factor k') rate Hin).
      lra. }
    change (map ?f ?l) with (f <$> l) in Hs.
    apply list_elem_of_fmap in Hs as (s & -> & Hs). eauto.
Qed.

End DistributionProofs.

Lemma mock_inputs_assignable_witness :
  let generated :=
    generate_mock_profile (fun s => s) unit draw_half [worker_A]
      [request_type_R1] MOCK_GENERATOR_CONFIG tt in
  let profile := (default (∅, tt) generated).1 in
  let distribution :=
    (generate_mock_distribution (fun s => s) (fun s => s) unit draw_half
       sample_first [request_type_R1] 50 None None MOCK_GENERATOR_CONFIG tt).1 in
  let slices := create_slices distribution 3 in
  ((forall g l k x, x ∈ (sample_first g l k).1 -> x ∈ l) /\
   (0 < Config.min_final_throughput MOCK_GENERATOR_CONFIG)%Q /\
   generated = Some (profile, tt)) /\
  (forall s w, s ∈ slices -> w ∈ [worker_A] ->
     is_finite (load_of profile s w) = true) /\
  ((lit_1e_9 < Config.distribution_min_rate MOCK_GENERATOR_CONFIG)%Q ->
   forall k, k ∈ map fst distribution ->
     exists s, s ∈ slices /\ Slice.request_type_id s = k).
Proof.
  intros generated profile distribution slices.
  assert (Hsample : forall g l k x, x ∈ (sample_first g l k).1 -> x ∈ l).
  { intros g l k x H. exact (subseteq_take _ _ _ H). }
  assert (Hpos : (0 < Config.min_final_throughput MOCK_GENERATOR_CONFIG)%Q)
    by reflexivity.
  assert (Hgen : generated = Some (profile, tt)) by (vm_compute; reflexivity).
  split; [exact (conj Hsample (conj Hpos Hgen))|].
  exact (mock_inputs_assignable (fun s => s) (fun s => s) unit draw_half
           sample_first [worker_A] [request_type_R1]
           MOCK_GENERATOR_CONFIG 50 None None tt tt tt profile 3
           Hsample Hpos Hgen).
Defined.


Section FixedVariation.

Variable upper : string -> string.
Variable RngState : Type.
Variable random_random : RngState -> Q * RngState.

Lemma _calculate_single_throughput_fixed (worker : WorkerUnit.t)
    (req_type : RequestType.t) (config : Config.t) (rng rng2 : RngState) :
  Qeq_bool (Config.random_variation_range config).1
           (Config.random_variation_range config).2 = true ->
  match _calculate_single_throughput upper RngState random_random
          worker req_type config rng,
        _calculate_single_throughput upper RngState random_random
          worker req_type config rng2 with
  | Some (t, g), Some (t2, g2) => t = t2 /\ g = rng /\ g2 = rng2
  | None, None => True
  | _, _ => False
  end.
Proof.
  intros Hfix. unfold _calculate_single_throughput.
  destruct (_get_speed_factor _ _); [|exact I].
  destruct (_get_size_efficiency_factor _ _ _ _ _); [|exact I].
  destruct (_get_server_factor _ _); [|exact I].
  destruct (_get_slo_penalty_factor _ _ _); [|exact I].
  unfold _apply_random_variation.
  destruct (Config.random_variation_range config) as [lo hi].
  cbn [fst snd] in Hfix. rewrite Hfix. auto.
Qed.

Lemma mock_profile_step_fixed (config : Config.t) (worker : WorkerUnit.t)
    (req_type : RequestType.t) (rng rng2 : RngState)
    (st st2 : option (ProfileData * RngState)) :
  Qeq_bool (Config.random_variation_range config).1
           (Config.random_variation_range config).2 = true ->
  match st, st2 with
  | Some (p, g), Some (p2, g2) => p = p2 /\ g = rng /\ g2 = rng2
  | None, None => True
  | _, _ => False
  end ->
  match mock_profile_step upper RngState random_random config worker st req_type,
        mock_profile_step upper RngState random_random config worker st2 req_type
  with
  | Some (p, g), Some (p2, g2) => p = p2 /\ g = rng /\ g2 = rng2
  | None, None => True
  | _, _ => False
  end.
Proof.
  intros Hfix Hst. destruct st as [[p g]|], st2 as [[p2 g2]|]; try contradiction;
    [|exact I].
  destruct Hst as (-> & -> & ->). unfold mock_profile_step.
  pose proof (_calculate_single_throughput_fixed worker req_type config rng rng2
                Hfix) as H.
  destruct (_calculate_single_throughput _ _ _ _ _ _ rng) as [[t g]|],
           (_calculate_single_throughput _ _ _ _ _ _ rng2) as [[t2 g2]|];
    try contradiction; [|exact I].
  destruct H as (-> & -> & ->). auto.
Qed.

(** X24. With a variation range whose two ends are equal, as in
    [MOCK_GENERATOR_CONFIG], the mock profile is not random:
    [generate_mock_profile] draws no random number, so it leaves the state
    of the generator as it found it, and from any two states it raises in
    both runs or returns the same profile in both. *)
Theorem mock_profile_fixed_variation (worker_units : list WorkerUnit.t)
    (request_types : list RequestType.t) (config : Config.t)
    (rng rng2 : RngState) :
  Qeq_bool (Config.random_variation_range config).1
           (Config.random_variation_range config).2 = true ->
  match generate_mock_profile upper RngState random_random
          worker_units request_types config rng,
        generate_mock_profile upper RngState random_random
          worker_units request_types config rng2 with
  | Some (profile, g), Some (profile2, g2) =>
      profile = profile2 /\ g = rng /\ g2 = rng2
  | None, None => True
  | _, _ => False
  end.
Proof.
  intros Hfix. unfold generate_mock_profile.
  set (R := fun st st2 : option (ProfileData * RngState) =>
    match st, st2 with
    | Some (p, g), Some (p2, g2) => p = p2 /\ g = rng /\ g2 = rng2
    | None, None => True
    | _, _ => False
    end).
  assert (Hinner : forall w rs st st2, R st st2 ->
    R (fold_left (mock_profile_step upper RngState random_random config w) rs st)
      (fold_left (mock_profile_step upper RngState random_random config w) rs st2)).
  { intros w rs. induction rs as [|r rs IH]; intros st st2 H; [exact H|].
    cbn [fold_left]. apply IH.
    exact (mock_profile_step_fixed config w r rng rng2 st st2 Hfix H). }
  assert (Houter : forall ws st st2, R st st2 ->
    R (fold_left
         (fun st worker =>
            fold_left (mock_profile_step upper RngState random_random config worker)
              request_types st) ws st)
      (fold_left
         (fun st worker =>
            fold_left (mock_profile_step upper RngState random_random config worker)
              request_types st) ws st2)).
  { induction ws as [|w ws IH]; intros st st2 H; [exact H|].
    cbn [fold_left]. apply IH, Hinner, H. }
  apply (Houter worker_units (Some (∅, rng)) (Some (∅, rng2))).
  unfold R. auto.
Qed.

End FixedVariation.

Lemma mock_profile_fixed_variation_witness :
  Qeq_bool (Config.random_variation_range MOCK_GENERATOR_CONFIG).1
           (Config.random_variation_range MOCK_GENERATOR_CONFIG).2 = true /\
  match generate_mock_profile (fun s => s) bool (fun g => (lit_0_5, negb g))
          [worker_A] [request_type_R1] MOCK_GENERATOR_CONFIG true,
        generate_mock_profile (fun s => s) bool (fun g => (lit_0_5, negb g))
          [worker_A] [request_type_R1] MOCK_GENERATOR_CONFIG false with
  | Some (profile, g), Some (profile2, g2) =>
      profile = profile2 /\ g = true /\ g2 = false
  | None, None => True
  | _, _ => False
  end.
Proof.
  assert (Hfix : Qeq_bool (Config.random_variation_range MOCK_GENERATOR_CONFIG).1
                   (Config.random_variation_range MOCK_GENERATOR_CONFIG).2 = true)
    by reflexivity.
  split; [exact Hfix|].
  exact (mock_profile_fixed_variation (fun s => s) bool
           (fun g => (lit_0_5, negb g)) [worker_A] [request_type_R1]
           MOCK_GENERATOR_CONFIG true false Hfix).
Defined.
